(** * HeadLight to ODOT converter: field extraction and PDF form filling

    A shallow embedding of [converter.py] (class
    [HeadLightToODOTConverter]) and the properties of its field mapping
    and of its form filler.

    Conventions of the embedding.
    - A value produced by [json.loads] is a [json]; Python's [int] is [Z],
      Python's [float] is an IEEE-754 binary64 number ([spec_float] at
      precision 53 and maximal exponent 1024).
    - A Python [str] is a [string]; [lower] and [strip] act on the ASCII
      range, so the texts are those of ASCII reports.
    - [str(v)] and an f-string are calls that can raise, [py_format], in
      [create_field_mapping]: on an [int] of more than 4300 digits, and
      where the [repr] of a list or a dictionary does. The form filler
      prints the values of the mapping with [py_str], the text of a value
      that prints.
    - A call that raises is [Raise e], a call that returns is [Ok v];
      a [try] with a bare [except] (or [except Exception]) is [try_except].
    - Python dictionaries keep their insertion order and the code iterates
      over them, so they are association lists with unique keys ([dict_set]
      overwrites in place).
    - What the converter calls in the interpreter, [datetime] and pytz
      is a field of the class [PyLib]; what it calls in pikepdf and Pillow
      to open, save and render is a field of the class [PdfLib]. The
      properties hold for every instance of the two classes. *)

From Stdlib Require Import ZArith String Ascii List Bool Lia.
From Stdlib Require Import Floats.SpecFloat.
From Stdlib Require DecimalString DecimalZ DecimalPos.
From stdpp Require Import base option list strings gmap.
Import ListNotations.

Set Warnings "-register-all".
Local Open Scope string_scope.
Local Open Scope Z_scope.

(** ** Exceptions and results *)

Inductive exn : Type :=
| TypeError
| ValueError
| AttributeError
| KeyError
| IndexError
| OverflowError
| NameError
| OSError.

Inductive result (A : Type) : Type :=
| Ok (a : A)
| Raise (e : exn).

Arguments Ok {A} a.
Arguments Raise {A} e.

Definition bind {A B : Type} (r : result A) (k : A -> result B) : result B :=
  match r with
  | Ok a => k a
  | Raise e => Raise e
  end.

Notation "'do' x <- e ; k" := (bind e (fun x => k))
  (at level 10, x name, e at level 100, k at level 200).

(** [try: body except: handler], with a bare [except] or [except Exception]. *)
Definition try_except {A : Type} (body : result A) (handler : result A) : result A :=
  match body with
  | Ok a => Ok a
  | Raise _ => handler
  end.

Definition of_option {A : Type} (e : exn) (o : option A) : result A :=
  match o with
  | Some a => Ok a
  | None => Raise e
  end.

Definition returns {A : Type} (r : result A) : Prop := exists a, r = Ok a.

(** ** Strings *)

Module Str.

(** [needle in hay] for two [str]. *)
Fixpoint contains (needle hay : string) : bool :=
  if String.prefix needle hay then true
  else match hay with
       | EmptyString => false
       | String _ rest => contains needle rest
       end.

Definition lower_ascii (c : ascii) : ascii :=
  let n := N_of_ascii c in
  if ((65 <=? n) && (n <=? 90))%N then ascii_of_N (n + 32) else c.

(** [s.lower()] *)
Fixpoint lower (s : string) : string :=
  match s with
  | EmptyString => EmptyString
  | String c rest => String (lower_ascii c) (lower rest)
  end.

(** The characters [str.strip()] removes: tab to carriage return, the
    four separators 28 to 31, and the space. *)
Definition is_space (c : ascii) : bool :=
  let n := N_of_ascii c in
  (((9 <=? n) && (n <=? 13)) || ((28 <=? n) && (n <=? 32)))%N.

Fixpoint lstrip (s : string) : string :=
  match s with
  | EmptyString => EmptyString
  | String c rest => if is_space c then lstrip rest else s
  end.

Fixpoint rstrip (s : string) : string :=
  match s with
  | EmptyString => EmptyString
  | String c rest =>
      match rstrip rest with
      | EmptyString => if is_space c then EmptyString else String c EmptyString
      | rest' => String c rest'
      end
  end.

(** [s.strip()] *)
Definition strip (s : string) : string := rstrip (lstrip s).

(** [s.split(sep)[0]] for a one-character separator: the text before the
    first separator, the whole text when there is none. *)
Fixpoint before_first (sep : ascii) (s : string) : string :=
  match s with
  | EmptyString => EmptyString
  | String c rest =>
      if Ascii.eqb c sep then EmptyString else String c (before_first sep rest)
  end.

(** [s.split(sep, 1)[1]]: the text after the first separator; there is no
    item 1 when the separator does not occur. *)
Fixpoint after_first (sep : ascii) (s : string) : option string :=
  match s with
  | EmptyString => None
  | String c rest => if Ascii.eqb c sep then Some rest else after_first sep rest
  end.

(** [s.replace(c, by)] for a one-character pattern. *)
Fixpoint replace_char (c : ascii) (by_ : string) (s : string) : string :=
  match s with
  | EmptyString => EmptyString
  | String a rest =>
      if Ascii.eqb a c then by_ ++ replace_char c by_ rest
      else String a (replace_char c by_ rest)
  end.

(** [sep.join(items)] *)
Fixpoint join (sep : string) (items : list string) : string :=
  match items with
  | [] => EmptyString
  | [x] => x
  | x :: rest => x ++ sep ++ join sep rest
  end.

(** The decimal text of an [int], which [str(n)] gives. *)
Definition of_Z (z : Z) : string :=
  DecimalString.NilZero.string_of_int (Z.to_int z).

Definition of_nat (n : nat) : string := of_Z (Z.of_nat n).

(** [str(n)] raises [ValueError] for an [int] of more digits than
    [sys.int_max_str_digits], 4300 as the interpreter starts. *)
Definition int_max_str_digits : Z := 4300.

Definition int_fits (z : Z) : bool := Z.abs z <? 10 ^ int_max_str_digits.

End Str.

(** ** Numbers *)

Module Num.

Definition prec : Z := 53.
Definition emax : Z := 1024.

(** Python's numbers: [int] (and [bool], its subclass) and [float]. *)
Inductive t : Type :=
| Int (z : Z)
| Float (f : spec_float).

(** The exact order between a float and an integer, as
    [float.__ge__(int)] computes it; [None] for a NaN. *)
Definition cmp_float_Z (f : spec_float) (z : Z) : option comparison :=
  match f with
  | S754_zero _ => Some (0 ?= z)
  | S754_infinity neg => Some (if neg then Lt else Gt)
  | S754_nan => None
  | S754_finite neg m e =>
      let sm := if neg then Z.neg m else Z.pos m in
      if 0 <=? e then Some (sm * 2 ^ e ?= z)
      else Some (sm ?= z * 2 ^ (- e))
  end.

Definition cmp_Z (x : t) (z : Z) : option comparison :=
  match x with
  | Int a => Some (a ?= z)
  | Float f => cmp_float_Z f z
  end.

(** [x >= z] *)
Definition ge_Z (x : t) (z : Z) : bool :=
  match cmp_Z x z with
  | Some Lt | None => false
  | Some _ => true
  end.

(** [x < z] *)
Definition lt_Z (x : t) (z : Z) : bool :=
  match cmp_Z x z with
  | Some Lt => true
  | _ => false
  end.

(** [float(z)]: the nearest binary64 number; [OverflowError] beyond the
    finite range. *)
Definition float_of_Z (z : Z) : result spec_float :=
  match binary_normalize prec emax z 0 false with
  | S754_infinity _ => Raise OverflowError
  | f => Ok f
  end.

(** [float(x)] for a number. *)
Definition to_float (x : t) : result spec_float :=
  match x with
  | Int z => float_of_Z z
  | Float f => Ok f
  end.

(** [a + b] *)
Definition add (a b : t) : result t :=
  match a, b with
  | Int x, Int y => Ok (Int (x + y))
  | _, _ =>
      do fa <- to_float a;
      do fb <- to_float b;
      Ok (Float (SFadd prec emax fa fb))
  end.

(** [bool(x)] *)
Definition truthy (x : t) : bool :=
  match x with
  | Int z => negb (z =? 0)
  | Float (S754_zero _) => false
  | Float _ => true
  end.

End Num.

(** ** JSON values *)

Inductive json : Type :=
| JNull
| JBool (b : bool)
| JInt (z : Z)
| JFloat (f : spec_float)
| JStr (s : string)
| JList (l : list json)
| JDict (d : list (string * json)).

(** [bool(v)] *)
Definition truthy (v : json) : bool :=
  match v with
  | JNull => false
  | JBool b => b
  | JInt z => Num.truthy (Num.Int z)
  | JFloat f => Num.truthy (Num.Float f)
  | JStr s => negb (String.eqb s "")
  | JList l => match l with [] => false | _ => true end
  | JDict d => match d with [] => false | _ => true end
  end.

(** The number a value is, if it is one ([True] is 1, [False] is 0). *)
Definition as_number (v : json) : option Num.t :=
  match v with
  | JBool b => Some (Num.Int (if b then 1 else 0))
  | JInt z => Some (Num.Int z)
  | JFloat f => Some (Num.Float f)
  | _ => None
  end.

Definition of_number (x : Num.t) : json :=
  match x with
  | Num.Int z => JInt z
  | Num.Float f => JFloat f
  end.

(** [v >= z] for an integer literal [z]; comparing anything but a number
    with an [int] is a [TypeError]. *)
Definition py_ge (v : json) (z : Z) : result bool :=
  match as_number v with
  | Some x => Ok (Num.ge_Z x z)
  | None => Raise TypeError
  end.

(** [v < z] *)
Definition py_lt (v : json) (z : Z) : result bool :=
  match as_number v with
  | Some x => Ok (Num.lt_Z x z)
  | None => Raise TypeError
  end.

(** The value of the key [k] of a JSON object. *)
Definition lookup_key (k : string) (d : list (string * json)) : option json :=
  snd <$> List.find (fun kv => String.eqb (fst kv) k) d.

Definition is_str (v : json) (s : string) : bool :=
  match v with
  | JStr s' => String.eqb s' s
  | _ => false
  end.

(** [k in v] for a [str] [k] *)
Definition py_in (k : string) (v : json) : result bool :=
  match v with
  | JDict d => Ok (bool_decide (is_Some (lookup_key k d)))
  | JList l => Ok (existsb (fun x => is_str x k) l)
  | JStr s => Ok (Str.contains k s)
  | _ => Raise TypeError
  end.

(** [v[k]] for a [str] [k] *)
Definition py_getitem (v : json) (k : string) : result json :=
  match v with
  | JDict d => of_option KeyError (lookup_key k d)
  | _ => Raise TypeError
  end.

(** [v.get(k, default)] *)
Definition py_get (v : json) (k : string) (dflt : json) : result json :=
  match v with
  | JDict d => Ok (default dflt (lookup_key k d))
  | _ => Raise AttributeError
  end.

(** [isinstance(v, dict)], [isinstance(v, list)], [isinstance(v, str)] *)
Definition is_dict (v : json) : bool :=
  match v with JDict _ => true | _ => false end.

Definition is_list (v : json) : bool :=
  match v with JList _ => true | _ => false end.

Definition is_string (v : json) : bool :=
  match v with JStr _ => true | _ => false end.

(** The [str] a value is; [e] is raised by the caller's operation on
    anything else. *)
Definition as_str (e : exn) (v : json) : result string :=
  match v with
  | JStr s => Ok s
  | _ => Raise e
  end.

(** ** Dictionaries in insertion order *)

Section Dict.
Context {K V : Type} (eqb : K -> K -> bool).

(** [d.get(k)] *)
Fixpoint dict_get (k : K) (d : list (K * V)) : option V :=
  match d with
  | [] => None
  | (k', v) :: rest => if eqb k' k then Some v else dict_get k rest
  end.

(** [d[k] = v]: the value of a present key is replaced where it stands,
    a new key goes to the end. *)
Fixpoint dict_set (k : K) (v : V) (d : list (K * V)) : list (K * V) :=
  match d with
  | [] => [(k, v)]
  | (k', v') :: rest =>
      if eqb k' k then (k', v) :: rest else (k', v') :: dict_set k v rest
  end.

(** [k in d] *)
Definition dict_mem (k : K) (d : list (K * V)) : bool :=
  match dict_get k d with
  | Some _ => true
  | None => false
  end.

End Dict.

(** The field mapping: form field name to value. *)
Definition field_map : Type := list (string * json).

Definition fm_get (k : string) (m : field_map) : option json :=
  dict_get String.eqb k m.

Definition fm_set (k : string) (v : json) (m : field_map) : field_map :=
  dict_set String.eqb k v m.

(** Equality of numbers as dictionary keys: [1], [1.0] and [True] are one
    key. [json.loads] gives every [NaN] literal the same object, which a
    dictionary finds again by identity. *)
Definition num_key_eqb (a b : Num.t) : bool :=
  match a, b with
  | Num.Int x, Num.Int y => x =? y
  | Num.Int x, Num.Float f | Num.Float f, Num.Int x =>
      match Num.cmp_float_Z f x with
      | Some Eq => true
      | _ => false
      end
  | Num.Float S754_nan, Num.Float S754_nan => true
  | Num.Float f, Num.Float g => SFeqb f g
  end.

(** Equality of the hashable values as dictionary keys. *)
Definition key_eqb (a b : json) : bool :=
  match a, b with
  | JStr s, JStr t => String.eqb s t
  | JNull, JNull => true
  | _, _ =>
      match as_number a, as_number b with
      | Some x, Some y => num_key_eqb x y
      | _, _ => false
      end
  end.

(** Lists and dictionaries are not hashable. *)
Definition hashable (v : json) : bool :=
  match v with
  | JList _ | JDict _ => false
  | _ => true
  end.

(** [l[i]] for a list: negative indices count from the end. *)
Definition py_index {A : Type} (l : list A) (i : Z) : result A :=
  let n := Z.of_nat (length l) in
  if (0 <=? i) && (i <? n) then of_option IndexError (l !! Z.to_nat i)
  else if (- n <=? i) && (i <? 0) then of_option IndexError (l !! Z.to_nat (n + i))
  else Raise IndexError.

(** ** The library under the extractor *)

(** What the extractor calls in the interpreter's built-ins, [datetime] and
    [pytz]. A field of type [option] is a call that can raise. *)
Class PyLib : Type := {
  (** [float(s)] for a [str]; [ValueError] when [s] is not a number *)
  float_of_str : string -> option spec_float;
  (** [repr] of a [float], and of a [list] or [dict]; the latter raises
      [repr_raises] where it meets a limit of the interpreter (an [int] of
      too many digits inside, a nesting too deep) *)
  repr_float : spec_float -> string;
  repr_container : json -> string;
  repr_raises : json -> option exn;
  (** [datetime] objects and [pytz] time zones *)
  datetime : Type;
  tzinfo : Type;
  (** [datetime.fromisoformat(s)] *)
  fromisoformat : string -> option datetime;
  (** [datetime.strptime(s, '%Y-%m-%d')] *)
  strptime_ymd : string -> option datetime;
  (** [pytz.timezone(v)] *)
  pytz_timezone : json -> option tzinfo;
  (** [dt.tzinfo is None] *)
  tzinfo_is_none : datetime -> bool;
  (** [pytz.UTC.localize(dt)] *)
  utc_localize : datetime -> option datetime;
  (** [dt.astimezone(tz)] *)
  astimezone : datetime -> tzinfo -> option datetime;
  (** [dt.weekday()] *)
  weekday : datetime -> Z;
  (** [dt.strftime('%m/%d/%y')] *)
  strftime_mdy : datetime -> option string
}.

Section Extractor.
Context {lib : PyLib}.

(** The text [str(v)] gives, which is also the text of [v] in an
    f-string. *)
Definition py_str (v : json) : string :=
  match v with
  | JNull => "None"
  | JBool true => "True"
  | JBool false => "False"
  | JInt z => Str.of_Z z
  | JFloat f => repr_float f
  | JStr s => s
  | JList _ | JDict _ => repr_container v
  end.

Definition num_str (x : Num.t) : string := py_str (of_number x).

(** [str(v)] and [f"{v}"] as the calls they are: an [int] of too many
    digits raises [ValueError], a [list] or a [dict] raises what its [repr]
    does. *)
Definition py_format (v : json) : result string :=
  match v with
  | JInt z => if Str.int_fits z then Ok (py_str v) else Raise ValueError
  | JList _ | JDict _ =>
      match repr_raises v with
      | Some e => Raise e
      | None => Ok (py_str v)
      end
  | _ => Ok (py_str v)
  end.

(** [float(v)] *)
Definition py_float (v : json) : result spec_float :=
  match v with
  | JStr s => of_option ValueError (float_of_str s)
  | _ =>
      match as_number v with
      | Some x => Num.to_float x
      | None => Raise TypeError
      end
  end.

(** [sep.join(items)]: every item has to be a [str]. *)
Fixpoint py_join_items (items : list json) : result (list string) :=
  match items with
  | [] => Ok []
  | x :: rest =>
      do s <- as_str TypeError x;
      do ss <- py_join_items rest;
      Ok (s :: ss)
  end.

Definition py_join (sep : string) (items : list json) : result string :=
  do ss <- py_join_items items;
  Ok (Str.join sep ss).

(** [for item in v]: the items of a list, the keys of a dictionary, the
    characters of a [str]. *)
Definition py_iter (v : json) : result (list json) :=
  match v with
  | JList l => Ok l
  | JDict d => Ok (map (fun kv => JStr (fst kv)) d)
  | JStr s => Ok (map (fun c => JStr (String c EmptyString)) (list_ascii_of_string s))
  | _ => Raise TypeError
  end.

(** *** [extract_equipment_data] *)

(** The body of both [for item in ...['Equipment']] loops. *)
Definition equipment_step (equipment_list : list json) (item : json) : list json :=
  match item with
  | JDict d =>
      let name := default (JStr "") (lookup_key "Name" d) in
      if truthy name then equipment_list ++ [name] else equipment_list
  | _ => equipment_list
  end.

Definition extract_equipment_data (data : json) : result string :=
  let equipment_list := [] in
  do has <- py_in "Equipment" data;
  do equipment_list <-
    (if has then
       do items <- py_getitem data "Equipment";
       do items <- py_iter items;
       Ok (fold_left equipment_step items equipment_list)
     else Ok equipment_list);
  do has_report <- py_in "DailyReport" data;
  do equipment_list <-
    (if has_report then
       do daily_report <- py_getitem data "DailyReport";
       do has <- py_in "Equipment" daily_report;
       if has then
         do items <- py_getitem daily_report "Equipment";
         do items <- py_iter items;
         Ok (fold_left equipment_step items equipment_list)
       else Ok equipment_list
     else Ok equipment_list);
  match equipment_list with
  | [] => Ok ""
  | _ => py_join "
" equipment_list
  end.

(** *** [extract_remarks_data] *)

(** The body of both [for item in narrative] loops. *)
Definition remarks_step (remarks_list : list json) (item : json)
  : result (list json) :=
  match item with
  | JDict d =>
      let text := default (JStr "") (lookup_key "Text" d) in
      let timestamp := default (JStr "") (lookup_key "Timestamp" d) in
      if truthy text then
        if truthy timestamp then
          do stamp <- py_format timestamp;
          do line <- py_format text;
          Ok (remarks_list ++ [JStr ("[" ++ stamp ++ "] " ++ line)])%list
        else Ok (remarks_list ++ [text])%list
      else Ok remarks_list
  | _ => Ok remarks_list
  end.

Fixpoint remarks_loop (remarks_list : list json) (narrative : list json)
  : result (list json) :=
  match narrative with
  | [] => Ok remarks_list
  | item :: rest =>
      do remarks_list <- remarks_step remarks_list item;
      remarks_loop remarks_list rest
  end.

(** The [if isinstance(narrative, list) ... elif isinstance(narrative, str)]
    statement. *)
Definition remarks_of_narrative (remarks_list : list json) (narrative : json)
  : result (list json) :=
  match narrative with
  | JList items => remarks_loop remarks_list items
  | JStr _ => Ok (remarks_list ++ [narrative])%list
  | _ => Ok remarks_list
  end.

Definition extract_remarks_data (data : json) : result string :=
  let remarks_list := [] in
  do has <- py_in "Narrative" data;
  do remarks_list <-
    (if has then
       do narrative <- py_getitem data "Narrative";
       remarks_of_narrative remarks_list narrative
     else Ok remarks_list);
  do has_report <- py_in "DailyReport" data;
  do remarks_list <-
    (if has_report then
       do daily_report <- py_getitem data "DailyReport";
       do has <- py_in "Narrative" daily_report;
       if has then
         do narrative <- py_getitem daily_report "Narrative";
         remarks_of_narrative remarks_list narrative
       else Ok remarks_list
     else Ok remarks_list);
  match remarks_list with
  | [] => Ok ""
  | _ => py_join "
" remarks_list
  end.

(** *** [extract_classification] *)

Definition extract_classification (data : json) : result json :=
  do has <- py_in "Inspector" data;
  if has then
    do inspector <- py_getitem data "Inspector";
    match inspector with
    | JDict _ => py_get inspector "Classification" (JStr "")
    | JList (first :: _) => py_get first "Classification" (JStr "")
    | _ => Ok (JStr "")
    end
  else Ok (JStr "").

(** *** [extract_superintendent_name] *)

(** The loop over [personnel]; it returns at the first entry that
    qualifies. *)
Fixpoint superintendent_loop (personnel : list json) : result json :=
  match personnel with
  | [] => Ok (JStr "")
  | person :: rest =>
      match person with
      | JDict d =>
          let trade := default (JStr "") (lookup_key "Trade" d) in
          let name := default (JStr "") (lookup_key "Name" d) in
          if truthy trade then
            do has <- py_in "Superintendent" trade;
            if has && truthy name then Ok name else superintendent_loop rest
          else superintendent_loop rest
      | _ => superintendent_loop rest
      end
  end.

Definition extract_superintendent_name (data : json) : result json :=
  do has <- py_in "Personnel" data;
  if has then
    do personnel <- py_getitem data "Personnel";
    match personnel with
    | JList l => superintendent_loop l
    | _ => Ok (JStr "")
    end
  else Ok (JStr "").

(** *** [extract_weather_data] *)

Record weather_data : Type := {
  temperature : json;
  wind : json;
  humidity : json;
  conditions : json
}.

(** The [if 'dry' in humidity_lower ... else] chain. *)
Definition humidity_of_text (humidity : string) : Z :=
  let humidity_lower := Str.lower humidity in
  if Str.contains "dry" humidity_lower then 25
  else if Str.contains "low" humidity_lower then 35
  else if Str.contains "medium" humidity_lower || Str.contains "med" humidity_lower then 60
  else if Str.contains "high" humidity_lower then 80
  else 50.

Definition extract_weather_data (data : json) : result weather_data :=
  let weather_data :=
    {| temperature := JInt 0; wind := JStr "Calm";
       humidity := JInt 50; conditions := JStr "Clear" |} in
  do has <- py_in "Weather" data;
  if has then
    do weather <- py_getitem data "Weather";
    if is_dict weather then
      do temp <- py_get weather "Temperature" (JInt 0);
      do temperature' <-
        (if truthy temp then
           if is_string temp then
             do f <- py_float temp; Ok (JFloat f)
           else Ok temp
         else Ok (temperature weather_data));
      do wind_v <- py_get weather "Wind" (JStr "Calm");
      let wind' := if truthy wind_v then wind_v else wind weather_data in
      do humidity_v <- py_get weather "Humidity" (JInt 50);
      do humidity' <-
        (match humidity_v with
         | JStr s => Ok (JInt (humidity_of_text s))
         | _ =>
             if truthy humidity_v then
               do f <- py_float humidity_v; Ok (JFloat f)
             else Ok (JInt 50)
         end);
      do conditions_v <- py_get weather "Conditions" (JStr "Clear");
      let conditions' :=
        if truthy conditions_v then conditions_v else conditions weather_data in
      Ok {| temperature := temperature'; wind := wind';
            humidity := humidity'; conditions := conditions' |}
    else Ok weather_data
  else Ok weather_data.

(** *** [get_day_of_week] *)

Definition days : list string :=
  ["Monday"; "Tuesday"; "Wednesday"; "Thursday"; "Friday"; "Saturday"; "Sunday"].

(** The inner [try] of the time zone conversion: an exception leaves
    [dt] as the last assignment made it. *)
Definition to_local_timezone (dt : datetime) (timezone_str : json) : datetime :=
  match pytz_timezone timezone_str with
  | None => dt
  | Some tz =>
      match (if tzinfo_is_none dt then utc_localize dt else Some dt) with
      | None => dt
      | Some dt1 =>
          match astimezone dt1 tz with
          | None => dt1
          | Some dt2 => dt2
          end
      end
  end.

(** The parsing step: [fromisoformat] after [replace] when the text has a
    ['T'], [strptime] otherwise. *)
Definition parse_date (date_str : json) : result datetime :=
  do has_T <- py_in "T" date_str;
  if has_T then
    do s <- as_str AttributeError date_str;
    of_option ValueError (fromisoformat (Str.replace_char "Z" "+00:00" s))
  else
    do s <- as_str TypeError date_str;
    of_option ValueError (strptime_ymd s).

Definition get_day_of_week (date_str timezone_str : json) : result string :=
  try_except
    (do has_T <- py_in "T" date_str;
     do dt <- parse_date date_str;
     let dt :=
       if truthy timezone_str && has_T then to_local_timezone dt timezone_str
       else dt in
     py_index days (weekday dt))
    (Ok "Monday").

End Extractor.

(** ** [create_field_mapping] *)

Section FieldMapping.
Context {lib : PyLib}.

Definition yes : json := JStr "/Yes".

(** [v.lower()]: only a [str] has the method. *)
Definition py_lower (v : json) : result string :=
  do s <- as_str AttributeError v;
  Ok (Str.lower s).

(** *** The date shown in the footer *)

Definition format_date (work_date timezone : json) : result json :=
  try_except
    (do has_T <- py_in "T" work_date;
     if has_T then
       do s <- as_str AttributeError work_date;
       do dt <- of_option ValueError (fromisoformat (Str.replace_char "Z" "+00:00" s));
       let dt := if truthy timezone then to_local_timezone dt timezone else dt in
       do formatted <- of_option ValueError (strftime_mdy dt);
       Ok (JStr formatted)
     else
       do s <- as_str TypeError work_date;
       do dt <- of_option ValueError (strptime_ymd s);
       do formatted <- of_option ValueError (strftime_mdy dt);
       Ok (JStr formatted))
    (Ok work_date).

(** *** Weather *)

Definition map_temperature (weather : weather_data) (field_mapping : field_map)
  : result field_map :=
  let temp := temperature weather in
  do temp_float <-
    (if is_string temp then do f <- py_float temp; Ok (JFloat f) else Ok temp);
  do c83 <- py_ge temp_float 83;
  if c83 then
    Ok (fm_set "form1[0].Page1[0].WeatherSub[0].Weather[0].Row2[0].Cell1[0]" yes field_mapping)
  else
  do c70 <- py_ge temp_float 70;
  if c70 then
    Ok (fm_set "form1[0].Page1[0].WeatherSub[0].Weather[0].Row2[0].Cell2[0]" yes field_mapping)
  else
  do c50 <- py_ge temp_float 50;
  if c50 then
    Ok (fm_set "form1[0].Page1[0].WeatherSub[0].Weather[0].Row2[0].Cell3[0]" yes field_mapping)
  else
  do c32 <- py_ge temp_float 32;
  if c32 then
    Ok (fm_set "form1[0].Page1[0].WeatherSub[0].Weather[0].Row2[0].Cell4[0]" yes field_mapping)
  else
    Ok (fm_set "form1[0].Page1[0].WeatherSub[0].Weather[0].Row2[0].Cell5[0]" yes field_mapping).

Definition map_wind (weather : weather_data) (field_mapping : field_map)
  : result field_map :=
  do wind <- py_lower (wind weather);
  if Str.contains "strong" wind || Str.contains "high" wind then
    Ok (fm_set "form1[0].Page1[0].WeatherSub[0].Weather[0].Row3[0].Cell3[0]" yes field_mapping)
  else if Str.contains "moderate" wind || Str.contains "medium" wind then
    Ok (fm_set "form1[0].Page1[0].WeatherSub[0].Weather[0].Row3[0].Cell2[0]" yes field_mapping)
  else
    Ok (fm_set "form1[0].Page1[0].WeatherSub[0].Weather[0].Row3[0].Cell1[0]" yes field_mapping).

Definition map_humidity (weather : weather_data) (field_mapping : field_map)
  : result field_map :=
  let humidity := humidity weather in
  do c75 <- py_ge humidity 75;
  if c75 then
    Ok (fm_set "form1[0].Page1[0].WeatherSub[0].Weather[0].Row4[0].Cell4[0]" yes field_mapping)
  else
  do c50 <- py_ge humidity 50;
  if c50 then
    Ok (fm_set "form1[0].Page1[0].WeatherSub[0].Weather[0].Row4[0].Cell3[0]" yes field_mapping)
  else
  do c25 <- py_ge humidity 25;
  if c25 then
    Ok (fm_set "form1[0].Page1[0].WeatherSub[0].Weather[0].Row4[0].Cell2[0]" yes field_mapping)
  else
    Ok (fm_set "form1[0].Page1[0].WeatherSub[0].Weather[0].Row4[0].Cell1[0]" yes field_mapping).

Definition map_conditions (weather : weather_data) (field_mapping : field_map)
  : result field_map :=
  do conditions <- py_lower (conditions weather);
  if Str.contains "rain" conditions || Str.contains "shower" conditions then
    Ok (fm_set "form1[0].Page1[0].WeatherSub[0].Weather[0].Row1[0].Cell4[0]" yes field_mapping)
  else if Str.contains "snow" conditions then
    Ok (fm_set "form1[0].Page1[0].WeatherSub[0].Weather[0].Row1[0].Cell5[0]" yes field_mapping)
  else if Str.contains "cloudy" conditions || Str.contains "overcast" conditions then
    Ok (fm_set "form1[0].Page1[0].WeatherSub[0].Weather[0].Row1[0].Cell3[0]" yes field_mapping)
  else if Str.contains "fair" conditions || Str.contains "partly" conditions then
    Ok (fm_set "form1[0].Page1[0].WeatherSub[0].Weather[0].Row1[0].Cell2[0]" yes field_mapping)
  else
    Ok (fm_set "form1[0].Page1[0].WeatherSub[0].Weather[0].Row1[0].Cell1[0]" yes field_mapping).

(** *** Personnel *)

(** The three dictionaries the personnel loop works on.
    [trade_column_mapping] is bound anew by every entry that has a
    contractor, and is unbound before the first of them. *)
Record personnel_totals : Type := {
  contractor_totals : list (json * Z);
  trade_totals : list (string * Num.t);
  trade_column_mapping : option (list (string * Z))
}.

Definition default_trade_columns : list (string * Z) :=
  [("Supervisor", 1); ("Superintendent", 1); ("Operator", 2);
   ("Truck Driver", 3); ("Laborer", 4)].

(** [max(d.values()) if d else 4] *)
Definition max_column (d : list (string * Z)) : Z :=
  match d with
  | [] => 4
  | (_, c) :: rest => fold_left Z.max (map snd rest) c
  end.

(** The body of [for person in personnel]. *)
Definition personnel_step (st : personnel_totals) (person : json)
  : result personnel_totals :=
  match person with
  | JDict d =>
      let contractor := default (JStr "") (lookup_key "Contractor" d) in
      let trade := default (JStr "") (lookup_key "Trade" d) in
      let count := default (JInt 1) (lookup_key "Count" d) in
      if negb (truthy contractor) then Ok st
      else
        do known <-
          (if hashable contractor
           then Ok (dict_mem key_eqb contractor (contractor_totals st))
           else Raise TypeError);
        let contractor_totals' :=
          if known then contractor_totals st
          else dict_set key_eqb contractor 8 (contractor_totals st) in
        let columns := default_trade_columns in
        do trade <-
          (if negb (truthy trade) then Ok "Laborer"
           else
             do s <- as_str AttributeError trade;
             if String.eqb (Str.strip s) "" then Ok "Laborer" else Ok s);
        let columns :=
          if dict_mem String.eqb trade columns then columns
          else dict_set String.eqb trade (max_column columns + 1) columns in
        let trade_totals' :=
          if dict_mem String.eqb trade (trade_totals st) then trade_totals st
          else dict_set String.eqb trade (Num.Int 0) (trade_totals st) in
        do count <- of_option TypeError (as_number count);
        do current <- of_option KeyError (dict_get String.eqb trade trade_totals');
        do total <- Num.add current count;
        Ok {| contractor_totals := contractor_totals';
              trade_totals := dict_set String.eqb trade total trade_totals';
              trade_column_mapping := Some columns |}
  | _ => Ok st
  end.

Fixpoint personnel_loop (st : personnel_totals) (personnel : list json)
  : result personnel_totals :=
  match personnel with
  | [] => Ok st
  | person :: rest =>
      do st' <- personnel_step st person;
      personnel_loop st' rest
  end.

Definition contractor_cell (row : nat) (cell : string) : string :=
  "form1[0].Page1[0].TableSub1[0].Table1[0].PersGroup[0].ContractorTable[0].Row"
    ++ Str.of_nat row ++ "[0].Cell" ++ cell ++ "[0]".

(** The body of [for contractor, hours in contractor_totals.items()],
    on the pair of [field_mapping] and [row]. *)
Definition contractor_row_step (st : field_map * nat) (item : json * Z)
  : field_map * nat :=
  let '(field_mapping, row) := st in
  let '(contractor, hours) := item in
  if (row <? 10)%nat then
    (fm_set (contractor_cell row "2") (JStr (Str.of_Z hours))
       (fm_set (contractor_cell row "1") contractor field_mapping),
     S row)
  else st.

Definition trade_cell (col : Z) : string :=
  "form1[0].Page1[0].TableSub1[0].Table1[0].PersGroup[0].PersonnelTable1[0].Row2[0].Cell"
    ++ Str.of_Z col ++ "[0]".

(** The body of [for trade, count in trade_totals.items()]. *)
Definition trade_column_step (columns : option (list (string * Z)))
    (field_mapping : result field_map) (item : string * Num.t) : result field_map :=
  do field_mapping <- field_mapping;
  do columns <- of_option NameError columns;
  let col := default 4 (dict_get String.eqb (fst item) columns) in
  if col <=? 10 then
    do total <- py_format (of_number (snd item));
    Ok (fm_set (trade_cell col) (JStr total) field_mapping)
  else Ok field_mapping.

Definition map_personnel (data : json) (field_mapping : field_map)
  : result field_map :=
  do has <- py_in "Personnel" data;
  if has then
    do personnel <- py_getitem data "Personnel";
    match personnel with
    | JList l =>
        do totals <-
          personnel_loop
            {| contractor_totals := []; trade_totals := [];
               trade_column_mapping := None |} l;
        let '(field_mapping, _) :=
          fold_left contractor_row_step (contractor_totals totals)
            (field_mapping, 0%nat) in
        fold_left (trade_column_step (trade_column_mapping totals))
          (trade_totals totals) (Ok field_mapping)
    | _ => Ok field_mapping
    end
  else Ok field_mapping.

(** *** Work items *)

Definition location_cell (i : nat) (cell : string) : string :=
  "form1[0].Page1[0].TableSub2[0].Place[0].LocationTable1[0].Row"
    ++ Str.of_nat i ++ "[0].Cell" ++ cell ++ "[0]".

(** The body of [for i, item in enumerate(work_items)]. *)
Definition work_item_step (i : nat) (item : json) (field_mapping : field_map)
  : result field_map :=
  match item with
  | JDict d =>
      if (i <? 20)%nat then
        let description := default (JStr "") (lookup_key "Description" d) in
        let quantity := default (JInt 0) (lookup_key "Quantity" d) in
        let units := default (JStr "") (lookup_key "Units" d) in
        let location := default (JStr "") (lookup_key "Location" d) in
        do has_colon <- py_in ":" description;
        do parts <-
          (if has_colon then
             do s <- as_str AttributeError description;
             do rest <- of_option IndexError (Str.after_first ":" s);
             Ok (JStr (Str.strip (Str.before_first ":" s)), JStr (Str.strip rest))
           else Ok (JStr "", description));
        let '(item_no, description) := parts in
        do total <-
          (if truthy quantity && truthy units then
             do amount <- py_format quantity;
             do unit_text <- py_format units;
             Ok (JStr (amount ++ " " ++ unit_text))
           else if truthy quantity then
             do amount <- py_format quantity;
             Ok (JStr amount)
           else Ok (JStr ""));
        Ok (fm_set (location_cell i "4") description
              (fm_set (location_cell i "3") total
                 (fm_set (location_cell i "2") item_no
                    (fm_set (location_cell i "1") location field_mapping))))
      else Ok field_mapping
  | _ => Ok field_mapping
  end.

Fixpoint work_items_loop (i : nat) (work_items : list json) (field_mapping : field_map)
  : result field_map :=
  match work_items with
  | [] => Ok field_mapping
  | item :: rest =>
      do field_mapping <- work_item_step i item field_mapping;
      work_items_loop (S i) rest field_mapping
  end.

Definition map_work_items (data : json) (field_mapping : field_map)
  : result field_map :=
  do has <- py_in "WorkItems" data;
  if has then
    do work_items <- py_getitem data "WorkItems";
    match work_items with
    | JList l => work_items_loop 0 l field_mapping
    | _ => Ok field_mapping
    end
  else Ok field_mapping.

(** *** Supervisor, certificate, remarks, equipment, footer *)

Definition photo_yes : string :=
  "form1[0].Page1[0].TableSub1[0].Table1[0].PersGroup[0].PhotoYes[0]".
Definition photo_no : string :=
  "form1[0].Page1[0].TableSub1[0].Table1[0].PersGroup[0].PhotoNo[0]".

Definition map_superintendent (data : json) (field_mapping : field_map)
  : result field_map :=
  do superintendent_name <- extract_superintendent_name data;
  if truthy superintendent_name then
    Ok (fm_set photo_no (JBool false)
          (fm_set photo_yes (JBool true)
             (fm_set "form1[0].Page1[0].ProjectSub[0].#area[0].Contractor[1]"
                superintendent_name field_mapping)))
  else
    Ok (fm_set photo_no (JBool true) (fm_set photo_yes (JBool false) field_mapping)).

Definition footer_cell (page_num : nat) (name : string) : string :=
  "form1[0].#pageSet[0].Master1[" ++ Str.of_nat page_num
    ++ "].SignSub[0].#area[0]." ++ name ++ "[0]".

(** [range(3)] *)
Definition pages3 : list nat := [0; 1; 2]%nat.

Definition map_classification (classification : json) (field_mapping : field_map)
  : field_map :=
  if truthy classification then
    fold_left (fun m page_num => fm_set (footer_cell page_num "CertNo") classification m)
      pages3 field_mapping
  else field_mapping.

Definition map_remarks (data : json) (field_mapping : field_map) : result field_map :=
  do remarks <- extract_remarks_data data;
  if negb (String.eqb remarks "") then
    Ok (fm_set "form1[0].#subform[1].RemarksSub1[0].Remarks[0]" (JStr remarks) field_mapping)
  else Ok field_mapping.

Definition map_equipment (data : json) (field_mapping : field_map) : result field_map :=
  do equipment <- extract_equipment_data data;
  if negb (String.eqb equipment "") then
    Ok (fm_set "form1[0].Page1[0].EquipSub1[0].Equip[0]" (JStr equipment) field_mapping)
  else Ok field_mapping.

Definition footer_step (formatted_date classification : json)
    (field_mapping : field_map) (page_num : nat) : field_map :=
  fm_set (footer_cell page_num "Signature") (JStr "")
    (fm_set (footer_cell page_num "CertNo") classification
       (fm_set (footer_cell page_num "PreparedBy") (JStr "Admin HHPR")
          (fm_set (footer_cell page_num "Shift") (JStr "Day")
             (fm_set (footer_cell page_num "WorkDate") formatted_date field_mapping)))).

Definition map_footer (formatted_date classification : json)
    (field_mapping : field_map) : field_map :=
  fold_left (footer_step formatted_date classification) pages3 field_mapping.

(** *** The whole mapping *)

Definition create_field_mapping (data : json) : result field_map :=
  let field_mapping : field_map := [] in
  do work_date <- py_get data "DocumentDate" (JStr "");
  do timezone <- py_get data "Timezone" (JStr "America/Los_Angeles");
  do day_of_week <- get_day_of_week work_date timezone;
  do formatted_date <- format_date work_date timezone;
  do weather <- extract_weather_data data;
  do field_mapping <- map_temperature weather field_mapping;
  do field_mapping <- map_wind weather field_mapping;
  do field_mapping <- map_humidity weather field_mapping;
  do field_mapping <- map_conditions weather field_mapping;
  do field_mapping <- map_personnel data field_mapping;
  do field_mapping <- map_work_items data field_mapping;
  do field_mapping <- map_superintendent data field_mapping;
  do classification <- extract_classification data;
  let field_mapping := map_classification classification field_mapping in
  do field_mapping <- map_remarks data field_mapping;
  do field_mapping <- map_equipment data field_mapping;
  let field_mapping := map_footer formatted_date classification field_mapping in
  Ok (fm_set "day_of_week" (JStr day_of_week) field_mapping).

End FieldMapping.

(** ** The PDF document *)

(** A pikepdf object is modelled by its content: a [Name] or a [String] by
    its text, a [Dictionary] by its entries in order, anything else the
    converter never looks into by a number. The operators the converter
    applies to these objects are read on the content: [obj == s] compares
    the text with [s], [s in obj] looks for [s] in the text, [d[k] = v]
    sets the entry [k] of a dictionary. *)
Inductive pdfval : Type :=
| PdfName (s : string)
| PdfString (s : string)
| PdfInt (z : Z)
| PdfOther (n : N).

(** An annotation dictionary. *)
Definition annotation : Type := list (string * pdfval).

Record stream : Type := {
  stream_dict : list (string * pdfval);
  stream_data : string
}.

(** The [/Contents] of a page: absent, one stream, or an array of streams. *)
Inductive contents : Type :=
| NoContents
| ContentStream (s : stream)
| ContentArray (streams : list stream).

Record resources : Type := {
  res_xobject : option (list (string * stream));
  res_other : list (string * pdfval)
}.

(** A page: its [/Annots] array refers to annotation objects of the
    document by their number, so that an object two arrays share is one
    object. The [/Resources] and the [/Contents] are those the page
    dictionary holds itself; what a page inherits from the page tree or
    shares with another page is not described. *)
Record page : Type := {
  pg_annots : option (list nat);
  pg_resources : option resources;
  pg_contents : contents
}.

Record pdf : Type := {
  pdf_objects : list annotation;
  pdf_pages : list page
}.

Record image : Type := {
  img_data : string;
  img_width : Z;
  img_height : Z
}.

(** What the form filler calls in pikepdf and Pillow. *)
Class PdfLib : Type := {
  (** an uploaded file *)
  photo : Type;
  (** [Pdf.open(path)] *)
  pdf_open : string -> option pdf;
  (** [pdf.save(output)] followed by [output.getvalue()], at the moment
      of the call: pikepdf stamps the file with an [/ID] it derives from
      the time of saving *)
  pdf_save : pdf -> string;
  (** The Pillow pipeline on one photo: [photo.read()], [photo.seek(0)],
      [Image.open], [convert('RGB')], [thumbnail((width, height))] and
      [save(format='JPEG', quality=85)]; the result is the JPEG data with
      the size of the reduced image. *)
  render_photo : photo -> Z -> Z -> option image
}.

Record converter : Type := {
  odot_template_path : string;
  _radio_button_counters : gmap string Z
}.

Section FormFiller.
Context {lib : PyLib} {pdflib : PdfLib}.

(** [obj == s] for a [str] [s] *)
Definition pdf_eq_str (v : pdfval) (s : string) : bool :=
  match v with
  | PdfName t | PdfString t => String.eqb t s
  | _ => false
  end.

(** [needle in obj] for a [str] [needle] and a text object *)
Definition pdf_contains (needle : string) (v : pdfval) : result bool :=
  match v with
  | PdfName t | PdfString t => Ok (Str.contains needle t)
  | _ => Raise TypeError
  end.

Definition pdf_text (v : pdfval) : string :=
  match v with
  | PdfName t | PdfString t => t
  | _ => ""
  end.

Definition ad_get (k : string) (a : annotation) : option pdfval :=
  dict_get String.eqb k a.

Definition ad_set (k : string) (v : pdfval) (a : annotation) : annotation :=
  dict_set String.eqb k v a.

(** [value is True or value == '/Yes' or value == 'Yes'] *)
Definition is_checked (value : json) : bool :=
  match value with
  | JBool true => true
  | JStr s => String.eqb s "/Yes" || String.eqb s "Yes"
  | _ => false
  end.

(** The body of the innermost loop of the field pass, on one annotation
    object. *)
Definition fill_annotation (field_name : string) (value : json)
    (annot_obj : annotation) : annotation :=
  match ad_get "/T" annot_obj, ad_get "/FT" annot_obj with
  | Some field_title, Some field_type =>
      if pdf_eq_str field_title field_name then
        if pdf_eq_str field_type "/Tx" then
          ad_set "/V" (PdfString (py_str value)) annot_obj
        else if pdf_eq_str field_type "/Btn" then
          if is_checked value then
            ad_set "/AS" (PdfString "/Yes") (ad_set "/V" (PdfString "/Yes") annot_obj)
          else
            ad_set "/AS" (PdfString "/Off") (ad_set "/V" (PdfString "/Off") annot_obj)
        else if pdf_eq_str field_type "/Sig" then
          ad_set "/V" (PdfString (py_str value)) annot_obj
        else annot_obj
      else annot_obj
  | _, _ => annot_obj
  end.

(** [for annot in page['/Annots']], on the objects of the document;
    [annot.get_object()] is the lookup of the reference. *)
Fixpoint fill_annots (field_name : string) (value : json) (annots : list nat)
    (objects : list annotation) : result (list annotation) :=
  match annots with
  | [] => Ok objects
  | annot :: rest =>
      do annot_obj <- of_option ValueError (objects !! annot);
      fill_annots field_name value rest
        (<[annot := fill_annotation field_name value annot_obj]> objects)
  end.

(** [for page in pdf.pages] *)
Fixpoint fill_pages (field_name : string) (value : json) (pages : list page)
    (objects : list annotation) : result (list annotation) :=
  match pages with
  | [] => Ok objects
  | page :: rest =>
      do objects <-
        (match pg_annots page with
         | Some annots => fill_annots field_name value annots objects
         | None => Ok objects
         end);
      fill_pages field_name value rest objects
  end.

(** [for field_name, value in field_mapping.items()] *)
Fixpoint fill_fields (items : list (string * json)) (pages : list page)
    (objects : list annotation) : result (list annotation) :=
  match items with
  | [] => Ok objects
  | (field_name, value) :: rest =>
      do objects <-
        (if String.eqb field_name "day_of_week" then Ok objects
         else fill_pages field_name value pages objects);
      fill_fields rest pages objects
  end.

Definition appearance_map : list (string * string) :=
  [("Monday", "/1"); ("Tuesday", "/2"); ("Wednesday", "/3"); ("Thursday", "/4");
   ("Friday", "/5"); ("Saturday", "/6"); ("Sunday", "/7")].

(** [appearance_map.get(day_of_week, '/1')] *)
Definition target_appearance_of (day_of_week : json) : result string :=
  match day_of_week with
  | JStr s => Ok (default "/1" (dict_get String.eqb s appearance_map))
  | _ => if hashable day_of_week then Ok "/1" else Raise TypeError
  end.

(** [day_of_week in field_title] *)
Definition day_in_title (day_of_week : json) (field_title : pdfval) : result bool :=
  do day <- as_str TypeError day_of_week;
  pdf_contains day field_title.

(** The body of the innermost loop of the day-of-week pass: the
    annotation and the counters of the converter object. *)
Definition day_annotation (day_of_week : json) (target_appearance : string)
    (annot_obj : annotation) (counters : gmap string Z)
  : gmap string Z * result annotation :=
  match ad_get "/T" annot_obj, ad_get "/FT" annot_obj with
  | Some field_title, Some field_type =>
      if pdf_eq_str field_type "/Btn" then
        match pdf_contains "Day" field_title with
        | Raise e => (counters, Raise e)
        | Ok false => (counters, Ok annot_obj)
        | Ok true =>
            let title := pdf_text field_title in
            let counters :=
              match counters !! title with
              | None => <[title := 0]> counters
              | Some _ => counters
              end in
            let counters := <[title := default 0 (counters !! title) + 1]> counters in
            match day_in_title day_of_week field_title with
            | Raise e => (counters, Raise e)
            | Ok true =>
                (counters,
                 Ok (ad_set "/AS" (PdfString target_appearance)
                       (ad_set "/V" (PdfString ("/" ++ py_str day_of_week)) annot_obj)))
            | Ok false =>
                (counters,
                 Ok (ad_set "/AS" (PdfString "/Off")
                       (ad_set "/V" (PdfString "/Off") annot_obj)))
            end
        end
      else (counters, Ok annot_obj)
  | _, _ => (counters, Ok annot_obj)
  end.

Fixpoint day_annots (day_of_week : json) (target_appearance : string)
    (annots : list nat) (objects : list annotation) (counters : gmap string Z)
  : gmap string Z * result (list annotation) :=
  match annots with
  | [] => (counters, Ok objects)
  | annot :: rest =>
      match objects !! annot with
      | None => (counters, Raise ValueError)
      | Some annot_obj =>
          match day_annotation day_of_week target_appearance annot_obj counters with
          | (counters, Ok annot_obj') =>
              day_annots day_of_week target_appearance rest
                (<[annot := annot_obj']> objects) counters
          | (counters, Raise e) => (counters, Raise e)
          end
      end
  end.

Fixpoint day_pages (day_of_week : json) (target_appearance : string)
    (pages : list page) (objects : list annotation) (counters : gmap string Z)
  : gmap string Z * result (list annotation) :=
  match pages with
  | [] => (counters, Ok objects)
  | page :: rest =>
      match
        (match pg_annots page with
         | Some annots => day_annots day_of_week target_appearance annots objects counters
         | None => (counters, Ok objects)
         end)
      with
      | (counters, Ok objects) =>
          day_pages day_of_week target_appearance rest objects counters
      | (counters, Raise e) => (counters, Raise e)
      end
  end.

(** *** [_embed_images_in_pdf] *)

(** One rectangle of [image_coords]; [x] and [y] are kept as the text
    the f-string prints for them. *)
Record coords : Type := {
  cx : string;
  cy : string;
  cwidth : Z;
  cheight : Z
}.

Definition image_coords : list coords :=
  [ {| cx := "21.6"; cy := "573.2"; cwidth := 189; cheight := 142 |};
    {| cx := "324.0"; cy := "573.4"; cwidth := 189; cheight := 142 |};
    {| cx := "21.6"; cy := "348.4"; cwidth := 189; cheight := 142 |};
    {| cx := "324.0"; cy := "347.8"; cwidth := 189; cheight := 142 |};
    {| cx := "21.6"; cy := "126.4"; cwidth := 189; cheight := 142 |};
    {| cx := "324.0"; cy := "126.4"; cwidth := 189; cheight := 142 |} ].

(** [Stream(pdf, data)] *)
Definition new_stream (data : string) : stream :=
  {| stream_dict := []; stream_data := data |}.

Definition image_xobject (img : image) : stream :=
  {| stream_dict :=
       [("/Type", PdfName "/XObject"); ("/Subtype", PdfName "/Image");
        ("/Width", PdfInt (img_width img)); ("/Height", PdfInt (img_height img));
        ("/ColorSpace", PdfName "/DeviceRGB"); ("/BitsPerComponent", PdfInt 8);
        ("/Filter", PdfName "/DCTDecode")];
     stream_data := img_data img |}.

Definition draw_command (c : coords) (xobj_name : string) : string :=
  "
q
" ++ Str.of_Z (cwidth c) ++ " 0 0 " ++ Str.of_Z (cheight c) ++ " " ++ cx c ++ " " ++ cy c
    ++ " cm
/" ++ xobj_name ++ " Do
Q
".

(** The body of the [try] for photo number [i], on the target page. *)
Definition embed_photo (i : nat) (p : photo) (target_page : page) : result page :=
  do c <- of_option IndexError (image_coords !! i);
  do img <- of_option OSError (render_photo p (cwidth c) (cheight c));
  let xobj_name := "Photo" ++ Str.of_nat (i + 1) in
  let xobj := image_xobject img in
  let res :=
    default {| res_xobject := None; res_other := [] |} (pg_resources target_page) in
  let xobjects := default [] (res_xobject res) in
  let res :=
    {| res_xobject := Some (dict_set String.eqb xobj_name xobj xobjects);
       res_other := res_other res |} in
  let content_stream := draw_command c xobj_name in
  let contents' :=
    match pg_contents target_page with
    | ContentArray streams => ContentArray (streams ++ [new_stream content_stream])
    | ContentStream existing_content =>
        ContentStream (new_stream (stream_data existing_content ++ content_stream))
    | NoContents => ContentStream (new_stream content_stream)
    end in
  Ok {| pg_annots := pg_annots target_page;
        pg_resources := Some res;
        pg_contents := contents' |}.

(** [for i, photo in enumerate(uploaded_photos)]: the loop stops at
    [i >= 6], and a photo whose [try] raises is passed over. *)
Fixpoint embed_loop (i : nat) (uploaded_photos : list photo) (target_page : page)
  : page :=
  match uploaded_photos with
  | [] => target_page
  | p :: rest =>
      if (6 <=? i)%nat then target_page
      else
        match embed_photo i p target_page with
        | Ok target_page' => embed_loop (S i) rest target_page'
        | Raise _ => embed_loop (S i) rest target_page
        end
  end.

Definition _embed_images_in_pdf (doc : pdf) (uploaded_photos : list photo)
  : result pdf :=
  match uploaded_photos with
  | [] => Ok doc
  | _ =>
      do target_page <- py_index (pdf_pages doc) 3;
      let target_page := embed_loop 0 uploaded_photos target_page in
      Ok {| pdf_objects := pdf_objects doc;
            pdf_pages := <[3%nat := target_page]> (pdf_pages doc) |}
  end.

(** *** [fill_pdf_form] *)

(** The call returns the bytes or raises, and leaves the converter object
    in a new state. [uploaded_photos] is [None] when the argument is
    left out. *)
Definition fill_pdf_form (self : converter) (field_mapping : field_map)
    (uploaded_photos : option (list photo)) : converter * result string :=
  let reset := {| odot_template_path := odot_template_path self;
                  _radio_button_counters := ∅ |} in
  match pdf_open (odot_template_path self) with
  | None => (reset, Raise OSError)
  | Some doc =>
      match fill_fields field_mapping (pdf_pages doc) (pdf_objects doc) with
      | Raise e => (reset, Raise e)
      | Ok objects =>
          let day_of_week := default (JStr "Monday") (fm_get "day_of_week" field_mapping) in
          match target_appearance_of day_of_week with
          | Raise e => (reset, Raise e)
          | Ok target_appearance =>
              let '(counters, filled) :=
                day_pages day_of_week target_appearance (pdf_pages doc) objects ∅ in
              let self' := {| odot_template_path := odot_template_path self;
                              _radio_button_counters := counters |} in
              (self',
               do objects <- filled;
               let doc := {| pdf_objects := objects; pdf_pages := pdf_pages doc |} in
               do doc <-
                 (match uploaded_photos with
                  | Some ((_ :: _) as photos) => _embed_images_in_pdf doc photos
                  | _ => Ok doc
                  end);
               Ok (pdf_save doc))
          end
      end
  end.

End FormFiller.

(** ** The conversion of the web page *)

Section Conversion.
Context {lib : PyLib} {pdflib : PdfLib}.

(** The two calls [streamlit_app.py] makes on the converter object it
    keeps between requests: the bytes or the exception, and the converter
    object afterwards. *)
Definition convert (self : converter) (headlight_data : json)
    (uploaded_photos : option (list photo)) : converter * result string :=
  match create_field_mapping headlight_data with
  | Ok field_mapping => fill_pdf_form self field_mapping uploaded_photos
  | Raise e => (self, Raise e)
  end.

End Conversion.

(** ** A small library instance

    An instance of [PyLib] and [PdfLib] on which the definitions run:
    dates are calendar dates in the two formats [YYYY-MM-DD] and
    [YYYY-MM-DDT...], numbers in text are decimal integers, a photo is the
    image Pillow makes of it (or nothing when it cannot be read), and the
    template is a three-field form. The theorems below hold for every
    instance; this one makes their hypotheses concrete. *)

Module Sample.

Record date : Type := { year : Z; month : Z; day : Z; aware : bool }.

Definition digit (c : ascii) : option Z :=
  let n := N_of_ascii c in
  if ((48 <=? n) && (n <=? 57))%N then Some (Z.of_N n - 48) else None.

Fixpoint digits (acc : Z) (s : string) : option Z :=
  match s with
  | EmptyString => Some acc
  | String c rest =>
      match digit c with
      | Some d => digits (10 * acc + d) rest
      | None => None
      end
  end.

Definition number (s : string) : option Z :=
  match s with
  | EmptyString => None
  | _ => digits 0 s
  end.

Definition is_leap (y : Z) : bool :=
  ((y mod 4 =? 0) && negb (y mod 100 =? 0)) || (y mod 400 =? 0).

Definition days_in_month (y m : Z) : Z :=
  if m =? 2 then (if is_leap y then 29 else 28)
  else if (m =? 4) || (m =? 6) || (m =? 9) || (m =? 11) then 30 else 31.

Definition days_before_month (y m : Z) : Z :=
  fold_left (fun acc k => acc + days_in_month y (Z.of_nat k))
    (seq 1 (Z.to_nat (m - 1))) 0.

Definition toordinal (d : date) : Z :=
  let y := year d - 1 in
  y * 365 + y / 4 - y / 100 + y / 400 + days_before_month (year d) (month d) + day d.

Definition parse_ymd (s : string) : option date :=
  match number (substring 0 4 s), number (substring 5 2 s), number (substring 8 2 s) with
  | Some y, Some m, Some d =>
      if String.eqb (substring 4 1 s) "-" && String.eqb (substring 7 1 s) "-"
         && (1 <=? y) && (1 <=? m) && (m <=? 12) && (1 <=? d) && (d <=? days_in_month y m)
      then Some {| year := y; month := m; day := d; aware := false |}
      else None
  | _, _, _ => None
  end.

Definition two_digits (z : Z) : string :=
  if z <? 10 then "0" ++ Str.of_Z z else Str.of_Z z.

Definition float_text (f : spec_float) : string :=
  match f with
  | S754_zero _ => "0.0"
  | S754_nan => "nan"
  | S754_infinity neg => if neg then "-inf" else "inf"
  | S754_finite neg m e =>
      (if neg then "-" else "") ++ Str.of_Z (Z.pos m) ++ "*2**" ++ Str.of_Z e
  end.

(** Every [int] of a value is one [str] prints. *)
Fixpoint ints_fit (v : json) : bool :=
  match v with
  | JInt z => Str.int_fits z
  | JList l => forallb ints_fit l
  | JDict d => forallb (fun kv => ints_fit (snd kv)) d
  | _ => true
  end.

#[export] Instance pylib : PyLib := {|
  float_of_str s :=
    match number s with
    | Some z =>
        match Num.float_of_Z z with
        | Ok f => Some f
        | Raise _ => None
        end
    | None => None
    end;
  repr_float := float_text;
  repr_container _ := "[...]";
  repr_raises v := if ints_fit v then None else Some ValueError;
  datetime := date;
  tzinfo := string;
  fromisoformat s :=
    if String.eqb (substring 10 1 s) "T" then parse_ymd (substring 0 10 s) else None;
  strptime_ymd s :=
    if (String.length s =? 10)%nat then parse_ymd s else None;
  pytz_timezone v :=
    match v with
    | JStr "America/Los_Angeles" => Some "America/Los_Angeles"
    | JStr "UTC" => Some "UTC"
    | _ => None
    end;
  tzinfo_is_none d := negb (aware d);
  utc_localize d :=
    Some {| year := year d; month := month d; day := day d; aware := true |};
  astimezone d _ := if aware d then Some d else None;
  weekday d := (toordinal d + 6) mod 7;
  strftime_mdy d :=
    Some (two_digits (month d) ++ "/" ++ two_digits (day d) ++ "/"
            ++ two_digits (year d mod 100))
|}.

Definition text_field (title : string) : annotation :=
  [("/T", PdfString title); ("/FT", PdfName "/Tx"); ("/Rect", PdfOther 0)].

Definition button (title : string) : annotation :=
  [("/T", PdfString title); ("/FT", PdfName "/Btn"); ("/Rect", PdfOther 1)].

Definition blank_page (annots : option (list nat)) : page :=
  {| pg_annots := annots; pg_resources := None; pg_contents := NoContents |}.

(** A four-page template: a date field, a check box, two day buttons and
    a field no mapping names; the last page is the page of photographs. *)
Definition template : pdf :=
  {| pdf_objects :=
       [ text_field "form1[0].#pageSet[0].Master1[0].SignSub[0].#area[0].WorkDate[0]";
         button "form1[0].Page1[0].WeatherSub[0].Weather[0].Row2[0].Cell2[0]";
         button "DayMonday";
         button "DayTuesday";
         text_field "Unmapped[0]" ];
     pdf_pages :=
       [ blank_page (Some [0; 1; 2; 3; 4]%nat); blank_page (Some [0]%nat);
         blank_page None; blank_page None ] |}.

Fixpoint show_entries (a : annotation) : string :=
  match a with
  | [] => ">>"
  | (k, v) :: rest =>
      k ++ " "
        ++ match v with
           | PdfName s => s
           | PdfString s => "(" ++ s ++ ")"
           | PdfInt z => Str.of_Z z
           | PdfOther n => "R" ++ Str.of_Z (Z.of_N n)
           end
        ++ " " ++ show_entries rest
  end.

Definition show_page (pg : page) : string :=
  match pg_contents pg with
  | NoContents => "[]"
  | ContentStream s => "[" ++ stream_data s ++ "]"
  | ContentArray l => "[" ++ Str.join "|" (map stream_data l) ++ "]"
  end.

#[export] Instance pdflib : PdfLib := {|
  photo := option image;
  pdf_open path := if String.eqb path "ODOT Template.pdf" then Some template else None;
  pdf_save doc :=
    "%PDF " ++ Str.join " " (map (fun a => "<<" ++ show_entries a) (pdf_objects doc))
      ++ " " ++ Str.join " " (map show_page (pdf_pages doc));
  render_photo p width height :=
    match p with
    | Some img =>
        Some {| img_data := img_data img;
                img_width := Z.min width (img_width img);
                img_height := Z.min height (img_height img) |}
    | None => None
    end
|}.

Definition converter0 : converter :=
  {| odot_template_path := "ODOT Template.pdf"; _radio_button_counters := ∅ |}.

(** A daily report. *)
Definition report_entries : list (string * json) :=
    [ ("DocumentDate", JStr "2024-01-17");
      ("Weather", JDict [("Temperature", JInt 75); ("Wind", JStr "Moderate");
                         ("Humidity", JStr "Medium"); ("Conditions", JStr "Partly cloudy")]);
      ("Personnel",
       JList [ JDict [("Contractor", JStr "Acme"); ("Trade", JStr "Superintendent");
                      ("Name", JStr "Pat"); ("Count", JInt 1)];
               JDict [("Contractor", JStr "Acme"); ("Trade", JStr "Laborer");
                      ("Count", JInt 4)];
               JDict [("Contractor", JStr "Birch"); ("Trade", JStr "Operator");
                      ("Count", JInt 2)] ]);
      ("WorkItems",
       JList [ JDict [("Description", JStr "0010: MOBILIZATION"); ("Quantity", JInt 1);
                      ("Units", JStr "LS"); ("Location", JStr "Sta 1")] ]);
      ("Inspector", JDict [("Classification", JStr "QCT 123")]);
      ("Narrative", JStr "Paving");
      ("Equipment", JList [JDict [("Name", JStr "Roller")]]) ].

Definition report : json := JDict report_entries.

(** The mapping [create_field_mapping] makes of the report. *)
Definition report_mapping : field_map :=
  Eval vm_compute in
    match create_field_mapping report with
    | Ok m => m
    | Raise _ => []
    end.

(** A mapping with a key the template has no field for. *)
Definition small_mapping : field_map :=
  [ ("form1[0].#pageSet[0].Master1[0].SignSub[0].#area[0].WorkDate[0]", JStr "01/17/24");
    ("form1[0].Page1[0].EquipSub1[0].Equip[0]", JStr "Roller");
    ("day_of_week", JStr "Tuesday") ].

(** The bytes [fill_pdf_form] returns for it. *)
Definition small_bytes : string :=
  Eval vm_compute in
    match snd (fill_pdf_form converter0 small_mapping None) with
    | Ok bytes => bytes
    | Raise _ => ""
    end.

Definition jpeg (name : string) : @photo pdflib :=
  Some {| img_data := name; img_width := 640; img_height := 480 |}.

(** Seven uploads, the second of them unreadable. *)
Definition seven_photos : list (@photo pdflib) :=
  [jpeg "a"; None; jpeg "c"; jpeg "d"; jpeg "e"; jpeg "f"; jpeg "g"].

(** A report whose wind is a number. *)
Definition numeric_wind : list (string * json) :=
  [("Weather", JDict [("Wind", JInt 5)])].

(** A report whose humidity is a text. *)
Definition humid : list (string * json) :=
  [("Weather", JDict [("Humidity", JStr "Medium-Low")])].

End Sample.

(** * Vocabulary of the properties *)

(** ** Families of field names

    A block of [create_field_mapping] writes names that begin with one of a
    few prefixes; [frames ps m m'] says that going from [m] to [m'] changed
    no name outside the prefixes [ps]. *)

Definition touches (ps : list string) (k : string) : bool :=
  existsb (fun p => String.prefix p k) ps.

Definition frames (ps : list string) (m m' : field_map) : Prop :=
  forall k, touches ps k = false -> fm_get k m' = fm_get k m.

(** A number that compares equal to 50. *)
Definition is_fifty (v : json) : Prop :=
  exists x, as_number v = Some x /\ Num.cmp_Z x 50 = Some Eq.

(** ** Names of the form fields *)

Definition temperature_cell (n : nat) : string :=
  "form1[0].Page1[0].WeatherSub[0].Weather[0].Row2[0].Cell" ++ Str.of_nat n ++ "[0]".

(** The prefixes of the names each block of [create_field_mapping]
    writes. *)
Definition wind_names : list string :=
  ["form1[0].Page1[0].WeatherSub[0].Weather[0].Row3[0]"].

Definition humidity_names : list string :=
  ["form1[0].Page1[0].WeatherSub[0].Weather[0].Row4[0]"].

Definition conditions_names : list string :=
  ["form1[0].Page1[0].WeatherSub[0].Weather[0].Row1[0]"].

Definition contractor_prefix : string :=
  "form1[0].Page1[0].TableSub1[0].Table1[0].PersGroup[0].ContractorTable[0].Row".

Definition trade_names : list string :=
  ["form1[0].Page1[0].TableSub1[0].Table1[0].PersGroup[0].PersonnelTable1[0].Row2[0].Cell"].

Definition personnel_names : list string := contractor_prefix :: trade_names.

Definition work_item_names : list string :=
  ["form1[0].Page1[0].TableSub2[0].Place[0].LocationTable1[0].Row"].

Definition superintendent_names : list string :=
  ["form1[0].Page1[0].TableSub1[0].Table1[0].PersGroup[0].PhotoYes[0]";
   "form1[0].Page1[0].TableSub1[0].Table1[0].PersGroup[0].PhotoNo[0]";
   "form1[0].Page1[0].ProjectSub[0].#area[0].Contractor[1]"].

Definition closing_names : list string :=
  ["form1[0].#pageSet[0].Master1[";
   "form1[0].#subform[1].RemarksSub1[0].Remarks[0]";
   "form1[0].Page1[0].EquipSub1[0].Equip[0]";
   "day_of_week"].

Definition after_superintendent : list string := closing_names.

Definition after_personnel : list string :=
  (work_item_names ++ superintendent_names ++ after_superintendent)%list.

Definition after_temperature : list string :=
  (wind_names ++ humidity_names ++ conditions_names ++ personnel_names
     ++ after_personnel)%list.

(** The cell of the temperature row the [if]/[elif] chain selects. *)
Definition temperature_band (t : Num.t) : nat :=
  if Num.ge_Z t 83 then 1
  else if Num.ge_Z t 70 then 2
  else if Num.ge_Z t 50 then 3
  else if Num.ge_Z t 32 then 4
  else 5.

(** ** Personnel *)

(** ['Superintendent' in trade], false when the test itself raises. *)
Definition trade_has_superintendent (trade : json) : bool :=
  match py_in "Superintendent" trade with
  | Ok b => b
  | Raise _ => false
  end.

(** A personnel entry whose ['Trade'] contains ['Superintendent'] and whose
    ['Name'] is not empty. *)
Definition is_named_superintendent (person : json) : bool :=
  match person with
  | JDict d =>
      trade_has_superintendent (default (JStr "") (lookup_key "Trade" d))
      && truthy (default (JStr "") (lookup_key "Name" d))
  | _ => false
  end.

(** The entries of the ['Personnel'] list of a report. *)
Definition personnel_of (data : json) : list json :=
  match data with
  | JDict d =>
      match lookup_key "Personnel" d with
      | Some (JList l) => l
      | _ => []
      end
  | _ => []
  end.

Definition has_named_superintendent (data : json) : bool :=
  existsb is_named_superintendent (personnel_of data).

(** The contractor of an entry, when it has a non-empty one. *)
Definition contractor_of (person : json) : option json :=
  match person with
  | JDict d =>
      let contractor := default (JStr "") (lookup_key "Contractor" d) in
      if truthy contractor then Some contractor else None
  | _ => None
  end.

(** The distinct contractors of a personnel list, in the order of their
    first entry. *)
Definition add_contractor (seen : list json) (c : json) : list json :=
  if existsb (fun s => key_eqb s c) seen then seen else (seen ++ [c])%list.

Definition distinct_contractors (personnel : list json) : list json :=
  fold_left add_contractor (omap contractor_of personnel) [].

(** The item of [contractor_totals] for a contractor: the hours are the
    constant 8. *)
Definition eight (c : json) : json * Z := (c, 8).

(** ** The form filler *)

(** The annotation has the title [k]. *)
Definition title_is (a : annotation) (k : string) : bool :=
  match ad_get "/T" a with
  | Some field_title => pdf_eq_str field_title k
  | None => false
  end.

(** The title of the annotation is a key of the field mapping. *)
Definition names_field (field_mapping : field_map) (a : annotation) : bool :=
  existsb (fun kv => title_is a (fst kv)) field_mapping.

(** A button whose title contains ['Day']. *)
Definition is_day_button (a : annotation) : bool :=
  match ad_get "/T" a, ad_get "/FT" a with
  | Some field_title, Some field_type =>
      pdf_eq_str field_type "/Btn"
      && match pdf_contains "Day" field_title with
         | Ok b => b
         | Raise _ => false
         end
  | _, _ => false
  end.

(** Every entry of the [/Annots] arrays is one of the [n] objects of the
    document. *)
Definition resolve_in (n : nat) (annots : list nat) : bool :=
  forallb (fun r => (r <? n)%nat) annots.

Definition pages_resolve (n : nat) (pages : list page) : bool :=
  forallb (fun pg => match pg_annots pg with
                     | Some annots => resolve_in n annots
                     | None => true
                     end) pages.

Definition refs_resolve (doc : pdf) : bool :=
  pages_resolve (length (pdf_objects doc)) (pdf_pages doc).

Definition is_text (v : pdfval) : bool :=
  match v with
  | PdfName _ | PdfString _ => true
  | _ => false
  end.

(** The title of a button is a text. *)
Definition button_title_is_text (a : annotation) : bool :=
  match ad_get "/T" a, ad_get "/FT" a with
  | Some field_title, Some field_type =>
      negb (pdf_eq_str field_type "/Btn") || is_text field_title
  | _, _ => true
  end.

(** A template as the PDF format has it: the annotation arrays refer to
    annotation dictionaries, and the buttons have text titles. *)
Definition template_ok (doc : pdf) : bool :=
  refs_resolve doc && forallb button_title_is_text (pdf_objects doc).

(** The ['day_of_week'] of the mapping, when there is one, is a [str]. *)
Definition day_is_text (field_mapping : field_map) : bool :=
  match fm_get "day_of_week" field_mapping with
  | Some v => is_string v
  | None => true
  end.



(** The converter object after a series of conversions. *)
Fixpoint after_calls `{PyLib} `{PdfLib} (self : converter)
    (calls : list (json * option (list photo))) : converter :=
  match calls with
  | [] => self
  | (data, photos) :: rest => after_calls (fst (convert self data photos)) rest
  end.

(** The title and the type of an annotation, which no pass changes. *)
Definition fields_of (a : annotation) : option pdfval * option pdfval :=
  (ad_get "/T" a, ad_get "/FT" a).

(** ** The shapes [create_field_mapping] reads

    The shapes of the entries of a report on which the operations of
    [create_field_mapping] are defined. *)

Section Shapes.
Context {lib : PyLib}.

Definition is_number (v : json) : bool :=
  match as_number v with
  | Some _ => true
  | None => false
  end.

(** An [int] or a [bool]. *)
Definition is_integer (v : json) : bool :=
  match v with
  | JInt _ | JBool _ => true
  | _ => false
  end.

(** A [str], or a value that counts as false. *)
Definition text_or_empty (v : json) : bool := is_string v || negb (truthy v).

(** [str(v)] returns. *)
Definition printable (v : json) : bool :=
  match py_format v with
  | Ok _ => true
  | Raise _ => false
  end.

(** An optional entry has the shape [ok] when it is present. *)
Definition entry_ok (ok : json -> bool) (entry : option json) : bool :=
  match entry with
  | Some v => ok v
  | None => true
  end.

(** ['Temperature']: a number, a text [float] reads, or a value that
    counts as false. *)
Definition temperature_ok (v : json) : bool :=
  match v with
  | JStr s =>
      String.eqb s ""
      || match float_of_str s with
         | Some _ => true
         | None => false
         end
  | _ => is_number v || negb (truthy v)
  end.

(** ['Humidity']: a text, a number in the range of [float], or a value
    that counts as false. *)
Definition humidity_ok (v : json) : bool :=
  match v with
  | JStr _ => true
  | _ =>
      negb (truthy v)
      || match py_float v with
         | Ok _ => true
         | Raise _ => false
         end
  end.

Definition weather_ok (weather : json) : bool :=
  match weather with
  | JDict wd =>
      temperature_ok (default (JInt 0) (lookup_key "Temperature" wd))
      && text_or_empty (default (JStr "Calm") (lookup_key "Wind" wd))
      && humidity_ok (default (JInt 50) (lookup_key "Humidity" wd))
      && text_or_empty (default (JStr "Clear") (lookup_key "Conditions" wd))
  | _ => true
  end.

(** A personnel entry: the trade is a text (or counts as false), and an
    entry with a contractor has a hashable contractor and an integer
    count. *)
Definition person_ok (person : json) : bool :=
  match person with
  | JDict pd =>
      let contractor := default (JStr "") (lookup_key "Contractor" pd) in
      text_or_empty (default (JStr "") (lookup_key "Trade" pd))
      && (negb (truthy contractor)
          || (hashable contractor
              && is_integer (default (JInt 1) (lookup_key "Count" pd))))
  | _ => true
  end.

Definition inspector_ok (inspector : json) : bool :=
  match inspector with
  | JList (first :: _) => is_dict first
  | _ => true
  end.

(** A narrative item that has a ['Text']: with a ['Timestamp'] the two
    can be printed, without one the text is a [str]. *)
Definition narrative_item_ok (item : json) : bool :=
  match item with
  | JDict d =>
      let text := default (JStr "") (lookup_key "Text" d) in
      let timestamp := default (JStr "") (lookup_key "Timestamp" d) in
      negb (truthy text)
      || (if truthy timestamp then printable timestamp && printable text
          else is_string text)
  | _ => true
  end.

Definition narrative_ok (narrative : json) : bool :=
  match narrative with
  | JList l => forallb narrative_item_ok l
  | _ => true
  end.

Definition equipment_item_ok (item : json) : bool :=
  match item with
  | JDict d => text_or_empty (default (JStr "") (lookup_key "Name" d))
  | _ => true
  end.

(** ['Equipment'] is something a [for] loop goes through. *)
Definition equipment_ok (equipment : json) : bool :=
  match equipment with
  | JList l => forallb equipment_item_ok l
  | JDict _ | JStr _ => true
  | _ => false
  end.

(** What ['DailyReport'] holds under the key [k]: in a dictionary an
    entry of the shape [ok], or none; in a text or a list nothing that
    [k in daily_report] finds. The test raises on anything else. *)
Definition report_entry_ok (k : string) (ok : json -> bool) (daily_report : json) : bool :=
  match daily_report with
  | JDict rd => entry_ok ok (lookup_key k rd)
  | JStr s => negb (Str.contains k s)
  | JList l => negb (existsb (fun x => is_str x k) l)
  | _ => false
  end.

Definition daily_report_ok (daily_report : json) : bool :=
  report_entry_ok "Narrative" narrative_ok daily_report
  && report_entry_ok "Equipment" equipment_ok daily_report.

End Shapes.

(** The character [c] does not occur in [s]. *)
Fixpoint lacks (c : ascii) (s : string) : bool :=
  match s with
  | EmptyString => true
  | String a rest => negb (Ascii.eqb a c) && lacks c rest
  end.

(** * Vocabulary of the further properties *)

(** ** The weather rows *)

Definition wind_cell (n : nat) : string :=
  "form1[0].Page1[0].WeatherSub[0].Weather[0].Row3[0].Cell" ++ Str.of_nat n ++ "[0]".

Definition humidity_cell (n : nat) : string :=
  "form1[0].Page1[0].WeatherSub[0].Weather[0].Row4[0].Cell" ++ Str.of_nat n ++ "[0]".

Definition conditions_cell (n : nat) : string :=
  "form1[0].Page1[0].WeatherSub[0].Weather[0].Row1[0].Cell" ++ Str.of_nat n ++ "[0]".

Definition temperature_names : list string :=
  ["form1[0].Page1[0].WeatherSub[0].Weather[0].Row2[0]"].

(** The cells the three other [if]/[elif] chains select. *)
Definition wind_band (wind : string) : nat :=
  if Str.contains "strong" wind || Str.contains "high" wind then 3
  else if Str.contains "moderate" wind || Str.contains "medium" wind then 2
  else 1.

Definition humidity_band (h : Num.t) : nat :=
  if Num.ge_Z h 75 then 4
  else if Num.ge_Z h 50 then 3
  else if Num.ge_Z h 25 then 2
  else 1.

Definition conditions_band (conditions : string) : nat :=
  if Str.contains "rain" conditions || Str.contains "shower" conditions then 4
  else if Str.contains "snow" conditions then 5
  else if Str.contains "cloudy" conditions || Str.contains "overcast" conditions then 3
  else if Str.contains "fair" conditions || Str.contains "partly" conditions then 2
  else 1.

(** ** The names of the last blocks *)

Definition footer_names : list string := ["form1[0].#pageSet[0].Master1["].

Definition remarks_field : string := "form1[0].#subform[1].RemarksSub1[0].Remarks[0]".

Definition equipment_field : string := "form1[0].Page1[0].EquipSub1[0].Equip[0]".

Definition supervisor_field : string :=
  "form1[0].Page1[0].ProjectSub[0].#area[0].Contractor[1]".

(** Every prefix under which [create_field_mapping] writes a form field. *)
Definition form_names : list string :=
  (temperature_names ++ wind_names ++ humidity_names ++ conditions_names
     ++ personnel_names ++ work_item_names ++ superintendent_names
     ++ footer_names ++ [remarks_field; equipment_field])%list.

(** The cell of the humidity row a humidity given as text selects: the
    words of [extract_weather_data] followed by the thresholds of
    [create_field_mapping]. *)
Definition humidity_text_band (humidity : string) : nat :=
  let humidity_lower := Str.lower humidity in
  if Str.contains "dry" humidity_lower then 2
  else if Str.contains "low" humidity_lower then 2
  else if Str.contains "medium" humidity_lower || Str.contains "med" humidity_lower then 3
  else if Str.contains "high" humidity_lower then 4
  else 3.

(** The report has no ['Weather'] object. *)
Definition no_weather (d : list (string * json)) : bool :=
  match lookup_key "Weather" d with
  | Some (JDict _) => false
  | _ => true
  end.

(** ** Dates *)

(** ['T' in date], false when the test itself raises: the date has a
    time of day. *)
Definition has_time (date : json) : bool :=
  match py_in "T" date with
  | Ok b => b
  | Raise _ => false
  end.

(** The ['DocumentDate'] and the ['Timezone'] [create_field_mapping]
    reads. *)
Definition document_date (d : list (string * json)) : json :=
  default (JStr "") (lookup_key "DocumentDate" d).

Definition report_timezone (d : list (string * json)) : json :=
  default (JStr "America/Los_Angeles") (lookup_key "Timezone" d).

(** Two reports with the same entries, the key [k] apart. *)
Definition same_but (k : string) (d d' : list (string * json)) : Prop :=
  forall k', k' <> k -> lookup_key k' d = lookup_key k' d'.

(** ** Work items *)

(** The entries of the ['WorkItems'] list of a report. *)
Definition work_items_of (d : list (string * json)) : list json :=
  match lookup_key "WorkItems" d with
  | Some (JList l) => l
  | _ => []
  end.

(** A description that is not a text with a colon. *)
Definition no_colon (description : json) : bool :=
  match description with
  | JStr s => lacks ":" s
  | _ => true
  end.

(** ** Trades *)

(** The trade an entry counts for, when it has a contractor: a blank or
    missing trade is ['Laborer']. *)
Definition trade_of (person : json) : option string :=
  match person with
  | JDict d =>
      if truthy (default (JStr "") (lookup_key "Contractor" d)) then
        Some (match default (JStr "") (lookup_key "Trade" d) with
              | JStr s => if String.eqb (Str.strip s) "" then "Laborer" else s
              | _ => "Laborer"
              end)
      else None
  | _ => None
  end.

(** The ['Count'] of an entry, an integer; 1 when there is none. *)
Definition count_of (person : json) : Z :=
  match person with
  | JDict d =>
      match default (JInt 1) (lookup_key "Count" d) with
      | JInt z => z
      | JBool b => if b then 1 else 0
      | _ => 0
      end
  | _ => 0
  end.

(** The trades of a personnel list, in the order of their first entry. *)
Definition add_trade (seen : list string) (t : string) : list string :=
  if existsb (fun s => String.eqb s t) seen then seen else (seen ++ [t])%list.

Definition trade_order (personnel : list json) : list string :=
  fold_left add_trade (omap trade_of personnel) [].

(** The sum of the counts of the entries of a trade. *)
Definition trade_total (t : string) (personnel : list json) : Z :=
  fold_left (fun acc person =>
               match trade_of person with
               | Some t' => if String.eqb t' t then acc + count_of person else acc
               | None => acc
               end) personnel 0.

(** The columns as the entry of the trade [t] leaves them. *)
Definition columns_after (t : string) : list (string * Z) :=
  if dict_mem String.eqb t default_trade_columns then default_trade_columns
  else dict_set String.eqb t (max_column default_trade_columns + 1) default_trade_columns.

(** The columns after the loop: those of the last entry with a
    contractor. *)
Definition final_columns (personnel : list json) : option (list (string * Z)) :=
  columns_after <$> last (omap trade_of personnel).

(** [trade_column_mapping.get(trade, 4)] *)
Definition column_in (columns : list (string * Z)) (t : string) : Z :=
  default 4 (dict_get String.eqb t columns).

(** The state before the first entry. *)
Definition no_totals : personnel_totals :=
  {| contractor_totals := []; trade_totals := []; trade_column_mapping := None |}.

(** The item of [trade_totals] for a trade. *)
Definition total_item (personnel : list json) (t : string) : string * Num.t :=
  (t, Num.Int (trade_total t personnel)).

(** The total the loop over [trade_totals] leaves in column [col]: that
    of the last trade of the column. *)
Definition column_total (columns : list (string * Z)) (tts : list (string * Num.t))
    (col : Z) : option Num.t :=
  snd <$> last (List.filter (fun kv => column_in columns (fst kv) =? col) tts).

(** ** Equipment and remarks *)

(** The text of a value that is one. *)
Definition text_of (v : json) : string :=
  match v with
  | JStr s => s
  | _ => ""
  end.

(** The name an equipment item gives to the list. *)
Definition equipment_name (item : json) : option json :=
  match item with
  | JDict d =>
      let name := default (JStr "") (lookup_key "Name" d) in
      if truthy name then Some name else None
  | _ => None
  end.

(** The names of the ['Equipment'] list of a dictionary. *)
Definition equipment_in (d : list (string * json)) : list json :=
  match lookup_key "Equipment" d with
  | Some (JList l) => omap equipment_name l
  | _ => []
  end.

(** The ['DailyReport'] dictionary of a report, empty when there is
    none. *)
Definition daily_report_of (d : list (string * json)) : list (string * json) :=
  match lookup_key "DailyReport" d with
  | Some (JDict rd) => rd
  | _ => []
  end.

Definition all_equipment (d : list (string * json)) : list json :=
  (equipment_in d ++ equipment_in (daily_report_of d))%list.

Section Remarks.
Context {lib : PyLib}.

(** The line a narrative item gives to the list. *)
Definition remark_line (item : json) : option json :=
  match item with
  | JDict d =>
      let text := default (JStr "") (lookup_key "Text" d) in
      let timestamp := default (JStr "") (lookup_key "Timestamp" d) in
      if truthy text then
        if truthy timestamp
        then Some (JStr ("[" ++ py_str timestamp ++ "] " ++ py_str text))
        else Some text
      else None
  | _ => None
  end.

(** The lines of the ['Narrative'] of a dictionary: those of a list, or
    the one text. *)
Definition remarks_in (d : list (string * json)) : list json :=
  match lookup_key "Narrative" d with
  | Some (JList l) => omap remark_line l
  | Some (JStr s) => [JStr s]
  | _ => []
  end.

Definition all_remarks (d : list (string * json)) : list json :=
  (remarks_in d ++ remarks_in (daily_report_of d))%list.

End Remarks.

(** The field a joined text gives: none for the empty text. *)
Definition text_field_of (text : string) : option json :=
  if String.eqb text "" then None else Some (JStr text).

(** ** The supervisor *)

(** The name of the first entry that is a named superintendent. *)
Definition supervisor_of (personnel : list json) : option json :=
  match List.find is_named_superintendent personnel with
  | Some (JDict d) => Some (default (JStr "") (lookup_key "Name" d))
  | _ => None
  end.

(** ** What the form filler writes *)

(** The annotation object number [i] is in the [/Annots] array of a
    page. *)
Definition referenced (pages : list page) (i : nat) : bool :=
  existsb (fun pg => match pg_annots pg with
                     | Some annots => existsb (Nat.eqb i) annots
                     | None => false
                     end) pages.

Section Passes.
Context {lib : PyLib}.

(** One item of the field mapping on one annotation. *)
Definition fill_item (a : annotation) (item : string * json) : annotation :=
  if String.eqb (fst item) "day_of_week" then a
  else fill_annotation (fst item) (snd item) a.

(** The field pass on one annotation. *)
Definition fill_all (items : list (string * json)) (a : annotation) : annotation :=
  fold_left fill_item items a.

(** The day-of-week pass on one annotation. *)
Definition day_set (day_of_week : json) (target_appearance : string) (a : annotation)
  : annotation :=
  match snd (day_annotation day_of_week target_appearance a ∅) with
  | Ok a' => a'
  | Raise _ => a
  end.

End Passes.

(** The day of the mapping, as [fill_pdf_form] reads it. *)
Definition day_of (field_mapping : field_map) : json :=
  default (JStr "Monday") (fm_get "day_of_week" field_mapping).

(** The check box value of a mapping value. *)
Definition check_value (value : json) : pdfval :=
  PdfString (if is_checked value then "/Yes" else "/Off").

(** The keys of a mapping are distinct, as those of a dictionary are. *)
Fixpoint distinct_keys (items : list (string * json)) : bool :=
  match items with
  | [] => true
  | (k, _) :: rest =>
      negb (existsb (fun kv => String.eqb (fst kv) k) rest) && distinct_keys rest
  end.

(** The annotation has the type [s]. *)
Definition type_is (a : annotation) (s : string) : bool :=
  match ad_get "/FT" a with
  | Some field_type => pdf_eq_str field_type s
  | None => false
  end.

(** The text of the title of an annotation. *)
Definition title_of (a : annotation) : string :=
  match ad_get "/T" a with
  | Some field_title => pdf_text field_title
  | None => ""
  end.

(** ** The page of photographs *)

(** What the content of a page draws: the data of its streams, one after
    the other. *)
Definition content_text (pg : page) : string :=
  match pg_contents pg with
  | NoContents => ""
  | ContentStream s => stream_data s
  | ContentArray streams => String.concat "" (map stream_data streams)
  end.

(** The [/XObject] of a page under a name. *)
Definition page_xobject (name : string) (pg : page) : option stream :=
  match pg_resources pg with
  | Some res =>
      match res_xobject res with
      | Some xobjects => dict_get String.eqb name xobjects
      | None => None
      end
  | None => None
  end.

(** ** Further sample reports and templates *)

Module Cases.
Import Sample.

(** The mapping [create_field_mapping] makes of a report. *)
Definition mapping_of (d : list (string * json)) : field_map :=
  match create_field_mapping (JDict d) with
  | Ok m => m
  | Raise _ => []
  end.

(** A report with a date and nothing else. *)
Definition bare_report : list (string * json) :=
  [("DocumentDate", JStr "2024-01-17")].

(** The ['Weather'] of the sample report. *)
Definition report_weather : list (string * json) :=
  [("Temperature", JInt 75); ("Wind", JStr "Moderate");
   ("Humidity", JStr "Medium"); ("Conditions", JStr "Partly cloudy")].

(** A report whose date is no date. *)
Definition undated_report : list (string * json) :=
  [("DocumentDate", JStr "yesterday")].

(** The sample report in another time zone. *)
Definition report_in_utc : list (string * json) :=
  ("Timezone", JStr "UTC") :: report_entries.

(** The work item of the sample report. *)
Definition mobilization : list (string * json) :=
  [("Description", JStr "0010: MOBILIZATION"); ("Quantity", JInt 1);
   ("Units", JStr "LS"); ("Location", JStr "Sta 1")].

(** A crew with two trades the table has no column for; the second of
    them is the trade of the last entry. *)
Definition crew : list json :=
  [ JDict [("Contractor", JStr "Acme"); ("Trade", JStr "Laborer"); ("Count", JInt 3)];
    JDict [("Contractor", JStr "Acme"); ("Trade", JStr "Carpenter"); ("Count", JInt 2)];
    JDict [("Trade", JStr "Operator"); ("Count", JInt 9)];
    JDict [("Contractor", JStr "Birch"); ("Trade", JStr " "); ("Count", JInt 1)];
    JDict [("Contractor", JStr "Birch"); ("Trade", JStr "Welder")] ].

Definition crew_report : list (string * json) := [("Personnel", JList crew)].

(** The totals of the crew. *)
Definition crew_totals : personnel_totals :=
  Eval vm_compute in
    match personnel_loop no_totals crew with
    | Ok st => st
    | Raise _ => no_totals
    end.

(** The bytes of the filled sample form. *)
Definition bytes_of (field_mapping : field_map) (photos : option (list (@photo pdflib)))
  : string :=
  match snd (fill_pdf_form converter0 field_mapping photos) with
  | Ok bytes => bytes
  | Raise _ => ""
  end.



(** A report in looser shapes: a count that is a [float], a trade and a
    description that are lists, a ['DailyReport'] that is a text. *)
Definition loose_report : list (string * json) :=
  [ ("Personnel",
     JList [ JDict [("Contractor", JStr "Acme");
                    ("Count", JFloat (S754_finite false 5629499534213120 (-51)))];
             JDict [("Contractor", JStr "Acme"); ("Count", JInt 2)];
             JDict [("Trade", JList [JStr "Superintendent"]); ("Name", JStr "Pat")] ]);
    ("WorkItems", JList [JDict [("Description", JList [JStr "paving"])]]);
    ("DailyReport", JStr "none") ].

(** Two counts that [json.loads] reads, of 4300 digits each; their sum has
    4301. *)
Definition long_counts : list (string * json) :=
  [ ("Personnel",
     JList [ JDict [("Contractor", JStr "Acme"); ("Count", JInt (10 ^ 4300 - 1))];
             JDict [("Contractor", JStr "Acme"); ("Count", JInt (10 ^ 4300 - 1))] ]) ].

(** What [pdf.save] writes at a moment: the document, and an [/ID] made
    of the moment. *)
Definition save_at (moment : string) (doc : pdf) : string :=
  @pdf_save pdflib doc ++ " /ID <" ++ moment ++ ">".

End Cases.

(** ** The reports on which [create_field_mapping] returns *)

(** The list up to its first element that has [P], that one included. *)
Fixpoint up_to_first {A : Type} (P : A -> bool) (l : list A) : list A :=
  match l with
  | [] => []
  | x :: rest => if P x then [x] else x :: up_to_first P rest
  end.

(** The number an entry counts for: its ['Count'], 1 when it has none. *)
Definition number_of (person : json) : option Num.t :=
  match person with
  | JDict d => as_number (default (JInt 1) (lookup_key "Count" d))
  | _ => None
  end.

(** The counts of the entries of a trade, in the order of the list. *)
Definition counts_of (t : string) (personnel : list json) : list Num.t :=
  omap (fun person =>
          match trade_of person with
          | Some t' => if String.eqb t' t then number_of person else None
          | None => None
          end) personnel.

(** [0 + c1 + c2 + ...], added from the left as [+=] does: an [int]
    beyond the range of [float] that meets a [float] is an
    [OverflowError]. *)
Definition sum_counts (counts : list Num.t) : result Num.t :=
  fold_left (fun acc c => do a <- acc; Num.add a c) counts (Ok (Num.Int 0)).

Definition trade_sum (t : string) (personnel : list json) : result Num.t :=
  sum_counts (counts_of t personnel).

(** The total of a trade, 0 when the sum is not defined. *)
Definition total_of (t : string) (personnel : list json) : Num.t :=
  match trade_sum t personnel with
  | Ok x => x
  | Raise _ => Num.Int 0
  end.

Section Returning.
Context {lib : PyLib}.

(** A personnel entry that has a contractor: the contractor is hashable,
    the trade is a text (or counts as false), the count is a number. *)
Definition contracted_ok (person : json) : bool :=
  match person with
  | JDict pd =>
      let contractor := default (JStr "") (lookup_key "Contractor" pd) in
      negb (truthy contractor)
      || (hashable contractor
          && text_or_empty (default (JStr "") (lookup_key "Trade" pd))
          && is_number (default (JInt 1) (lookup_key "Count" pd)))
  | _ => true
  end.

(** The total of a trade is a number that [str] prints. *)
Definition total_ok (total : result Num.t) : bool :=
  match total with
  | Ok x => printable (of_number x)
  | Raise _ => false
  end.

(** The entries of the personnel table: every entry with a contractor is
    well formed, and the counts of every trade add up to a total that can
    be printed. *)
Definition crew_ok (personnel : list json) : bool :=
  forallb contracted_ok personnel
  && forallb (fun t => total_ok (trade_sum t personnel)) (trade_order personnel).

(** ['Superintendent' in trade] is defined: the trade counts as false, or
    is a text, a list or a dictionary. *)
Definition trade_searchable (person : json) : bool :=
  match person with
  | JDict pd =>
      let trade := default (JStr "") (lookup_key "Trade" pd) in
      negb (truthy trade) || is_string trade || is_list trade || is_dict trade
  | _ => true
  end.

(** The search for the superintendent reads the entries up to the first
    named superintendent. *)
Definition scan_ok (personnel : list json) : bool :=
  forallb trade_searchable (up_to_first is_named_superintendent personnel).

Definition personnel_ok (personnel : json) : bool :=
  match personnel with
  | JList l => crew_ok l && scan_ok l
  | _ => true
  end.

(** A ['Description'] is a text, or a list or a dictionary that does not
    hold [':']. *)
Definition description_ok (description : json) : bool :=
  match description with
  | JStr _ => true
  | JList l => negb (existsb (fun x => is_str x ":") l)
  | JDict dd =>
      match lookup_key ":" dd with
      | Some _ => false
      | None => true
      end
  | _ => false
  end.

(** The ['Quantity'], and with it the ['Units'], can be printed when they
    are. *)
Definition amount_ok (quantity units : json) : bool :=
  negb (truthy quantity)
  || (printable quantity && (negb (truthy units) || printable units)).

Definition work_item_ok (item : json) : bool :=
  match item with
  | JDict d =>
      description_ok (default (JStr "") (lookup_key "Description" d))
      && amount_ok (default (JInt 0) (lookup_key "Quantity" d))
           (default (JStr "") (lookup_key "Units" d))
  | _ => true
  end.

(** Only the first 20 work items are read. *)
Definition work_items_ok (work_items : json) : bool :=
  match work_items with
  | JList l => forallb work_item_ok (take 20 l)
  | _ => true
  end.

(** Every value of a mapping is one [str] prints. *)
Definition values_printable (field_mapping : field_map) : bool :=
  forallb (fun kv => printable (snd kv)) field_mapping.

Definition well_shaped (d : list (string * json)) : bool :=
  entry_ok weather_ok (lookup_key "Weather" d)
  && entry_ok personnel_ok (lookup_key "Personnel" d)
  && entry_ok work_items_ok (lookup_key "WorkItems" d)
  && entry_ok inspector_ok (lookup_key "Inspector" d)
  && entry_ok narrative_ok (lookup_key "Narrative" d)
  && entry_ok equipment_ok (lookup_key "Equipment" d)
  && entry_ok daily_report_ok (lookup_key "DailyReport" d).

End Returning.

(** ** The photographs page *)

(** The name of the image of photograph number [i]. *)
Definition photo_name (i : nat) : string := "Photo" ++ Str.of_nat (i + 1).

Section Drawing.
Context {pdflib : PdfLib}.

(** What photograph number [i] adds to the content of the page: the
    command that draws it in rectangle [i], nothing when there is no such
    rectangle or when Pillow does not read the photograph. *)
Definition photo_draw (i : nat) (p : photo) : string :=
  match image_coords !! i with
  | Some c =>
      match render_photo p (cwidth c) (cheight c) with
      | Some _ => draw_command c (photo_name i)
      | None => ""
      end
  | None => ""
  end.

Definition photo_draws (uploaded_photos : list photo) : string :=
  String.concat "" (imap photo_draw uploaded_photos).

End Drawing.

(** ** The moment of saving

    [pdf.save] writes more than the document it is given: pikepdf derives
    the [/ID] of the file from the time of saving. A [PdfLib] is the
    library at one moment; at another moment [pdf.save] is another
    function of the document, and the rest of the library is the same. *)

Section Saving.
Context {pdflib : PdfLib}.

Definition with_save (save' : pdf -> string) : PdfLib :=
  {| photo := photo;
     pdf_open := pdf_open;
     pdf_save := save';
     render_photo := render_photo |}.

(** What a call returns when it ends by saving [outcome], or by the
    exception that kept it from saving. *)
Definition saved (save : pdf -> string) (outcome : result pdf) : result string :=
  match outcome with
  | Ok doc => Ok (save doc)
  | Raise e => Raise e
  end.

End Saving.

(** * Properties *)

(** ** Results *)

Lemma bind_Ok {A B : Type} (r : result A) (k : A -> result B) (b : B) :
  bind r k = Ok b -> exists a, r = Ok a /\ k a = Ok b.
Proof. destruct r as [a|e]; simpl; [eauto | discriminate]. Qed.

Lemma of_option_Ok {A : Type} (e : exn) (o : option A) (a : A) :
  of_option e o = Ok a -> o = Some a.
Proof. destruct o; simpl; congruence. Qed.

Lemma returns_Ok {A : Type} (a : A) : returns (Ok a).
Proof. exists a; reflexivity. Qed.

Lemma try_except_returns {A : Type} (body : result A) (a : A) :
  returns (try_except body (Ok a)).
Proof. destruct body; simpl; eauto using returns_Ok. Qed.

#[local] Hint Resolve returns_Ok : core.

(** Splits a hypothesis [bind r k = Ok b] into the two calls. *)
Tactic Notation "inv_bind" hyp(H) :=
  let a := fresh "a" in
  let Ha := fresh "Ha" in
  apply bind_Ok in H; destruct H as (a & Ha & H).

Tactic Notation "inv_bind" hyp(H) "as" ident(a) ident(Ha) :=
  apply bind_Ok in H; destruct H as (a & Ha & H).

(** ** Strings and field names *)

Lemma prefix_append (p s : string) : String.prefix p (p ++ s) = true.
Proof.
  induction p as [|c p IH]; simpl.
  - destruct s; reflexivity.
  - destruct (Ascii.ascii_dec c c); [exact IH | congruence].
Qed.

Lemma append_inv_head (p a b : string) : p ++ a = p ++ b -> a = b.
Proof. induction p; simpl; intros H; [exact H | injection H; auto]. Qed.

Lemma string_eqb_false (a b : string) : a <> b -> String.eqb a b = false.
Proof. intros H. apply String.eqb_neq. exact H. Qed.

Section DictFacts.
Context {V : Type}.
Implicit Types (d : list (string * V)) (k : string) (v : V).

Lemma dict_get_set_eq k v d : dict_get String.eqb k (dict_set String.eqb k v d) = Some v.
Proof.
  induction d as [|[k' v'] d IH]; simpl.
  - rewrite String.eqb_refl. reflexivity.
  - destruct (String.eqb k' k) eqn:E; simpl; rewrite E; auto.
Qed.

Lemma dict_get_set_ne k k' v d :
  k <> k' -> dict_get String.eqb k (dict_set String.eqb k' v d) = dict_get String.eqb k d.
Proof.
  intros Hne. induction d as [|[k0 v0] d IH]; simpl.
  - rewrite string_eqb_false by congruence. reflexivity.
  - destruct (String.eqb k0 k') eqn:E; simpl.
    + apply String.eqb_eq in E. subst k0.
      rewrite string_eqb_false by congruence. reflexivity.
    + destruct (String.eqb k0 k); auto.
Qed.

End DictFacts.

Lemma fm_get_set_eq k v m : fm_get k (fm_set k v m) = Some v.
Proof. apply dict_get_set_eq. Qed.

Lemma fm_get_set_ne k k' v m : k <> k' -> fm_get k (fm_set k' v m) = fm_get k m.
Proof. apply dict_get_set_ne. Qed.

Lemma frames_refl ps m : frames ps m m.
Proof. intros k _. reflexivity. Qed.

Lemma frames_trans ps m1 m2 m3 : frames ps m1 m2 -> frames ps m2 m3 -> frames ps m1 m3.
Proof. intros H12 H23 k Hk. rewrite H23, H12; auto. Qed.

Lemma frames_set ps k v m : touches ps k = true -> frames ps m (fm_set k v m).
Proof.
  intros Hk k' Hk'. apply fm_get_set_ne. intros ->. congruence.
Qed.

Lemma frames_set_after ps k v m m' :
  touches ps k = true -> frames ps m m' -> frames ps m (fm_set k v m').
Proof. intros Hk H. eapply frames_trans; [exact H | apply frames_set, Hk]. Qed.

Lemma touches_incl ps qs k :
  incl ps qs -> touches qs k = false -> touches ps k = false.
Proof.
  unfold touches. intros Hi Hq.
  destruct (existsb _ ps) eqn:E; [|reflexivity].
  apply existsb_exists in E. destruct E as (p & Hp & Hpk).
  assert (existsb (fun p => String.prefix p k) qs = true) as Habs.
  { apply existsb_exists. exists p. split; [apply Hi, Hp | exact Hpk]. }
  congruence.
Qed.

Lemma frames_incl ps qs m m' : incl ps qs -> frames ps m m' -> frames qs m m'.
Proof. intros Hi H k Hk. apply H. eapply touches_incl; eauto. Qed.


(** ** The extractor *)

Section ExtractorFacts.
Context {lib : PyLib}.

Lemma py_index_In {A : Type} (l : list A) (i : Z) (a : A) :
  py_index l i = Ok a -> In a l.
Proof.
  unfold py_index. intros H.
  destruct ((0 <=? i) && (i <? Z.of_nat (length l)));
    [|destruct ((- Z.of_nat (length l) <=? i) && (i <? 0)); [|discriminate]];
    apply of_option_Ok in H; apply list_elem_of_In; eapply list_elem_of_lookup_2; eauto.
Qed.

Lemma get_day_of_week_in_days (date_str timezone_str : json) (day : string) :
  get_day_of_week date_str timezone_str = Ok day -> In day days.
Proof.
  unfold get_day_of_week, try_except.
  match goal with |- match ?b with _ => _ end = _ -> _ => destruct b as [day'|e] eqn:E end;
    intros H; injection H as <-.
  - inv_bind E. inv_bind E. eapply py_index_In; eauto.
  - simpl; auto.
Qed.

Lemma get_day_of_week_fallback (date_str timezone_str : json) (e : exn) :
  parse_date date_str = Raise e -> get_day_of_week date_str timezone_str = Ok "Monday".
Proof.
  unfold get_day_of_week. intros H.
  destruct (py_in "T" date_str); simpl; [|reflexivity].
  rewrite H. reflexivity.
Qed.

Lemma get_day_of_week_returns (date_str timezone_str : json) :
  returns (get_day_of_week date_str timezone_str).
Proof. unfold get_day_of_week. apply try_except_returns. Qed.

(** C7. For every date string and every time zone string,
    [get_day_of_week] returns (no exception leaves it) one of the seven
    English weekday names, and it returns ['Monday'] whenever the date
    string cannot be parsed, that is whenever the parsing call the string
    selects raises. *)
Theorem get_day_of_week_weekday_name (date_str timezone_str : string) :
  exists day,
    get_day_of_week (JStr date_str) (JStr timezone_str) = Ok day
    /\ In day ["Monday"; "Tuesday"; "Wednesday"; "Thursday"; "Friday"; "Saturday"; "Sunday"]
    /\ (forall e, parse_date (JStr date_str) = Raise e -> day = "Monday").
Proof.
  destruct (get_day_of_week_returns (JStr date_str) (JStr timezone_str)) as [day Hday].
  exists day. split; [exact Hday|]. split.
  - eapply get_day_of_week_in_days; eauto.
  - intros e He. rewrite (get_day_of_week_fallback _ _ _ He) in Hday. congruence.
Qed.

(** *** Weather *)

Lemma is_fifty_float : is_fifty (JFloat (S754_finite false 7036874417766400 (-47))).
Proof. eexists. split; reflexivity. Qed.

(** The way [extract_weather_data] goes on a dictionary [wd] under
    ['Weather']. *)
Lemma extract_weather_data_dict d wd r :
  lookup_key "Weather" d = Some (JDict wd) ->
  extract_weather_data (JDict d) = Ok r ->
  let temp := default (JInt 0) (lookup_key "Temperature" wd) in
  let wind_v := default (JStr "Calm") (lookup_key "Wind" wd) in
  let humidity_v := default (JInt 50) (lookup_key "Humidity" wd) in
  let conditions_v := default (JStr "Clear") (lookup_key "Conditions" wd) in
  (if truthy temp
   then if is_string temp
        then exists f, py_float temp = Ok f /\ temperature r = JFloat f
        else temperature r = temp
   else temperature r = JInt 0)
  /\ wind r = (if truthy wind_v then wind_v else JStr "Calm")
  /\ match humidity_v with
     | JStr s => humidity r = JInt (humidity_of_text s)
     | _ => if truthy humidity_v
            then exists f, py_float humidity_v = Ok f /\ humidity r = JFloat f
            else humidity r = JInt 50
     end
  /\ conditions r = (if truthy conditions_v then conditions_v else JStr "Clear").
Proof.
  intros Hw H. unfold extract_weather_data in H. simpl in H.
  rewrite Hw in H. simpl in H.
  inv_bind H. rename a into t, Ha into Ht. inv_bind H. rename a into h, Ha into Hh.
  injection H as <-. simpl.
  repeat split.
  - destruct (truthy _); [destruct (is_string _)|].
    + inv_bind Ht. injection Ht as <-. eauto.
    + congruence.
    + congruence.
  - destruct (default (JInt 50) (lookup_key "Humidity" wd)) eqn:E;
      cbv beta iota zeta in Hh |- *;
      try congruence;
      (match type of Hh with
       | (if truthy ?v then _ else _) = _ => destruct (truthy v)
       end; [inv_bind Hh; injection Hh as <-; eauto | congruence]).
Qed.

Lemma humidity_of_text_cases (s : string) :
  let t := Str.lower s in
  let h := humidity_of_text s in
  (Str.contains "dry" t = true -> h = 25)
  /\ (Str.contains "dry" t = false -> Str.contains "low" t = true -> h = 35)
  /\ (Str.contains "dry" t = false -> Str.contains "low" t = false ->
      Str.contains "medium" t = true \/ Str.contains "med" t = true -> h = 60)
  /\ (Str.contains "dry" t = false -> Str.contains "low" t = false ->
      Str.contains "medium" t = false -> Str.contains "med" t = false ->
      Str.contains "high" t = true -> h = 80)
  /\ (Str.contains "dry" t = false -> Str.contains "low" t = false ->
      Str.contains "medium" t = false -> Str.contains "med" t = false ->
      Str.contains "high" t = false -> h = 50).
Proof.
  unfold humidity_of_text. cbv zeta.
  destruct (Str.contains "dry" _), (Str.contains "low" _),
    (Str.contains "medium" _), (Str.contains "med" _), (Str.contains "high" _);
    simpl; intuition congruence.
Qed.

(** C4. On an input dictionary whose ['Weather'] entry is absent or is
    not a dictionary, [extract_weather_data] returns temperature 0, wind
    ['Calm'], humidity 50 and conditions ['Clear']; on a ['Weather']
    dictionary that has none of the four sub-keys it returns the same
    values (the humidity as the float 50.0), and whenever it returns, each
    sub-key that is lacking has its default. When ['Humidity'] is a
    string, the call returns as soon as the temperature converts, and the
    humidity is 25 if the lower-cased string contains ['dry'], else 35 if
    ['low'], else 60 if ['medium'] or ['med'], else 80 if ['high'], else
    50. *)
Theorem extract_weather_data_defaults (d : list (string * json)) :
  ((lookup_key "Weather" d = None
    \/ exists w, lookup_key "Weather" d = Some w /\ is_dict w = false) ->
   extract_weather_data (JDict d)
   = Ok {| temperature := JInt 0; wind := JStr "Calm";
           humidity := JInt 50; conditions := JStr "Clear" |})
  /\ forall wd, lookup_key "Weather" d = Some (JDict wd) ->
     (lookup_key "Temperature" wd = None -> lookup_key "Wind" wd = None ->
      lookup_key "Humidity" wd = None -> lookup_key "Conditions" wd = None ->
      exists r, extract_weather_data (JDict d) = Ok r
        /\ temperature r = JInt 0 /\ wind r = JStr "Calm"
        /\ is_fifty (humidity r) /\ conditions r = JStr "Clear")
     /\ (forall r, extract_weather_data (JDict d) = Ok r ->
         (lookup_key "Temperature" wd = None -> temperature r = JInt 0)
         /\ (lookup_key "Wind" wd = None -> wind r = JStr "Calm")
         /\ (lookup_key "Humidity" wd = None -> is_fifty (humidity r))
         /\ (lookup_key "Conditions" wd = None -> conditions r = JStr "Clear"))
     /\ (forall s, lookup_key "Humidity" wd = Some (JStr s) ->
         ((forall t, lookup_key "Temperature" wd = Some (JStr t) ->
             t = "" \/ is_Some (float_of_str t)) ->
          returns (extract_weather_data (JDict d)))
         /\ forall r, extract_weather_data (JDict d) = Ok r ->
            exists h, humidity r = JInt h
              /\ let t := Str.lower s in
                 (Str.contains "dry" t = true -> h = 25)
                 /\ (Str.contains "dry" t = false -> Str.contains "low" t = true -> h = 35)
                 /\ (Str.contains "dry" t = false -> Str.contains "low" t = false ->
                     Str.contains "medium" t = true \/ Str.contains "med" t = true ->
                     h = 60)
                 /\ (Str.contains "dry" t = false -> Str.contains "low" t = false ->
                     Str.contains "medium" t = false -> Str.contains "med" t = false ->
                     Str.contains "high" t = true -> h = 80)
                 /\ (Str.contains "dry" t = false -> Str.contains "low" t = false ->
                     Str.contains "medium" t = false -> Str.contains "med" t = false ->
                     Str.contains "high" t = false -> h = 50)).
Proof.
  split.
  - intros [Hn | (w & Hw & Hd)]; unfold extract_weather_data; simpl; rewrite ?Hn, ?Hw; simpl.
    + reflexivity.
    + rewrite Hd. reflexivity.
  - intros wd Hw. split; [|split].
    + intros Ht Hwi Hh Hc.
      unfold extract_weather_data. simpl. rewrite Hw. simpl.
      rewrite Ht, Hwi, Hh, Hc. simpl.
      eexists. split; [reflexivity|]. simpl.
      repeat split; auto. apply is_fifty_float.
    + intros r Hr.
      pose proof (extract_weather_data_dict d wd r Hw Hr) as (Ht & Hwi & Hh & Hc).
      repeat split.
      * intros E. rewrite E in Ht. simpl in Ht. exact Ht.
      * intros E. rewrite E in Hwi. simpl in Hwi. exact Hwi.
      * intros E. rewrite E in Hh. simpl in Hh. destruct Hh as (f & Hf & ->).
        injection Hf as <-. apply is_fifty_float.
      * intros E. rewrite E in Hc. simpl in Hc. exact Hc.
    + intros s Hs. split.
      * intros Htemp.
        unfold extract_weather_data. simpl. rewrite Hw. simpl. rewrite Hs. simpl.
        destruct (lookup_key "Temperature" wd) as [tv|] eqn:Et; simpl; [|eauto].
        destruct (truthy tv) eqn:Etr; simpl; [|eauto].
        destruct tv; simpl; eauto.
        destruct (Htemp s0 eq_refl) as [-> | [f Hf]]; [discriminate|].
        rewrite Hf. simpl. eauto.
      * intros r Hr.
        pose proof (extract_weather_data_dict d wd r Hw Hr) as (_ & _ & Hh & _).
        rewrite Hs in Hh. simpl in Hh.
        exists (humidity_of_text s). split; [exact Hh|].
        apply humidity_of_text_cases.
Qed.

End ExtractorFacts.

(** ** The field mapping *)

Section FieldMappingFacts.
Context {lib : PyLib}.

Ltac frame_step :=
  first [ apply frames_refl
        | apply frames_set; reflexivity
        | apply frames_set_after; [reflexivity|] ].

Lemma fold_left_frames {A : Type} ps (f : field_map -> A -> field_map) (l : list A) m :
  (forall m a, frames ps m (f m a)) -> frames ps m (fold_left f l m).
Proof.
  intros Hf. revert m. induction l as [|a l IH]; intros m; simpl.
  - apply frames_refl.
  - eapply frames_trans; [apply Hf | apply IH].
Qed.

Lemma map_wind_frames w m m' : map_wind w m = Ok m' -> frames wind_names m m'.
Proof.
  unfold map_wind. intros H. inv_bind H.
  repeat match type of H with (if ?c then _ else _) = _ => destruct c end;
    injection H as <-; frame_step.
Qed.

Lemma map_humidity_frames w m m' : map_humidity w m = Ok m' -> frames humidity_names m m'.
Proof.
  unfold map_humidity. intros H.
  repeat (inv_bind H; match type of H with (if ?c then _ else _) = _ => destruct c end;
          [injection H as <-; frame_step|]).
  injection H as <-; frame_step.
Qed.

Lemma map_conditions_frames w m m' :
  map_conditions w m = Ok m' -> frames conditions_names m m'.
Proof.
  unfold map_conditions. intros H. inv_bind H.
  repeat match type of H with (if ?c then _ else _) = _ => destruct c end;
    injection H as <-; frame_step.
Qed.

Lemma contractor_cell_touches row cell :
  touches [contractor_prefix] (contractor_cell row cell) = true.
Proof. unfold touches, contractor_cell. simpl existsb. rewrite prefix_append. reflexivity. Qed.

Lemma contractor_rows_frames cts m row :
  frames [contractor_prefix] m (fst (fold_left contractor_row_step cts (m, row))).
Proof.
  revert m row. induction cts as [|[c h] cts IH]; intros m row; simpl.
  - apply frames_refl.
  - destruct (row <? 10)%nat.
    + eapply frames_trans; [|apply IH].
      apply frames_set_after; [apply contractor_cell_touches|].
      apply frames_set, contractor_cell_touches.
    + apply IH.
Qed.

Lemma trade_cell_touches col : touches trade_names (trade_cell col) = true.
Proof. unfold touches, trade_cell. simpl existsb. rewrite prefix_append. reflexivity. Qed.

Lemma trade_columns_Raise columns tts e :
  fold_left (trade_column_step columns) tts (Raise e) = Raise e.
Proof. induction tts; simpl; auto. Qed.

Lemma trade_columns_frames columns tts m m' :
  fold_left (trade_column_step columns) tts (Ok m) = Ok m' -> frames trade_names m m'.
Proof.
  revert m. induction tts as [|t tts IH]; intros m H; simpl in H.
  - injection H as <-. apply frames_refl.
  - destruct columns as [cols|]; simpl in H.
    + destruct (_ <=? 10).
      * destruct (py_format _) as [total|e]; cbn [bind] in H;
          [|rewrite trade_columns_Raise in H; discriminate].
        eapply frames_trans; [|eapply IH; exact H].
        apply frames_set, trade_cell_touches.
      * eapply IH; eauto.
    + rewrite trade_columns_Raise in H. discriminate.
Qed.

Lemma map_personnel_frames data m m' :
  map_personnel data m = Ok m' -> frames personnel_names m m'.
Proof.
  unfold map_personnel. intros H. inv_bind H. destruct a.
  - inv_bind H. destruct a; try (injection H as <-; apply frames_refl).
    inv_bind H. rename a into totals.
    pose proof (contractor_rows_frames (contractor_totals totals) m 0) as Hc.
    destruct (fold_left contractor_row_step _ _) as [m1 n]. simpl in Hc.
    eapply frames_trans.
    + eapply frames_incl; [|exact Hc]. intros x [<-|[]]; simpl; auto.
    + eapply frames_incl; [|eapply trade_columns_frames; eauto].
      intros x Hx. right. exact Hx.
  - injection H as <-; apply frames_refl.
Qed.

Lemma location_cell_touches i cell :
  touches work_item_names (location_cell i cell) = true.
Proof. unfold touches, location_cell. simpl existsb. rewrite prefix_append. reflexivity. Qed.

Lemma work_item_step_frames i item m m' :
  work_item_step i item m = Ok m' -> frames work_item_names m m'.
Proof.
  unfold work_item_step. intros H.
  destruct item; try (injection H as <-; apply frames_refl).
  destruct (i <? 20)%nat; [|injection H as <-; apply frames_refl].
  inv_bind H. inv_bind H. destruct a0 as [item_no description].
  inv_bind H as total Htotal. injection H as <-.
  repeat (apply frames_set_after; [apply location_cell_touches|]).
  apply frames_refl.
Qed.

Lemma work_items_loop_frames l i m m' :
  work_items_loop i l m = Ok m' -> frames work_item_names m m'.
Proof.
  revert i m. induction l as [|item l IH]; intros i m H; simpl in H.
  - injection H as <-. apply frames_refl.
  - inv_bind H. eapply frames_trans; [eapply work_item_step_frames; eauto | eauto].
Qed.

Lemma map_work_items_frames data m m' :
  map_work_items data m = Ok m' -> frames work_item_names m m'.
Proof.
  unfold map_work_items. intros H. inv_bind H. destruct a.
  - inv_bind H. destruct a; try (injection H as <-; apply frames_refl).
    eapply work_items_loop_frames; eauto.
  - injection H as <-; apply frames_refl.
Qed.

Lemma map_superintendent_frames data m m' :
  map_superintendent data m = Ok m' -> frames superintendent_names m m'.
Proof.
  unfold map_superintendent. intros H. inv_bind H.
  destruct (truthy a); injection H as <-; repeat frame_step.
Qed.

Lemma footer_cell_touches page_num name :
  touches closing_names (footer_cell page_num name) = true.
Proof. unfold touches, footer_cell. simpl existsb. rewrite prefix_append. reflexivity. Qed.

Lemma map_classification_frames cls m : frames closing_names m (map_classification cls m).
Proof.
  unfold map_classification. destruct (truthy cls); [|apply frames_refl].
  apply fold_left_frames. intros m0 a. apply frames_set, footer_cell_touches.
Qed.

Lemma map_remarks_frames data m m' : map_remarks data m = Ok m' -> frames closing_names m m'.
Proof.
  unfold map_remarks. intros H. inv_bind H.
  destruct (negb _); injection H as <-; frame_step.
Qed.

Lemma map_equipment_frames data m m' :
  map_equipment data m = Ok m' -> frames closing_names m m'.
Proof.
  unfold map_equipment. intros H. inv_bind H.
  destruct (negb _); injection H as <-; frame_step.
Qed.

Lemma map_footer_frames date cls m : frames closing_names m (map_footer date cls m).
Proof.
  unfold map_footer. apply fold_left_frames. intros m0 a. unfold footer_step.
  repeat (apply frames_set_after; [apply footer_cell_touches|]).
  apply frames_refl.
Qed.

(** The steps a returning call of [create_field_mapping] went through. *)
Lemma create_field_mapping_steps data m :
  create_field_mapping data = Ok m ->
  exists w m1 m5 m6 m7,
    extract_weather_data data = Ok w
    /\ map_temperature w [] = Ok m1
    /\ frames (wind_names ++ humidity_names ++ conditions_names)%list m1 m5
    /\ map_personnel data m5 = Ok m6
    /\ frames work_item_names m6 m7
    /\ exists m8, map_superintendent data m7 = Ok m8
    /\ frames after_superintendent m8 m.
Proof.
  unfold create_field_mapping. intros H.
  inv_bind H as work_date Hwd. inv_bind H as timezone Htz.
  inv_bind H as day_of_week Hday. inv_bind H as formatted_date Hdate.
  inv_bind H as w Hw.
  inv_bind H as m1 H1. inv_bind H as m2 H2. inv_bind H as m3 H3.
  inv_bind H as m4 H4. inv_bind H as m5 H5. inv_bind H as m6 H6.
  inv_bind H as m7 H7. inv_bind H as cls Hcls.
  inv_bind H as m9 H9. inv_bind H as m10 H10.
  injection H as <-.
  exists w, m1, m4, m5, m6. repeat split; auto.
  - eapply frames_trans; [|eapply frames_trans].
    + eapply frames_incl; [|eapply map_wind_frames; eauto].
      intros x Hx. apply in_or_app. auto.
    + eapply frames_incl; [|eapply map_humidity_frames; eauto].
      intros x Hx. apply in_or_app. right. apply in_or_app. auto.
    + eapply frames_incl; [|eapply map_conditions_frames; eauto].
      intros x Hx. apply in_or_app. right. apply in_or_app. auto.
  - eapply map_work_items_frames; eauto.
  - exists m7. split; auto. unfold after_superintendent.
    apply frames_set_after; [reflexivity|].
    eapply frames_trans; [|apply map_footer_frames].
    eapply frames_trans; [|eapply map_equipment_frames; eauto].
    eapply frames_trans; [|eapply map_remarks_frames; eauto].
    apply map_classification_frames.
Qed.

End FieldMappingFacts.

(** ** The temperature row *)

Module NumFacts.

Lemma Some_Lt_elim a b : Some (a ?= b) = Some Lt -> a < b.
Proof. intros H. apply Z.compare_lt_iff. congruence. Qed.

Lemma Some_Lt_intro a b : a < b -> Some (a ?= b) = Some Lt.
Proof. intros H. f_equal. apply Z.compare_lt_iff. exact H. Qed.

Lemma cmp_float_Z_Lt_mono f z z' :
  Num.cmp_float_Z f z = Some Lt -> z <= z' -> Num.cmp_float_Z f z' = Some Lt.
Proof.
  destruct f as [s|s| |s m e]; unfold Num.cmp_float_Z; intros H Hz.
  - apply Some_Lt_elim in H. apply Some_Lt_intro. lia.
  - exact H.
  - discriminate.
  - destruct (0 <=? e) eqn:E; apply Some_Lt_elim in H; apply Some_Lt_intro.
    + assert (0 < 2 ^ e) by (apply Z.pow_pos_nonneg; lia). nia.
    + assert (0 < 2 ^ (- e)) by (apply Z.pow_pos_nonneg; lia). nia.
Qed.

Lemma lt_Z_mono t z z' : Num.lt_Z t z = true -> z <= z' -> Num.lt_Z t z' = true.
Proof.
  unfold Num.lt_Z. destruct (Num.cmp_Z t z) as [[]|] eqn:E; try discriminate.
  intros _ Hz.
  assert (Num.cmp_Z t z' = Some Lt) as ->; [|reflexivity].
  destruct t as [a|f]; unfold Num.cmp_Z in *.
  - apply Some_Lt_elim in E. apply Some_Lt_intro. lia.
  - eapply cmp_float_Z_Lt_mono; eauto.
Qed.

Lemma lt_Z_not_ge_Z t z : Num.lt_Z t z = true -> Num.ge_Z t z = false.
Proof.
  unfold Num.lt_Z, Num.ge_Z. destruct (Num.cmp_Z t z) as [[]|]; congruence.
Qed.

Lemma lt_Z_not_ge_Z_mono t z z' :
  Num.lt_Z t z = true -> z <= z' -> Num.ge_Z t z' = false.
Proof. intros H Hz. apply lt_Z_not_ge_Z. eapply lt_Z_mono; eauto. Qed.

End NumFacts.

Section TemperatureRow.
Context {lib : PyLib}.

Lemma extract_weather_data_temperature data w :
  extract_weather_data data = Ok w -> is_string (temperature w) = false.
Proof.
  unfold extract_weather_data. intros H. inv_bind H.
  destruct a; [|injection H as <-; reflexivity].
  inv_bind H. destruct (is_dict a); [|injection H as <-; reflexivity].
  inv_bind H as temp Htemp. inv_bind H as t Ht.
  inv_bind H. inv_bind H. inv_bind H. inv_bind H.
  injection H as <-. simpl.
  destruct (truthy temp); [|injection Ht as <-; reflexivity].
  destruct (is_string temp) eqn:E; [|congruence].
  inv_bind Ht. injection Ht as <-. reflexivity.
Qed.

Lemma map_temperature_band w m m' :
  is_string (temperature w) = false ->
  map_temperature w m = Ok m' ->
  exists t, as_number (temperature w) = Some t
    /\ m' = fm_set (temperature_cell (temperature_band t)) (JStr "/Yes") m.
Proof.
  unfold map_temperature. intros Hs H. rewrite Hs in H. simpl in H.
  unfold py_ge in H.
  destruct (as_number (temperature w)) as [t|]; [|discriminate].
  exists t. split; [reflexivity|]. simpl in H.
  unfold temperature_band.
  destruct (Num.ge_Z t 83); [injection H as <-; reflexivity|].
  destruct (Num.ge_Z t 70); [injection H as <-; reflexivity|].
  destruct (Num.ge_Z t 50); [injection H as <-; reflexivity|].
  destruct (Num.ge_Z t 32); injection H as <-; reflexivity.
Qed.

Lemma temperature_band_range t : (1 <= temperature_band t <= 5)%nat.
Proof.
  unfold temperature_band.
  repeat match goal with |- context [if ?c then _ else _] => destruct c end; lia.
Qed.

Lemma temperature_cell_alone i j m :
  (1 <= i <= 5)%nat -> (1 <= j <= 5)%nat ->
  (forall k, (1 <= k <= 5)%nat -> fm_get (temperature_cell k) m = None) ->
  fm_get (temperature_cell j) (fm_set (temperature_cell i) (JStr "/Yes") m)
  = if (j =? i)%nat then Some (JStr "/Yes") else None.
Proof.
  intros Hi Hj Hm.
  destruct (Nat.eqb_spec j i) as [->|Hne].
  - apply fm_get_set_eq.
  - rewrite fm_get_set_ne; [apply Hm, Hj|].
    assert (i = 1 \/ i = 2 \/ i = 3 \/ i = 4 \/ i = 5)%nat as Hi' by lia.
    assert (j = 1 \/ j = 2 \/ j = 3 \/ j = 4 \/ j = 5)%nat as Hj' by lia.
    clear Hm.
    repeat (destruct Hi' as [->|Hi']); try subst i;
      repeat (destruct Hj' as [->|Hj']); try subst j;
      try lia; vm_compute; discriminate.
Qed.

Lemma temperature_cell_framed j :
  (1 <= j <= 5)%nat ->
  touches after_temperature (temperature_cell j) = false
  /\ touches superintendent_names (temperature_cell j) = false.
Proof.
  intros Hj.
  assert (j = 1 \/ j = 2 \/ j = 3 \/ j = 4 \/ j = 5)%nat as Hj' by lia.
  repeat (destruct Hj' as [->|Hj']); try subst j; split; vm_compute; reflexivity.
Qed.

(** Every block after the temperature block leaves the names outside
    [after_temperature] alone. *)
Lemma create_field_mapping_after_temperature data m :
  create_field_mapping data = Ok m ->
  exists w m1,
    extract_weather_data data = Ok w
    /\ map_temperature w [] = Ok m1
    /\ frames after_temperature m1 m.
Proof.
  intros H. apply create_field_mapping_steps in H.
  destruct H as (w & m1 & m5 & m6 & m7 & Hw & H1 & H5 & H6 & H7 & m8 & H8 & Hm).
  exists w, m1. repeat split; auto.
  unfold after_temperature, after_personnel.
  eapply frames_trans; [eapply frames_incl; [|exact H5]|].
  { intros x Hx. rewrite !in_app_iff in *. tauto. }
  eapply frames_trans; [eapply frames_incl; [|eapply map_personnel_frames; exact H6]|].
  { intros x Hx. rewrite !in_app_iff in *. tauto. }
  eapply frames_trans; [eapply frames_incl; [|exact H7]|].
  { intros x Hx. rewrite !in_app_iff in *. tauto. }
  eapply frames_trans; [eapply frames_incl; [|eapply map_superintendent_frames; exact H8]|].
  { intros x Hx. rewrite !in_app_iff in *. tauto. }
  eapply frames_incl; [|exact Hm].
  intros x Hx. rewrite !in_app_iff in *. tauto.
Qed.

(** C1. When [create_field_mapping] returns on an input dictionary, the
    extracted temperature [t] is a number and exactly one of the five
    cells [Row2[0].Cell1[0]] to [Row2[0].Cell5[0]] is in the mapping, with
    the value ['/Yes']: cell 1 if [t >= 83], cell 2 if [70 <= t < 83],
    cell 3 if [50 <= t < 70], cell 4 if [32 <= t < 50] and cell 5 if
    [t < 32]. (The five conditions cover every number; for the [NaN]
    that [json.loads] accepts none of them holds, and the chain ends in
    cell 5.) *)
Theorem create_field_mapping_temperature_cell (d : list (string * json)) (m : field_map) :
  create_field_mapping (JDict d) = Ok m ->
  exists w t i,
    extract_weather_data (JDict d) = Ok w
    /\ as_number (temperature w) = Some t
    /\ (1 <= i <= 5)%nat
    /\ (forall j, (1 <= j <= 5)%nat ->
        fm_get (temperature_cell j) m
        = if (j =? i)%nat then Some (JStr "/Yes") else None)
    /\ (Num.ge_Z t 83 = true -> i = 1%nat)
    /\ (Num.ge_Z t 70 = true -> Num.lt_Z t 83 = true -> i = 2%nat)
    /\ (Num.ge_Z t 50 = true -> Num.lt_Z t 70 = true -> i = 3%nat)
    /\ (Num.ge_Z t 32 = true -> Num.lt_Z t 50 = true -> i = 4%nat)
    /\ (Num.lt_Z t 32 = true -> i = 5%nat).
Proof.
  intros H.
  destruct (create_field_mapping_after_temperature _ _ H) as (w & m1 & Hw & H1 & Hm).
  pose proof (extract_weather_data_temperature _ _ Hw) as Hs.
  destruct (map_temperature_band _ _ _ Hs H1) as (t & Ht & ->).
  exists w, t, (temperature_band t).
  split; [exact Hw|]. split; [exact Ht|].
  split; [apply temperature_band_range|].
  split.
  { intros j Hj. rewrite Hm by (apply temperature_cell_framed, Hj).
    apply temperature_cell_alone; auto using temperature_band_range. }
  unfold temperature_band.
  repeat split.
  - intros ->. reflexivity.
  - intros H70 H83. rewrite (NumFacts.lt_Z_not_ge_Z _ _ H83), H70. reflexivity.
  - intros H50 H70.
    rewrite (NumFacts.lt_Z_not_ge_Z_mono t 70 83 H70), (NumFacts.lt_Z_not_ge_Z _ _ H70), H50
      by lia.
    reflexivity.
  - intros H32 H50.
    rewrite (NumFacts.lt_Z_not_ge_Z_mono t 50 83 H50), (NumFacts.lt_Z_not_ge_Z_mono t 50 70 H50),
      (NumFacts.lt_Z_not_ge_Z _ _ H50), H32 by lia.
    reflexivity.
  - intros H32.
    rewrite (NumFacts.lt_Z_not_ge_Z_mono t 32 83 H32), (NumFacts.lt_Z_not_ge_Z_mono t 32 70 H32),
      (NumFacts.lt_Z_not_ge_Z_mono t 32 50 H32), (NumFacts.lt_Z_not_ge_Z _ _ H32) by lia.
    reflexivity.
Qed.

End TemperatureRow.

(** ** The supervisor check boxes *)

Section Superintendent.
Context {lib : PyLib}.

Lemma trade_has_superintendent_falsy trade :
  truthy trade = false -> trade_has_superintendent trade = false.
Proof.
  unfold trade_has_superintendent.
  destruct trade as [ | | | |s|l|d]; simpl; try reflexivity.
  - destruct s; [reflexivity | discriminate].
  - destruct l; [reflexivity | discriminate].
  - destruct d; [reflexivity | discriminate].
Qed.

Lemma superintendent_loop_truthy personnel name :
  superintendent_loop personnel = Ok name ->
  truthy name = existsb is_named_superintendent personnel.
Proof.
  induction personnel as [|person rest IH]; simpl; intros H.
  - injection H as <-. reflexivity.
  - destruct person as [ | | | | | |d]; simpl; auto.
    unfold trade_has_superintendent.
    destruct (truthy (default (JStr "") (lookup_key "Trade" d))) eqn:Et.
    + inv_bind H as has Hhas. rewrite Hhas.
      destruct (has && truthy _) eqn:E.
      * injection H as <-. apply andb_prop in E. destruct E as [_ E]. rewrite E. reflexivity.
      * simpl. auto.
    + pose proof (trade_has_superintendent_falsy _ Et) as Hf.
      unfold trade_has_superintendent in Hf. rewrite Hf. simpl. auto.
Qed.

Lemma extract_superintendent_name_truthy d name :
  extract_superintendent_name (JDict d) = Ok name ->
  truthy name = has_named_superintendent (JDict d).
Proof.
  unfold extract_superintendent_name, has_named_superintendent, personnel_of.
  simpl. intros H.
  destruct (lookup_key "Personnel" d) as [personnel|]; simpl in H.
  - destruct personnel; try (injection H as <-; reflexivity).
    apply superintendent_loop_truthy, H.
  - injection H as <-; reflexivity.
Qed.

(** C9. When [create_field_mapping] returns on an input dictionary, the
    mapping has both [PhotoYes[0]] and [PhotoNo[0]], with complementary
    boolean values: [PhotoYes] is [True] and [PhotoNo] is [False] exactly
    when some entry of the ['Personnel'] list has a ['Trade'] containing
    ['Superintendent'] and a non-empty ['Name'], and [PhotoYes] is [False]
    and [PhotoNo] is [True] otherwise. *)
Theorem create_field_mapping_supervisor_present (d : list (string * json)) (m : field_map) :
  create_field_mapping (JDict d) = Ok m ->
  fm_get "form1[0].Page1[0].TableSub1[0].Table1[0].PersGroup[0].PhotoYes[0]" m
  = Some (JBool (has_named_superintendent (JDict d)))
  /\ fm_get "form1[0].Page1[0].TableSub1[0].Table1[0].PersGroup[0].PhotoNo[0]" m
     = Some (JBool (negb (has_named_superintendent (JDict d)))).
Proof.
  intros H. apply create_field_mapping_steps in H.
  destruct H as (w & m1 & m5 & m6 & m7 & _ & _ & _ & _ & _ & m8 & H8 & Hm).
  rewrite !Hm by reflexivity.
  unfold map_superintendent in H8. inv_bind H8 as name Hname.
  rewrite <- (extract_superintendent_name_truthy _ _ Hname).
  destruct (truthy name); injection H8 as <-; split.
  - rewrite fm_get_set_ne by (vm_compute; discriminate). apply fm_get_set_eq.
  - apply fm_get_set_eq.
  - rewrite fm_get_set_ne by (vm_compute; discriminate). apply fm_get_set_eq.
  - apply fm_get_set_eq.
Qed.

End Superintendent.

(** ** The contractor table *)

Section ContractorTable.
Context {lib : PyLib}.

Lemma prefix_comparable p q k :
  String.prefix p k = true -> String.prefix q k = true ->
  String.prefix p q = true \/ String.prefix q p = true.
Proof.
  revert q k. induction p as [|a p IH]; intros q k Hp Hq; [left; destruct q; reflexivity|].
  destruct q as [|b q]; [right; reflexivity|].
  destruct k as [|c k]; [discriminate|].
  simpl in *.
  destruct (Ascii.ascii_dec a c) as [->|]; [|discriminate].
  destruct (Ascii.ascii_dec b c) as [->|]; [|discriminate].
  destruct (Ascii.ascii_dec c c); [|congruence].
  eauto.
Qed.

(** A name under a prefix none of [qs] is comparable with is outside the
    family [qs]. *)
Lemma touches_disjoint p qs k :
  String.prefix p k = true ->
  forallb (fun q => negb (String.prefix p q) && negb (String.prefix q p)) qs = true ->
  touches qs k = false.
Proof.
  intros Hp Hqs. unfold touches.
  destruct (existsb _ qs) eqn:E; [|reflexivity].
  apply existsb_exists in E. destruct E as (q & Hq & Hqk).
  rewrite forallb_forall in Hqs. specialize (Hqs q Hq).
  destruct (prefix_comparable p q k Hp Hqk) as [H|H]; rewrite H in Hqs;
    simpl in Hqs; try discriminate.
  rewrite andb_false_r in Hqs. discriminate.
Qed.

Lemma digit_cases (r : nat) :
  (r < 10)%nat ->
  r = 0%nat \/ r = 1%nat \/ r = 2%nat \/ r = 3%nat \/ r = 4%nat \/ r = 5%nat
  \/ r = 6%nat \/ r = 7%nat \/ r = 8%nat \/ r = 9%nat.
Proof. lia. Qed.

Lemma contractor_cell_inj r r' c c' :
  (r < 10)%nat -> (r' < 10)%nat ->
  (c = "1" \/ c = "2") -> (c' = "1" \/ c' = "2") ->
  contractor_cell r c = contractor_cell r' c' -> r = r' /\ c = c'.
Proof.
  intros Hr Hr' Hc Hc' H. unfold contractor_cell in H.
  apply append_inv_head in H.
  apply digit_cases in Hr. apply digit_cases in Hr'.
  destruct Hc as [-> | ->], Hc' as [-> | ->];
    repeat (destruct Hr as [->|Hr]); try subst r;
    repeat (destruct Hr' as [->|Hr']); try subst r';
    first [ split; reflexivity | vm_compute in H; discriminate ].
Qed.

(** *** The totals of the personnel loop *)

Lemma key_dict_mem (c : json) (cts : list (json * Z)) :
  dict_mem key_eqb c cts = existsb (fun s => key_eqb s c) (map fst cts).
Proof.
  unfold dict_mem. induction cts as [|[k v] cts IH]; simpl; [reflexivity|].
  destruct (key_eqb k c); simpl; [reflexivity | exact IH].
Qed.

Lemma key_dict_set_fresh (c : json) (v : Z) (cts : list (json * Z)) :
  dict_mem key_eqb c cts = false -> dict_set key_eqb c v cts = (cts ++ [(c, v)])%list.
Proof.
  unfold dict_mem. induction cts as [|[k0 v0] cts IH]; simpl; [reflexivity|].
  destruct (key_eqb k0 c); [discriminate|]. intros H. rewrite IH; auto.
Qed.

Lemma personnel_step_contractors st person st' cs :
  personnel_step st person = Ok st' ->
  contractor_totals st = map eight cs ->
  contractor_totals st'
  = map eight (match contractor_of person with
               | Some c => add_contractor cs c
               | None => cs
               end).
Proof.
  unfold personnel_step, contractor_of. intros H Hcs.
  destruct person as [ | | | | | |d]; try (injection H as <-; exact Hcs).
  cbv zeta in *.
  destruct (truthy (default (JStr "") (lookup_key "Contractor" d))); simpl in H;
    [|injection H as <-; exact Hcs].
  inv_bind H as known Hknown. inv_bind H as trade Htrade.
  inv_bind H as count Hcount. inv_bind H as current Hcurrent.
  inv_bind H as total Htotal. injection H as <-. simpl.
  destruct (hashable _); [|discriminate]. injection Hknown as <-.
  rewrite key_dict_mem, Hcs. unfold add_contractor.
  replace (map fst (map eight cs)) with cs
    by (rewrite map_map; simpl; symmetry; apply map_id).
  destruct (existsb _ cs) eqn:E; [reflexivity|].
  rewrite key_dict_set_fresh.
  - rewrite map_app. reflexivity.
  - rewrite key_dict_mem. rewrite map_map. simpl. rewrite map_id. exact E.
Qed.

Lemma personnel_loop_contractors l st st' cs :
  personnel_loop st l = Ok st' ->
  contractor_totals st = map eight cs ->
  contractor_totals st' = map eight (fold_left add_contractor (omap contractor_of l) cs).
Proof.
  revert st cs. induction l as [|person l IH]; intros st cs H Hcs; simpl in H.
  - injection H as <-. exact Hcs.
  - inv_bind H as st1 Hst1.
    pose proof (personnel_step_contractors _ _ _ _ Hst1 Hcs) as H1.
    simpl. destruct (contractor_of person) as [c|]; simpl; eapply IH; eauto.
Qed.

(** *** The rows written from the totals *)

Lemma contractor_rows_high cts m row :
  (10 <= row)%nat -> fold_left contractor_row_step cts (m, row) = (m, row).
Proof.
  intros Hrow. induction cts as [|[c h] cts IH]; simpl; [reflexivity|].
  destruct (Nat.ltb_spec row 10); [lia | exact IH].
Qed.

Lemma contractor_rows_other cts m row k :
  (forall i, (i < length cts)%nat -> (row + i < 10)%nat ->
             k <> contractor_cell (row + i) "1" /\ k <> contractor_cell (row + i) "2") ->
  fm_get k (fst (fold_left contractor_row_step cts (m, row))) = fm_get k m.
Proof.
  revert m row. induction cts as [|[c h] cts IH]; intros m row Hk; simpl; [reflexivity|].
  destruct (Nat.ltb_spec row 10) as [Hlt|Hge].
  - rewrite IH.
    + destruct (Hk 0%nat) as [H1 H2]; simpl; try lia.
      rewrite Nat.add_0_r in H1, H2.
      rewrite !fm_get_set_ne by auto. reflexivity.
    + intros i Hi Hrow. replace (S row + i)%nat with (row + S i)%nat by lia.
      apply Hk; simpl; lia.
  - rewrite contractor_rows_high by lia. reflexivity.
Qed.

Lemma contractor_rows_get cts m row i c h :
  cts !! i = Some (c, h) -> (row + i < 10)%nat ->
  let m' := fst (fold_left contractor_row_step cts (m, row)) in
  fm_get (contractor_cell (row + i) "1") m' = Some c
  /\ fm_get (contractor_cell (row + i) "2") m' = Some (JStr (Str.of_Z h)).
Proof.
  revert m row i. induction cts as [|[c0 h0] cts IH]; intros m row i Hi Hrow;
    [discriminate|].
  simpl. destruct (Nat.ltb_spec row 10) as [Hlt|Hge]; [|lia].
  destruct i as [|i]; simpl in Hi.
  - injection Hi as -> ->. rewrite Nat.add_0_r.
    rewrite !contractor_rows_other.
    + rewrite fm_get_set_ne, !fm_get_set_eq; [auto|].
      intros E. apply contractor_cell_inj in E; auto. destruct E; discriminate.
    + intros j Hj Hrowj. split; intros E; apply contractor_cell_inj in E; auto; lia.
    + intros j Hj Hrowj. split; intros E; apply contractor_cell_inj in E; auto; lia.
  - replace (row + S i)%nat with (S row + i)%nat by lia.
    apply IH; [exact Hi | lia].
Qed.

Lemma lookup_map_eight cs r c : cs !! r = Some c -> map eight cs !! r = Some (c, 8).
Proof. intros H. rewrite list_lookup_fmap, H. reflexivity. Qed.

(** The part of [map_personnel] that concerns the contractor table. *)
Lemma map_personnel_rows d m m' :
  map_personnel (JDict d) m = Ok m' ->
  let cs := distinct_contractors (personnel_of (JDict d)) in
  (forall r c, cs !! r = Some c -> (r < 10)%nat ->
     fm_get (contractor_cell r "1") m' = Some c
     /\ fm_get (contractor_cell r "2") m' = Some (JStr "8"))
  /\ (forall k, String.prefix contractor_prefix k = true ->
      (forall r, (r < length cs)%nat -> (r < 10)%nat ->
         k <> contractor_cell r "1" /\ k <> contractor_cell r "2") ->
      fm_get k m' = fm_get k m).
Proof.
  unfold map_personnel, personnel_of. simpl. intros H.
  destruct (lookup_key "Personnel" d) as [personnel|]; simpl in H;
    [|injection H as <-; split; [intros r c Hr; destruct r; discriminate | reflexivity]].
  destruct personnel as [ | | | | |l| ];
    try (injection H as <-; split; [intros r c Hr; destruct r; discriminate | reflexivity]).
  inv_bind H as totals Htotals.
  pose proof (personnel_loop_contractors l _ totals [] Htotals eq_refl) as Hcts.
  fold (distinct_contractors l) in Hcts.
  set (cs := distinct_contractors l) in *.
  pose proof (contractor_rows_get (contractor_totals totals) m 0) as Hget.
  pose proof (contractor_rows_other (contractor_totals totals) m 0) as Hother.
  destruct (fold_left contractor_row_step _ _) as [m1 n]. simpl in Hget, Hother.
  apply trade_columns_frames in H.
  split.
  - intros r c Hr Hlt.
    rewrite !H by (apply (touches_disjoint contractor_prefix);
                   [apply prefix_append | reflexivity]).
    apply (Hget r c 8); [|exact Hlt].
    rewrite Hcts. apply lookup_map_eight, Hr.
  - intros k Hk Hne.
    rewrite H by (apply (touches_disjoint contractor_prefix); [exact Hk | reflexivity]).
    apply Hother. intros i Hi Hlt. apply Hne; [|exact Hlt].
    rewrite Hcts, length_map in Hi. exact Hi.
Qed.

(** *** The distinct contractors and the entries *)

Lemma SFeqb_refl f : f <> S754_nan -> SFeqb f f = true.
Proof.
  unfold SFeqb. destruct f as [s|s| |s m e]; simpl; try congruence; intros _.
  - destruct s; reflexivity.
  - destruct s; rewrite Z.compare_refl, Pos.compare_cont_refl; reflexivity.
Qed.

Lemma key_eqb_refl c : hashable c = true -> key_eqb c c = true.
Proof.
  destruct c as [ |b|z|f|s|l|d]; simpl; try discriminate; intros _; try reflexivity.
  - apply Z.eqb_refl.
  - apply Z.eqb_refl.
  - destruct f as [s|s| |s m e]; try reflexivity;
      apply SFeqb_refl; discriminate.
  - apply String.eqb_refl.
Qed.

Lemma add_contractor_keeps seen c x : In x seen -> In x (add_contractor seen c).
Proof.
  unfold add_contractor. destruct (existsb _ seen); [auto|].
  intros H. apply in_or_app. auto.
Qed.

Lemma fold_add_contractor_keeps cs seen x :
  In x seen -> In x (fold_left add_contractor cs seen).
Proof.
  revert seen. induction cs as [|c cs IH]; intros seen H; simpl; [exact H|].
  apply IH, add_contractor_keeps, H.
Qed.

Lemma add_contractor_has seen c :
  key_eqb c c = true -> exists c', In c' (add_contractor seen c) /\ key_eqb c' c = true.
Proof.
  intros Hrefl. unfold add_contractor.
  destruct (existsb _ seen) eqn:E.
  - apply existsb_exists in E. destruct E as (c' & Hin & Heq). eauto.
  - exists c. split; [apply in_or_app; right; left; reflexivity | exact Hrefl].
Qed.

Lemma personnel_step_hashable st person st' c :
  personnel_step st person = Ok st' -> contractor_of person = Some c -> hashable c = true.
Proof.
  unfold personnel_step, contractor_of.
  destruct person as [ | | | | | |d]; try discriminate.
  cbv zeta. destruct (truthy (default (JStr "") (lookup_key "Contractor" d)));
    [|discriminate].
  cbn [negb]. intros H Hc. injection Hc as <-.
  inv_bind H as known Hknown.
  destruct (hashable _); [reflexivity | discriminate].
Qed.

Lemma personnel_loop_covers l st st' seen person c :
  personnel_loop st l = Ok st' ->
  In person l -> contractor_of person = Some c ->
  exists c', In c' (fold_left add_contractor (omap contractor_of l) seen)
    /\ key_eqb c' c = true.
Proof.
  revert st seen. induction l as [|p l IH]; intros st seen H Hin Hc; [destruct Hin|].
  simpl in H. inv_bind H as st1 Hst1.
  destruct Hin as [->|Hin].
  - simpl. rewrite Hc. simpl.
    pose proof (personnel_step_hashable _ _ _ _ Hst1 Hc) as Hh.
    destruct (add_contractor_has seen c (key_eqb_refl c Hh)) as (c' & Hc' & Heq).
    exists c'. split; [apply fold_add_contractor_keeps, Hc' | exact Heq].
  - simpl. destruct (contractor_of p); simpl; eapply IH; eauto.
Qed.

Lemma fold_add_contractor_from l seen c :
  In c (fold_left add_contractor l seen) -> In c seen \/ In c l.
Proof.
  revert seen. induction l as [|x l IH]; intros seen H; simpl in H; [auto|].
  destruct (IH _ H) as [Hs|Hl]; [|right; right; exact Hl].
  unfold add_contractor in Hs. destruct (existsb _ seen); [auto|].
  apply in_app_or in Hs. destruct Hs as [Hs|[<-|[]]]; [auto | right; left; reflexivity].
Qed.

Lemma distinct_contractors_from l c :
  In c (distinct_contractors l) ->
  exists person, In person l /\ contractor_of person = Some c.
Proof.
  unfold distinct_contractors. intros H.
  apply fold_add_contractor_from in H. destruct H as [[]|H].
  apply list_elem_of_In, list_elem_of_omap in H.
  destruct H as (person & Hin & Hc). exists person.
  split; [apply list_elem_of_In, Hin | exact Hc].
Qed.

(** A contractor that joins the list is equal to none of the earlier
    ones. *)
Lemma fold_add_contractor_distinct l seen :
  (forall r r' c c', seen !! r = Some c -> seen !! r' = Some c' -> (r < r')%nat ->
                     key_eqb c c' = false) ->
  forall r r' c c',
    fold_left add_contractor l seen !! r = Some c ->
    fold_left add_contractor l seen !! r' = Some c' -> (r < r')%nat ->
    key_eqb c c' = false.
Proof.
  revert seen. induction l as [|x l IH]; intros seen Hseen; simpl; [exact Hseen|].
  apply IH. unfold add_contractor.
  destruct (existsb (fun s => key_eqb s x) seen) eqn:E; [exact Hseen|].
  intros r r' c c' Hr Hr' Hlt.
  assert (r < length seen)%nat as Hrlt.
  { apply lookup_lt_Some in Hr'. rewrite length_app in Hr'. simpl in Hr'. lia. }
  rewrite lookup_app_l in Hr by exact Hrlt.
  destruct (decide (r' < length seen)%nat) as [Hin|Hout].
  - rewrite lookup_app_l in Hr' by exact Hin. eapply Hseen; eauto.
  - rewrite lookup_app_r in Hr' by lia.
    destruct (r' - length seen)%nat as [|n] eqn:En; simpl in Hr'; [|destruct n; discriminate].
    injection Hr' as <-.
    destruct (key_eqb c x) eqn:Ecx; [|reflexivity].
    assert (existsb (fun s => key_eqb s x) seen = true) as Habs; [|congruence].
    apply existsb_exists. exists c. split; [|exact Ecx].
    apply list_elem_of_In. eapply list_elem_of_lookup_2; eauto.
Qed.

Lemma map_personnel_loop d m m' :
  map_personnel (JDict d) m = Ok m' ->
  exists totals,
    personnel_loop {| contractor_totals := []; trade_totals := [];
                      trade_column_mapping := None |} (personnel_of (JDict d))
    = Ok totals.
Proof.
  unfold map_personnel, personnel_of. simpl. intros H.
  destruct (lookup_key "Personnel" d) as [personnel|]; simpl in H; [|simpl; eauto].
  destruct personnel as [ | | | | |l| ]; simpl; eauto.
  inv_bind H as totals Htotals. eauto.
Qed.

(** C8. When [create_field_mapping] returns, row [r] of the contractor
    table holds the [r]-th distinct contractor of the personnel list (the
    contractors of the entries with a non-empty ['Contractor'], in the
    order of their first entry) in [Cell1] and the constant string ['8']
    in [Cell2], whatever the ['Count'] of the entries; only the first 10
    distinct contractors have a row, and the mapping has no other name of
    the contractor table. The distinct contractors are contractors of
    entries, every entry with a non-empty ['Contractor'] has its contractor
    among them (up to the equality of dictionary keys), and no two of them
    are equal. *)
Theorem create_field_mapping_contractor_hours (d : list (string * json)) (m : field_map) :
  create_field_mapping (JDict d) = Ok m ->
  let cs := distinct_contractors (personnel_of (JDict d)) in
  (forall r c, cs !! r = Some c -> (r < 10)%nat ->
     fm_get (contractor_cell r "1") m = Some c
     /\ fm_get (contractor_cell r "2") m = Some (JStr "8"))
  /\ (forall k, String.prefix contractor_prefix k = true -> is_Some (fm_get k m) ->
      exists r, (r < 10)%nat /\ (r < length cs)%nat
        /\ (k = contractor_cell r "1" \/ k = contractor_cell r "2"))
  /\ (forall r c, cs !! r = Some c ->
      exists person, In person (personnel_of (JDict d)) /\ contractor_of person = Some c)
  /\ (forall person c, In person (personnel_of (JDict d)) ->
      contractor_of person = Some c ->
      exists r c', cs !! r = Some c' /\ key_eqb c' c = true)
  /\ (forall r r' c c', cs !! r = Some c -> cs !! r' = Some c' -> (r < r')%nat ->
      key_eqb c c' = false).
Proof.
  intros H cs. apply create_field_mapping_steps in H.
  destruct H as (w & m1 & m5 & m6 & m7 & Hw & H1 & H5 & H6 & H7 & m8 & H8 & Hm).
  pose proof (map_personnel_rows d m5 m6 H6) as [Hrows Hrest]. fold cs in Hrows, Hrest.
  apply map_superintendent_frames in H8.
  assert (forall k, String.prefix contractor_prefix k = true -> fm_get k m = fm_get k m6)
    as Hlater.
  { intros k Hk.
    rewrite Hm, H8, H7
      by (apply (touches_disjoint contractor_prefix); [exact Hk | reflexivity]).
    reflexivity. }
  assert (forall k, String.prefix contractor_prefix k = true -> fm_get k m5 = None)
    as Hbefore.
  { intros k Hk.
    rewrite H5
      by (apply (touches_disjoint contractor_prefix); [exact Hk | reflexivity]).
    pose proof (extract_weather_data_temperature _ _ Hw) as Hs.
    destruct (map_temperature_band _ _ _ Hs H1) as (t & _ & ->).
    apply fm_get_set_ne. intros ->.
    pose proof (temperature_band_range t) as Hb.
    assert (forall j, (1 <= j <= 5)%nat ->
              String.prefix contractor_prefix (temperature_cell j) = false) as Hj.
    { intros j Hj.
      assert (j = 1 \/ j = 2 \/ j = 3 \/ j = 4 \/ j = 5)%nat as Hj' by lia.
      repeat (destruct Hj' as [->|Hj']); try subst j; reflexivity. }
    rewrite Hj in Hk by exact Hb. discriminate. }
  split; [|split; [|split; [|split]]].
  - intros r c Hr Hlt. rewrite !Hlater by apply prefix_append. apply Hrows; auto.
  - intros k Hk Hsome. rewrite Hlater in Hsome by exact Hk.
    set (n := Nat.min 10 (length cs)).
    destruct (existsb (fun r => String.eqb k (contractor_cell r "1")
                                || String.eqb k (contractor_cell r "2")) (seq 0 n)) eqn:E.
    + apply existsb_exists in E. destruct E as (r & Hr & Hkr).
      apply in_seq in Hr. exists r. split; [lia|]. split; [lia|].
      apply orb_prop in Hkr. destruct Hkr as [Hkr|Hkr]; apply String.eqb_eq in Hkr; auto.
    + exfalso. rewrite Hrest, Hbefore in Hsome; auto.
      * destruct Hsome; discriminate.
      * intros r Hr Hlt.
        assert (In r (seq 0 n)) as Hin by (apply in_seq; lia).
        assert ((String.eqb k (contractor_cell r "1")
                 || String.eqb k (contractor_cell r "2")) = false) as Hf.
        { destruct (_ || _) eqn:E'; [|reflexivity].
          assert (existsb (fun r => String.eqb k (contractor_cell r "1")
                                    || String.eqb k (contractor_cell r "2")) (seq 0 n) = true)
            as Ht by (apply existsb_exists; eauto).
          congruence. }
        apply orb_false_elim in Hf. destruct Hf as [Hf1 Hf2].
        apply String.eqb_neq in Hf1, Hf2. auto.
  - intros r c Hr. apply distinct_contractors_from, list_elem_of_In.
    eapply list_elem_of_lookup_2; eauto.
  - intros person c Hin Hc.
    destruct (map_personnel_loop d m5 m6 H6) as [totals Htotals].
    destruct (personnel_loop_covers _ _ _ [] person c Htotals Hin Hc) as (c' & Hc' & Heq).
    apply list_elem_of_In, list_elem_of_lookup_1 in Hc'. destruct Hc' as [r Hr].
    exists r, c'. auto.
  - apply fold_add_contractor_distinct. intros r r' c c' Hr. destruct r; discriminate.
Qed.

End ContractorTable.

(** ** The form filler *)

Section FormFillerFacts.
Context {lib : PyLib} {pdflib : PdfLib}.

(** *** What the two passes leave alone *)

Lemma fill_annotation_other field_name value a :
  title_is a field_name = false -> fill_annotation field_name value a = a.
Proof.
  unfold title_is, fill_annotation.
  destruct (ad_get "/T" a) as [t|]; [|reflexivity].
  destruct (ad_get "/FT" a); [|reflexivity].
  intros ->. reflexivity.
Qed.

Lemma fill_annots_other field_name value annots objects objects' :
  fill_annots field_name value annots objects = Ok objects' ->
  length objects' = length objects
  /\ forall i a, objects !! i = Some a -> title_is a field_name = false ->
                 objects' !! i = Some a.
Proof.
  revert objects. induction annots as [|annot rest IH]; intros objects H; simpl in H.
  - injection H as <-. auto.
  - inv_bind H as annot_obj Hobj. apply of_option_Ok in Hobj.
    destruct (IH _ H) as [Hlen Hkeep]. split.
    + rewrite Hlen. apply length_insert.
    + intros i a Hi Ha. apply Hkeep; [|exact Ha].
      destruct (decide (annot = i)) as [->|Hne].
      * rewrite Hi in Hobj. injection Hobj as <-.
        rewrite fill_annotation_other by exact Ha.
        rewrite list_insert_id; auto.
      * rewrite list_lookup_insert_ne; auto.
Qed.

Lemma fill_pages_other field_name value pages objects objects' :
  fill_pages field_name value pages objects = Ok objects' ->
  length objects' = length objects
  /\ forall i a, objects !! i = Some a -> title_is a field_name = false ->
                 objects' !! i = Some a.
Proof.
  revert objects. induction pages as [|pg rest IH]; intros objects H; simpl in H.
  - injection H as <-. auto.
  - inv_bind H as objects1 H1.
    destruct (IH _ H) as [Hlen Hkeep].
    destruct (pg_annots pg) as [annots|].
    + destruct (fill_annots_other _ _ _ _ _ H1) as [Hlen1 Hkeep1].
      split; [congruence | eauto].
    + injection H1 as <-. auto.
Qed.

Lemma fill_fields_other items pages objects objects' :
  fill_fields items pages objects = Ok objects' ->
  length objects' = length objects
  /\ forall i a, objects !! i = Some a -> names_field items a = false ->
                 objects' !! i = Some a.
Proof.
  revert objects. induction items as [|[field_name value] rest IH]; intros objects H;
    simpl in H.
  - injection H as <-. auto.
  - inv_bind H as objects1 H1.
    destruct (IH _ H) as [Hlen Hkeep].
    assert (length objects1 = length objects
            /\ forall i a, objects !! i = Some a -> title_is a field_name = false ->
                           objects1 !! i = Some a) as [Hlen1 Hkeep1].
    { destruct (String.eqb field_name "day_of_week").
      - injection H1 as <-. auto.
      - eapply fill_pages_other; eauto. }
    split; [congruence|].
    intros i a Hi Hn. simpl in Hn. apply orb_false_elim in Hn. destruct Hn as [Hn1 Hn2].
    apply Hkeep; auto.
Qed.

Lemma day_annotation_other day_of_week target a counters counters' a' :
  day_annotation day_of_week target a counters = (counters', Ok a') ->
  is_day_button a = false -> a' = a.
Proof.
  unfold day_annotation, is_day_button.
  destruct (ad_get "/T" a) as [t|]; [|congruence].
  destruct (ad_get "/FT" a) as [ft|]; [|congruence].
  destruct (pdf_eq_str ft "/Btn"); [|congruence].
  destruct (pdf_contains "Day" t) as [[]|]; simpl; congruence.
Qed.

Lemma day_annots_other day_of_week target annots objects counters counters' objects' :
  day_annots day_of_week target annots objects counters = (counters', Ok objects') ->
  length objects' = length objects
  /\ forall i a, objects !! i = Some a -> is_day_button a = false ->
                 objects' !! i = Some a.
Proof.
  revert objects counters.
  induction annots as [|annot rest IH]; intros objects counters H; simpl in H.
  - injection H as _ <-. auto.
  - destruct (objects !! annot) as [annot_obj|] eqn:Hobj; [|discriminate].
    destruct (day_annotation _ _ _ _) as [counters1 [annot_obj'|e]] eqn:Hday;
      [|discriminate].
    destruct (IH _ _ H) as [Hlen Hkeep]. split.
    + rewrite Hlen. apply length_insert.
    + intros i a Hi Ha. apply Hkeep; [|exact Ha].
      destruct (decide (annot = i)) as [->|Hne].
      * rewrite Hi in Hobj. injection Hobj as <-.
        rewrite (day_annotation_other _ _ _ _ _ _ Hday Ha).
        rewrite list_insert_id; auto.
      * rewrite list_lookup_insert_ne; auto.
Qed.

Lemma day_pages_other day_of_week target pages objects counters counters' objects' :
  day_pages day_of_week target pages objects counters = (counters', Ok objects') ->
  length objects' = length objects
  /\ forall i a, objects !! i = Some a -> is_day_button a = false ->
                 objects' !! i = Some a.
Proof.
  revert objects counters.
  induction pages as [|pg rest IH]; intros objects counters H; simpl in H.
  - injection H as _ <-. auto.
  - destruct (pg_annots pg) as [annots|].
    + destruct (day_annots _ _ _ _ _) as [counters1 [objects1|e]] eqn:H1; [|discriminate].
      destruct (day_annots_other _ _ _ _ _ _ _ H1) as [Hlen1 Hkeep1].
      destruct (IH _ _ H) as [Hlen Hkeep].
      split; [congruence | eauto].
    + eapply IH; eauto.
Qed.

(** C2. On a call without photos that returns, [fill_pdf_form] has opened
    the template, and the document it saves has the pages of the template
    and as many objects; every annotation object of the template whose
    ['/T'] title is no key of the field mapping, and that is not a button
    whose title contains ['Day'], is the same in the saved document. So
    only annotations named by a key of the mapping and the day-of-week
    buttons are modified. *)
Theorem fill_pdf_form_frame (self : converter) (field_mapping : field_map)
    (uploaded_photos : option (list photo)) (bytes : string) :
  uploaded_photos = None \/ uploaded_photos = Some [] ->
  snd (fill_pdf_form self field_mapping uploaded_photos) = Ok bytes ->
  exists doc objects',
    pdf_open (odot_template_path self) = Some doc
    /\ bytes = pdf_save {| pdf_objects := objects'; pdf_pages := pdf_pages doc |}
    /\ length objects' = length (pdf_objects doc)
    /\ forall i a, pdf_objects doc !! i = Some a ->
         names_field field_mapping a = false ->
         is_day_button a = false ->
         objects' !! i = Some a.
Proof.
  intros Hphotos H. unfold fill_pdf_form in H.
  destruct (pdf_open (odot_template_path self)) as [doc|]; [|discriminate].
  destruct (fill_fields _ _ _) as [objects1|] eqn:H1; [|discriminate].
  destruct (target_appearance_of _) as [target|]; [|discriminate].
  destruct (day_pages _ _ _ _ _) as [counters [objects2|e]] eqn:H2; [|discriminate].
  simpl in H.
  assert (bytes = pdf_save {| pdf_objects := objects2; pdf_pages := pdf_pages doc |}) as ->.
  { destruct Hphotos as [-> | ->]; simpl in H; congruence. }
  destruct (fill_fields_other _ _ _ _ H1) as [Hlen1 Hkeep1].
  destruct (day_pages_other _ _ _ _ _ _ _ H2) as [Hlen2 Hkeep2].
  exists doc, objects2. repeat split; [congruence|].
  intros i a Hi Hn Hd. auto.
Qed.

(** *** The state of the converter object *)

Lemma fill_pdf_form_path self field_mapping uploaded_photos :
  odot_template_path (fst (fill_pdf_form self field_mapping uploaded_photos))
  = odot_template_path self.
Proof.
  unfold fill_pdf_form.
  destruct (pdf_open _); [|reflexivity].
  destruct (fill_fields _ _ _); [|reflexivity].
  destruct (target_appearance_of _); [|reflexivity].
  destruct (day_pages _ _ _ _ _). reflexivity.
Qed.

Lemma fill_pdf_form_counters self counters field_mapping uploaded_photos :
  fill_pdf_form {| odot_template_path := odot_template_path self;
                   _radio_button_counters := counters |} field_mapping uploaded_photos
  = fill_pdf_form self field_mapping uploaded_photos.
Proof. reflexivity. Qed.

Lemma convert_path self data uploaded_photos :
  odot_template_path (fst (convert self data uploaded_photos)) = odot_template_path self.
Proof.
  unfold convert. destruct (create_field_mapping data); [|reflexivity].
  apply fill_pdf_form_path.
Qed.

Lemma after_calls_path self calls :
  odot_template_path (after_calls self calls) = odot_template_path self.
Proof.
  revert self. induction calls as [|[data photos] rest IH]; intros self; simpl.
  - reflexivity.
  - rewrite IH. apply convert_path.
Qed.

Lemma convert_same_template self1 self2 data uploaded_photos :
  odot_template_path self1 = odot_template_path self2 ->
  snd (convert self1 data uploaded_photos) = snd (convert self2 data uploaded_photos).
Proof.
  intros Hpath. unfold convert.
  destruct (create_field_mapping data); [|reflexivity].
  rewrite <- (fill_pdf_form_counters self1 (_radio_button_counters self2)).
  rewrite Hpath. destruct self2. reflexivity.
Qed.

(** The objects the day-of-week pass makes do not depend on the counters
    it starts with. *)
Lemma day_annotation_result day target a counters counters' :
  snd (day_annotation day target a counters) = snd (day_annotation day target a counters').
Proof.
  unfold day_annotation.
  destruct (ad_get "/T" a) as [t|]; [|reflexivity].
  destruct (ad_get "/FT" a) as [ft|]; [|reflexivity].
  destruct (pdf_eq_str ft "/Btn"); [|reflexivity].
  destruct (pdf_contains "Day" t) as [[|]|]; try reflexivity.
  destruct (day_in_title day t) as [[|]|]; reflexivity.
Qed.

Lemma day_annots_result day target annots objects counters counters' :
  snd (day_annots day target annots objects counters)
  = snd (day_annots day target annots objects counters').
Proof.
  revert objects counters counters'.
  induction annots as [|annot rest IH]; intros objects counters counters';
    cbn [day_annots]; [reflexivity|].
  destruct (objects !! annot) as [a|]; [|reflexivity].
  pose proof (day_annotation_result day target a counters counters') as Ha.
  destruct (day_annotation day target a counters) as [c1 r1].
  destruct (day_annotation day target a counters') as [c2 r2].
  cbn [snd] in Ha. subst r2. destruct r1 as [a'|e]; [apply IH | reflexivity].
Qed.

Lemma day_pages_result day target pages objects counters counters' :
  snd (day_pages day target pages objects counters)
  = snd (day_pages day target pages objects counters').
Proof.
  revert objects counters counters'.
  induction pages as [|pg rest IH]; intros objects counters counters';
    cbn [day_pages]; [reflexivity|].
  destruct (pg_annots pg) as [annots|]; [|apply IH].
  pose proof (day_annots_result day target annots objects counters counters') as Ha.
  destruct (day_annots day target annots objects counters) as [c1 r1].
  destruct (day_annots day target annots objects counters') as [c2 r2].
  cbn [snd] in Ha. subst r2. destruct r1 as [objects'|e]; [apply IH | reflexivity].
Qed.

(** A conversion at two moments saves one document. *)
Lemma convert_saved self1 self2 data uploaded_photos (save' : pdf -> string) :
  odot_template_path self1 = odot_template_path self2 ->
  exists outcome : result pdf,
    snd (convert self1 data uploaded_photos) = saved pdf_save outcome
    /\ snd (@convert lib (with_save save') self2 data uploaded_photos)
       = saved save' outcome.
Proof.
  intros Hpath. unfold convert.
  destruct (create_field_mapping data) as [field_mapping|e];
    [|exists (Raise e); split; reflexivity].
  unfold fill_pdf_form. cbn [pdf_open pdf_save with_save]. rewrite <- Hpath.
  destruct (pdf_open (odot_template_path self1)) as [doc|];
    [|exists (Raise OSError); split; reflexivity].
  destruct (fill_fields _ _ _) as [objects1|e]; [|exists (Raise e); split; reflexivity].
  destruct (target_appearance_of _) as [target|e]; [|exists (Raise e); split; reflexivity].
  destruct (day_pages _ _ _ _ _) as [counters [objects2|e]]; cbn [snd bind];
    [|exists (Raise e); split; reflexivity].
  destruct uploaded_photos as [[|p rest]|];
    try (eexists (Ok _); split; reflexivity).
  exists (_embed_images_in_pdf {| pdf_objects := objects2; pdf_pages := pdf_pages doc |}
            (p :: rest)).
  change (@_embed_images_in_pdf (with_save save')) with (@_embed_images_in_pdf pdflib).
  destruct (_embed_images_in_pdf _ _); split; reflexivity.
Qed.

(** C5, as the code has it. Two conversions of the same JSON input, the
    same photos and the same template save the same document, whatever
    calls were made before on the converter object: at one moment of saving
    they return the same bytes (or raise the same exception), and at two
    moments they return what [pdf.save] writes of one document at each of
    them, which differs where pikepdf stamps the file (its [/ID]). The
    [_radio_button_counters] the object carries have no influence: a call
    of [fill_pdf_form] starts by emptying them, and the objects the
    day-of-week pass makes are the same from any counters. *)
Theorem convert_independent_of_history (self : converter)
    (calls : list (json * option (list photo))) (data : json)
    (uploaded_photos : option (list photo)) (save' : pdf -> string) :
  snd (convert (after_calls self calls) data uploaded_photos)
  = snd (convert self data uploaded_photos)
  /\ (exists outcome : result pdf,
        snd (convert self data uploaded_photos) = saved pdf_save outcome
        /\ snd (@convert lib (with_save save') (after_calls self calls) data uploaded_photos)
           = saved save' outcome)
  /\ (forall counters field_mapping,
        fill_pdf_form {| odot_template_path := odot_template_path self;
                         _radio_button_counters := counters |}
          field_mapping uploaded_photos
        = fill_pdf_form self field_mapping uploaded_photos)
  /\ forall day target pages objects counters,
       snd (day_pages day target pages objects counters)
       = snd (day_pages day target pages objects ∅).
Proof.
  split; [|split; [|split]].
  - apply convert_same_template, after_calls_path.
  - apply convert_saved. symmetry. apply after_calls_path.
  - intros counters field_mapping. apply fill_pdf_form_counters.
  - intros day target pages objects counters. apply day_pages_result.
Qed.

(** *** Photos *)

Lemma embed_loop_take uploaded_photos i target_page :
  embed_loop i uploaded_photos target_page
  = embed_loop i (take (6 - i) uploaded_photos) target_page.
Proof.
  revert i target_page.
  induction uploaded_photos as [|p rest IH]; intros i target_page.
  - rewrite take_nil. reflexivity.
  - cbn [embed_loop]. destruct (Nat.leb_spec 6 i) as [Hge|Hlt].
    + replace (6 - i)%nat with 0%nat by lia. reflexivity.
    + replace (6 - i)%nat with (S (6 - S i)) by lia. cbn [firstn embed_loop].
      destruct (Nat.leb_spec 6 i); [lia|].
      destruct (embed_photo i p target_page); apply IH.
Qed.

Lemma embed_images_take doc uploaded_photos :
  _embed_images_in_pdf doc uploaded_photos
  = _embed_images_in_pdf doc (take 6 uploaded_photos).
Proof.
  destruct uploaded_photos as [|p rest]; [reflexivity|].
  unfold _embed_images_in_pdf. cbn [firstn].
  destruct (py_index (pdf_pages doc) 3) as [target_page|]; [|reflexivity].
  cbn [bind].
  rewrite (embed_loop_take (p :: rest) 0 target_page). reflexivity.
Qed.

Lemma embed_images_returns doc uploaded_photos :
  (4 <= length (pdf_pages doc))%nat -> returns (_embed_images_in_pdf doc uploaded_photos).
Proof.
  intros Hlen. destruct uploaded_photos as [|p rest]; [apply returns_Ok|].
  unfold _embed_images_in_pdf, py_index.
  destruct (Z.leb_spec 0 3); [|lia].
  destruct (Z.ltb_spec 3 (Z.of_nat (length (pdf_pages doc)))); [|lia].
  simpl.
  destruct (lookup_lt_is_Some_2 (pdf_pages doc) 3) as [pg Hpg]; [lia|].
  change (Z.to_nat 3) with 3%nat. rewrite Hpg. simpl. apply returns_Ok.
Qed.

(** C10. [_embed_images_in_pdf] works on the first 6 photos only: the
    photos from index 6 on change neither the document nor what
    [fill_pdf_form] returns. A photo whose processing raises is passed
    over and the loop goes on with the next one, so that on a template
    with a fourth page [_embed_images_in_pdf] returns whatever the photos
    are, and [fill_pdf_form] returns bytes with the photos whenever it
    does without them. *)
Theorem embed_images_first_six (self : converter) (field_mapping : field_map)
    (uploaded_photos : list photo) :
  fill_pdf_form self field_mapping (Some uploaded_photos)
  = fill_pdf_form self field_mapping (Some (take 6 uploaded_photos))
  /\ (forall doc,
        _embed_images_in_pdf doc uploaded_photos
        = _embed_images_in_pdf doc (take 6 uploaded_photos))
  /\ (forall i p rest target_page e,
        (i < 6)%nat -> embed_photo i p target_page = Raise e ->
        embed_loop i (p :: rest) target_page = embed_loop (S i) rest target_page)
  /\ (forall doc, (4 <= length (pdf_pages doc))%nat ->
        returns (_embed_images_in_pdf doc uploaded_photos))
  /\ (forall doc, pdf_open (odot_template_path self) = Some doc ->
        (4 <= length (pdf_pages doc))%nat ->
        returns (snd (fill_pdf_form self field_mapping None)) ->
        returns (snd (fill_pdf_form self field_mapping (Some uploaded_photos)))).
Proof.
  split; [|split; [|split; [|split]]].
  - unfold fill_pdf_form.
    destruct (pdf_open _) as [doc|]; [|reflexivity].
    destruct (fill_fields _ _ _); [|reflexivity].
    destruct (target_appearance_of _); [|reflexivity].
    destruct (day_pages _ _ _ _ _) as [counters [objects|e]]; [|reflexivity].
    f_equal. simpl.
    destruct uploaded_photos as [|p rest]; [reflexivity|].
    cbn [firstn]. cbv beta iota.
    rewrite (embed_images_take _ (p :: rest)). reflexivity.
  - intros doc. apply embed_images_take.
  - intros i p rest target_page e Hi He. cbn [embed_loop].
    destruct (Nat.leb_spec 6 i); [lia|]. rewrite He. reflexivity.
  - intros doc. apply embed_images_returns.
  - intros doc Hopen Hlen. unfold fill_pdf_form. rewrite Hopen.
    destruct (fill_fields _ _ _); [|auto].
    destruct (target_appearance_of _); [|auto].
    destruct (day_pages _ _ _ _ _) as [counters [objects|e]]; simpl; [|auto].
    intros _.
    destruct uploaded_photos as [|p rest]; [apply returns_Ok|].
    destruct (embed_images_returns
                {| pdf_objects := objects; pdf_pages := pdf_pages doc |} (p :: rest) Hlen)
      as [doc' Hdoc'].
    rewrite Hdoc'. apply returns_Ok.
Qed.

End FormFillerFacts.

(** ** Keys without a field in the template *)

Section UnmatchedKeys.
Context {lib : PyLib} {pdflib : PdfLib}.

Lemma ad_get_set_other k k' v a : k <> k' -> ad_get k (ad_set k' v a) = ad_get k a.
Proof. apply dict_get_set_ne. Qed.

Lemma fields_of_set k v a : k <> "/T" -> k <> "/FT" -> fields_of (ad_set k v a) = fields_of a.
Proof.
  intros H1 H2. unfold fields_of. rewrite !ad_get_set_other by congruence. reflexivity.
Qed.

Ltac fields_step := rewrite ?fields_of_set by discriminate; reflexivity.

Lemma fill_annotation_fields field_name value a :
  fields_of (fill_annotation field_name value a) = fields_of a.
Proof.
  unfold fill_annotation.
  repeat match goal with
         | |- context [match ?x with _ => _ end] => destruct x
         end; fields_step.
Qed.

Lemma day_annotation_fields day_of_week target a counters counters' a' :
  day_annotation day_of_week target a counters = (counters', Ok a') ->
  fields_of a' = fields_of a.
Proof.
  unfold day_annotation. intros H.
  repeat match type of H with
         | context [match ?x with _ => _ end] => destruct x
         end; try discriminate; injection H as _ <-; fields_step.
Qed.

Lemma title_is_fields a b k : fields_of a = fields_of b -> title_is a k = title_is b k.
Proof. unfold fields_of, title_is. intros H. injection H as -> _. reflexivity. Qed.

Lemma button_title_fields a b :
  fields_of a = fields_of b -> button_title_is_text a = button_title_is_text b.
Proof.
  unfold fields_of, button_title_is_text. intros H. injection H as -> ->. reflexivity.
Qed.

Lemma fields_forallb (P : annotation -> bool) objects objects' :
  (forall a b, fields_of a = fields_of b -> P a = P b) ->
  map fields_of objects' = map fields_of objects ->
  forallb P objects' = forallb P objects.
Proof.
  intros HP. revert objects'.
  induction objects as [|a l IH]; intros [|b l'] H; try discriminate; [reflexivity|].
  pose proof (f_equal (hd (fields_of a)) H) as Hab.
  pose proof (f_equal (@tl _) H) as Hl. cbn [map hd tl] in Hab, Hl.
  simpl. rewrite (HP b a Hab), (IH _ Hl). reflexivity.
Qed.

Lemma fields_insert objects i a a' :
  objects !! i = Some a -> fields_of a' = fields_of a ->
  map fields_of (<[i := a']> objects) = map fields_of objects.
Proof.
  intros Hi Ha.
  change (fields_of <$> <[i:=a']> objects = fields_of <$> objects).
  rewrite list_fmap_insert, Ha. apply list_insert_id.
  rewrite list_lookup_fmap, Hi. reflexivity.
Qed.

Lemma map_fields_length objects objects' :
  map fields_of objects' = map fields_of objects -> length objects' = length objects.
Proof. intros H. apply (f_equal length) in H. rewrite !length_map in H. exact H. Qed.

(** *** The field pass returns and keeps titles and types *)

Lemma fill_annots_total field_name value annots objects :
  resolve_in (length objects) annots = true ->
  exists objects', fill_annots field_name value annots objects = Ok objects'
    /\ map fields_of objects' = map fields_of objects.
Proof.
  revert objects. induction annots as [|annot rest IH]; intros objects Hres; simpl.
  - eauto.
  - simpl in Hres. apply andb_prop in Hres. destruct Hres as [Hlt Hres].
    apply Nat.ltb_lt in Hlt.
    destruct (lookup_lt_is_Some_2 objects annot Hlt) as [a Ha].
    rewrite Ha. simpl.
    pose proof (fields_insert objects annot a (fill_annotation field_name value a) Ha
                  (fill_annotation_fields _ _ _)) as Hf.
    destruct (IH (<[annot := fill_annotation field_name value a]> objects))
      as (objects' & Hfill & Hfields).
    { rewrite length_insert. exact Hres. }
    exists objects'. split; [exact Hfill | congruence].
Qed.

Lemma fill_pages_total field_name value pages objects :
  pages_resolve (length objects) pages = true ->
  exists objects', fill_pages field_name value pages objects = Ok objects'
    /\ map fields_of objects' = map fields_of objects.
Proof.
  revert objects. induction pages as [|pg rest IH]; intros objects Hres; simpl.
  - eauto.
  - simpl in Hres. apply andb_prop in Hres. destruct Hres as [Hpg Hres].
    assert (exists objects1,
               match pg_annots pg with
               | Some annots => fill_annots field_name value annots objects
               | None => Ok objects
               end = Ok objects1
               /\ map fields_of objects1 = map fields_of objects)
      as (objects1 & H1 & Hf1).
    { destruct (pg_annots pg); [apply fill_annots_total, Hpg | eauto]. }
    rewrite H1. simpl.
    destruct (IH objects1) as (objects' & H' & Hf').
    { rewrite (map_fields_length _ _ Hf1). exact Hres. }
    exists objects'. split; [exact H' | congruence].
Qed.

Lemma fill_fields_total items pages objects :
  pages_resolve (length objects) pages = true ->
  exists objects', fill_fields items pages objects = Ok objects'
    /\ map fields_of objects' = map fields_of objects.
Proof.
  revert objects. induction items as [|[field_name value] rest IH]; intros objects Hres;
    simpl.
  - eauto.
  - assert (exists objects1,
               (if String.eqb field_name "day_of_week" then Ok objects
                else fill_pages field_name value pages objects) = Ok objects1
               /\ map fields_of objects1 = map fields_of objects)
      as (objects1 & H1 & Hf1).
    { destruct (String.eqb _ _); [eauto | apply fill_pages_total, Hres]. }
    rewrite H1. simpl.
    destruct (IH objects1) as (objects' & H' & Hf').
    { rewrite (map_fields_length _ _ Hf1). exact Hres. }
    exists objects'. split; [exact H' | congruence].
Qed.

(** *** A key without a field is passed over *)





(** *** The day-of-week pass returns *)

Lemma day_annotation_total day target a counters :
  button_title_is_text a = true ->
  exists counters' a',
    day_annotation (JStr day) target a counters = (counters', Ok a').
Proof.
  unfold button_title_is_text, day_annotation.
  destruct (ad_get "/T" a) as [t|]; [|eauto].
  destruct (ad_get "/FT" a) as [ft|]; [|eauto].
  destruct (pdf_eq_str ft "/Btn"); simpl; [|eauto].
  intros Ht. destruct t; try discriminate; simpl;
    repeat match goal with
           | |- context [if ?c then _ else _] => destruct c
           end; eauto.
Qed.

Lemma day_annots_total day target annots objects counters :
  resolve_in (length objects) annots = true ->
  forallb button_title_is_text objects = true ->
  exists counters' objects',
    day_annots (JStr day) target annots objects counters = (counters', Ok objects')
    /\ map fields_of objects' = map fields_of objects.
Proof.
  revert objects counters.
  induction annots as [|annot rest IH]; intros objects counters Hres Htext; simpl.
  - eauto.
  - simpl in Hres. apply andb_prop in Hres. destruct Hres as [Hlt Hres].
    apply Nat.ltb_lt in Hlt.
    destruct (lookup_lt_is_Some_2 objects annot Hlt) as [a Ha].
    rewrite Ha.
    assert (button_title_is_text a = true) as Hta.
    { rewrite forallb_forall in Htext. apply Htext, list_elem_of_In.
      eapply list_elem_of_lookup_2; eauto. }
    destruct (day_annotation_total day target a counters Hta) as (counters1 & a' & Hday).
    rewrite Hday.
    pose proof (fields_insert objects annot a a' Ha (day_annotation_fields _ _ _ _ _ _ Hday))
      as Hf.
    destruct (IH (<[annot := a']> objects) counters1) as (counters' & objects' & H' & Hf').
    { rewrite length_insert. exact Hres. }
    { rewrite (fields_forallb _ objects); auto. apply button_title_fields. }
    exists counters', objects'. split; [exact H' | congruence].
Qed.

Lemma day_pages_total day target pages objects counters :
  pages_resolve (length objects) pages = true ->
  forallb button_title_is_text objects = true ->
  exists counters' objects',
    day_pages (JStr day) target pages objects counters = (counters', Ok objects').
Proof.
  revert objects counters.
  induction pages as [|pg rest IH]; intros objects counters Hres Htext; simpl.
  - eauto.
  - simpl in Hres. apply andb_prop in Hres. destruct Hres as [Hpg Hres].
    destruct (pg_annots pg) as [annots|].
    + destruct (day_annots_total day target annots objects counters Hpg Htext)
        as (counters1 & objects1 & H1 & Hf1).
      rewrite H1. apply IH.
      * rewrite (map_fields_length _ _ Hf1). exact Hres.
      * rewrite (fields_forallb _ objects); auto. apply button_title_fields.
    + apply IH; auto.
Qed.


End UnmatchedKeys.

(** ** Entries on which the steps of [create_field_mapping] return *)

Section WellShaped.
Context {lib : PyLib}.

Lemma py_in_dict k d :
  py_in k (JDict d) = Ok (match lookup_key k d with Some _ => true | None => false end).
Proof. unfold py_in. destruct (lookup_key k d); reflexivity. Qed.

Lemma py_getitem_dict k d v : lookup_key k d = Some v -> py_getitem (JDict d) k = Ok v.
Proof. unfold py_getitem. intros ->. reflexivity. Qed.

Lemma text_or_empty_cases v :
  text_or_empty v = true -> (exists s, v = JStr s) \/ truthy v = false.
Proof.
  unfold text_or_empty. intros H. apply orb_prop in H. destruct H as [H|H].
  - left. destruct v; try discriminate. eauto.
  - right. apply negb_true_iff, H.
Qed.

(** *** Weather *)

Lemma extract_weather_data_shape d :
  entry_ok weather_ok (lookup_key "Weather" d) = true ->
  exists w, extract_weather_data (JDict d) = Ok w
    /\ is_number (temperature w) = true
    /\ is_string (wind w) = true
    /\ is_number (humidity w) = true
    /\ is_string (conditions w) = true.
Proof.
  intros Hok. unfold extract_weather_data. rewrite py_in_dict.
  destruct (lookup_key "Weather" d) as [weather|] eqn:Ew; cbn [bind];
    [|eexists; split; [reflexivity | repeat split]].
  rewrite (py_getitem_dict _ _ _ Ew). cbn [bind].
  destruct weather as [ | | | | | |wd]; cbn [is_dict];
    try (eexists; split; [reflexivity | repeat split]).
  cbn [entry_ok weather_ok] in Hok.
  apply andb_prop in Hok. destruct Hok as [Hok Hc].
  apply andb_prop in Hok. destruct Hok as [Hok Hh].
  apply andb_prop in Hok. destruct Hok as [Ht Hw].
  cbn [py_get bind].
  set (temp := default (JInt 0) (lookup_key "Temperature" wd)) in *.
  set (wind_v := default (JStr "Calm") (lookup_key "Wind" wd)) in *.
  set (humidity_v := default (JInt 50) (lookup_key "Humidity" wd)) in *.
  set (conditions_v := default (JStr "Clear") (lookup_key "Conditions" wd)) in *.
  match goal with
  | |- exists w, bind ?e _ = _ /\ _ =>
      assert (exists t', e = Ok t' /\ is_number t' = true) as (t' & -> & Ht')
  end.
  { cbn [temperature].
    destruct (truthy temp) eqn:Etr; [|eauto].
    destruct temp as [ | | | |s| | ]; cbn [is_string]; simpl in Ht;
      try discriminate; eauto;
      try (simpl in Etr; rewrite Etr in Ht; discriminate).
    simpl in Etr. apply negb_true_iff in Etr. rewrite Etr in Ht. simpl in Ht.
    cbn [py_float]. destruct (float_of_str s); [|discriminate]. simpl. eauto. }
  cbn [bind].
  match goal with
  | |- exists w, bind ?e _ = _ /\ _ =>
      assert (exists h', e = Ok h' /\ is_number h' = true) as (h' & -> & Hh')
  end.
  { unfold humidity_ok in Hh. clearbody humidity_v.
    destruct humidity_v; try (eexists; split; reflexivity);
      cbv beta iota in Hh |- *;
      match goal with
      | |- context [truthy ?v] => destruct (truthy v) eqn:Etr; [|eauto]
      end;
      cbn [negb orb] in Hh;
      match type of Hh with
      | context [py_float ?v] => destruct (py_float v); [|discriminate]
      end;
      cbn [bind]; eauto. }
  cbn [bind].
  eexists. split; [reflexivity|]. cbn [temperature wind humidity conditions].
  repeat split; auto.
  - destruct (text_or_empty_cases _ Hw) as [[s ->] | ->]; [|reflexivity].
    destruct (truthy (JStr s)); reflexivity.
  - destruct (text_or_empty_cases _ Hc) as [[s ->] | ->]; [|reflexivity].
    destruct (truthy (JStr s)); reflexivity.
Qed.

Lemma is_number_not_string v : is_number v = true -> is_string v = false.
Proof. unfold is_number. destruct v; simpl; intros H; try reflexivity; discriminate. Qed.

Lemma map_temperature_returns w m :
  is_number (temperature w) = true -> returns (map_temperature w m).
Proof.
  intros Hn. unfold map_temperature, py_ge.
  rewrite (is_number_not_string _ Hn). cbn [bind].
  unfold is_number in Hn. destruct (as_number (temperature w)); [|discriminate].
  cbn [bind].
  repeat match goal with
         | |- context [if ?c then _ else _] => destruct c; [apply returns_Ok|]
         end.
  apply returns_Ok.
Qed.

Lemma map_humidity_returns w m :
  is_number (humidity w) = true -> returns (map_humidity w m).
Proof.
  intros Hn. unfold map_humidity, py_ge.
  unfold is_number in Hn. destruct (as_number (humidity w)); [|discriminate].
  cbn [bind].
  repeat match goal with
         | |- context [if ?c then _ else _] => destruct c; [apply returns_Ok|]
         end.
  apply returns_Ok.
Qed.

Lemma map_wind_returns w m : is_string (wind w) = true -> returns (map_wind w m).
Proof.
  intros Hs. unfold map_wind, py_lower.
  destruct (wind w); try discriminate. cbn [as_str bind].
  repeat match goal with
         | |- context [if ?c then _ else _] => destruct c; [apply returns_Ok|]
         end.
  apply returns_Ok.
Qed.

Lemma map_conditions_returns w m :
  is_string (conditions w) = true -> returns (map_conditions w m).
Proof.
  intros Hs. unfold map_conditions, py_lower.
  destruct (conditions w); try discriminate. cbn [as_str bind].
  repeat match goal with
         | |- context [if ?c then _ else _] => destruct c; [apply returns_Ok|]
         end.
  apply returns_Ok.
Qed.

(** *** Texts *)

(** What [str] returns is the text of the value. *)
Lemma py_format_text v s : py_format v = Ok s -> s = py_str v.
Proof.
  unfold py_format. intros H.
  destruct v; try (injection H as <-; reflexivity).
  - destruct (Str.int_fits z); [injection H as <-; reflexivity | discriminate].
  - destruct (repr_raises _); [discriminate | injection H as <-; reflexivity].
  - destruct (repr_raises _); [discriminate | injection H as <-; reflexivity].
Qed.

Lemma py_format_printable v : printable v = true -> py_format v = Ok (py_str v).
Proof.
  unfold printable. intros H. destruct (py_format v) as [s|] eqn:E; [|discriminate].
  rewrite (py_format_text _ _ E). reflexivity.
Qed.

Lemma py_format_returns v s : py_format v = Ok s -> printable v = true.
Proof. unfold printable. intros ->. reflexivity. Qed.

Lemma contains_char_after_first c s :
  Str.contains (String c "") s = true -> exists rest, Str.after_first c s = Some rest.
Proof.
  induction s as [|a s IH]; cbn [Str.contains Str.after_first String.prefix].
  - discriminate.
  - destruct (Ascii.eqb_spec a c) as [->|Hne]; [eauto|].
    destruct (Ascii.ascii_dec c a) as [->|_]; [congruence | exact IH].
Qed.

Lemma extract_classification_returns d :
  entry_ok inspector_ok (lookup_key "Inspector" d) = true ->
  returns (extract_classification (JDict d)).
Proof.
  intros Hok. unfold extract_classification. rewrite py_in_dict.
  destruct (lookup_key "Inspector" d) as [inspector|] eqn:E; cbn [bind];
    [|apply returns_Ok].
  rewrite (py_getitem_dict _ _ _ E). cbn [bind].
  destruct inspector as [ | | | | |l|id]; try apply returns_Ok.
  destruct l as [|first l]; [apply returns_Ok|].
  cbn [entry_ok inspector_ok] in Hok. destruct first; try discriminate. apply returns_Ok.
Qed.

(** *** Joining *)

Lemma py_join_returns sep items :
  forallb is_string items = true -> returns (py_join sep items).
Proof.
  intros H. unfold py_join.
  assert (returns (py_join_items items)) as [ss ->]; [|apply returns_Ok].
  induction items as [|x items IH]; simpl; [apply returns_Ok|].
  simpl in H. apply andb_prop in H. destruct H as [Hx Hl].
  destruct x; try discriminate. cbn [as_str bind].
  destruct (IH Hl) as [ss ->]. apply returns_Ok.
Qed.

Lemma forallb_snoc {A : Type} (P : A -> bool) l x :
  forallb P (l ++ [x])%list = forallb P l && P x.
Proof. rewrite forallb_app. simpl. rewrite andb_true_r. reflexivity. Qed.

Lemma join_or_empty_returns items :
  forallb is_string items = true ->
  returns (match items with
           | [] => Ok ""
           | _ => py_join "
" items
           end).
Proof. intros H. destruct items; [apply returns_Ok | apply py_join_returns, H]. Qed.

Lemma format_date_returns (work_date timezone : json) :
  returns (format_date work_date timezone).
Proof. unfold format_date. apply try_except_returns. Qed.

End WellShaped.

(** * Decimal numbers in field names *)

Lemma of_Z_inj (a b : Z) : Str.of_Z a = Str.of_Z b -> a = b.
Proof.
  unfold Str.of_Z. intros H.
  apply DecimalZ.to_int_inj.
  assert (forall z, DecimalString.NilZero.int_of_string
                      (DecimalString.NilZero.string_of_int (Z.to_int z))
                    = Some (Z.to_int z)) as Hisi.
  { intros z. apply DecimalString.NilZero.isi; destruct z; simpl; try discriminate;
      intros E; injection E; apply DecimalPos.Unsigned.to_uint_nonnil. }
  pose proof (Hisi a) as Ha. rewrite H, Hisi in Ha. congruence.
Qed.

Lemma of_nat_inj (a b : nat) : Str.of_nat a = Str.of_nat b -> a = b.
Proof. unfold Str.of_nat. intros H. apply of_Z_inj in H. lia. Qed.

Lemma lacks_uint (c : ascii) (d : Decimal.uint) :
  (57 <? N_of_ascii c)%N = true ->
  lacks c (DecimalString.NilEmpty.string_of_uint d) = true.
Proof.
  intros Hc.
  induction d; cbn [DecimalString.NilEmpty.string_of_uint lacks]; try reflexivity;
    rewrite IHd, andb_true_r;
    match goal with |- negb (Ascii.eqb ?a c) = true =>
      destruct (Ascii.eqb_spec a c) as [<-|]; [discriminate | reflexivity] end.
Qed.

Lemma lacks_nilzero (c : ascii) (d : Decimal.uint) :
  (57 <? N_of_ascii c)%N = true ->
  lacks c (DecimalString.NilZero.string_of_uint d) = true.
Proof.
  intros Hc. pose proof (lacks_uint c d Hc) as H.
  destruct d; auto.
  cbv - [Ascii.eqb negb].
  destruct (Ascii.eqb_spec "0" c) as [<-|]; [discriminate | reflexivity].
Qed.

(** The decimal text of a number has no character after ['9']. *)
Lemma lacks_of_Z (c : ascii) (z : Z) :
  (57 <? N_of_ascii c)%N = true -> lacks c (Str.of_Z z) = true.
Proof.
  intros Hc. unfold Str.of_Z, DecimalString.NilZero.string_of_int.
  destruct (Z.to_int z) as [d|d].
  - apply lacks_nilzero, Hc.
  - cbn [lacks]. rewrite (lacks_nilzero c d Hc), andb_true_r.
    destruct (Ascii.eqb_spec "-" c) as [<-|]; [discriminate | reflexivity].
Qed.

Lemma lacks_of_nat (c : ascii) (n : nat) :
  (57 <? N_of_ascii c)%N = true -> lacks c (Str.of_nat n) = true.
Proof. intros Hc. apply lacks_of_Z, Hc. Qed.

Lemma before_first_lacks (c : ascii) (s r : string) :
  lacks c s = true -> Str.before_first c (s ++ String c r) = s.
Proof.
  induction s as [|a s IH]; simpl; intros H.
  - rewrite Ascii.eqb_refl. reflexivity.
  - apply andb_prop in H. destruct H as [Ha Hs].
    destruct (Ascii.eqb a c); [discriminate|]. rewrite IH; auto.
Qed.

(** A number followed by a bracket is read back from the name. *)
Lemma of_nat_bracket_inj (i j : nat) (r r' : string) :
  Str.of_nat i ++ String "[" r = Str.of_nat j ++ String "[" r' -> i = j /\ r = r'.
Proof.
  intros H.
  assert (i = j) as ->.
  { apply of_nat_inj.
    rewrite <- (before_first_lacks "[" (Str.of_nat i) r) by (apply lacks_of_nat; reflexivity).
    rewrite <- (before_first_lacks "[" (Str.of_nat j) r') by (apply lacks_of_nat; reflexivity).
    rewrite H. reflexivity. }
  split; [reflexivity|].
  apply append_inv_head in H. congruence.
Qed.

Lemma of_Z_bracket_inj (i j : Z) (r r' : string) :
  Str.of_Z i ++ String "[" r = Str.of_Z j ++ String "[" r' -> i = j /\ r = r'.
Proof.
  intros H.
  assert (i = j) as ->.
  { apply of_Z_inj.
    rewrite <- (before_first_lacks "[" (Str.of_Z i) r) by (apply lacks_of_Z; reflexivity).
    rewrite <- (before_first_lacks "[" (Str.of_Z j) r') by (apply lacks_of_Z; reflexivity).
    rewrite H. reflexivity. }
  split; [reflexivity|].
  apply append_inv_head in H. congruence.
Qed.

(** * Further properties of the field mapping *)

Section MappingTrace.
Context {lib : PyLib}.

(** Every step of a returning call of [create_field_mapping]. *)
Lemma create_field_mapping_trace data m :
  create_field_mapping data = Ok m ->
  exists work_date timezone day formatted_date w m1 m2 m3 m4 m5 m6 m7 cls m9 m10,
    py_get data "DocumentDate" (JStr "") = Ok work_date
    /\ py_get data "Timezone" (JStr "America/Los_Angeles") = Ok timezone
    /\ get_day_of_week work_date timezone = Ok day
    /\ format_date work_date timezone = Ok formatted_date
    /\ extract_weather_data data = Ok w
    /\ map_temperature w [] = Ok m1
    /\ map_wind w m1 = Ok m2
    /\ map_humidity w m2 = Ok m3
    /\ map_conditions w m3 = Ok m4
    /\ map_personnel data m4 = Ok m5
    /\ map_work_items data m5 = Ok m6
    /\ map_superintendent data m6 = Ok m7
    /\ extract_classification data = Ok cls
    /\ map_remarks data (map_classification cls m7) = Ok m9
    /\ map_equipment data m9 = Ok m10
    /\ m = fm_set "day_of_week" (JStr day) (map_footer formatted_date cls m10).
Proof.
  unfold create_field_mapping. intros H.
  inv_bind H as work_date Hwd. inv_bind H as timezone Htz.
  inv_bind H as day Hday. inv_bind H as formatted_date Hdate.
  inv_bind H as w Hw.
  inv_bind H as m1 H1. inv_bind H as m2 H2. inv_bind H as m3 H3.
  inv_bind H as m4 H4. inv_bind H as m5 H5. inv_bind H as m6 H6.
  inv_bind H as m7 H7. inv_bind H as cls Hcls.
  inv_bind H as m9 H9. inv_bind H as m10 H10.
  injection H as <-.
  exists work_date, timezone, day, formatted_date, w, m1, m2, m3, m4, m5, m6, m7, cls, m9, m10.
  repeat split; assumption.
Qed.

Lemma map_temperature_frames w m m' :
  map_temperature w m = Ok m' -> frames temperature_names m m'.
Proof.
  unfold map_temperature. intros H. inv_bind H.
  repeat (inv_bind H; match type of H with (if ?c then _ else _) = _ => destruct c end;
          [injection H as <-; apply frames_set; reflexivity|]).
  injection H as <-; apply frames_set; reflexivity.
Qed.

Lemma map_classification_footer cls m : frames footer_names m (map_classification cls m).
Proof.
  unfold map_classification. destruct (truthy cls); [|apply frames_refl].
  apply fold_left_frames. intros m0 a. apply frames_set.
  unfold touches, footer_cell. simpl existsb. rewrite prefix_append. reflexivity.
Qed.

Lemma map_footer_footer date cls m : frames footer_names m (map_footer date cls m).
Proof.
  unfold map_footer. apply fold_left_frames. intros m0 a. unfold footer_step.
  repeat (apply frames_set_after;
          [unfold touches, footer_cell; simpl existsb; rewrite prefix_append; reflexivity|]).
  apply frames_refl.
Qed.

Lemma map_remarks_field data m m' :
  map_remarks data m = Ok m' -> frames [remarks_field] m m'.
Proof.
  unfold map_remarks. intros H. inv_bind H.
  destruct (negb _); injection H as <-; [apply frames_set; reflexivity | apply frames_refl].
Qed.

Lemma map_equipment_field data m m' :
  map_equipment data m = Ok m' -> frames [equipment_field] m m'.
Proof.
  unfold map_equipment. intros H. inv_bind H.
  destruct (negb _); injection H as <-; [apply frames_set; reflexivity | apply frames_refl].
Qed.

Lemma frames_app_l ps qs m m' : frames ps m m' -> frames (ps ++ qs) m m'.
Proof. apply frames_incl. intros x Hx. apply in_or_app. auto. Qed.

Lemma frames_app_r ps qs m m' : frames qs m m' -> frames (ps ++ qs) m m'.
Proof. apply frames_incl. intros x Hx. apply in_or_app. auto. Qed.

(** The form fields of the mapping are under the prefixes [form_names]. *)
Lemma create_field_mapping_form_names data m :
  create_field_mapping data = Ok m ->
  exists day m', m = fm_set "day_of_week" (JStr day) m' /\ frames form_names [] m'.
Proof.
  intros H. apply create_field_mapping_trace in H.
  destruct H as (work_date & timezone & day & formatted_date & w & m1 & m2 & m3 & m4 & m5
                 & m6 & m7 & cls & m9 & m10 & _ & _ & _ & _ & _ & H1 & H2 & H3 & H4 & H5
                 & H6 & H7 & _ & H9 & H10 & ->).
  exists day, (map_footer formatted_date cls m10). split; [reflexivity|].
  unfold form_names.
  eapply frames_trans; [apply frames_app_l, (map_temperature_frames _ _ _ H1)|].
  apply frames_app_r.
  eapply frames_trans; [apply frames_app_l, (map_wind_frames _ _ _ H2)|].
  apply frames_app_r.
  eapply frames_trans; [apply frames_app_l, (map_humidity_frames _ _ _ H3)|].
  apply frames_app_r.
  eapply frames_trans; [apply frames_app_l, (map_conditions_frames _ _ _ H4)|].
  apply frames_app_r.
  eapply frames_trans; [apply frames_app_l, (map_personnel_frames _ _ _ H5)|].
  apply frames_app_r.
  eapply frames_trans; [apply frames_app_l, (map_work_items_frames _ _ _ H6)|].
  apply frames_app_r.
  eapply frames_trans; [apply frames_app_l, (map_superintendent_frames _ _ _ H7)|].
  apply frames_app_r.
  eapply frames_trans; [apply frames_app_l, map_classification_footer|].
  eapply frames_trans; [apply frames_app_r, (frames_incl [remarks_field]);
                        [|apply (map_remarks_field _ _ _ H9)]|].
  { intros x [<-|[]]. left. reflexivity. }
  eapply frames_trans; [apply frames_app_r, (frames_incl [equipment_field]);
                        [|apply (map_equipment_field _ _ _ H10)]|].
  { intros x [<-|[]]. right. left. reflexivity. }
  apply frames_app_l, map_footer_footer.
Qed.

(** X6. The mapping [create_field_mapping] returns has no other keys than
    ['day_of_week'] and form field names under the prefixes of
    [form_names]: the weather rows, the two personnel tables, the location
    table, the supervisor boxes and name, the footer of the three master
    pages, the remarks and the equipment. *)
Theorem create_field_mapping_keys (data : json) (m : field_map) (k : string) :
  create_field_mapping data = Ok m ->
  is_Some (fm_get k m) ->
  k = "day_of_week" \/ touches form_names k = true.
Proof.
  intros H Hk.
  destruct (create_field_mapping_form_names _ _ H) as (day & m' & -> & Hm').
  destruct (String.eqb_spec k "day_of_week") as [->|Hne]; [left; reflexivity|].
  right. rewrite fm_get_set_ne in Hk by exact Hne.
  destruct (touches form_names k) eqn:E; [reflexivity|].
  rewrite (Hm' k E) in Hk. destruct Hk; discriminate.
Qed.

End MappingTrace.

(** Opens a returning call of [create_field_mapping] into its steps and
    the names each step writes. *)
Ltac open_trace H :=
  apply create_field_mapping_trace in H;
  destruct H as (work_date & timezone & day & formatted_date & w & m1 & m2 & m3 & m4 & m5
                 & m6 & m7 & cls & m9 & m10 & Hwd & Htz & Hday & Hdate & Hw & H1 & H2 & H3
                 & H4 & H5 & H6 & H7 & Hcls & H9 & H10 & Hm);
  pose proof (map_temperature_frames _ _ _ H1) as F1;
  pose proof (map_wind_frames _ _ _ H2) as F2;
  pose proof (map_humidity_frames _ _ _ H3) as F3;
  pose proof (map_conditions_frames _ _ _ H4) as F4;
  pose proof (map_personnel_frames _ _ _ H5) as F5;
  pose proof (map_work_items_frames _ _ _ H6) as F6;
  pose proof (map_superintendent_frames _ _ _ H7) as F7;
  pose proof (map_classification_footer cls m7) as F8;
  pose proof (map_remarks_field _ _ _ H9) as F9;
  pose proof (map_equipment_field _ _ _ H10) as F10;
  pose proof (map_footer_footer formatted_date cls m10) as F11;
  pose proof (frames_set ["day_of_week"] "day_of_week" (JStr day)
                (map_footer formatted_date cls m10) eq_refl) as F12;
  rewrite <- Hm in F12.

(** The name under the goal's prefix is outside the family of [F]. *)
Ltac outside :=
  first [ reflexivity
        | eapply touches_disjoint; [apply prefix_append | vm_compute; reflexivity] ].

Ltac skip F := rewrite (F _) by outside.

(** ** The weather rows *)

Section WeatherRows.
Context {lib : PyLib}.

(** Setting one cell of a row that has none set. *)
Lemma row_cell_alone (p : string) (v : json) (i j : nat) (m : field_map) :
  (forall k, fm_get (p ++ Str.of_nat k ++ "[0]") m = None) ->
  fm_get (p ++ Str.of_nat j ++ "[0]") (fm_set (p ++ Str.of_nat i ++ "[0]") v m)
  = if (j =? i)%nat then Some v else None.
Proof.
  intros Hm. destruct (Nat.eqb_spec j i) as [->|Hne].
  - apply fm_get_set_eq.
  - rewrite fm_get_set_ne; [apply Hm|].
    intros E. apply append_inv_head, of_nat_bracket_inj in E. tauto.
Qed.

Lemma map_wind_band w m m' :
  map_wind w m = Ok m' ->
  exists s, wind w = JStr s /\ m' = fm_set (wind_cell (wind_band (Str.lower s))) yes m.
Proof.
  unfold map_wind, py_lower. intros H. inv_bind H. inv_bind Ha.
  destruct (wind w) as [| | | |s| |]; try discriminate.
  injection Ha0 as <-. injection Ha as <-.
  exists s. split; [reflexivity|]. unfold wind_band.
  destruct (_ || _); [injection H as <-; reflexivity|].
  destruct (_ || _); injection H as <-; reflexivity.
Qed.

Lemma map_humidity_band w m m' :
  map_humidity w m = Ok m' ->
  exists h, as_number (humidity w) = Some h
    /\ m' = fm_set (humidity_cell (humidity_band h)) yes m.
Proof.
  unfold map_humidity, py_ge. intros H.
  destruct (as_number (humidity w)) as [h|]; [|discriminate].
  exists h. split; [reflexivity|]. simpl in H. unfold humidity_band.
  destruct (Num.ge_Z h 75); [injection H as <-; reflexivity|].
  destruct (Num.ge_Z h 50); [injection H as <-; reflexivity|].
  destruct (Num.ge_Z h 25); injection H as <-; reflexivity.
Qed.

Lemma map_conditions_band w m m' :
  map_conditions w m = Ok m' ->
  exists s, conditions w = JStr s
    /\ m' = fm_set (conditions_cell (conditions_band (Str.lower s))) yes m.
Proof.
  unfold map_conditions, py_lower. intros H. inv_bind H. inv_bind Ha.
  destruct (conditions w) as [| | | |s| |]; try discriminate.
  injection Ha0 as <-. injection Ha as <-.
  exists s. split; [reflexivity|]. unfold conditions_band.
  destruct (_ || _); [injection H as <-; reflexivity|].
  destruct (Str.contains "snow" _); [injection H as <-; reflexivity|].
  destruct (_ || _); [injection H as <-; reflexivity|].
  destruct (_ || _); injection H as <-; reflexivity.
Qed.

(** The three rows in the mapping [create_field_mapping] returns. *)
Lemma create_field_mapping_weather_rows data m :
  create_field_mapping data = Ok m ->
  exists w ws h cs,
    extract_weather_data data = Ok w
    /\ wind w = JStr ws /\ as_number (humidity w) = Some h /\ conditions w = JStr cs
    /\ (forall j, fm_get (wind_cell j) m
                  = if (j =? wind_band (Str.lower ws))%nat then Some yes else None)
    /\ (forall j, fm_get (humidity_cell j) m
                  = if (j =? humidity_band h)%nat then Some yes else None)
    /\ (forall j, fm_get (conditions_cell j) m
                  = if (j =? conditions_band (Str.lower cs))%nat then Some yes else None).
Proof.
  intros H. open_trace H.
  destruct (map_wind_band _ _ _ H2) as (ws & Hws & E2).
  destruct (map_humidity_band _ _ _ H3) as (h & Hh & E3).
  destruct (map_conditions_band _ _ _ H4) as (cs & Hcs & E4).
  exists w, ws, h, cs. repeat split; try assumption.
  - intros j. unfold wind_cell in *.
    skip F12. skip F11. skip F10. skip F9. skip F8. skip F7. skip F6. skip F5. skip F4.
    skip F3. rewrite E2. apply row_cell_alone. intros k. skip F1. reflexivity.
  - intros j. unfold humidity_cell in *.
    skip F12. skip F11. skip F10. skip F9. skip F8. skip F7. skip F6. skip F5. skip F4.
    rewrite E3. apply row_cell_alone. intros k. skip F2. skip F1. reflexivity.
  - intros j. unfold conditions_cell in *.
    skip F12. skip F11. skip F10. skip F9. skip F8. skip F7. skip F6. skip F5.
    rewrite E4. apply row_cell_alone. intros k. skip F3. skip F2. skip F1. reflexivity.
Qed.

(** X1. In the mapping [create_field_mapping] returns, exactly one cell
    of the wind row [Row3] is set, to ['/Yes']: cell 3 when the lower-cased
    wind text of [extract_weather_data] contains ['strong'] or ['high'],
    else cell 2 when it contains ['moderate'] or ['medium'], else cell 1. *)
Theorem create_field_mapping_wind_cell (data : json) (m : field_map) :
  create_field_mapping data = Ok m ->
  exists w s,
    extract_weather_data data = Ok w /\ wind w = JStr s
    /\ forall j, fm_get (wind_cell j) m
                 = if (j =? wind_band (Str.lower s))%nat then Some (JStr "/Yes") else None.
Proof.
  intros H.
  destruct (create_field_mapping_weather_rows _ _ H) as (w & ws & h & cs & Hw & Hws & _ & _ & Hr & _).
  exists w, ws. auto.
Qed.

(** X2. In the mapping [create_field_mapping] returns, exactly one cell
    of the humidity row [Row4] is set, to ['/Yes']: for the extracted
    humidity [h], a number, cell 4 when [h >= 75], else cell 3 when
    [h >= 50], else cell 2 when [h >= 25], else cell 1. *)
Theorem create_field_mapping_humidity_cell (data : json) (m : field_map) :
  create_field_mapping data = Ok m ->
  exists w h,
    extract_weather_data data = Ok w /\ as_number (humidity w) = Some h
    /\ forall j, fm_get (humidity_cell j) m
                 = if (j =? humidity_band h)%nat then Some (JStr "/Yes") else None.
Proof.
  intros H.
  destruct (create_field_mapping_weather_rows _ _ H) as (w & ws & h & cs & Hw & _ & Hh & _ & _ & Hr & _).
  exists w, h. auto.
Qed.

(** X3. In the mapping [create_field_mapping] returns, exactly one cell
    of the conditions row [Row1] is set, to ['/Yes']: cell 4 when the
    lower-cased conditions text contains ['rain'] or ['shower'], else cell 5
    for ['snow'], else cell 3 for ['cloudy'] or ['overcast'], else cell 2
    for ['fair'] or ['partly'], else cell 1. *)
Theorem create_field_mapping_conditions_cell (data : json) (m : field_map) :
  create_field_mapping data = Ok m ->
  exists w s,
    extract_weather_data data = Ok w /\ conditions w = JStr s
    /\ forall j, fm_get (conditions_cell j) m
                 = if (j =? conditions_band (Str.lower s))%nat
                   then Some (JStr "/Yes") else None.
Proof.
  intros H.
  destruct (create_field_mapping_weather_rows _ _ H) as (w & ws & h & cs & Hw & _ & _ & Hcs & _ & _ & Hr).
  exists w, cs. auto.
Qed.

End WeatherRows.

Section WeatherDefaults.
Context {lib : PyLib}.

Lemma humidity_text_band_spec (s : string) :
  humidity_band (Num.Int (humidity_of_text s)) = humidity_text_band s.
Proof.
  unfold humidity_of_text, humidity_text_band. cbv zeta.
  destruct (Str.contains "dry" _); [reflexivity|].
  destruct (Str.contains "low" _); [reflexivity|].
  destruct (_ || _); [reflexivity|].
  destruct (Str.contains "high" _); reflexivity.
Qed.

Lemma extract_weather_data_without d :
  no_weather d = true ->
  extract_weather_data (JDict d)
  = Ok {| temperature := JInt 0; wind := JStr "Calm";
          humidity := JInt 50; conditions := JStr "Clear" |}.
Proof.
  unfold no_weather, extract_weather_data. intros H. simpl.
  destruct (lookup_key "Weather" d) as [v|]; simpl; [|reflexivity].
  destruct v; try discriminate; reflexivity.
Qed.

(** X4. For a report without a ['Weather'] object, the mapping
    [create_field_mapping] returns has in each weather row exactly one cell,
    set to ['/Yes']: temperature cell 5 (below 32), wind cell 1, humidity
    cell 3 and conditions cell 1. *)
Theorem create_field_mapping_without_weather (d : list (string * json)) (m : field_map) :
  no_weather d = true ->
  create_field_mapping (JDict d) = Ok m ->
  forall j,
    fm_get (temperature_cell j) m = (if (j =? 5)%nat then Some (JStr "/Yes") else None)
    /\ fm_get (wind_cell j) m = (if (j =? 1)%nat then Some (JStr "/Yes") else None)
    /\ fm_get (humidity_cell j) m = (if (j =? 3)%nat then Some (JStr "/Yes") else None)
    /\ fm_get (conditions_cell j) m = (if (j =? 1)%nat then Some (JStr "/Yes") else None).
Proof.
  intros Hno H j.
  destruct (create_field_mapping_weather_rows _ _ H)
    as (w' & ws & h & cs & Hw' & Hws & Hh & Hcs & Hwind & Hhum & Hcond).
  rewrite (extract_weather_data_without d Hno) in Hw'. injection Hw' as <-.
  simpl in Hws, Hh, Hcs. injection Hws as <-. injection Hh as <-. injection Hcs as <-.
  split; [|split; [apply Hwind | split; [apply Hhum | apply Hcond]]].
  open_trace H.
  rewrite (extract_weather_data_without d Hno) in Hw. injection Hw as <-.
  apply map_temperature_band in H1; [|reflexivity]. destruct H1 as (t & Ht & E1).
  injection Ht as <-.
  unfold temperature_cell in *.
  skip F12. skip F11. skip F10. skip F9. skip F8. skip F7. skip F6. skip F5. skip F4.
  skip F3. skip F2. rewrite E1. apply (row_cell_alone _ _ 5). intros k. reflexivity.
Qed.

(** X5. When the ['Humidity'] of the ['Weather'] object is a text, the
    cell of the humidity row follows its words: cell 2 when the lower-cased
    text contains ['dry'] or else ['low'], else cell 3 for ['medium'] or
    ['med'], else cell 4 for ['high'], else cell 3. Cell 1 is never set for
    a humidity given as text. *)
Theorem create_field_mapping_humidity_text (d wd : list (string * json)) (s : string)
    (m : field_map) :
  lookup_key "Weather" d = Some (JDict wd) ->
  lookup_key "Humidity" wd = Some (JStr s) ->
  create_field_mapping (JDict d) = Ok m ->
  (forall j, fm_get (humidity_cell j) m
             = if (j =? humidity_text_band s)%nat then Some (JStr "/Yes") else None)
  /\ fm_get (humidity_cell 1) m = None.
Proof.
  intros Hwd Hs H.
  destruct (create_field_mapping_weather_rows _ _ H)
    as (w & ws & h & cs & Hw & _ & Hh & _ & _ & Hhum & _).
  pose proof (extract_weather_data_dict d wd w Hwd Hw) as (_ & _ & Hhw & _).
  rewrite Hs in Hhw. simpl in Hhw. rewrite Hhw in Hh. injection Hh as <-.
  rewrite humidity_text_band_spec in Hhum.
  split; [exact Hhum|].
  rewrite Hhum. unfold humidity_text_band. cbv zeta.
  repeat match goal with |- context [if ?c then _ else _] =>
    match c with
    | Nat.eqb _ _ => fail 1
    | _ => destruct c
    end end; reflexivity.
Qed.

End WeatherDefaults.

(** ** The footer and the day *)

Section Footer.
Context {lib : PyLib}.

Lemma footer_cell_inj p p' name name' :
  footer_cell p name = footer_cell p' name' -> p = p' /\ name = name'.
Proof.
  unfold footer_cell. intros H. apply append_inv_head in H.
  assert (p = p') as ->.
  { apply of_nat_inj.
    rewrite <- (before_first_lacks "]" (Str.of_nat p) (".SignSub[0].#area[0]." ++ name ++ "[0]"))
      by (apply lacks_of_nat; reflexivity).
    rewrite <- (before_first_lacks "]" (Str.of_nat p') (".SignSub[0].#area[0]." ++ name' ++ "[0]"))
      by (apply lacks_of_nat; reflexivity).
    exact (f_equal (Str.before_first "]") H). }
  split; [reflexivity|].
  apply append_inv_head in H. apply (append_inv_head "].SignSub[0].#area[0].") in H.
  revert name' H. induction name as [|a name IH]; intros [|b name'] H; simpl in H;
    try reflexivity; try discriminate.
  - destruct name' as [|? [|? [|? []]]]; discriminate.
  - destruct name as [|? [|? [|? []]]]; discriminate.
  - injection H as <- H. f_equal. auto.
Qed.

(** The footer of the three master pages after [map_footer]. *)
Lemma map_footer_cells date cls m p :
  (p < 3)%nat ->
  let m' := map_footer date cls m in
  fm_get (footer_cell p "WorkDate") m' = Some date
  /\ fm_get (footer_cell p "Shift") m' = Some (JStr "Day")
  /\ fm_get (footer_cell p "PreparedBy") m' = Some (JStr "Admin HHPR")
  /\ fm_get (footer_cell p "CertNo") m' = Some cls
  /\ fm_get (footer_cell p "Signature") m' = Some (JStr "").
Proof.
  intros Hp. unfold map_footer, pages3. cbn [fold_left]. unfold footer_step.
  assert (p = 0 \/ p = 1 \/ p = 2)%nat as [-> | [-> | ->]] by lia;
    repeat split;
    repeat first
      [ apply fm_get_set_eq
      | rewrite fm_get_set_ne
          by (intros E; apply footer_cell_inj in E; destruct E; discriminate) ].
Qed.

(** X7. The footer of each of the three master pages (0, 1, 2) in the
    mapping [create_field_mapping] returns: [WorkDate] is the date
    [format_date] made of ['DocumentDate'] and ['Timezone'], [Shift] is
    ['Day'], [PreparedBy] is ['Admin HHPR'], [Signature] is the empty text,
    and [CertNo] is the classification of [extract_classification], also
    when that is empty. *)
Theorem create_field_mapping_footer (d : list (string * json)) (m : field_map) :
  create_field_mapping (JDict d) = Ok m ->
  exists formatted_date classification,
    format_date (default (JStr "") (lookup_key "DocumentDate" d))
      (default (JStr "America/Los_Angeles") (lookup_key "Timezone" d)) = Ok formatted_date
    /\ extract_classification (JDict d) = Ok classification
    /\ forall p, (p < 3)%nat ->
         fm_get (footer_cell p "WorkDate") m = Some formatted_date
         /\ fm_get (footer_cell p "Shift") m = Some (JStr "Day")
         /\ fm_get (footer_cell p "PreparedBy") m = Some (JStr "Admin HHPR")
         /\ fm_get (footer_cell p "CertNo") m = Some classification
         /\ fm_get (footer_cell p "Signature") m = Some (JStr "").
Proof.
  intros H. open_trace H.
  simpl in Hwd, Htz. injection Hwd as <-. injection Htz as <-.
  exists formatted_date, cls. split; [exact Hdate|]. split; [exact Hcls|].
  intros p Hp. unfold footer_cell.
  repeat (skip F12). fold (footer_cell p "WorkDate") (footer_cell p "Shift")
    (footer_cell p "PreparedBy") (footer_cell p "CertNo") (footer_cell p "Signature").
  apply map_footer_cells, Hp.
Qed.

(** X8. The mapping has the key ['day_of_week'], and its value is one of
    the seven English day names: the one [get_day_of_week] gives for the
    ['DocumentDate'] and ['Timezone'] of the report (['America/Los_Angeles']
    when there is none). *)
Theorem create_field_mapping_day_of_week (d : list (string * json)) (m : field_map) :
  create_field_mapping (JDict d) = Ok m ->
  exists day,
    fm_get "day_of_week" m = Some (JStr day)
    /\ In day days
    /\ get_day_of_week (default (JStr "") (lookup_key "DocumentDate" d))
         (default (JStr "America/Los_Angeles") (lookup_key "Timezone" d)) = Ok day.
Proof.
  intros H. open_trace H.
  simpl in Hwd, Htz. injection Hwd as <-. injection Htz as <-.
  exists day. split; [|split].
  - rewrite Hm. apply fm_get_set_eq.
  - eapply get_day_of_week_in_days, Hday.
  - exact Hday.
Qed.

End Footer.

(** ** Dates *)

Section Dates.
Context {lib : PyLib}.

(** X9. A ['DocumentDate'] that cannot be parsed (not a text, or a text
    the two parsers reject) gives the day ['Monday'] and is itself the
    [WorkDate] of the three footers. *)
Theorem create_field_mapping_unparsed_date (d : list (string * json)) (m : field_map)
    (e : exn) :
  parse_date (document_date d) = Raise e ->
  create_field_mapping (JDict d) = Ok m ->
  fm_get "day_of_week" m = Some (JStr "Monday")
  /\ forall p, (p < 3)%nat ->
       fm_get (footer_cell p "WorkDate") m = Some (document_date d).
Proof.
  intros Hp H. open_trace H.
  simpl in Hwd, Htz. injection Hwd as <-. injection Htz as <-.
  fold (document_date d) in Hday, Hdate.
  assert (day = "Monday") as ->.
  { unfold get_day_of_week in Hday. rewrite Hp in Hday.
    destruct (py_in "T" (document_date d)); simpl in Hday; congruence. }
  assert (formatted_date = document_date d) as ->.
  { unfold format_date in Hdate. unfold parse_date in Hp.
    destruct (py_in "T" (document_date d)) as [[|]|]; simpl in Hdate, Hp;
      try congruence;
      destruct (as_str _ (document_date d)) as [s|]; simpl in Hdate, Hp; try congruence.
    - destruct (fromisoformat _); simpl in Hdate, Hp; congruence.
    - destruct (strptime_ymd _); simpl in Hdate, Hp; congruence. }
  split.
  - rewrite Hm. apply fm_get_set_eq.
  - intros p Hlt. unfold footer_cell. skip F12.
    apply (map_footer_cells (document_date d) cls m10 p Hlt).
Qed.

(** X10. A date that parses gives the day name and the footer date of
    one and the same moment: the parsed date, taken to the time zone when
    the text has a ['T'] and the time zone is not empty. The day is
    [days[weekday]], the footer date is [strftime('%m/%d/%y')], or the
    text as it came when [strftime] raises. *)
Theorem date_fields_of_one_moment (date timezone : json) (dt : datetime) :
  parse_date date = Ok dt ->
  exists s,
    date = JStr s
    /\ let local :=
         if truthy timezone && Str.contains "T" s then to_local_timezone dt timezone
         else dt in
       get_day_of_week date timezone
       = try_except (py_index days (weekday local)) (Ok "Monday")
       /\ format_date date timezone
          = Ok (match strftime_mdy local with
                | Some formatted => JStr formatted
                | None => date
                end).
Proof.
  unfold parse_date. intros H. inv_bind H as has_T HT.
  assert (exists s, date = JStr s) as [s ->].
  { destruct has_T; inv_bind H; destruct date; try discriminate; eauto. }
  exists s. split; [reflexivity|]. simpl in HT. injection HT as <-.
  unfold get_day_of_week, format_date, parse_date. cbn [py_in bind as_str].
  destruct (Str.contains "T" s); cbn [bind as_str] in H |- *;
    apply of_option_Ok in H; rewrite H; cbn [of_option bind].
  - rewrite andb_true_r. split; [reflexivity|].
    destruct (truthy timezone); destruct (strftime_mdy _); reflexivity.
  - rewrite andb_false_r. split; [reflexivity|].
    destruct (strftime_mdy _); reflexivity.
Qed.

(** X11. A time zone name [pytz] does not know is passed over: the day
    and the footer date are those of the date as it is written. *)
Theorem unknown_timezone_ignored (date timezone : json) :
  pytz_timezone timezone = None ->
  get_day_of_week date timezone = get_day_of_week date (JStr "")
  /\ format_date date timezone = format_date date (JStr "").
Proof.
  intros Htz.
  assert (forall dt, to_local_timezone dt timezone = dt) as Hloc.
  { intros dt. unfold to_local_timezone. rewrite Htz. reflexivity. }
  unfold get_day_of_week, format_date. split.
  - destruct (py_in "T" date) as [has_T|]; [|reflexivity]. cbn [bind].
    destruct (parse_date date) as [dt|]; [|reflexivity]. cbn [bind].
    rewrite Hloc. cbn [truthy String.eqb negb andb].
    destruct (truthy timezone && has_T); reflexivity.
  - destruct (py_in "T" date) as [[|]|]; try reflexivity. cbn [bind].
    destruct (as_str AttributeError date) as [s|]; [|reflexivity]. cbn [bind].
    destruct (fromisoformat _) as [dt|]; [|reflexivity]. cbn [of_option bind].
    rewrite Hloc. cbn [truthy String.eqb negb].
    destruct (truthy timezone); reflexivity.
Qed.

Lemma get_day_of_week_date_only date tz tz' :
  has_time date = false -> get_day_of_week date tz = get_day_of_week date tz'.
Proof.
  unfold has_time, get_day_of_week. intros H.
  destruct (py_in "T" date) as [b|]; [|reflexivity]. subst b. cbn [bind].
  rewrite !andb_false_r. reflexivity.
Qed.

Lemma format_date_date_only date tz tz' :
  has_time date = false -> format_date date tz = format_date date tz'.
Proof.
  unfold has_time, format_date. intros H.
  destruct (py_in "T" date) as [b|]; [|reflexivity]. subst b. reflexivity.
Qed.

(** What the extractors read of a report, they read through its keys. *)
Lemma extract_weather_data_same k d d' :
  same_but k d d' -> k <> "Weather" ->
  extract_weather_data (JDict d) = extract_weather_data (JDict d').
Proof.
  intros Hs Hk. unfold extract_weather_data, py_in, py_getitem.
  rewrite (Hs "Weather") by congruence. reflexivity.
Qed.

Lemma map_personnel_same k d d' m :
  same_but k d d' -> k <> "Personnel" -> map_personnel (JDict d) m = map_personnel (JDict d') m.
Proof.
  intros Hs Hk. unfold map_personnel, py_in, py_getitem.
  rewrite (Hs "Personnel") by congruence. reflexivity.
Qed.

Lemma map_work_items_same k d d' m :
  same_but k d d' -> k <> "WorkItems" ->
  map_work_items (JDict d) m = map_work_items (JDict d') m.
Proof.
  intros Hs Hk. unfold map_work_items, py_in, py_getitem.
  rewrite (Hs "WorkItems") by congruence. reflexivity.
Qed.

Lemma map_superintendent_same k d d' m :
  same_but k d d' -> k <> "Personnel" ->
  map_superintendent (JDict d) m = map_superintendent (JDict d') m.
Proof.
  intros Hs Hk. unfold map_superintendent, extract_superintendent_name, py_in, py_getitem.
  rewrite (Hs "Personnel") by congruence. reflexivity.
Qed.

Lemma extract_classification_same k d d' :
  same_but k d d' -> k <> "Inspector" ->
  extract_classification (JDict d) = extract_classification (JDict d').
Proof.
  intros Hs Hk. unfold extract_classification, py_in, py_getitem.
  rewrite (Hs "Inspector") by congruence. reflexivity.
Qed.

Lemma map_remarks_same k d d' m :
  same_but k d d' -> k <> "Narrative" -> k <> "DailyReport" ->
  map_remarks (JDict d) m = map_remarks (JDict d') m.
Proof.
  intros Hs Hk Hk'. unfold map_remarks, extract_remarks_data, py_in, py_getitem.
  rewrite (Hs "Narrative"), (Hs "DailyReport") by congruence. reflexivity.
Qed.

Lemma map_equipment_same k d d' m :
  same_but k d d' -> k <> "Equipment" -> k <> "DailyReport" ->
  map_equipment (JDict d) m = map_equipment (JDict d') m.
Proof.
  intros Hs Hk Hk'. unfold map_equipment, extract_equipment_data, py_in, py_getitem.
  rewrite (Hs "Equipment"), (Hs "DailyReport") by congruence. reflexivity.
Qed.

(** X12. The ['Timezone'] of a report matters only for a date with a
    time of day: two reports that differ in nothing but ['Timezone'], and
    whose ['DocumentDate'] has no ['T'], have the same mapping (or raise the
    same exception). *)
Theorem create_field_mapping_date_only (d d' : list (string * json)) :
  same_but "Timezone" d d' ->
  has_time (document_date d) = false ->
  create_field_mapping (JDict d) = create_field_mapping (JDict d').
Proof.
  intros Hs Ht. unfold create_field_mapping. cbn [py_get bind].
  fold (document_date d) (document_date d') (report_timezone d) (report_timezone d').
  assert (document_date d' = document_date d) as ->.
  { unfold document_date. rewrite (Hs "DocumentDate") by discriminate. reflexivity. }
  rewrite (get_day_of_week_date_only _ (report_timezone d) (report_timezone d') Ht).
  rewrite (format_date_date_only _ (report_timezone d) (report_timezone d') Ht).
  rewrite (extract_weather_data_same _ _ _ Hs) by discriminate.
  destruct (get_day_of_week _ _) as [day|]; [|reflexivity]. cbn [bind].
  destruct (format_date _ _) as [formatted_date|]; [|reflexivity]. cbn [bind].
  destruct (extract_weather_data _) as [w|]; [|reflexivity]. cbn [bind].
  destruct (map_temperature w []) as [m1|]; [|reflexivity]. cbn [bind].
  destruct (map_wind w m1) as [m2|]; [|reflexivity]. cbn [bind].
  destruct (map_humidity w m2) as [m3|]; [|reflexivity]. cbn [bind].
  destruct (map_conditions w m3) as [m4|]; [|reflexivity]. cbn [bind].
  rewrite (map_personnel_same _ _ _ _ Hs) by discriminate.
  destruct (map_personnel _ m4) as [m5|]; [|reflexivity]. cbn [bind].
  rewrite (map_work_items_same _ _ _ _ Hs) by discriminate.
  destruct (map_work_items _ m5) as [m6|]; [|reflexivity]. cbn [bind].
  rewrite (map_superintendent_same _ _ _ _ Hs) by discriminate.
  destruct (map_superintendent _ m6) as [m7|]; [|reflexivity]. cbn [bind].
  rewrite (extract_classification_same _ _ _ Hs) by discriminate.
  destruct (extract_classification _) as [cls|]; [|reflexivity]. cbn [bind].
  rewrite (map_remarks_same _ _ _ _ Hs) by discriminate.
  destruct (map_remarks _ _) as [m9|]; [|reflexivity]. cbn [bind].
  rewrite (map_equipment_same _ _ _ _ Hs) by discriminate.
  reflexivity.
Qed.

End Dates.

(** ** The location table *)

Section LocationTable.
Context {lib : PyLib}.

Lemma lacks_contains (c : ascii) (s : string) :
  Str.contains (String c "") s = negb (lacks c s).
Proof.
  induction s as [|a s IH]; cbn [Str.contains lacks String.prefix]; [reflexivity|].
  destruct (Ascii.ascii_dec c a) as [->|Hne].
  - rewrite Ascii.eqb_refl. destruct s; reflexivity.
  - destruct (Ascii.eqb_spec a c) as [->|_]; [congruence|]. rewrite IH. reflexivity.
Qed.

Lemma after_first_lacks (c : ascii) (s r : string) :
  lacks c s = true -> Str.after_first c (s ++ String c r) = Some r.
Proof.
  induction s as [|a s IH]; simpl; intros H.
  - rewrite Ascii.eqb_refl. reflexivity.
  - apply andb_prop in H. destruct H as [Ha Hs].
    destruct (Ascii.eqb a c); [discriminate|]. auto.
Qed.

Lemma location_cell_row i j c c' : location_cell i c = location_cell j c' -> i = j.
Proof.
  unfold location_cell. intros H. apply append_inv_head in H.
  apply of_nat_bracket_inj in H. tauto.
Qed.

Lemma location_cell_ne i c c' : c <> c' -> location_cell i c <> location_cell i c'.
Proof.
  unfold location_cell. intros Hne H. apply append_inv_head in H.
  apply append_inv_head in H. apply (append_inv_head "[0].Cell") in H.
  apply Hne. revert c' Hne H. induction c as [|a c IH]; intros [|b c'] Hne H; simpl in H;
    try congruence.
  - destruct c' as [|? [|? [|? []]]]; discriminate.
  - destruct c as [|? [|? [|? []]]]; discriminate.
  - injection H as <- H. f_equal. apply IH; congruence.
Qed.

(** The cells a step writes, by the source's own words. *)
Lemma work_item_step_dict i item m m' :
  work_item_step i (JDict item) m = Ok m' ->
  (i < 20)%nat ->
  let description := default (JStr "") (lookup_key "Description" item) in
  let quantity := default (JInt 0) (lookup_key "Quantity" item) in
  let units := default (JStr "") (lookup_key "Units" item) in
  fm_get (location_cell i "1") m' = Some (default (JStr "") (lookup_key "Location" item))
  /\ fm_get (location_cell i "3") m'
     = Some (if truthy quantity && truthy units
             then JStr (py_str quantity ++ " " ++ py_str units)
             else if truthy quantity then JStr (py_str quantity) else JStr "")
  /\ (forall a b, description = JStr (a ++ ":" ++ b) -> lacks ":" a = true ->
      fm_get (location_cell i "2") m' = Some (JStr (Str.strip a))
      /\ fm_get (location_cell i "4") m' = Some (JStr (Str.strip b)))
  /\ (no_colon description = true ->
      fm_get (location_cell i "2") m' = Some (JStr "")
      /\ fm_get (location_cell i "4") m' = Some description).
Proof.
  unfold work_item_step. intros H Hi.
  apply Nat.ltb_lt in Hi. rewrite Hi in H. cbv zeta in H |- *.
  inv_bind H as has_colon Hc. inv_bind H as parts Hparts.
  destruct parts as [item_no description']. inv_bind H as total Htotal.
  injection H as <-.
  assert (forall c c' v m0, c <> c' ->
            fm_get (location_cell i c) (fm_set (location_cell i c') v m0)
            = fm_get (location_cell i c) m0) as Hskip.
  { intros c c' v m0 Hne. apply fm_get_set_ne, location_cell_ne, Hne. }
  split; [|split; [|split]].
  - rewrite !(Hskip "1") by (auto; discriminate). apply fm_get_set_eq.
  - rewrite (Hskip "3" "4") by (auto; discriminate). rewrite fm_get_set_eq. f_equal.
    destruct (truthy _ && truthy _).
    + inv_bind Htotal as amount Hq. inv_bind Htotal as unit_text Hu.
      injection Htotal as <-.
      rewrite (py_format_text _ _ Hq), (py_format_text _ _ Hu). reflexivity.
    + destruct (truthy _); [|injection Htotal as <-; reflexivity].
      inv_bind Htotal as amount Hq. injection Htotal as <-.
      rewrite (py_format_text _ _ Hq). reflexivity.
  - intros a b Hd Ha. rewrite Hd in Hc, Hparts. cbn [py_in] in Hc.
    rewrite lacks_contains in Hc.
    assert (lacks ":" (a ++ ":" ++ b) = false) as Hl.
    { clear -Ha. induction a as [|x a IH]; simpl in *; [reflexivity|].
      apply andb_prop in Ha. destruct Ha as [-> Ha]. simpl. auto. }
    rewrite Hl in Hc. injection Hc as <-. cbn [as_str bind] in Hparts.
    change (a ++ ":" ++ b) with (a ++ String ":" b) in Hparts.
    rewrite (after_first_lacks _ _ _ Ha), (before_first_lacks _ _ _ Ha) in Hparts.
    cbn [of_option bind] in Hparts. injection Hparts as <- <-.
    split.
    + rewrite (Hskip "2" "4"), (Hskip "2" "3") by (auto; discriminate). apply fm_get_set_eq.
    + apply fm_get_set_eq.
  - intros Hn.
    assert (has_colon = false) as ->.
    { destruct has_colon; [|reflexivity]. inv_bind Hparts.
      destruct (default (JStr "") (lookup_key "Description" item)); try discriminate.
      cbn [py_in] in Hc. rewrite lacks_contains in Hc. simpl in Hn. rewrite Hn in Hc.
      discriminate. }
    injection Hparts as <- <-.
    split.
    + rewrite (Hskip "2" "4"), (Hskip "2" "3") by (auto; discriminate). apply fm_get_set_eq.
    + apply fm_get_set_eq.
Qed.

Lemma work_item_step_other i j item c m m' :
  work_item_step j item m = Ok m' -> i <> j ->
  fm_get (location_cell i c) m' = fm_get (location_cell i c) m.
Proof.
  unfold work_item_step. intros H Hne.
  destruct item; try (injection H as <-; reflexivity).
  destruct (j <? 20)%nat; [|injection H as <-; reflexivity].
  inv_bind H. inv_bind H. destruct a0 as [item_no description].
  inv_bind H as total Htotal. injection H as <-.
  rewrite !fm_get_set_ne by (intros E; apply location_cell_row in E; contradiction).
  reflexivity.
Qed.

Lemma work_item_step_none i item m m' :
  work_item_step i item m = Ok m' ->
  (20 <= i)%nat \/ is_dict item = false -> m' = m.
Proof.
  unfold work_item_step. intros H Hc.
  destruct item; try (injection H as <-; reflexivity).
  destruct Hc as [Hi|]; [|discriminate].
  apply Nat.ltb_ge in Hi. rewrite Hi in H. congruence.
Qed.

(** Row [i] after the loop is what the step of the item [i - n] made of
    it, and is as before the loop when there is no such item. *)
Lemma work_items_loop_rows l n m m' i c :
  work_items_loop n l m = Ok m' ->
  match (if (n <=? i)%nat then l !! (i - n)%nat else None) with
  | Some item =>
      exists mk mk',
        work_item_step i item mk = Ok mk'
        /\ fm_get (location_cell i c) mk = fm_get (location_cell i c) m
        /\ fm_get (location_cell i c) m' = fm_get (location_cell i c) mk'
  | None => fm_get (location_cell i c) m' = fm_get (location_cell i c) m
  end.
Proof.
  revert n m. induction l as [|item l IH]; intros n m H; simpl in H.
  - injection H as <-. destruct (n <=? i)%nat; reflexivity.
  - inv_bind H as m1 H1. specialize (IH (S n) m1 H).
    destruct (Nat.leb_spec n i) as [Hle|Hlt].
    + destruct (Nat.eq_dec i n) as [->|Hne].
      * rewrite Nat.sub_diag. change ((item :: l) !! 0%nat) with (Some item).
        destruct (Nat.leb_spec (S n) n) as [|_]; [lia|].
        exists m, m1. auto.
      * destruct (Nat.leb_spec (S n) i) as [_|]; [|lia].
        replace (i - n)%nat with (S (i - S n)) by lia.
        change ((item :: l) !! S (i - S n)%nat) with (l !! (i - S n)%nat).
        pose proof (work_item_step_other i n item c m m1 H1 Hne) as Ho.
        destruct (l !! (i - S n)%nat) as [it|].
        -- destruct IH as (mk & mk' & Hs & Hb & Ha). exists mk, mk'.
           repeat split; auto. congruence.
        -- congruence.
    + destruct (Nat.leb_spec (S n) i) as [|_]; [lia|].
      rewrite IH. apply (work_item_step_other i n item c m m1 H1). lia.
Qed.

(** The rows of the table in the mapping. *)
Lemma create_field_mapping_rows d m i c :
  create_field_mapping (JDict d) = Ok m ->
  match work_items_of d !! i with
  | Some item =>
      exists mk mk',
        work_item_step i item mk = Ok mk'
        /\ fm_get (location_cell i c) mk = None
        /\ fm_get (location_cell i c) m = fm_get (location_cell i c) mk'
  | None => fm_get (location_cell i c) m = None
  end.
Proof.
  intros H. open_trace H.
  assert (fm_get (location_cell i c) m = fm_get (location_cell i c) m6) as ->.
  { unfold location_cell.
    skip F12. skip F11. skip F10. skip F9. skip F8. skip F7. reflexivity. }
  assert (fm_get (location_cell i c) m5 = None) as H0.
  { unfold location_cell. skip F5. skip F4. skip F3. skip F2. skip F1. reflexivity. }
  unfold map_work_items, work_items_of in *. rewrite py_in_dict in H6.
  destruct (lookup_key "WorkItems" d) as [v|] eqn:E; cbn [bind] in H6.
  - rewrite (py_getitem_dict _ _ _ E) in H6. cbn [bind] in H6.
    destruct v as [| | | | |l|]; try (injection H6 as <-; rewrite lookup_nil; exact H0).
    pose proof (work_items_loop_rows l 0 m5 m6 i c H6) as Hr.
    cbn [Nat.leb] in Hr. rewrite Nat.sub_0_r in Hr.
    destruct (l !! i) as [item|]; [|congruence].
    destruct Hr as (mk & mk' & Hs & Hb & Ha). exists mk, mk'. repeat split; congruence.
  - injection H6 as <-. rewrite lookup_nil. exact H0.
Qed.

(** X13. The row of a work item in the location table. For the item
    number [i], below 20, of the ['WorkItems'] list, a dictionary: cell 1 is
    its ['Location'] (or the empty text); cell 3 is the quantity and the
    units with a space between, the quantity alone when there are no units,
    the empty text when there is no quantity; for a description [a:b], where
    [a] has no colon, cell 2 is [a] and cell 4 is [b], both stripped; for a
    description without a colon cell 2 is empty and cell 4 is the
    description as it is. *)
Theorem create_field_mapping_work_item_row (d item : list (string * json)) (m : field_map)
    (i : nat) :
  create_field_mapping (JDict d) = Ok m ->
  work_items_of d !! i = Some (JDict item) ->
  (i < 20)%nat ->
  let description := default (JStr "") (lookup_key "Description" item) in
  let quantity := default (JInt 0) (lookup_key "Quantity" item) in
  let units := default (JStr "") (lookup_key "Units" item) in
  fm_get (location_cell i "1") m = Some (default (JStr "") (lookup_key "Location" item))
  /\ fm_get (location_cell i "3") m
     = Some (if truthy quantity && truthy units
             then JStr (py_str quantity ++ " " ++ py_str units)
             else if truthy quantity then JStr (py_str quantity) else JStr "")
  /\ (forall a b, description = JStr (a ++ ":" ++ b) -> lacks ":" a = true ->
      fm_get (location_cell i "2") m = Some (JStr (Str.strip a))
      /\ fm_get (location_cell i "4") m = Some (JStr (Str.strip b)))
  /\ (no_colon description = true ->
      fm_get (location_cell i "2") m = Some (JStr "")
      /\ fm_get (location_cell i "4") m = Some description).
Proof.
  intros H Hi Hlt. cbv zeta.
  assert (forall c, exists mk mk',
            work_item_step i (JDict item) mk = Ok mk'
            /\ fm_get (location_cell i c) m = fm_get (location_cell i c) mk') as Hrow.
  { intros c. pose proof (create_field_mapping_rows d m i c H) as Hr. rewrite Hi in Hr.
    destruct Hr as (mk & mk' & Hs & _ & Ha). eauto. }
  split; [|split; [|split]].
  - destruct (Hrow "1") as (mk & mk' & Hs & ->).
    apply (work_item_step_dict _ _ _ _ Hs Hlt).
  - destruct (Hrow "3") as (mk & mk' & Hs & ->).
    apply (work_item_step_dict _ _ _ _ Hs Hlt).
  - intros a b Hd Ha. split.
    + destruct (Hrow "2") as (mk & mk' & Hs & ->).
      destruct (work_item_step_dict _ _ _ _ Hs Hlt) as (_ & _ & Hab & _).
      apply (Hab a b Hd Ha).
    + destruct (Hrow "4") as (mk & mk' & Hs & ->).
      destruct (work_item_step_dict _ _ _ _ Hs Hlt) as (_ & _ & Hab & _).
      apply (Hab a b Hd Ha).
  - intros Hn. split.
    + destruct (Hrow "2") as (mk & mk' & Hs & ->).
      destruct (work_item_step_dict _ _ _ _ Hs Hlt) as (_ & _ & _ & Hnc).
      apply (Hnc Hn).
    + destruct (Hrow "4") as (mk & mk' & Hs & ->).
      destruct (work_item_step_dict _ _ _ _ Hs Hlt) as (_ & _ & _ & Hnc).
      apply (Hnc Hn).
Qed.

(** X14. The location table has no more than 20 rows, and a row only for
    a dictionary: a field of row [i] is in the mapping only when [i] is
    below 20 and the item number [i] of the ['WorkItems'] list is a
    dictionary. Without a ['WorkItems'] list there is no row. *)
Theorem create_field_mapping_work_item_bounds (d : list (string * json)) (m : field_map)
    (i : nat) (c : string) :
  create_field_mapping (JDict d) = Ok m ->
  is_Some (fm_get (location_cell i c) m) ->
  (i < 20)%nat /\ exists item, work_items_of d !! i = Some (JDict item).
Proof.
  intros H Hsome.
  pose proof (create_field_mapping_rows d m i c H) as Hr.
  destruct (work_items_of d !! i) as [item|].
  - destruct Hr as (mk & mk' & Hs & Hb & Ha).
    destruct (Nat.lt_ge_cases i 20) as [Hlt|Hge].
    + split; [exact Hlt|].
      destruct item; try (rewrite (work_item_step_none _ _ _ _ Hs), Hb in Ha by auto;
                          rewrite Ha in Hsome; destruct Hsome; discriminate).
      eauto.
    + rewrite (work_item_step_none _ _ _ _ Hs), Hb in Ha by auto.
      rewrite Ha in Hsome. destruct Hsome; discriminate.
  - rewrite Hr in Hsome. destruct Hsome; discriminate.
Qed.

End LocationTable.

(** ** The trades *)

Section Trades.
Context {lib : PyLib}.

Lemma personnel_loop_snoc l st person :
  personnel_loop st (l ++ [person]) = do st' <- personnel_loop st l; personnel_step st' person.
Proof.
  revert st. induction l as [|p l IH]; intros st; simpl.
  - destruct (personnel_step st person); reflexivity.
  - destruct (personnel_step st p) as [st1|]; simpl; [apply IH | reflexivity].
Qed.

Lemma add_trade_has seen t : existsb (fun s => String.eqb s t) (add_trade seen t) = true.
Proof.
  unfold add_trade. destruct (existsb _ seen) eqn:E; [exact E|].
  rewrite existsb_app. simpl. rewrite String.eqb_refl, orb_true_r. reflexivity.
Qed.

Lemma add_trade_idem seen t : add_trade (add_trade seen t) t = add_trade seen t.
Proof. unfold add_trade at 1. rewrite add_trade_has. reflexivity. Qed.

Lemma add_trade_keeps seen t t' :
  existsb (fun s => String.eqb s t') seen = true ->
  existsb (fun s => String.eqb s t') (add_trade seen t) = true.
Proof.
  unfold add_trade. intros H.
  destruct (existsb (fun s => String.eqb s t) seen); [exact H|].
  rewrite existsb_app, H. reflexivity.
Qed.

Lemma add_trade_NoDup seen t : NoDup seen -> NoDup (add_trade seen t).
Proof.
  unfold add_trade. intros H. destruct (existsb _ seen) eqn:E; [exact H|].
  apply NoDup_app. split; [exact H|]. split; [|apply NoDup_singleton].
  intros x Hx Hin. apply list_elem_of_singleton in Hin. subst x.
  assert (existsb (fun s => String.eqb s t) seen = true); [|congruence].
  apply existsb_exists. exists t. split; [apply list_elem_of_In, Hx | apply String.eqb_refl].
Qed.

Lemma trade_order_snoc l person :
  trade_order (l ++ [person])
  = match trade_of person with
    | Some t => add_trade (trade_order l) t
    | None => trade_order l
    end.
Proof.
  unfold trade_order. rewrite omap_app. simpl.
  destruct (trade_of person); simpl; [rewrite fold_left_app|rewrite app_nil_r]; reflexivity.
Qed.

Lemma trade_order_NoDup l : NoDup (trade_order l).
Proof.
  induction l as [|person l IH] using rev_ind; [constructor|].
  rewrite trade_order_snoc. destruct (trade_of person); auto using add_trade_NoDup.
Qed.

Lemma trade_total_snoc t l person :
  trade_total t (l ++ [person])
  = match trade_of person with
    | Some t' => if String.eqb t' t then trade_total t l + count_of person
                 else trade_total t l
    | None => trade_total t l
    end.
Proof. unfold trade_total. rewrite fold_left_app. reflexivity. Qed.

(** A trade that is not in the order has no entry to sum. *)
Lemma trade_total_absent t l :
  existsb (fun s => String.eqb s t) (trade_order l) = false -> trade_total t l = 0.
Proof.
  induction l as [|person l IH] using rev_ind; intros H; [reflexivity|].
  rewrite trade_order_snoc in H. rewrite trade_total_snoc.
  destruct (trade_of person) as [t'|]; [|auto].
  destruct (String.eqb_spec t' t) as [->|Hne].
  - rewrite add_trade_has in H. discriminate.
  - apply IH. destruct (existsb _ (trade_order l)) eqn:E; [|reflexivity].
    rewrite add_trade_keeps in H by exact E. discriminate.
Qed.

(** Dictionaries given by their keys and a function. *)
Lemma dict_mem_keys {V : Type} (g : string -> V) t ks :
  dict_mem String.eqb t (map (fun k => (k, g k)) ks) = existsb (fun s => String.eqb s t) ks.
Proof.
  unfold dict_mem. induction ks as [|k ks IH]; simpl; [reflexivity|].
  destruct (String.eqb k t); simpl; [reflexivity | exact IH].
Qed.

Lemma dict_get_keys {V : Type} (g : string -> V) t ks :
  existsb (fun s => String.eqb s t) ks = true ->
  dict_get String.eqb t (map (fun k => (k, g k)) ks) = Some (g t).
Proof.
  induction ks as [|k ks IH]; simpl; [discriminate|].
  destruct (String.eqb_spec k t) as [->|Hne]; simpl; [reflexivity | exact IH].
Qed.

Lemma dict_set_keys {V : Type} (g g' : string -> V) t v ks :
  NoDup ks ->
  g' t = v -> (forall k, k <> t -> g' k = g k) ->
  dict_set String.eqb t v (map (fun k => (k, g k)) ks)
  = map (fun k => (k, g' k)) (add_trade ks t).
Proof.
  intros Hnd Ht Hg. unfold add_trade.
  induction ks as [|k ks IH]; simpl.
  - rewrite Ht. reflexivity.
  - apply NoDup_cons in Hnd. destruct Hnd as [Hk Hnd].
    destruct (String.eqb_spec k t) as [->|Hne]; simpl.
    + rewrite Ht. f_equal. apply map_ext_in. intros k' Hk'.
      rewrite Hg; [reflexivity|]. intros ->. apply Hk, list_elem_of_In, Hk'.
    + rewrite (IH Hnd).
      destruct (existsb _ ks); simpl; rewrite (Hg k Hne); reflexivity.
Qed.

(** The step of an entry without a contractor, and of one with. *)
Lemma personnel_step_totals l st person :
  person_ok person = true ->
  trade_totals st = map (total_item l) (trade_order l) ->
  exists st',
    personnel_step st person = Ok st'
    /\ trade_totals st' = map (total_item (l ++ [person])) (trade_order (l ++ [person]))
    /\ trade_column_mapping st'
       = match trade_of person with
         | Some t => Some (columns_after t)
         | None => trade_column_mapping st
         end.
Proof.
  intros Hok Htts.
  assert (forall k, trade_of person = None ->
            map (total_item (l ++ [person])) k = map (total_item l) k) as Hsame.
  { intros k Hn. apply map_ext. intros t. unfold total_item.
    rewrite trade_total_snoc, Hn. reflexivity. }
  rewrite trade_order_snoc. unfold personnel_step, trade_of in *.
  destruct person as [ | | | | | |pd];
    try (eexists; split; [reflexivity|]; split; [rewrite Hsame by reflexivity; exact Htts
                                                 | reflexivity]).
  cbn [person_ok] in Hok. cbv zeta in Hok |- *.
  apply andb_prop in Hok. destruct Hok as [Htrade Hc].
  destruct (truthy (default (JStr "") (lookup_key "Contractor" pd))) eqn:Econ;
    cbn [negb] in *;
    [|eexists; split; [reflexivity|]; split;
      [rewrite Hsame by reflexivity; exact Htts | reflexivity]].
  cbn [orb] in Hc. apply andb_prop in Hc. destruct Hc as [Hhash Hcount].
  rewrite Hhash. cbn [bind].
  set (t := match default (JStr "") (lookup_key "Trade" pd) with
            | JStr s => if String.eqb (Str.strip s) "" then "Laborer" else s
            | _ => "Laborer"
            end).
  assert ((if negb (truthy (default (JStr "") (lookup_key "Trade" pd)))
           then Ok "Laborer"
           else do s <- as_str AttributeError (default (JStr "") (lookup_key "Trade" pd));
                if String.eqb (Str.strip s) "" then Ok "Laborer" else Ok s)
          = Ok t) as ->.
  { unfold t. destruct (text_or_empty_cases _ Htrade) as [[s ->] | Hf].
    - cbn [truthy as_str bind]. destruct (String.eqb_spec s "") as [->|Hne]; [reflexivity|].
      cbn [negb]. destruct (String.eqb (Str.strip s) ""); reflexivity.
    - rewrite Hf. cbn [negb].
      destruct (default (JStr "") (lookup_key "Trade" pd)); try reflexivity.
      simpl in Hf. apply negb_false_iff, String.eqb_eq in Hf. subst s. reflexivity. }
  cbn [bind].
  assert (as_number (default (JInt 1) (lookup_key "Count" pd))
          = Some (Num.Int (count_of (JDict pd)))) as ->.
  { unfold count_of. destruct (default (JInt 1) (lookup_key "Count" pd)); try discriminate;
      reflexivity. }
  cbn [of_option bind].
  change (map (total_item l) (trade_order l))
    with (map (fun k => (k, Num.Int (trade_total k l))) (trade_order l)) in Htts.
  rewrite Htts. rewrite dict_mem_keys.
  change (total_item (l ++ [JDict pd]))
    with (fun k => (k, Num.Int (trade_total k (l ++ [JDict pd])))).
  pose proof (trade_order_NoDup l) as Hnd.
  assert (trade_of (JDict pd) = Some t) as Hof.
  { unfold trade_of. rewrite Econ. reflexivity. }
  assert (trade_total t (l ++ [JDict pd]) = trade_total t l + count_of (JDict pd)) as Ht.
  { rewrite trade_total_snoc, Hof, String.eqb_refl. reflexivity. }
  assert (forall k, k <> t -> trade_total k (l ++ [JDict pd]) = trade_total k l) as Hk.
  { intros k Hne. rewrite trade_total_snoc, Hof, (string_eqb_false t k) by congruence.
    reflexivity. }
  destruct (existsb (fun s => String.eqb s t) (trade_order l)) eqn:Ein.
  - rewrite (dict_get_keys _ _ _ Ein). cbn [of_option bind Num.add].
    eexists. split; [reflexivity|]. cbn [trade_totals trade_column_mapping].
    split; [|reflexivity].
    apply dict_set_keys; [exact Hnd | rewrite Ht; reflexivity | ].
    intros k Hne. rewrite (Hk k Hne). reflexivity.
  - assert (dict_set String.eqb t (Num.Int 0)
              (map (fun k => (k, Num.Int (trade_total k l))) (trade_order l))
            = map (fun k => (k, if String.eqb k t then Num.Int 0
                                else Num.Int (trade_total k l)))
                (add_trade (trade_order l) t)) as ->.
    { apply dict_set_keys; [exact Hnd | rewrite String.eqb_refl; reflexivity | ].
      intros k Hne. rewrite (string_eqb_false k t) by exact Hne. reflexivity. }
    rewrite (dict_get_keys _ _ _ (add_trade_has _ _)). rewrite String.eqb_refl.
    cbn [of_option bind Num.add].
    eexists. split; [reflexivity|]. cbn [trade_totals trade_column_mapping].
    split; [|reflexivity].
    rewrite <- (add_trade_idem (trade_order l) t) at 2.
    apply dict_set_keys; [apply add_trade_NoDup, Hnd | | ].
    + rewrite Ht, (trade_total_absent _ _ Ein). reflexivity.
    + intros k Hne. rewrite (string_eqb_false k t) by exact Hne.
      rewrite (Hk k Hne). reflexivity.
Qed.

(** The totals and the columns after the loop. *)
Lemma personnel_loop_totals l :
  forallb person_ok l = true ->
  exists st,
    personnel_loop no_totals l = Ok st
    /\ trade_totals st = map (total_item l) (trade_order l)
    /\ trade_column_mapping st = final_columns l.
Proof.
  induction l as [|person l IH] using rev_ind; intros Hok.
  - exists no_totals. repeat split.
  - rewrite forallb_app in Hok. apply andb_prop in Hok. destruct Hok as [Hl Hp].
    simpl in Hp. rewrite andb_true_r in Hp.
    destruct (IH Hl) as (st & Hst & Htts & Hcols).
    destruct (personnel_step_totals l st person Hp Htts) as (st' & Hst' & Htts' & Hcols').
    exists st'. rewrite personnel_loop_snoc, Hst. cbn [bind].
    split; [exact Hst'|]. split; [exact Htts'|].
    rewrite Hcols'. unfold final_columns. rewrite omap_app. simpl.
    destruct (trade_of person) as [t|]; simpl.
    + rewrite last_snoc. reflexivity.
    + rewrite app_nil_r. exact Hcols.
Qed.

(** X15. On a personnel list whose entries are well formed, the loop
    returns, and its [trade_totals] has one item for each trade, in the
    order of the first entry of the trade, with the sum of the counts of
    the entries of the trade (an entry without a contractor is not counted,
    a blank trade is ['Laborer'], a missing count is 1); the columns are
    those of the last entry with a contractor. *)
Theorem personnel_loop_trade_totals (l : list json) :
  forallb person_ok l = true ->
  exists st,
    personnel_loop no_totals l = Ok st
    /\ trade_totals st = map (fun t => (t, Num.Int (trade_total t l))) (trade_order l)
    /\ trade_column_mapping st = final_columns l.
Proof. apply personnel_loop_totals. Qed.

End Trades.

Section TradeCells.
Context {lib : PyLib}.

Lemma trade_cell_inj a b : trade_cell a = trade_cell b -> a = b.
Proof.
  unfold trade_cell. intros H. apply append_inv_head in H.
  apply of_Z_bracket_inj in H. tauto.
Qed.

Lemma dict_get_set k k' (v : Z) d :
  dict_get String.eqb k (dict_set String.eqb k' v d)
  = if String.eqb k' k then Some v else dict_get String.eqb k d.
Proof.
  destruct (String.eqb_spec k' k) as [->|Hne].
  - apply dict_get_set_eq.
  - apply dict_get_set_ne. congruence.
Qed.

(** The column of a trade: its own among the five trades of the table;
    otherwise 5 for the trade of the last entry, and 4 for any other. *)
Lemma column_in_after t0 t :
  column_in (columns_after t0) t
  = match dict_get String.eqb t default_trade_columns with
    | Some c => c
    | None => if String.eqb t0 t then 5 else 4
    end.
Proof.
  unfold column_in, columns_after, dict_mem.
  destruct (dict_get String.eqb t0 default_trade_columns) as [c0|] eqn:E0.
  - destruct (dict_get String.eqb t default_trade_columns) as [c|] eqn:E; [reflexivity|].
    destruct (String.eqb_spec t0 t) as [->|]; [congruence | reflexivity].
  - rewrite dict_get_set.
    destruct (String.eqb_spec t0 t) as [->|]; [rewrite E0|]; reflexivity.
Qed.

Lemma default_column_bound t c :
  dict_get String.eqb t default_trade_columns = Some c -> 1 <= c <= 4.
Proof.
  unfold default_trade_columns. cbn [dict_get].
  repeat match goal with |- context [String.eqb ?a t] => destruct (String.eqb a t) end;
    intros H; inversion H; lia.
Qed.

Lemma column_in_bound t0 t : 1 <= column_in (columns_after t0) t <= 5.
Proof.
  rewrite column_in_after.
  destruct (dict_get String.eqb t default_trade_columns) as [c|] eqn:E.
  - apply default_column_bound in E. lia.
  - destruct (String.eqb t0 t); lia.
Qed.

(** The loop over [trade_totals]: the last item of a column stays. *)
Lemma trade_columns_cells cols tts m m' col :
  (forall t, column_in cols t <= 10) ->
  fold_left (trade_column_step (Some cols)) tts (Ok m) = Ok m' ->
  fm_get (trade_cell col) m'
  = match column_total cols tts col with
    | Some n => Some (JStr (num_str n))
    | None => fm_get (trade_cell col) m
    end.
Proof.
  intros Hb. unfold column_total. revert m.
  induction tts as [|[t n] tts IH]; intros m H; simpl in H.
  - injection H as <-. reflexivity.
  - fold (column_in cols t) in H.
    destruct (Z.leb_spec (column_in cols t) 10) as [_|Hgt]; [|specialize (Hb t); lia].
    cbn [snd] in H.
    destruct (py_format (of_number n)) as [total|e] eqn:Etotal; cbn [bind] in H;
      [|rewrite trade_columns_Raise in H; discriminate].
    apply py_format_text in Etotal. subst total. fold (num_str n) in H.
    rewrite (IH _ H). cbn [List.filter fst].
    destruct (Z.eqb_spec (column_in cols t) col) as [<-|Hne].
    + rewrite last_cons.
      destruct (last (List.filter _ tts)) as [kv|]; [reflexivity|].
      cbn [fmap option_fmap option_map snd]. apply fm_get_set_eq.
    + destruct (last (List.filter _ tts)) as [kv|]; [reflexivity|].
      cbn [fmap option_fmap option_map]. apply fm_get_set_ne.
      intros E. apply trade_cell_inj in E. congruence.
Qed.

Lemma trade_order_nil l : omap trade_of l = [] -> trade_order l = [].
Proof. unfold trade_order. intros ->. reflexivity. Qed.

(** X16. The cells of the trades. With well-formed personnel entries,
    the cell of column [col] of [PersonnelTable1] holds the total of the
    last trade of that column, in the order of [trade_totals]: a trade
    that shares the column with a later one is overwritten, not added. A
    column without a trade has no cell in the mapping. *)
Theorem create_field_mapping_trade_cells (d : list (string * json)) (m : field_map)
    (col : Z) :
  create_field_mapping (JDict d) = Ok m ->
  forallb person_ok (personnel_of (JDict d)) = true ->
  let l := personnel_of (JDict d) in
  fm_get (trade_cell col) m
  = (fun n => JStr (num_str n))
      <$> column_total (default default_trade_columns (final_columns l))
            (map (fun t => (t, Num.Int (trade_total t l))) (trade_order l)) col.
Proof.
  intros H Hok. cbv zeta. open_trace H.
  assert (fm_get (trade_cell col) m = fm_get (trade_cell col) m5) as ->.
  { unfold trade_cell.
    skip F12. skip F11. skip F10. skip F9. skip F8. skip F7. skip F6. reflexivity. }
  assert (fm_get (trade_cell col) m4 = None) as H0.
  { unfold trade_cell. skip F4. skip F3. skip F2. skip F1. reflexivity. }
  unfold map_personnel in H5. unfold personnel_of in *. rewrite py_in_dict in H5.
  destruct (lookup_key "Personnel" d) as [v|] eqn:E; cbn [bind] in H5;
    [|injection H5 as <-; exact H0].
  rewrite (py_getitem_dict _ _ _ E) in H5. cbn [bind] in H5.
  destruct v as [| | | | |l|]; try (injection H5 as <-; exact H0).
  destruct (personnel_loop_totals l Hok) as (st & Hst & Htts & Hcols).
  unfold no_totals in Hst. rewrite Hst in H5. cbn [bind] in H5.
  pose proof (contractor_rows_frames (contractor_totals st) m4 0) as Fc.
  destruct (fold_left contractor_row_step _ _) as [mc row]. cbn [fst] in Fc.
  assert (fm_get (trade_cell col) mc = None) as Hc.
  { rewrite <- H0. unfold trade_cell. skip Fc. reflexivity. }
  rewrite Htts, Hcols in H5. unfold total_item in H5.
  unfold final_columns in *.
  destruct (last (omap trade_of l)) as [t0|] eqn:El; cbn [fmap option_fmap option_map] in *.
  - cbn [default].
    assert (forall t, column_in (columns_after t0) t <= 10) as Hb.
    { intros t. pose proof (column_in_bound t0 t). lia. }
    rewrite (trade_columns_cells _ _ _ _ col Hb H5).
    rewrite Hc. destruct (column_total _ _ col); reflexivity.
  - apply last_None in El. rewrite (trade_order_nil _ El) in *.
    simpl in H5. injection H5 as <-. exact Hc.
Qed.

(** X17. The column of a trade after the loop over well-formed
    entries: 1 for ['Supervisor'] and ['Superintendent'], 2 for
    ['Operator'], 3 for ['Truck Driver'], 4 for ['Laborer']; a trade that
    is none of these has column 5 when it is the trade of the last entry
    with a contractor, and column 4, that of the laborers, otherwise. *)
Theorem personnel_loop_trade_column (l : list json) (st : personnel_totals)
    (cols : list (string * Z)) (t : string) :
  forallb person_ok l = true ->
  personnel_loop no_totals l = Ok st ->
  trade_column_mapping st = Some cols ->
  column_in cols t
  = match dict_get String.eqb t default_trade_columns with
    | Some c => c
    | None =>
        match last (omap trade_of l) with
        | Some t0 => if String.eqb t0 t then 5 else 4
        | None => 4
        end
    end.
Proof.
  intros Hok Hst Hcols.
  destruct (personnel_loop_totals l Hok) as (st' & Hst' & _ & Hcols').
  rewrite Hst in Hst'. injection Hst' as <-. rewrite Hcols in Hcols'.
  unfold final_columns in Hcols'.
  destruct (last (omap trade_of l)) as [t0|]; [|discriminate].
  injection Hcols' as ->. apply column_in_after.
Qed.

End TradeCells.

(** ** The supervisor, the equipment and the remarks *)

Section ClosingFields.
Context {lib : PyLib}.

Lemma superintendent_loop_first personnel name :
  superintendent_loop personnel = Ok name ->
  name = default (JStr "") (supervisor_of personnel)
  /\ (truthy name = true <-> is_Some (supervisor_of personnel)).
Proof.
  unfold supervisor_of.
  induction personnel as [|person rest IH]; simpl; intros H.
  - injection H as <-. split; [reflexivity|]. split; [discriminate|].
    intros [x Hx]; discriminate.
  - destruct person as [ | | | | | |d]; cbn [is_named_superintendent]; auto.
    unfold trade_has_superintendent.
    destruct (truthy (default (JStr "") (lookup_key "Trade" d))) eqn:Et.
    + inv_bind H as has Hhas. rewrite Hhas.
      destruct (has && truthy _) eqn:E.
      * injection H as <-. cbn [default]. split; [reflexivity|].
        apply andb_prop in E. destruct E as [_ E]. rewrite E. split; eauto.
      * auto.
    + pose proof (trade_has_superintendent_falsy _ Et) as Hf.
      unfold trade_has_superintendent in Hf. rewrite Hf. cbn [andb]. auto.
Qed.

(** X18. The supervisor's name. The field [Contractor[1]] of the project
    block is the ['Name'] of the first personnel entry whose trade contains
    ['Superintendent'] and whose name is not empty; without such an entry
    the mapping has no such field. *)
Theorem create_field_mapping_supervisor_name (d : list (string * json)) (m : field_map) :
  create_field_mapping (JDict d) = Ok m ->
  fm_get supervisor_field m = supervisor_of (personnel_of (JDict d)).
Proof.
  intros H. open_trace H.
  skip F12. skip F11. skip F10. skip F9. skip F8.
  assert (fm_get supervisor_field m6 = None) as H0.
  { skip F6. skip F5. skip F4. skip F3. skip F2. skip F1. reflexivity. }
  unfold map_superintendent in H7. inv_bind H7 as name Hname.
  assert (name = default (JStr "") (supervisor_of (personnel_of (JDict d)))
          /\ (truthy name = true <-> is_Some (supervisor_of (personnel_of (JDict d)))))
    as [Hn Ht].
  { unfold extract_superintendent_name, personnel_of in *. rewrite py_in_dict in Hname.
    destruct (lookup_key "Personnel" d) as [v|] eqn:E; cbn [bind] in Hname.
    - rewrite (py_getitem_dict _ _ _ E) in Hname. cbn [bind] in Hname.
      destruct v; try (injection Hname as <-; split; [reflexivity|];
                       split; [discriminate | intros [x Hx]; discriminate]).
      apply superintendent_loop_first, Hname.
    - injection Hname as <-. split; [reflexivity|].
      split; [discriminate | intros [x Hx]; discriminate]. }
  destruct (truthy name) eqn:E; injection H7 as <-.
  - rewrite !fm_get_set_ne by (vm_compute; discriminate).
    fold supervisor_field. rewrite fm_get_set_eq.
    destruct (proj1 Ht eq_refl) as [x Hx]. rewrite Hx in Hn |- *. subst name. reflexivity.
  - rewrite !fm_get_set_ne by (vm_compute; discriminate). rewrite H0.
    destruct (supervisor_of _) as [x|]; [|reflexivity].
    assert (false = true) by (apply Ht; eauto). discriminate.
Qed.

(** *** The joined texts *)

Lemma py_join_items_text items ss :
  py_join_items items = Ok ss -> ss = map text_of items.
Proof.
  revert ss. induction items as [|x items IH]; simpl; intros ss H.
  - injection H as <-. reflexivity.
  - inv_bind H as s Hs. inv_bind H as ss' Hss. injection H as <-.
    destruct x; try discriminate. injection Hs as <-. rewrite (IH _ Hss). reflexivity.
Qed.

Lemma join_or_empty_text items s :
  match items with
  | [] => Ok ""
  | _ => py_join "
" items
  end = Ok s ->
  s = Str.join "
" (map text_of items).
Proof.
  destruct items as [|x items]; intros H; [injection H as <-; reflexivity|].
  unfold py_join in H. inv_bind H as ss Hss. injection H as <-.
  rewrite (py_join_items_text _ _ Hss). reflexivity.
Qed.

Lemma equipment_fold items acc :
  fold_left equipment_step items acc = (acc ++ omap equipment_name items)%list.
Proof.
  revert acc. induction items as [|item items IH]; intros acc; simpl.
  - rewrite app_nil_r. reflexivity.
  - rewrite IH. unfold equipment_step, equipment_name.
    destruct item; try reflexivity. cbv zeta.
    destruct (truthy _); [rewrite <- app_assoc|]; reflexivity.
Qed.

Lemma equipment_fold_texts {A : Type} (f : A -> string) xs acc :
  fold_left equipment_step (map (fun x => JStr (f x)) xs) acc = acc.
Proof. revert acc. induction xs; intros acc; simpl; auto. Qed.

(** The loop over an ['Equipment'] entry. *)
Lemma equipment_loop d equipment items acc :
  lookup_key "Equipment" d = Some equipment ->
  py_iter equipment = Ok items ->
  fold_left equipment_step items acc = (acc ++ equipment_in d)%list.
Proof.
  unfold equipment_in. intros -> Hi.
  destruct equipment; try discriminate; injection Hi as <-.
  - rewrite (equipment_fold_texts (fun c => String c "")), app_nil_r. reflexivity.
  - apply equipment_fold.
  - rewrite (equipment_fold_texts fst), app_nil_r. reflexivity.
Qed.

Lemma equipment_in_none d : lookup_key "Equipment" d = None -> equipment_in d = [].
Proof. unfold equipment_in. intros ->. reflexivity. Qed.

Lemma extract_equipment_data_text d s :
  extract_equipment_data (JDict d) = Ok s ->
  s = Str.join "
" (map text_of (all_equipment d)).
Proof.
  unfold extract_equipment_data, all_equipment. rewrite !py_in_dict. cbv zeta.
  intros H. cbn [bind] in H. inv_bind H as l1 H1. inv_bind H as l2 H2.
  apply join_or_empty_text in H. subst s. do 2 f_equal.
  assert (l1 = equipment_in d) as ->.
  { destruct (lookup_key "Equipment" d) as [equipment|] eqn:E; cbn [bind] in H1.
    - rewrite (py_getitem_dict _ _ _ E) in H1. cbn [bind] in H1.
      inv_bind H1 as items Hi. injection H1 as <-.
      apply (equipment_loop d equipment items [] E Hi).
    - injection H1 as <-. symmetry. apply equipment_in_none, E. }
  unfold daily_report_of.
  destruct (lookup_key "DailyReport" d) as [daily_report|] eqn:E; cbn [bind] in H2;
    [|injection H2 as <-; rewrite app_nil_r; reflexivity].
  rewrite (py_getitem_dict _ _ _ E) in H2. cbn [bind] in H2.
  inv_bind H2 as has Hhas.
  destruct daily_report as [ | | | |t|l|rd]; try discriminate.
  - cbn [py_in] in Hhas. destruct has; [inv_bind H2; discriminate|].
    injection H2 as <-. rewrite app_nil_r. reflexivity.
  - cbn [py_in] in Hhas. destruct has; [inv_bind H2; discriminate|].
    injection H2 as <-. rewrite app_nil_r. reflexivity.
  - rewrite py_in_dict in Hhas. injection Hhas as <-.
    destruct (lookup_key "Equipment" rd) as [equipment|] eqn:Er; cbn [bind] in H2.
    + rewrite (py_getitem_dict _ _ _ Er) in H2. cbn [bind] in H2.
      inv_bind H2 as items Hi. injection H2 as <-.
      apply (equipment_loop rd equipment items _ Er Hi).
    + injection H2 as <-. rewrite (equipment_in_none _ Er), app_nil_r. reflexivity.
Qed.

(** X19. The equipment field is the names of the equipment, one on a
    line: the non-empty ['Name'] of every dictionary of the ['Equipment']
    list of the report, then of the ['Equipment'] list of its
    ['DailyReport']. When there is no name the mapping has no such field. *)
Theorem create_field_mapping_equipment (d : list (string * json)) (m : field_map) :
  create_field_mapping (JDict d) = Ok m ->
  fm_get equipment_field m
  = text_field_of (Str.join "
" (map text_of (all_equipment d))).
Proof.
  intros H. open_trace H.
  skip F12. skip F11.
  assert (fm_get equipment_field m9 = None) as H0.
  { skip F9. skip F8. skip F7. skip F6. skip F5. skip F4. skip F3. skip F2. skip F1.
    reflexivity. }
  unfold map_equipment in H10. inv_bind H10 as s Hs.
  rewrite <- (extract_equipment_data_text _ _ Hs). unfold text_field_of.
  destruct (String.eqb s ""); injection H10 as <-; [exact H0|].
  apply fm_get_set_eq.
Qed.

Lemma remarks_step_line acc acc' item :
  remarks_step acc item = Ok acc' ->
  acc' = (acc ++ match remark_line item with Some line => [line] | None => [] end)%list.
Proof.
  unfold remarks_step, remark_line. intros H.
  destruct item; try (injection H as <-; rewrite app_nil_r; reflexivity).
  cbv zeta in H |- *.
  destruct (truthy _); [|injection H as <-; rewrite app_nil_r; reflexivity].
  destruct (truthy _); [|injection H as <-; reflexivity].
  inv_bind H as stamp Hs. inv_bind H as line Hl. injection H as <-.
  rewrite (py_format_text _ _ Hs), (py_format_text _ _ Hl). reflexivity.
Qed.

Lemma remarks_fold items acc acc' :
  remarks_loop acc items = Ok acc' -> acc' = (acc ++ omap remark_line items)%list.
Proof.
  revert acc. induction items as [|item items IH]; intros acc H; simpl in H.
  - injection H as <-. rewrite app_nil_r. reflexivity.
  - inv_bind H as acc1 H1. rewrite (IH _ H), (remarks_step_line _ _ _ H1).
    rewrite <- app_assoc. simpl. destruct (remark_line item); reflexivity.
Qed.

Lemma remarks_of_narrative_in d narrative acc acc' :
  lookup_key "Narrative" d = Some narrative ->
  remarks_of_narrative acc narrative = Ok acc' -> acc' = (acc ++ remarks_in d)%list.
Proof.
  unfold remarks_in, remarks_of_narrative. intros -> H.
  destruct narrative; try (injection H as <-; rewrite ?app_nil_r; reflexivity).
  apply remarks_fold, H.
Qed.

Lemma remarks_in_none d : lookup_key "Narrative" d = None -> remarks_in d = [].
Proof. unfold remarks_in. intros ->. reflexivity. Qed.

Lemma extract_remarks_data_text d s :
  extract_remarks_data (JDict d) = Ok s ->
  s = Str.join "
" (map text_of (all_remarks d)).
Proof.
  unfold extract_remarks_data, all_remarks. rewrite !py_in_dict. cbv zeta.
  intros H. cbn [bind] in H. inv_bind H as l1 H1. inv_bind H as l2 H2.
  apply join_or_empty_text in H. subst s. do 2 f_equal.
  assert (l1 = remarks_in d) as ->.
  { destruct (lookup_key "Narrative" d) as [narrative|] eqn:E; cbn [bind] in H1.
    - rewrite (py_getitem_dict _ _ _ E) in H1. cbn [bind] in H1.
      apply (remarks_of_narrative_in d narrative [] _ E H1).
    - injection H1 as <-. symmetry. apply remarks_in_none, E. }
  unfold daily_report_of.
  destruct (lookup_key "DailyReport" d) as [daily_report|] eqn:E; cbn [bind] in H2;
    [|injection H2 as <-; rewrite app_nil_r; reflexivity].
  rewrite (py_getitem_dict _ _ _ E) in H2. cbn [bind] in H2.
  inv_bind H2 as has Hhas.
  destruct daily_report as [ | | | |t|l|rd]; try discriminate.
  - cbn [py_in] in Hhas. destruct has; [inv_bind H2; discriminate|].
    injection H2 as <-. rewrite app_nil_r. reflexivity.
  - cbn [py_in] in Hhas. destruct has; [inv_bind H2; discriminate|].
    injection H2 as <-. rewrite app_nil_r. reflexivity.
  - rewrite py_in_dict in Hhas. injection Hhas as <-.
    destruct (lookup_key "Narrative" rd) as [narrative|] eqn:Er; cbn [bind] in H2.
    + rewrite (py_getitem_dict _ _ _ Er) in H2. cbn [bind] in H2.
      apply (remarks_of_narrative_in rd narrative _ _ Er H2).
    + injection H2 as <-. rewrite (remarks_in_none _ Er), app_nil_r. reflexivity.
Qed.

(** X20. The remarks field is the lines of the narrative, one on a
    line: for the ['Narrative'] of the report and then that of its
    ['DailyReport'], the text itself when the narrative is a text, and for
    a list the non-empty ['Text'] of every dictionary, after its
    ['Timestamp'] in brackets when it has one. When the joined text is
    empty the mapping has no such field. *)
Theorem create_field_mapping_remarks (d : list (string * json)) (m : field_map) :
  create_field_mapping (JDict d) = Ok m ->
  fm_get remarks_field m
  = text_field_of (Str.join "
" (map text_of (all_remarks d))).
Proof.
  intros H. open_trace H.
  skip F12. skip F11. skip F10.
  assert (fm_get remarks_field (map_classification cls m7) = None) as H0.
  { skip F8. skip F7. skip F6. skip F5. skip F4. skip F3. skip F2. skip F1. reflexivity. }
  unfold map_remarks in H9. inv_bind H9 as s Hs.
  rewrite <- (extract_remarks_data_text _ _ Hs). unfold text_field_of.
  destruct (String.eqb s ""); injection H9 as <-; [exact H0|].
  apply fm_get_set_eq.
Qed.

End ClosingFields.

(** * Further properties of the form filler *)

Section Passes.
Context {lib : PyLib} {pdflib : PdfLib}.

Lemma ad_get_set_eq k v a : ad_get k (ad_set k v a) = Some v.
Proof. apply dict_get_set_eq. Qed.

Lemma ad_set_same k v a : ad_get k a = Some v -> ad_set k v a = a.
Proof.
  unfold ad_get, ad_set. induction a as [|[k0 v0] a IH]; simpl; [discriminate|].
  destruct (String.eqb k0 k); intros H; [congruence|]. rewrite IH; auto.
Qed.

(** Setting again what a pass has set changes nothing. *)
Ltac set_again :=
  repeat (rewrite ad_set_same
            by (rewrite ?ad_get_set_other by discriminate; apply ad_get_set_eq));
  reflexivity.

Lemma fill_annotation_idem k v a :
  fill_annotation k v (fill_annotation k v a) = fill_annotation k v a.
Proof.
  pose proof (fill_annotation_fields k v a) as Hf.
  unfold fields_of in Hf. injection Hf as HT HFT.
  unfold fill_annotation at 1. rewrite HT, HFT. unfold fill_annotation.
  destruct (ad_get "/T" a) as [t|]; [|reflexivity].
  destruct (ad_get "/FT" a) as [ft|]; [|reflexivity].
  destruct (pdf_eq_str t k); [|reflexivity].
  destruct (pdf_eq_str ft "/Tx"); [set_again|].
  destruct (pdf_eq_str ft "/Btn"); [destruct (is_checked v); set_again|].
  destruct (pdf_eq_str ft "/Sig"); [set_again | reflexivity].
Qed.

Lemma lookup_insert_at {A : Type} (l : list A) (n i : nat) (x y : A) :
  l !! n = Some x ->
  <[n := y]> l !! i = if Nat.eqb i n then Some y else l !! i.
Proof.
  intros Hn. destruct (Nat.eqb_spec i n) as [->|Hne].
  - apply list_lookup_insert_eq. eapply lookup_lt_Some, Hn.
  - apply list_lookup_insert_ne. congruence.
Qed.

(** A pass that applies an idempotent function to the referenced
    objects. *)
Lemma fill_annots_at k v annots objects objects' i :
  fill_annots k v annots objects = Ok objects' ->
  objects' !! i
  = if existsb (Nat.eqb i) annots then fill_annotation k v <$> objects !! i
    else objects !! i.
Proof.
  revert objects. induction annots as [|n rest IH]; intros objects H; simpl in H.
  - injection H as <-. reflexivity.
  - inv_bind H as a Ha. apply of_option_Ok in Ha.
    rewrite (IH _ H). rewrite (lookup_insert_at _ _ _ _ _ Ha). cbn [existsb].
    destruct (Nat.eqb_spec i n) as [->|Hne]; cbn [orb].
    + rewrite Ha. destruct (existsb _ rest); cbn; [rewrite fill_annotation_idem|];
        reflexivity.
    + reflexivity.
Qed.

Lemma fill_pages_at k v pages objects objects' i :
  fill_pages k v pages objects = Ok objects' ->
  objects' !! i
  = if referenced pages i then fill_annotation k v <$> objects !! i else objects !! i.
Proof.
  revert objects. induction pages as [|pg rest IH]; intros objects H; simpl in H.
  - injection H as <-. reflexivity.
  - inv_bind H as objects1 H1. rewrite (IH _ H). cbn [referenced existsb].
    fold (referenced rest i).
    destruct (pg_annots pg) as [annots|].
    + rewrite (fill_annots_at _ _ _ _ _ i H1).
      destruct (existsb (Nat.eqb i) annots), (referenced rest i),
        (objects !! i); cbn; rewrite ?fill_annotation_idem; reflexivity.
    + injection H1 as <-. reflexivity.
Qed.

Lemma fill_fields_at items pages objects objects' i :
  fill_fields items pages objects = Ok objects' ->
  objects' !! i
  = if referenced pages i then fill_all items <$> objects !! i else objects !! i.
Proof.
  revert objects. induction items as [|[k v] rest IH]; intros objects H; simpl in H.
  - injection H as <-. destruct (referenced pages i), (objects !! i); reflexivity.
  - inv_bind H as objects1 H1. rewrite (IH _ H).
    change (fill_all ((k, v) :: rest)) with (fun a => fill_all rest (fill_item a (k, v))).
    unfold fill_item. cbn [fst snd].
    destruct (String.eqb k "day_of_week").
    + injection H1 as <-. reflexivity.
    + rewrite (fill_pages_at _ _ _ _ _ i H1).
      destruct (referenced pages i), (objects !! i); reflexivity.
Qed.

(** The annotation the day-of-week pass makes does not depend on the
    counters. *)
Lemma day_annotation_counters day target a counters :
  snd (day_annotation day target a counters) = snd (day_annotation day target a ∅).
Proof.
  unfold day_annotation.
  destruct (ad_get "/T" a) as [t|]; [|reflexivity].
  destruct (ad_get "/FT" a) as [ft|]; [|reflexivity].
  destruct (pdf_eq_str ft "/Btn"); [|reflexivity].
  destruct (pdf_contains "Day" t) as [[|]|]; try reflexivity.
  destruct (day_in_title day t) as [[|]|]; reflexivity.
Qed.

Lemma day_annotation_set day target a counters counters' a' :
  day_annotation day target a counters = (counters', Ok a') -> a' = day_set day target a.
Proof.
  intros H. unfold day_set. rewrite <- (day_annotation_counters day target a counters), H.
  reflexivity.
Qed.

Lemma day_set_fields day target a : fields_of (day_set day target a) = fields_of a.
Proof.
  unfold day_set.
  destruct (day_annotation day target a ∅) as [c [a'|e]] eqn:E; [|reflexivity].
  apply (day_annotation_fields _ _ _ _ _ _ E).
Qed.

Lemma day_set_idem day target a :
  day_set day target (day_set day target a) = day_set day target a.
Proof.
  pose proof (day_set_fields day target a) as Hf.
  unfold fields_of in Hf. injection Hf as HT HFT.
  unfold day_set at 1. unfold day_annotation. rewrite HT, HFT.
  unfold day_set, day_annotation.
  destruct (ad_get "/T" a) as [t|]; [|reflexivity].
  destruct (ad_get "/FT" a) as [ft|]; [|reflexivity].
  destruct (pdf_eq_str ft "/Btn"); [|reflexivity].
  destruct (pdf_contains "Day" t) as [[|]|]; try reflexivity.
  destruct (day_in_title day t) as [[|]|]; cbn [snd]; try reflexivity; set_again.
Qed.

Lemma day_annots_at day target annots objects counters counters' objects' i :
  day_annots day target annots objects counters = (counters', Ok objects') ->
  objects' !! i
  = if existsb (Nat.eqb i) annots then day_set day target <$> objects !! i
    else objects !! i.
Proof.
  revert objects counters.
  induction annots as [|n rest IH]; intros objects counters H; simpl in H.
  - injection H as _ <-. reflexivity.
  - destruct (objects !! n) as [a|] eqn:Ha; [|discriminate].
    destruct (day_annotation _ _ _ _) as [counters1 [a'|e]] eqn:Hday; [|discriminate].
    apply day_annotation_set in Hday. subst a'.
    rewrite (IH _ _ H). rewrite (lookup_insert_at _ _ _ _ _ Ha). cbn [existsb].
    destruct (Nat.eqb_spec i n) as [->|Hne]; cbn [orb].
    + rewrite Ha. destruct (existsb _ rest); cbn; [rewrite day_set_idem|]; reflexivity.
    + reflexivity.
Qed.

Lemma day_pages_at day target pages objects counters counters' objects' i :
  day_pages day target pages objects counters = (counters', Ok objects') ->
  objects' !! i
  = if referenced pages i then day_set day target <$> objects !! i else objects !! i.
Proof.
  revert objects counters.
  induction pages as [|pg rest IH]; intros objects counters H; simpl in H.
  - injection H as _ <-. reflexivity.
  - cbn [referenced existsb]. fold (referenced rest i).
    destruct (pg_annots pg) as [annots|].
    + destruct (day_annots _ _ _ _ _) as [counters1 [objects1|e]] eqn:H1; [|discriminate].
      rewrite (IH _ _ H), (day_annots_at _ _ _ _ _ _ _ i H1).
      destruct (existsb (Nat.eqb i) annots), (referenced rest i),
        (objects !! i); cbn; rewrite ?day_set_idem; reflexivity.
    + apply (IH _ _ H).
Qed.

Lemma embed_images_objects doc photos doc' :
  _embed_images_in_pdf doc photos = Ok doc' -> pdf_objects doc' = pdf_objects doc.
Proof.
  unfold _embed_images_in_pdf. destruct photos; intros H; [congruence|].
  inv_bind H. injection H as <-. reflexivity.
Qed.

(** The objects of the document a returning call saves: each referenced
    annotation after the field pass and the day-of-week pass. *)
Lemma fill_pdf_form_objects self field_mapping uploaded_photos bytes :
  snd (fill_pdf_form self field_mapping uploaded_photos) = Ok bytes ->
  exists doc doc' target,
    pdf_open (odot_template_path self) = Some doc
    /\ target_appearance_of (day_of field_mapping) = Ok target
    /\ bytes = pdf_save doc'
    /\ forall i,
         pdf_objects doc' !! i
         = if referenced (pdf_pages doc) i
           then (fun a => day_set (day_of field_mapping) target (fill_all field_mapping a))
                  <$> pdf_objects doc !! i
           else pdf_objects doc !! i.
Proof.
  unfold fill_pdf_form. fold (day_of field_mapping). intros H.
  destruct (pdf_open (odot_template_path self)) as [doc|]; [|discriminate].
  destruct (fill_fields _ _ _) as [objects1|] eqn:H1; [|discriminate].
  destruct (target_appearance_of _) as [target|]; [|discriminate].
  destruct (day_pages _ _ _ _ _) as [counters [objects2|e]] eqn:H2; [|discriminate].
  cbn [snd bind] in H. inv_bind H as doc' Hdoc. injection H as <-.
  exists doc, doc', target. repeat split.
  assert (pdf_objects doc' = objects2) as ->.
  { destruct uploaded_photos as [[|p rest]|]; try (injection Hdoc as <-; reflexivity).
    apply embed_images_objects in Hdoc. exact Hdoc. }
  intros i. rewrite (day_pages_at _ _ _ _ _ _ _ i H2), (fill_fields_at _ _ _ _ i H1).
  destruct (referenced (pdf_pages doc) i), (pdf_objects doc !! i); reflexivity.
Qed.

End Passes.

(** ** The values of the fields *)

Section FieldValues.
Context {lib : PyLib} {pdflib : PdfLib}.

Lemma title_is_unique a k k' : title_is a k = true -> k' <> k -> title_is a k' = false.
Proof.
  unfold title_is. destruct (ad_get "/T" a) as [t|]; [|discriminate].
  destruct t; simpl; try discriminate; intros H Hne;
    apply String.eqb_eq in H; subst; apply string_eqb_false; congruence.
Qed.

Lemma fill_item_fields a item : fields_of (fill_item a item) = fields_of a.
Proof.
  unfold fill_item. destruct (String.eqb _ _); [reflexivity|].
  apply fill_annotation_fields.
Qed.

Lemma fill_all_fields items a : fields_of (fill_all items a) = fields_of a.
Proof.
  unfold fill_all. revert a. induction items as [|item rest IH]; intros a; simpl.
  - reflexivity.
  - rewrite IH. apply fill_item_fields.
Qed.

Lemma fields_forallb_keys a b (items : list (string * json)) :
  fields_of a = fields_of b ->
  forallb (fun kv => negb (title_is a (fst kv))) items
  = forallb (fun kv => negb (title_is b (fst kv))) items.
Proof.
  intros Hf. induction items as [|kv rest IH]; simpl; [reflexivity|].
  rewrite (title_is_fields a b _ Hf), IH. reflexivity.
Qed.

Lemma is_day_button_fields a b : fields_of a = fields_of b -> is_day_button a = is_day_button b.
Proof. unfold fields_of, is_day_button. intros H. injection H as -> ->. reflexivity. Qed.

(** Items with other keys pass an annotation over. *)
Lemma fill_all_none (items : list (string * json)) a :
  forallb (fun kv => negb (title_is a (fst kv))) items = true -> fill_all items a = a.
Proof.
  unfold fill_all. induction items as [|[k v] rest IH]; simpl; intros H; [reflexivity|].
  apply andb_prop in H. destruct H as [Hk Hrest]. apply negb_true_iff in Hk.
  unfold fill_item at 2. cbn [fst snd].
  rewrite (fill_annotation_other _ _ _ Hk). destruct (String.eqb k "day_of_week"); auto.
Qed.

Lemma distinct_keys_others a k (rest : list (string * json)) :
  title_is a k = true ->
  existsb (fun kv => String.eqb (fst kv) k) rest = false ->
  forallb (fun kv => negb (title_is a (fst kv))) rest = true.
Proof.
  intros Ht. induction rest as [|[k' v'] rest IH]; simpl; intros H; [reflexivity|].
  apply orb_false_elim in H. destruct H as [Hk Hrest].
  rewrite (title_is_unique a k k' Ht), IH; auto.
  intros ->. rewrite String.eqb_refl in Hk. discriminate.
Qed.

(** With distinct keys, the one item of the title of an annotation is
    the only one that writes to it. *)
Lemma fill_all_one items a k v :
  distinct_keys items = true ->
  fm_get k items = Some v ->
  k <> "day_of_week" ->
  title_is a k = true ->
  fill_all items a = fill_annotation k v a.
Proof.
  intros Hd Hget Hk Ht. unfold fm_get in Hget.
  induction items as [|[k0 v0] rest IH]; simpl in Hd, Hget; [discriminate|].
  apply andb_prop in Hd. destruct Hd as [Hfresh Hd]. apply negb_true_iff in Hfresh.
  change (fill_all ((k0, v0) :: rest) a) with (fill_all rest (fill_item a (k0, v0))).
  unfold fill_item. cbn [fst snd].
  destruct (String.eqb_spec k0 k) as [->|Hne].
  - injection Hget as ->. rewrite (string_eqb_false k "day_of_week") by exact Hk.
    apply fill_all_none.
    rewrite (fields_forallb_keys (fill_annotation k v a) a rest
               (fill_annotation_fields k v a)).
    apply (distinct_keys_others a k rest Ht Hfresh).
  - rewrite (fill_annotation_other k0 v0 a) by (apply (title_is_unique a k); auto).
    destruct (String.eqb k0 "day_of_week"); auto.
Qed.

Lemma day_set_not_button day target a : is_day_button a = false -> day_set day target a = a.
Proof.
  intros H. unfold day_set.
  destruct (day_annotation day target a ∅) as [c [a'|e]] eqn:E; [|reflexivity].
  apply (day_annotation_other _ _ _ _ _ _ E H).
Qed.

Lemma not_button_not_day a s :
  type_is a s = true -> s <> "/Btn" -> is_day_button a = false.
Proof.
  unfold type_is, is_day_button. intros H Hs.
  destruct (ad_get "/T" a); [|reflexivity].
  destruct (ad_get "/FT" a) as [ft|]; [|discriminate].
  destruct ft; simpl in *; try discriminate;
    apply String.eqb_eq in H; subst; rewrite (string_eqb_false s "/Btn") by exact Hs;
    reflexivity.
Qed.

Lemma fill_annotation_text k v a :
  title_is a k = true -> type_is a "/Tx" = true \/ type_is a "/Sig" = true ->
  fill_annotation k v a = ad_set "/V" (PdfString (py_str v)) a.
Proof.
  unfold title_is, type_is, fill_annotation.
  destruct (ad_get "/T" a) as [t|]; [|discriminate].
  destruct (ad_get "/FT" a) as [ft|]; [|intros _ [H|H]; discriminate].
  intros -> [H|H].
  - rewrite H. reflexivity.
  - destruct ft; simpl in *; try discriminate;
      apply String.eqb_eq in H; subst; reflexivity.
Qed.

Lemma fill_annotation_button k v a :
  title_is a k = true -> type_is a "/Btn" = true ->
  fill_annotation k v a = ad_set "/AS" (check_value v) (ad_set "/V" (check_value v) a).
Proof.
  unfold title_is, type_is, fill_annotation, check_value.
  destruct (ad_get "/T" a) as [t|]; [|discriminate].
  destruct (ad_get "/FT" a) as [ft|]; [|discriminate].
  intros -> H.
  destruct ft; simpl in *; try discriminate;
    apply String.eqb_eq in H; subst; cbn; destruct (is_checked v); reflexivity.
Qed.

(** X21. A text field or a signature field of the template whose title
    is a key of the mapping (other than ['day_of_week']) has, in the
    document a returning call saves, the text [str(value)] as its [/V];
    nothing else of the annotation is changed. The field has to be in the
    [/Annots] of a page, and the keys of the mapping are distinct. *)
Theorem fill_pdf_form_text_field (self : converter) (field_mapping : field_map)
    (uploaded_photos : option (list photo)) (bytes : string) (k : string) (v : json) :
  snd (fill_pdf_form self field_mapping uploaded_photos) = Ok bytes ->
  distinct_keys field_mapping = true ->
  fm_get k field_mapping = Some v ->
  k <> "day_of_week" ->
  exists doc doc',
    pdf_open (odot_template_path self) = Some doc
    /\ bytes = pdf_save doc'
    /\ forall i a,
         pdf_objects doc !! i = Some a ->
         referenced (pdf_pages doc) i = true ->
         title_is a k = true ->
         type_is a "/Tx" = true \/ type_is a "/Sig" = true ->
         pdf_objects doc' !! i = Some (ad_set "/V" (PdfString (py_str v)) a).
Proof.
  intros H Hd Hget Hk.
  destruct (fill_pdf_form_objects _ _ _ _ H) as (doc & doc' & target & Hopen & _ & Hb & Hobj).
  exists doc, doc'. split; [exact Hopen|]. split; [exact Hb|].
  intros i a Hi Href Ht Hty. rewrite Hobj, Href, Hi. cbn. f_equal.
  rewrite (fill_all_one _ _ _ _ Hd Hget Hk Ht), (fill_annotation_text _ _ _ Ht Hty).
  apply day_set_not_button.
  assert (fields_of (ad_set "/V" (PdfString (py_str v)) a) = fields_of a) as Hf
    by (apply fields_of_set; discriminate).
  rewrite (is_day_button_fields _ a Hf).
  destruct Hty as [Hty|Hty]; eapply not_button_not_day; eauto; discriminate.
Qed.

(** X22. A check box of the template (a button whose title is a key of
    the mapping and is not one of the day buttons) has, in the document a
    returning call saves, [/V] and [/AS] both ['/Yes'] when the value is
    [True], ['/Yes'] or ['Yes'], and both ['/Off'] for any other value. *)
Theorem fill_pdf_form_check_box (self : converter) (field_mapping : field_map)
    (uploaded_photos : option (list photo)) (bytes : string) (k : string) (v : json) :
  snd (fill_pdf_form self field_mapping uploaded_photos) = Ok bytes ->
  distinct_keys field_mapping = true ->
  fm_get k field_mapping = Some v ->
  k <> "day_of_week" ->
  exists doc doc',
    pdf_open (odot_template_path self) = Some doc
    /\ bytes = pdf_save doc'
    /\ forall i a,
         pdf_objects doc !! i = Some a ->
         referenced (pdf_pages doc) i = true ->
         title_is a k = true ->
         type_is a "/Btn" = true ->
         is_day_button a = false ->
         pdf_objects doc' !! i
         = Some (ad_set "/AS" (check_value v) (ad_set "/V" (check_value v) a)).
Proof.
  intros H Hd Hget Hk.
  destruct (fill_pdf_form_objects _ _ _ _ H) as (doc & doc' & target & Hopen & _ & Hb & Hobj).
  exists doc, doc'. split; [exact Hopen|]. split; [exact Hb|].
  intros i a Hi Href Ht Hty Hday. rewrite Hobj, Href, Hi. cbn. f_equal.
  rewrite (fill_all_one _ _ _ _ Hd Hget Hk Ht), (fill_annotation_button _ _ _ Ht Hty).
  apply day_set_not_button.
  rewrite (is_day_button_fields _ a); [exact Hday|].
  rewrite !fields_of_set by discriminate. reflexivity.
Qed.

(** X23. The day buttons. A button of the template whose title contains
    ['Day'] has, in the document a returning call saves, [/V] and [/AS] set
    by the day of the mapping, whatever else the mapping says of it: when
    the title contains the day name, [/V] is the name after a slash and
    [/AS] is the appearance of the day (['/1'] for Monday to ['/7'] for
    Sunday, ['/1'] for any other text); otherwise both are ['/Off']. *)
Theorem fill_pdf_form_day_button (self : converter) (field_mapping : field_map)
    (uploaded_photos : option (list photo)) (bytes : string) (day : string) :
  snd (fill_pdf_form self field_mapping uploaded_photos) = Ok bytes ->
  day_of field_mapping = JStr day ->
  exists doc doc',
    pdf_open (odot_template_path self) = Some doc
    /\ bytes = pdf_save doc'
    /\ forall i a,
         pdf_objects doc !! i = Some a ->
         referenced (pdf_pages doc) i = true ->
         is_day_button a = true ->
         exists a',
           pdf_objects doc' !! i = Some a'
           /\ ad_get "/V" a'
              = Some (PdfString (if Str.contains day (title_of a)
                                 then "/" ++ day else "/Off"))
           /\ ad_get "/AS" a'
              = Some (PdfString (if Str.contains day (title_of a)
                                 then default "/1" (dict_get String.eqb day appearance_map)
                                 else "/Off")).
Proof.
  intros H Hday.
  destruct (fill_pdf_form_objects _ _ _ _ H)
    as (doc & doc' & target & Hopen & Htarget & Hb & Hobj).
  exists doc, doc'. split; [exact Hopen|]. split; [exact Hb|].
  intros i a Hi Href Hbtn. rewrite Hobj, Href, Hi. cbn.
  eexists. split; [reflexivity|].
  rewrite Hday in *. cbn [target_appearance_of] in Htarget. injection Htarget as <-.
  pose proof (fill_all_fields field_mapping a) as Hf.
  set (b := fill_all field_mapping a) in *.
  unfold fields_of in Hf. injection Hf as HT HFT.
  unfold is_day_button, title_of in *. unfold day_set, day_annotation. rewrite HT, HFT.
  destruct (ad_get "/T" a) as [t|]; [|discriminate].
  destruct (ad_get "/FT" a) as [ft|]; [|discriminate].
  apply andb_prop in Hbtn. destruct Hbtn as [Hft Hd]. rewrite Hft.
  destruct t as [t|t| |]; try discriminate; cbn [pdf_contains pdf_text] in *;
    rewrite Hd; cbn [day_in_title as_str bind pdf_contains py_str];
    destruct (Str.contains day t); cbn [snd];
    rewrite ad_get_set_eq, ad_get_set_other, ad_get_set_eq by discriminate; auto.
Qed.

Lemma fill_annotation_keeps k v a key :
  key <> "/V" -> key <> "/AS" -> ad_get key (fill_annotation k v a) = ad_get key a.
Proof.
  intros H1 H2. unfold fill_annotation.
  repeat match goal with
         | |- context [match ?x with _ => _ end] => destruct x
         end; rewrite ?ad_get_set_other by assumption; reflexivity.
Qed.

Lemma fill_all_keeps items a key :
  key <> "/V" -> key <> "/AS" -> ad_get key (fill_all items a) = ad_get key a.
Proof.
  intros H1 H2. unfold fill_all. revert a.
  induction items as [|item rest IH]; intros a; simpl; [reflexivity|].
  rewrite IH. unfold fill_item. destruct (String.eqb _ _); [reflexivity|].
  apply fill_annotation_keeps; assumption.
Qed.

Lemma day_set_keeps day target a key :
  key <> "/V" -> key <> "/AS" -> ad_get key (day_set day target a) = ad_get key a.
Proof.
  intros H1 H2. unfold day_set, day_annotation.
  destruct (ad_get "/T" a) as [t|]; [|reflexivity].
  destruct (ad_get "/FT" a) as [ft|]; [|reflexivity].
  destruct (pdf_eq_str ft "/Btn"); [|reflexivity].
  destruct (pdf_contains "Day" t) as [[|]|]; try reflexivity.
  destruct (day_in_title day t) as [[|]|]; cbn [snd];
    rewrite ?ad_get_set_other by assumption; reflexivity.
Qed.

(** X24. The form keeps its structure. The document a returning call
    saves has an annotation object for each one of the template, in the
    same place, and the two differ in nothing but their [/V] and [/AS]:
    titles, types, rectangles and every other entry are as in the
    template. *)
Theorem fill_pdf_form_keeps_entries (self : converter) (field_mapping : field_map)
    (uploaded_photos : option (list photo)) (bytes : string) :
  snd (fill_pdf_form self field_mapping uploaded_photos) = Ok bytes ->
  exists doc doc',
    pdf_open (odot_template_path self) = Some doc
    /\ bytes = pdf_save doc'
    /\ (forall i, is_Some (pdf_objects doc' !! i) <-> is_Some (pdf_objects doc !! i))
    /\ forall i a a' key,
         pdf_objects doc !! i = Some a ->
         pdf_objects doc' !! i = Some a' ->
         key <> "/V" -> key <> "/AS" ->
         ad_get key a' = ad_get key a.
Proof.
  intros H.
  destruct (fill_pdf_form_objects _ _ _ _ H) as (doc & doc' & target & Hopen & _ & Hb & Hobj).
  exists doc, doc'. split; [exact Hopen|]. split; [exact Hb|]. split.
  - intros i. rewrite Hobj.
    destruct (referenced (pdf_pages doc) i); [|reflexivity].
    rewrite fmap_is_Some. reflexivity.
  - intros i a a' key Hi Hi' H1 H2. rewrite Hobj, Hi in Hi'.
    destruct (referenced (pdf_pages doc) i); cbn in Hi'; injection Hi' as <-;
      [|reflexivity].
    rewrite day_set_keeps, fill_all_keeps by assumption. reflexivity.
Qed.

End FieldValues.

(** ** The photographs *)

Section Photographs.
Context {lib : PyLib} {pdflib : PdfLib}.

Lemma embed_photo_annots i p pg pg' :
  embed_photo i p pg = Ok pg' -> pg_annots pg' = pg_annots pg.
Proof.
  unfold embed_photo. intros H. inv_bind H. inv_bind H. injection H as <-. reflexivity.
Qed.

Lemma embed_loop_annots photos i pg : pg_annots (embed_loop i photos pg) = pg_annots pg.
Proof.
  revert i pg. induction photos as [|p rest IH]; intros i pg; cbn [embed_loop];
    [reflexivity|].
  destruct (6 <=? i)%nat; [reflexivity|].
  destruct (embed_photo i p pg) as [pg'|] eqn:E; rewrite IH; [|reflexivity].
  apply (embed_photo_annots _ _ _ _ E).
Qed.

Lemma append_nil_r (s : string) : s ++ "" = s.
Proof.
  induction s as [|c s IH]; [reflexivity|].
  change (String c (s ++ "") = String c s). rewrite IH. reflexivity.
Qed.

Lemma append_assoc (a b c : string) : (a ++ b) ++ c = a ++ (b ++ c).
Proof.
  induction a as [|x a IH]; [reflexivity|].
  change (String x ((a ++ b) ++ c) = String x (a ++ b ++ c)). rewrite IH. reflexivity.
Qed.

Lemma concat_snoc (l : list string) (s : string) :
  String.concat "" (l ++ [s]) = String.concat "" l ++ s.
Proof.
  induction l as [|x l IH].
  - reflexivity.
  - destruct l as [|y l]; [reflexivity|].
    change (String.concat "" (x :: y :: l)) with (x ++ "" ++ String.concat "" (y :: l)).
    change (String.concat "" ((x :: y :: l) ++ [s])%list)
      with (x ++ "" ++ String.concat "" ((y :: l) ++ [s])%list).
    rewrite IH, !append_assoc. reflexivity.
Qed.

Lemma embed_photo_content i p pg pg' :
  embed_photo i p pg = Ok pg' ->
  exists c, image_coords !! i = Some c
    /\ content_text pg'
       = content_text pg ++ draw_command c ("Photo" ++ Str.of_nat (i + 1)).
Proof.
  unfold embed_photo. intros H. inv_bind H as c Hc. inv_bind H as img Himg.
  injection H as <-. apply of_option_Ok in Hc. exists c. split; [exact Hc|].
  unfold content_text. cbn [pg_contents].
  destruct (pg_contents pg) as [|s|streams]; cbn [stream_data new_stream].
  - reflexivity.
  - reflexivity.
  - rewrite map_app. apply concat_snoc.
Qed.

Lemma embed_photo_other i p pg pg' name :
  embed_photo i p pg = Ok pg' ->
  name <> photo_name i ->
  page_xobject name pg' = page_xobject name pg.
Proof.
  unfold embed_photo. intros H Hname. inv_bind H as c Hc. inv_bind H as img Himg.
  injection H as <-. unfold page_xobject. cbn [pg_resources res_xobject].
  rewrite dict_get_set_ne by exact Hname.
  destruct (pg_resources pg) as [res|]; cbn; [|reflexivity].
  destruct (res_xobject res); reflexivity.
Qed.

Lemma embed_photo_image i p pg pg' :
  embed_photo i p pg = Ok pg' ->
  exists c img,
    image_coords !! i = Some c
    /\ render_photo p (cwidth c) (cheight c) = Some img
    /\ page_xobject (photo_name i) pg' = Some (image_xobject img).
Proof.
  unfold embed_photo. intros H. inv_bind H as c Hc. inv_bind H as img Himg.
  injection H as <-. apply of_option_Ok in Hc. apply of_option_Ok in Himg.
  exists c, img. split; [exact Hc|]. split; [exact Himg|].
  unfold page_xobject. cbn [pg_resources res_xobject]. apply dict_get_set_eq.
Qed.

Lemma photo_name_inj i j : photo_name i = photo_name j -> i = j.
Proof.
  unfold photo_name. intros H. apply append_inv_head, of_nat_inj in H. lia.
Qed.

Lemma photo_name_prefix i : String.prefix "Photo" (photo_name i) = true.
Proof. apply prefix_append. Qed.

(** The loop leaves the images of the other names. *)
Lemma embed_loop_other photos i pg name :
  (forall k, (i <= k)%nat -> name <> photo_name k) ->
  page_xobject name (embed_loop i photos pg) = page_xobject name pg.
Proof.
  revert i pg. induction photos as [|p rest IH]; intros i pg Hname; cbn [embed_loop];
    [reflexivity|].
  destruct (6 <=? i)%nat; [reflexivity|].
  destruct (embed_photo i p pg) as [pg'|] eqn:E.
  - rewrite IH by (intros k Hk; apply Hname; lia).
    apply (embed_photo_other _ _ _ _ _ E). apply Hname. lia.
  - apply IH. intros k Hk. apply Hname. lia.
Qed.

(** The loop gives every photograph that is drawn its image. *)
Lemma embed_loop_image photos i pg j p c img :
  photos !! j = Some p ->
  image_coords !! (i + j)%nat = Some c ->
  render_photo p (cwidth c) (cheight c) = Some img ->
  page_xobject (photo_name (i + j)) (embed_loop i photos pg) = Some (image_xobject img).
Proof.
  revert i pg j. induction photos as [|q rest IH]; intros i pg j Hj Hc Himg;
    [discriminate|].
  cbn [embed_loop].
  assert (i + j < 6)%nat as Hlt.
  { apply lookup_lt_Some in Hc. exact Hc. }
  destruct (Nat.leb_spec 6 i) as [|_]; [lia|].
  destruct j as [|j].
  - injection Hj as ->. rewrite Nat.add_0_r in *.
    unfold embed_photo at 1. rewrite Hc. cbn [of_option bind]. rewrite Himg.
    cbn [of_option bind].
    rewrite embed_loop_other
      by (intros k Hk E; apply photo_name_inj in E; lia).
    unfold page_xobject. cbn [pg_resources res_xobject]. apply dict_get_set_eq.
  - change ((q :: rest) !! S j) with (rest !! j) in Hj.
    replace (i + S j)%nat with (S i + j)%nat in * by lia.
    destruct (embed_photo i q pg); apply IH; assumption.
Qed.

Lemma concat_cons (x : string) (l : list string) :
  String.concat "" (x :: l) = x ++ String.concat "" l.
Proof. destruct l; [symmetry; apply append_nil_r | reflexivity]. Qed.

Lemma photo_draw_none i p : (6 <= i)%nat -> photo_draw i p = "".
Proof.
  intros Hi. unfold photo_draw.
  rewrite (lookup_ge_None_2 image_coords i); [reflexivity | exact Hi].
Qed.

Lemma embed_photo_draw i p pg :
  match embed_photo i p pg with
  | Ok pg' => content_text pg' = content_text pg ++ photo_draw i p
  | Raise _ => photo_draw i p = ""
  end.
Proof.
  destruct (embed_photo i p pg) as [pg'|e] eqn:E.
  - destruct (embed_photo_content _ _ _ _ E) as (c & Hc & ->).
    destruct (embed_photo_image _ _ _ _ E) as (c' & img & Hc' & Himg & _).
    unfold photo_draw. rewrite Hc. rewrite Hc' in Hc. injection Hc as <-.
    rewrite Himg. reflexivity.
  - unfold embed_photo in E. unfold photo_draw.
    destruct (image_coords !! i) as [c|]; [|reflexivity]. cbn [of_option bind] in E.
    destruct (render_photo p (cwidth c) (cheight c)); [discriminate | reflexivity].
Qed.

(** The loop appends the commands of the photographs it draws. *)
Lemma embed_loop_content photos i pg :
  content_text (embed_loop i photos pg)
  = content_text pg ++ String.concat "" (imap (fun k => photo_draw (i + k)) photos).
Proof.
  revert i pg. induction photos as [|p rest IH]; intros i pg; cbn [embed_loop].
  - symmetry. apply append_nil_r.
  - rewrite imap_cons, concat_cons, Nat.add_0_r.
    assert (imap ((fun k => photo_draw (i + k)) ∘ S) rest
            = imap (fun k => photo_draw (S i + k)) rest) as ->.
    { apply imap_ext. intros k q _. cbn. f_equal. lia. }
    destruct (Nat.leb_spec 6 i) as [Hge|Hlt].
    + rewrite photo_draw_none by exact Hge.
      assert (String.concat "" (imap (fun k => photo_draw (S i + k)) rest) = "") as ->.
      { clear IH. generalize (S i) (Nat.le_trans _ _ _ Hge (Nat.le_succ_diag_r i)).
        induction rest as [|q rest IHr]; intros n Hn; [reflexivity|].
        rewrite imap_cons, concat_cons, photo_draw_none by lia.
        assert (imap ((fun k => photo_draw (n + k)) ∘ S) rest
                = imap (fun k => photo_draw (S n + k)) rest) as ->.
        { apply imap_ext. intros k q' _. cbn. f_equal. lia. }
        apply IHr. lia. }
      symmetry. apply append_nil_r.
    + pose proof (embed_photo_draw i p pg) as Hd.
      destruct (embed_photo i p pg) as [pg'|e]; rewrite IH.
      * rewrite Hd, append_assoc. reflexivity.
      * rewrite Hd. reflexivity.
Qed.

Lemma py_index_3 (pages : list page) (pg : page) :
  py_index pages 3 = Ok pg -> pages !! 3%nat = Some pg.
Proof.
  unfold py_index.
  destruct (_ && _); [intros H; apply of_option_Ok in H; exact H|].
  destruct (_ && _) eqn:E; [|discriminate].
  apply andb_prop in E. destruct E as [_ E]. discriminate.
Qed.

(** X25. The photographs change no form field. The document saved by a
    call with photographs and the one saved by the same call without them
    have the same annotation objects and as many pages, and every page has
    the same [/Annots] in the two. *)
Theorem fill_pdf_form_photos_frame (self : converter) (field_mapping : field_map)
    (uploaded_photos : list photo) (bytes : string) :
  snd (fill_pdf_form self field_mapping (Some uploaded_photos)) = Ok bytes ->
  exists doc0 doc',
    snd (fill_pdf_form self field_mapping None) = Ok (pdf_save doc0)
    /\ bytes = pdf_save doc'
    /\ pdf_objects doc' = pdf_objects doc0
    /\ length (pdf_pages doc') = length (pdf_pages doc0)
    /\ forall j, pg_annots <$> pdf_pages doc' !! j = pg_annots <$> pdf_pages doc0 !! j.
Proof.
  unfold fill_pdf_form. intros H.
  destruct (pdf_open (odot_template_path self)) as [doc|]; [|discriminate].
  destruct (fill_fields _ _ _) as [objects1|]; [|discriminate].
  destruct (target_appearance_of _) as [target|]; [|discriminate].
  destruct (day_pages _ _ _ _ _) as [counters [objects2|e]]; [|discriminate].
  cbn [snd bind] in H |- *. inv_bind H as doc' Hdoc. injection H as <-.
  exists {| pdf_objects := objects2; pdf_pages := pdf_pages doc |}, doc'.
  split; [reflexivity|]. split; [reflexivity|].
  destruct uploaded_photos as [|p rest];
    [injection Hdoc as <-; repeat split; reflexivity|].
  unfold _embed_images_in_pdf in Hdoc. inv_bind Hdoc as pg Hpg. injection Hdoc as <-.
  cbn [pdf_objects pdf_pages] in *. apply py_index_3 in Hpg.
  split; [reflexivity|]. split; [apply length_insert|].
  intros j. destruct (Nat.eq_dec j 3%nat) as [->|Hj].
  - rewrite list_lookup_insert_eq by (eapply lookup_lt_Some, Hpg).
    rewrite Hpg. cbn [fmap option_fmap option_map]. f_equal.
    exact (embed_loop_annots (p :: rest) 0 pg).
  - rewrite list_lookup_insert_ne by congruence. reflexivity.
Qed.

(** X26. The photographs are drawn after what the page draws. When
    [_embed_images_in_pdf] returns, the content of the fourth page is the
    content it had followed, in the order of the photographs, by the
    command that draws photograph number [i] in rectangle [i], for every
    photograph that has a rectangle (the first six) and that Pillow reads;
    each of these has its image under the name [Photo] followed by [i + 1]
    in the [/XObject] of the page, and every image of the page under a name
    that does not begin with ['Photo'] is still there. *)
Theorem embed_images_keeps_content (doc doc' : pdf) (uploaded_photos : list photo)
    (pg : page) :
  _embed_images_in_pdf doc uploaded_photos = Ok doc' ->
  pdf_pages doc !! 3%nat = Some pg ->
  exists pg',
    pdf_pages doc' !! 3%nat = Some pg'
    /\ content_text pg' = content_text pg ++ photo_draws uploaded_photos
    /\ (forall i p c img,
          uploaded_photos !! i = Some p ->
          image_coords !! i = Some c ->
          render_photo p (cwidth c) (cheight c) = Some img ->
          page_xobject (photo_name i) pg' = Some (image_xobject img))
    /\ forall name, String.prefix "Photo" name = false ->
         page_xobject name pg' = page_xobject name pg.
Proof.
  unfold _embed_images_in_pdf. intros H Hpg.
  destruct uploaded_photos as [|p rest].
  - injection H as <-. exists pg. split; [exact Hpg|].
    split; [symmetry; apply append_nil_r|]. split; [discriminate | reflexivity].
  - inv_bind H as pg0 Hpg0. injection H as <-. apply py_index_3 in Hpg0.
    rewrite Hpg in Hpg0. injection Hpg0 as <-.
    exists (embed_loop 0 (p :: rest) pg). cbn [pdf_pages].
    split; [apply list_lookup_insert_eq; eapply lookup_lt_Some, Hpg|].
    split; [exact (embed_loop_content (p :: rest) 0 pg)|]. split.
    + intros i q c img Hq Hc Himg.
      exact (embed_loop_image (p :: rest) 0 pg i q c img Hq Hc Himg).
    + intros name Hname. apply embed_loop_other.
      intros k _ ->. rewrite photo_name_prefix in Hname. discriminate.
Qed.


End Photographs.


(** * The reports on which [create_field_mapping] returns *)

Section ReturningReports.
Context {lib : PyLib}.

Lemma returns_bind {A B : Type} (r : result A) (k : A -> result B) :
  returns (bind r k) <-> exists a, r = Ok a /\ returns (k a).
Proof.
  split.
  - intros [b H]. inv_bind H as a Ha. exists a. split; [exact Ha | exists b; exact H].
  - intros (a & -> & H). exact H.
Qed.

Lemma not_returns_Raise {A : Type} (e : exn) : ~ returns (@Raise A e).
Proof. intros [a H]. discriminate. Qed.

Lemma returns_true {A : Type} (r : result A) (b : bool) :
  match r with
  | Ok _ => b = true
  | Raise _ => b = false
  end ->
  returns r <-> b = true.
Proof.
  destruct r as [a|e]; intros ->; split; intros H; eauto using returns_Ok.
  - exfalso. eapply not_returns_Raise, H.
  - discriminate.
Qed.

(** ** Weather *)

Lemma py_lower_text v s : py_lower v = Ok s -> is_string v = true.
Proof. unfold py_lower. intros H. inv_bind H. destruct v; try discriminate. reflexivity. Qed.

Lemma py_ge_number v z b : py_ge v z = Ok b -> is_number v = true.
Proof. unfold py_ge, is_number. destruct (as_number v); [reflexivity | discriminate]. Qed.

Lemma map_temperature_number w m m' :
  is_string (temperature w) = false ->
  map_temperature w m = Ok m' -> is_number (temperature w) = true.
Proof.
  unfold map_temperature. cbv zeta. intros -> H. cbn [bind] in H.
  inv_bind H as c83 H83. apply (py_ge_number _ _ _ H83).
Qed.

(** The weather steps return only on a weather entry of the shape of
    [weather_ok]. *)
Lemma weather_steps_shape d w ma mb mc m1 m2 m4 :
  extract_weather_data (JDict d) = Ok w ->
  map_temperature w ma = Ok m1 ->
  map_wind w mb = Ok m2 ->
  map_conditions w mc = Ok m4 ->
  entry_ok weather_ok (lookup_key "Weather" d) = true.
Proof.
  unfold extract_weather_data. rewrite py_in_dict. intros Hw H1 H2 H4.
  destruct (lookup_key "Weather" d) as [weather|] eqn:Ew; cbn [bind] in Hw; [|reflexivity].
  rewrite (py_getitem_dict _ _ _ Ew) in Hw. cbn [bind] in Hw.
  destruct weather as [ | | | | | |wd]; try reflexivity.
  cbn [is_dict py_get bind] in Hw. cbn [entry_ok weather_ok].
  set (temp := default (JInt 0) (lookup_key "Temperature" wd)) in *.
  set (wind_v := default (JStr "Calm") (lookup_key "Wind" wd)) in *.
  set (humidity_v := default (JInt 50) (lookup_key "Humidity" wd)) in *.
  set (conditions_v := default (JStr "Clear") (lookup_key "Conditions" wd)) in *.
  inv_bind Hw as t' Ht. inv_bind Hw as h' Hh. injection Hw as <-.
  cbn [temperature wind humidity conditions] in *.
  unfold map_wind in H2. inv_bind H2 as wl Hwl. apply py_lower_text in Hwl.
  unfold map_conditions in H4. inv_bind H4 as cl Hcl. apply py_lower_text in Hcl.
  cbn [wind conditions] in Hwl, Hcl.
  repeat (apply andb_true_intro; split).
  - clearbody temp. unfold temperature_ok.
    destruct (truthy temp) eqn:Etr.
    + destruct (is_string temp) eqn:Es.
      * destruct temp; try discriminate. inv_bind Ht as f Hf. cbn [py_float] in Hf.
        destruct (float_of_str s); [apply orb_true_r | discriminate].
      * injection Ht as <-.
        apply map_temperature_number in H1; [|exact Es]. cbn [temperature] in H1.
        destruct temp; try discriminate; rewrite ?H1; reflexivity.
    + destruct temp; simpl in Etr |- *;
        first [ reflexivity
              | rewrite Etr; reflexivity
              | apply negb_false_iff in Etr; rewrite Etr; reflexivity ].
  - unfold text_or_empty. destruct (truthy wind_v); [|apply orb_true_r].
    rewrite Hwl. reflexivity.
  - clearbody humidity_v. unfold humidity_ok.
    destruct humidity_v; try reflexivity;
      match type of Hh with
      | context [truthy ?v] => destruct (truthy v); [|reflexivity]
      end;
      inv_bind Hh as fh Hf; rewrite Hf; reflexivity.
  - unfold text_or_empty. destruct (truthy conditions_v); [|apply orb_true_r].
    rewrite Hcl. reflexivity.
Qed.

(** ** The work items *)

Lemma contains_colon_after s :
  Str.contains ":" s = true -> exists rest, Str.after_first ":" s = Some rest.
Proof. apply contains_char_after_first. Qed.

Lemma amount_returns quantity units :
  returns (if truthy quantity && truthy units then
             do amount <- py_format quantity;
             do unit_text <- py_format units;
             Ok (JStr (amount ++ " " ++ unit_text))
           else if truthy quantity then
             do amount <- py_format quantity;
             Ok (JStr amount)
           else Ok (JStr ""))
  <-> amount_ok quantity units = true.
Proof.
  unfold amount_ok, printable.
  destruct (truthy quantity); cbn [andb negb orb]; [|split; eauto using returns_Ok].
  destruct (py_format quantity) as [amount|e]; cbn [bind andb].
  - destruct (truthy units); cbn [negb orb]; [|split; eauto using returns_Ok].
    destruct (py_format units) as [unit_text|e]; cbn [bind].
    + split; eauto using returns_Ok.
    + split; [intros H; destruct (not_returns_Raise _ H) | discriminate].
  - destruct (truthy units);
      (split; [intros H; destruct (not_returns_Raise _ H) | discriminate]).
Qed.

Lemma description_returns description :
  returns (do has_colon <- py_in ":" description;
           if has_colon then
             do s <- as_str AttributeError description;
             do rest <- of_option IndexError (Str.after_first ":" s);
             Ok (JStr (Str.strip (Str.before_first ":" s)), JStr (Str.strip rest))
           else Ok (JStr "", description))
  <-> description_ok description = true.
Proof.
  destruct description as [ | | | |s|l|dd]; cbn [py_in bind description_ok];
    try (split; [intros H; destruct (not_returns_Raise _ H) | discriminate]).
  - destruct (Str.contains ":" s) eqn:Ec; [|split; eauto using returns_Ok].
    destruct (contains_colon_after _ Ec) as [rest Hrest].
    cbn [as_str bind]. rewrite Hrest. cbn [of_option bind]. split; eauto using returns_Ok.
  - destruct (existsb _ l); cbn [as_str bind negb];
      [split; [intros H; destruct (not_returns_Raise _ H) | discriminate]
      |split; eauto using returns_Ok].
  - destruct (lookup_key ":" dd) as [v|]; cbn [bool_decide as_str bind].
    + rewrite bool_decide_eq_true_2 by eauto. cbn [as_str bind].
      split; [intros H; destruct (not_returns_Raise _ H) | discriminate].
    + rewrite bool_decide_eq_false_2 by (intros [? ?]; discriminate).
      split; eauto using returns_Ok.
Qed.

Lemma work_item_step_returns i item m :
  returns (work_item_step i item m) <-> ((i <? 20)%nat = true -> work_item_ok item = true).
Proof.
  unfold work_item_step.
  destruct item as [ | | | | | |d]; try (split; [reflexivity | eauto using returns_Ok]).
  destruct (i <? 20)%nat; [|split; [discriminate | eauto using returns_Ok]].
  cbv zeta. cbn [work_item_ok].
  rewrite returns_bind. split.
  - intros (has & Hhas & H) _. apply returns_bind in H. destruct H as (parts & Hparts & H).
    destruct parts as [item_no description'].
    apply returns_bind in H. destruct H as (total & Htotal & _).
    apply andb_true_intro. split.
    + apply description_returns. rewrite Hhas. cbn [bind]. rewrite Hparts. apply returns_Ok.
    + apply amount_returns. rewrite Htotal. apply returns_Ok.
  - intros H. specialize (H eq_refl). apply andb_prop in H. destruct H as [Hd Ha].
    apply description_returns in Hd. apply returns_bind in Hd.
    destruct Hd as (has & Hhas & [parts Hparts]).
    exists has. split; [exact Hhas|]. rewrite Hparts. cbn [bind].
    destruct parts as [item_no description'].
    apply amount_returns in Ha. destruct Ha as [total ->]. cbn [bind]. apply returns_Ok.
Qed.

Lemma work_items_loop_returns l i m :
  returns (work_items_loop i l m) <-> forallb work_item_ok (take (20 - i) l) = true.
Proof.
  revert i m. induction l as [|item l IH]; intros i m; cbn [work_items_loop].
  - rewrite take_nil. split; eauto using returns_Ok.
  - rewrite returns_bind. destruct (Nat.ltb_spec i 20) as [Hlt|Hge].
    + replace (20 - i)%nat with (S (20 - S i)) by lia. cbn [take forallb].
      split.
      * intros (m1 & H1 & H). apply andb_true_intro. split.
        -- apply (proj1 (work_item_step_returns i item m)); [rewrite H1; apply returns_Ok|].
           apply Nat.ltb_lt, Hlt.
        -- apply (IH (S i) m1), H.
      * intros H. apply andb_prop in H. destruct H as [Hi Hl].
        destruct (proj2 (work_item_step_returns i item m) (fun _ => Hi)) as [m1 H1].
        exists m1. split; [exact H1|]. apply IH, Hl.
    + replace (20 - i)%nat with 0%nat by lia. cbn [take forallb].
      split; [reflexivity|]. intros _.
      destruct (proj2 (work_item_step_returns i item m)) as [m1 H1].
      { intros Hlt. apply Nat.ltb_lt in Hlt. lia. }
      exists m1. split; [exact H1|]. apply IH.
      replace (20 - S i)%nat with 0%nat by lia. reflexivity.
Qed.

Lemma map_work_items_returns d m :
  returns (map_work_items (JDict d) m)
  <-> entry_ok work_items_ok (lookup_key "WorkItems" d) = true.
Proof.
  unfold map_work_items. rewrite py_in_dict.
  destruct (lookup_key "WorkItems" d) as [work_items|] eqn:E; cbn [bind entry_ok];
    [|split; eauto using returns_Ok].
  rewrite (py_getitem_dict _ _ _ E). cbn [bind].
  destruct work_items; try (split; [reflexivity | eauto using returns_Ok]).
  cbn [work_items_ok]. apply (work_items_loop_returns l 0 m).
Qed.

(** ** The supervisor and the certificate *)

Lemma falsy_holds_nothing c k v :
  truthy v = false ->
  match py_in (String c k) v with
  | Ok has => has = false
  | Raise _ => True
  end.
Proof.
  destruct v as [ | | | |s|l|dd]; cbn [py_in]; try exact (fun _ => I); simpl; intros H.
  - apply negb_false_iff, String.eqb_eq in H. subst s. reflexivity.
  - destruct l; [reflexivity | discriminate].
  - destruct dd; [|discriminate]. apply bool_decide_eq_false_2. intros [? ?]. discriminate.
Qed.

Lemma searchable_in k v :
  negb (truthy v) || is_string v || is_list v || is_dict v
  = match py_in k v with
    | Ok _ => true
    | Raise _ => negb (truthy v)
    end.
Proof. destruct v; cbn [py_in is_string is_list is_dict]; destruct (truthy _); reflexivity. Qed.

Lemma superintendent_loop_returns l :
  returns (superintendent_loop l) <-> scan_ok l = true.
Proof.
  unfold scan_ok. induction l as [|person l IH]; cbn [superintendent_loop up_to_first].
  - split; eauto using returns_Ok.
  - destruct person as [ | | | | | |pd];
      try (cbn [is_named_superintendent forallb trade_searchable andb]; exact IH).
    cbn [is_named_superintendent]. cbv zeta. unfold trade_has_superintendent.
    assert (trade_searchable (JDict pd)
            = match py_in "Superintendent" (default (JStr "") (lookup_key "Trade" pd)) with
              | Ok _ => true
              | Raise _ => negb (truthy (default (JStr "") (lookup_key "Trade" pd)))
              end) as Hs.
    { rewrite <- searchable_in. reflexivity. }
    pose proof (falsy_holds_nothing "S" "uperintendent"
                  (default (JStr "") (lookup_key "Trade" pd))) as Hf.
    change (String "S" "uperintendent") with "Superintendent" in Hf.
    set (trade := default (JStr "") (lookup_key "Trade" pd)) in *.
    set (name := default (JStr "") (lookup_key "Name" pd)) in *.
    clearbody trade name.
    destruct (truthy trade); destruct (py_in "Superintendent" trade) as [has|e];
      cbn [bind negb andb] in *.
    + destruct (has && truthy name); cbn [forallb]; rewrite Hs; cbn [andb].
      * split; eauto using returns_Ok.
      * exact IH.
    + cbn [forallb]. rewrite Hs. cbn [andb].
      split; [intros H; destruct (not_returns_Raise _ H) | discriminate].
    + rewrite (Hf eq_refl). cbn [andb forallb]. rewrite Hs. cbn [andb]. exact IH.
    + cbn [forallb]. rewrite Hs. cbn [andb]. exact IH.
Qed.

Lemma map_superintendent_returns d m :
  returns (map_superintendent (JDict d) m)
  <-> match lookup_key "Personnel" d with
      | Some (JList l) => scan_ok l = true
      | _ => True
      end.
Proof.
  unfold map_superintendent. rewrite returns_bind.
  assert (returns (extract_superintendent_name (JDict d))
          <-> match lookup_key "Personnel" d with
              | Some (JList l) => scan_ok l = true
              | _ => True
              end) as Hn.
  { unfold extract_superintendent_name. rewrite py_in_dict.
    destruct (lookup_key "Personnel" d) as [personnel|] eqn:E; cbn [bind];
      [|split; [exact (fun _ => I) | intros _; apply returns_Ok]].
    rewrite (py_getitem_dict _ _ _ E). cbn [bind].
    destruct personnel;
      try (split; [exact (fun _ => I) | intros _; apply returns_Ok]).
    apply superintendent_loop_returns. }
  rewrite <- Hn. split.
  - intros (name & Hname & _). exists name. exact Hname.
  - intros [name Hname]. exists name. split; [exact Hname|].
    destruct (truthy name); apply returns_Ok.
Qed.

Lemma extract_classification_shape d :
  returns (extract_classification (JDict d))
  <-> entry_ok inspector_ok (lookup_key "Inspector" d) = true.
Proof.
  split; [|apply extract_classification_returns].
  unfold extract_classification. rewrite py_in_dict. intros H.
  destruct (lookup_key "Inspector" d) as [inspector|] eqn:E; cbn [bind] in H; [|reflexivity].
  rewrite (py_getitem_dict _ _ _ E) in H. cbn [bind] in H.
  destruct inspector as [ | | | | |l|id]; try reflexivity.
  destruct l as [|first l]; [reflexivity|].
  cbn [entry_ok inspector_ok]. destruct first; try reflexivity;
    destruct (not_returns_Raise _ H).
Qed.

(** ** Remarks and equipment *)

Lemma py_join_shape sep items :
  returns (py_join sep items) <-> forallb is_string items = true.
Proof.
  split; [|apply py_join_returns].
  unfold py_join. intros H. apply returns_bind in H. destruct H as (ss & Hss & _).
  revert ss Hss. induction items as [|x items IH]; intros ss Hss; [reflexivity|].
  cbn [py_join_items] in Hss. inv_bind Hss as s Hs. inv_bind Hss as ss' Hss'.
  cbn [forallb]. rewrite (IH _ Hss'). destruct x; try discriminate. reflexivity.
Qed.

Lemma join_or_empty_shape items :
  returns (match items with
           | [] => Ok ""
           | _ => py_join "
" items
           end)
  <-> forallb is_string items = true.
Proof.
  destruct items as [|x items]; [split; eauto using returns_Ok|]. apply py_join_shape.
Qed.

(** The lines a narrative adds are texts exactly when it has the shape
    of [narrative_ok], and the loop raises only when it has not. *)
Lemma remarks_step_shape acc item :
  match remarks_step acc item with
  | Ok acc' =>
      exists new, acc' = (acc ++ new)%list /\ forallb is_string new = narrative_item_ok item
  | Raise _ => narrative_item_ok item = false
  end.
Proof.
  unfold remarks_step, narrative_item_ok, printable.
  destruct item as [ | | | | | |d]; try (exists []; rewrite app_nil_r; split; reflexivity).
  cbv zeta.
  destruct (truthy (default (JStr "") (lookup_key "Text" d)));
    [|exists []; rewrite app_nil_r; split; reflexivity].
  cbn [negb orb].
  destruct (truthy (default (JStr "") (lookup_key "Timestamp" d))).
  - destruct (py_format (default (JStr "") (lookup_key "Timestamp" d))) as [stamp|e];
      cbn [bind andb]; [|reflexivity].
    destruct (py_format (default (JStr "") (lookup_key "Text" d))) as [line|e];
      cbn [bind]; [|reflexivity].
    eexists. split; reflexivity.
  - eexists. split; [reflexivity|]. cbn [forallb]. apply andb_true_r.
Qed.

Lemma remarks_loop_shape items acc :
  match remarks_loop acc items with
  | Ok acc' =>
      exists new,
        acc' = (acc ++ new)%list
        /\ forallb is_string new = forallb narrative_item_ok items
  | Raise _ => forallb narrative_item_ok items = false
  end.
Proof.
  revert acc. induction items as [|item items IH]; intros acc; cbn [remarks_loop forallb].
  - exists []. rewrite app_nil_r. split; reflexivity.
  - pose proof (remarks_step_shape acc item) as Hs.
    destruct (remarks_step acc item) as [acc1|e]; cbn [bind].
    + destruct Hs as (new1 & -> & H1). specialize (IH (acc ++ new1)%list).
      destruct (remarks_loop (acc ++ new1) items) as [acc2|e].
      * destruct IH as (new2 & -> & H2). exists (new1 ++ new2)%list.
        rewrite app_assoc, forallb_app, H1, H2. split; reflexivity.
      * rewrite IH. apply andb_false_r.
    + rewrite Hs. reflexivity.
Qed.

Lemma remarks_of_narrative_shape narrative acc :
  match remarks_of_narrative acc narrative with
  | Ok acc' =>
      exists new,
        acc' = (acc ++ new)%list /\ forallb is_string new = narrative_ok narrative
  | Raise _ => narrative_ok narrative = false
  end.
Proof.
  unfold remarks_of_narrative, narrative_ok.
  destruct narrative; try (exists []; rewrite app_nil_r; split; reflexivity).
  - eexists. split; reflexivity.
  - apply remarks_loop_shape.
Qed.

(** A step of the two extractors on an entry of the report and then on
    the same entry of its ['DailyReport']: [collect] is the loop over the
    entry. *)
Lemma collected_shape (ok : json -> bool)
    (collect : list json -> json -> result (list json)) k d :
  (forall v acc,
     match collect acc v with
     | Ok acc' => exists new, acc' = (acc ++ new)%list /\ forallb is_string new = ok v
     | Raise _ => ok v = false
     end) ->
  returns
    (do has <- py_in k (JDict d);
     do l1 <- (if has then do v <- py_getitem (JDict d) k; collect [] v else Ok []);
     do has_report <- py_in "DailyReport" (JDict d);
     do l2 <-
       (if has_report then
          do daily_report <- py_getitem (JDict d) "DailyReport";
          do has <- py_in k daily_report;
          if has then do v <- py_getitem daily_report k; collect l1 v else Ok l1
        else Ok l1);
     match l2 with
     | [] => Ok ""
     | _ => py_join "
" l2
     end)
  <-> entry_ok ok (lookup_key k d)
      && entry_ok (report_entry_ok k ok) (lookup_key "DailyReport" d) = true.
Proof.
  intros Hc. rewrite !py_in_dict. cbn [bind].
  assert (exists r1,
            (if match lookup_key k d with Some _ => true | None => false end
             then do v <- py_getitem (JDict d) k; collect [] v
             else Ok []) = r1
            /\ match r1 with
               | Ok l1 => forallb is_string l1 = entry_ok ok (lookup_key k d)
               | Raise _ => entry_ok ok (lookup_key k d) = false
               end) as (r1 & -> & H1).
  { destruct (lookup_key k d) as [v|] eqn:E.
    - rewrite (py_getitem_dict _ _ _ E). cbn [bind entry_ok].
      eexists. split; [reflexivity|].
      specialize (Hc v []). destruct (collect [] v) as [l1|e]; [|exact Hc].
      destruct Hc as (new & -> & Hn). exact Hn.
    - eexists. split; reflexivity. }
  destruct r1 as [l1|e1]; cbn [bind];
    [|rewrite H1; split; [intros H; destruct (not_returns_Raise _ H) | discriminate]].
  rewrite <- H1.
  destruct (lookup_key "DailyReport" d) as [daily_report|] eqn:Er; cbn [bind entry_ok].
  2:{ rewrite andb_true_r. apply join_or_empty_shape. }
  rewrite (py_getitem_dict _ _ _ Er). cbn [bind].
  destruct daily_report as [ | | | |s|l|rd]; cbn [py_in bind report_entry_ok];
    try (rewrite andb_false_r;
         split; [intros H; destruct (not_returns_Raise _ H) | discriminate]).
  - destruct (Str.contains k s); cbn [py_getitem bind negb].
    + rewrite andb_false_r.
      split; [intros H; destruct (not_returns_Raise _ H) | discriminate].
    + rewrite andb_true_r. apply join_or_empty_shape.
  - destruct (existsb _ l); cbn [py_getitem bind negb].
    + rewrite andb_false_r.
      split; [intros H; destruct (not_returns_Raise _ H) | discriminate].
    + rewrite andb_true_r. apply join_or_empty_shape.
  - destruct (lookup_key k rd) as [v|] eqn:Ev; cbn [entry_ok].
    + rewrite bool_decide_eq_true_2 by eauto.
      cbn [py_getitem of_option bind]. rewrite Ev. cbn [of_option bind].
      specialize (Hc v l1). destruct (collect l1 v) as [l2|e].
      * destruct Hc as (new & -> & <-). rewrite <- forallb_app.
        apply join_or_empty_shape.
      * rewrite Hc, andb_false_r.
        split; [intros H; destruct (not_returns_Raise _ H) | discriminate].
    + rewrite bool_decide_eq_false_2 by (intros [? ?]; discriminate).
      rewrite andb_true_r. apply join_or_empty_shape.
Qed.

Lemma extract_remarks_data_shape d :
  returns (extract_remarks_data (JDict d))
  <-> entry_ok narrative_ok (lookup_key "Narrative" d)
      && entry_ok (report_entry_ok "Narrative" narrative_ok) (lookup_key "DailyReport" d)
      = true.
Proof.
  apply (collected_shape narrative_ok (fun acc v => remarks_of_narrative acc v)).
  intros v acc. apply remarks_of_narrative_shape.
Qed.

Lemma equipment_names_shape items :
  forallb is_string (omap equipment_name items) = forallb equipment_item_ok items.
Proof.
  induction items as [|item items IH]; [reflexivity|].
  cbn [omap list_omap forallb]. unfold equipment_name at 1, equipment_item_ok at 1.
  destruct item as [ | | | | | |d]; try exact IH.
  cbv zeta. unfold text_or_empty.
  destruct (truthy (default (JStr "") (lookup_key "Name" d))).
  - cbn [forallb negb]. rewrite IH, orb_false_r. reflexivity.
  - rewrite orb_true_r. exact IH.
Qed.

Lemma equipment_collect_shape v acc :
  match (do items <- py_iter v; Ok (fold_left equipment_step items acc)) with
  | Ok acc' => exists new, acc' = (acc ++ new)%list /\ forallb is_string new = equipment_ok v
  | Raise _ => equipment_ok v = false
  end.
Proof.
  destruct v as [ | | | |s|l|ed]; cbn [py_iter bind equipment_ok]; try reflexivity.
  - rewrite equipment_fold_texts. exists []. rewrite app_nil_r. split; reflexivity.
  - rewrite equipment_fold. eexists. split; [reflexivity|]. apply equipment_names_shape.
  - rewrite (equipment_fold_texts fst). exists []. rewrite app_nil_r. split; reflexivity.
Qed.

Lemma extract_equipment_data_shape d :
  returns (extract_equipment_data (JDict d))
  <-> entry_ok equipment_ok (lookup_key "Equipment" d)
      && entry_ok (report_entry_ok "Equipment" equipment_ok) (lookup_key "DailyReport" d)
      = true.
Proof.
  apply (collected_shape equipment_ok
           (fun acc v => do items <- py_iter v; Ok (fold_left equipment_step items acc))).
  intros v acc. apply equipment_collect_shape.
Qed.

Lemma map_remarks_shape d m :
  returns (map_remarks (JDict d) m) <-> returns (extract_remarks_data (JDict d)).
Proof.
  unfold map_remarks. rewrite returns_bind. split.
  - intros (remarks & H & _). exists remarks. exact H.
  - intros [remarks H]. exists remarks. split; [exact H|]. destruct (negb _); apply returns_Ok.
Qed.

Lemma map_equipment_shape d m :
  returns (map_equipment (JDict d) m) <-> returns (extract_equipment_data (JDict d)).
Proof.
  unfold map_equipment. rewrite returns_bind. split.
  - intros (equipment & H & _). exists equipment. exact H.
  - intros [equipment H]. exists equipment. split; [exact H|].
    destruct (negb _); apply returns_Ok.
Qed.

(** ** The personnel table *)

Lemma personnel_step_contracted st person st' :
  personnel_step st person = Ok st' -> contracted_ok person = true.
Proof.
  unfold personnel_step, contracted_ok. intros H.
  destruct person as [ | | | | | |pd]; try reflexivity. cbv zeta in H |- *.
  destruct (truthy (default (JStr "") (lookup_key "Contractor" pd))); [|reflexivity].
  cbn [negb orb] in H |- *.
  inv_bind H as known Hk. inv_bind H as trade Htrade. inv_bind H as count Hcount.
  destruct (hashable _); [|discriminate]. cbn [andb].
  apply of_option_Ok in Hcount. unfold is_number. rewrite Hcount, andb_true_r.
  unfold text_or_empty.
  destruct (truthy (default (JStr "") (lookup_key "Trade" pd))); [|apply orb_true_r].
  cbn [negb] in Htrade. inv_bind Htrade as t Ht.
  destruct (default (JStr "") (lookup_key "Trade" pd)); try discriminate. reflexivity.
Qed.

Lemma personnel_loop_contracted l st st' :
  personnel_loop st l = Ok st' -> forallb contracted_ok l = true.
Proof.
  revert st. induction l as [|person l IH]; intros st H; [reflexivity|].
  cbn [personnel_loop] in H. inv_bind H as st1 H1. cbn [forallb].
  rewrite (personnel_step_contracted _ _ _ H1), (IH _ H). reflexivity.
Qed.

Lemma sum_counts_snoc counts c :
  sum_counts (counts ++ [c]) = do a <- sum_counts counts; Num.add a c.
Proof. unfold sum_counts. rewrite fold_left_app. reflexivity. Qed.

Lemma counts_of_snoc t l person :
  counts_of t (l ++ [person])
  = (counts_of t l
       ++ match trade_of person with
          | Some t' =>
              if String.eqb t' t then
                match number_of person with
                | Some c => [c]
                | None => []
                end
              else []
          | None => []
          end)%list.
Proof.
  unfold counts_of. rewrite omap_app. f_equal. cbn [omap list_omap].
  destruct (trade_of person) as [t'|]; [|reflexivity].
  destruct (String.eqb t' t); [|reflexivity].
  destruct (number_of person); reflexivity.
Qed.

(** A trade that is not in the order has no count. *)
Lemma counts_of_absent t l :
  existsb (fun s => String.eqb s t) (trade_order l) = false -> counts_of t l = [].
Proof.
  induction l as [|person l IH] using rev_ind; intros H; [reflexivity|].
  rewrite trade_order_snoc in H. rewrite counts_of_snoc.
  destruct (trade_of person) as [t'|]; [|rewrite IH by exact H; reflexivity].
  destruct (String.eqb_spec t' t) as [->|Hne].
  - rewrite add_trade_has in H. discriminate.
  - rewrite app_nil_r. apply IH.
    destruct (existsb _ (trade_order l)) eqn:E; [|reflexivity].
    rewrite add_trade_keeps in H by exact E. discriminate.
Qed.

Lemma add_trade_in seen t t' :
  existsb (fun s => String.eqb s t') (add_trade seen t) = true ->
  t' = t \/ existsb (fun s => String.eqb s t') seen = true.
Proof.
  unfold add_trade. destruct (existsb (fun s => String.eqb s t) seen); [auto|].
  rewrite existsb_app. cbn [existsb]. rewrite orb_false_r. intros H.
  apply orb_prop in H. destruct H as [H|H]; [auto|].
  apply String.eqb_eq in H. auto.
Qed.

Lemma total_of_sum t l x : trade_sum t l = Ok x -> total_of t l = x.
Proof. unfold total_of. intros ->. reflexivity. Qed.

Lemma returns_total t l : returns (trade_sum t l) -> trade_sum t l = Ok (total_of t l).
Proof. intros [x H]. rewrite (total_of_sum _ _ _ H). exact H. Qed.

(** One step of the loop on totals that are the sums of the counts. *)
Lemma personnel_step_sums l st person :
  contracted_ok person = true ->
  trade_totals st = map (fun t => (t, total_of t l)) (trade_order l) ->
  (forall t, existsb (fun s => String.eqb s t) (trade_order l) = true ->
             returns (trade_sum t l)) ->
  match personnel_step st person with
  | Ok st' =>
      trade_totals st'
      = map (fun t => (t, total_of t (l ++ [person]))) (trade_order (l ++ [person]))
      /\ (forall t, existsb (fun s => String.eqb s t) (trade_order (l ++ [person])) = true ->
                    returns (trade_sum t (l ++ [person])))
      /\ trade_column_mapping st'
         = match trade_of person with
           | Some t => Some (columns_after t)
           | None => trade_column_mapping st
           end
  | Raise _ =>
      exists t,
        existsb (fun s => String.eqb s t) (trade_order (l ++ [person])) = true
        /\ ~ returns (trade_sum t (l ++ [person]))
  end.
Proof.
  intros Hok Htts Hret.
  assert (trade_of person = None ->
          trade_totals st
          = map (fun t => (t, total_of t (l ++ [person]))) (trade_order (l ++ [person]))
          /\ (forall t, existsb (fun s => String.eqb s t) (trade_order (l ++ [person])) = true ->
                        returns (trade_sum t (l ++ [person])))) as Hsame.
  { intros Hn.
    assert (forall t, trade_sum t (l ++ [person]) = trade_sum t l) as Hs.
    { intros t. unfold trade_sum. rewrite counts_of_snoc, Hn, app_nil_r. reflexivity. }
    rewrite trade_order_snoc, Hn. split.
    - rewrite Htts. apply map_ext. intros t. unfold total_of. rewrite Hs. reflexivity.
    - intros t Ht. rewrite Hs. apply Hret, Ht. }
  unfold personnel_step.
  destruct person as [ | | | | | |pd];
    try (destruct (Hsame eq_refl) as [H1 H2]; split; [exact H1|]; split;
         [exact H2 | reflexivity]).
  cbn [contracted_ok] in Hok. cbv zeta in Hok |- *.
  destruct (truthy (default (JStr "") (lookup_key "Contractor" pd))) eqn:Econ;
    cbn [negb orb] in Hok |- *.
  2:{ assert (trade_of (JDict pd) = None) as Hn by (unfold trade_of; rewrite Econ; reflexivity).
      destruct (Hsame Hn) as [H1 H2]. rewrite Hn.
      split; [exact H1|]. split; [exact H2 | reflexivity]. }
  clear Hsame.
  apply andb_prop in Hok. destruct Hok as [Hok Hcount].
  apply andb_prop in Hok. destruct Hok as [Hhash Htrade].
  rewrite Hhash. cbn [bind].
  set (t := match default (JStr "") (lookup_key "Trade" pd) with
            | JStr s => if String.eqb (Str.strip s) "" then "Laborer" else s
            | _ => "Laborer"
            end).
  assert ((if negb (truthy (default (JStr "") (lookup_key "Trade" pd)))
           then Ok "Laborer"
           else do s <- as_str AttributeError (default (JStr "") (lookup_key "Trade" pd));
                if String.eqb (Str.strip s) "" then Ok "Laborer" else Ok s)
          = Ok t) as ->.
  { unfold t. destruct (text_or_empty_cases _ Htrade) as [[s ->] | Hf].
    - cbn [truthy as_str bind]. destruct (String.eqb_spec s "") as [->|Hne]; [reflexivity|].
      cbn [negb]. destruct (String.eqb (Str.strip s) ""); reflexivity.
    - rewrite Hf. cbn [negb].
      destruct (default (JStr "") (lookup_key "Trade" pd)); try reflexivity.
      simpl in Hf. apply negb_false_iff, String.eqb_eq in Hf. subst s. reflexivity. }
  cbn [bind].
  assert (trade_of (JDict pd) = Some t) as Hof.
  { unfold trade_of. rewrite Econ. reflexivity. }
  assert (exists c, number_of (JDict pd) = Some c) as [c Hc].
  { unfold number_of, is_number in *.
    destruct (as_number (default (JInt 1) (lookup_key "Count" pd))); [eauto | discriminate]. }
  assert (as_number (default (JInt 1) (lookup_key "Count" pd)) = Some c) as -> by exact Hc.
  cbn [of_option bind].
  pose proof (trade_order_NoDup l) as Hnd.
  (* the total of the trade before the step *)
  assert (trade_sum t l = Ok (total_of t l)) as Hsum.
  { destruct (existsb (fun s => String.eqb s t) (trade_order l)) eqn:Ein.
    - apply returns_total, Hret, Ein.
    - unfold total_of, trade_sum. rewrite (counts_of_absent _ _ Ein). reflexivity. }
  assert ((if dict_mem String.eqb t (trade_totals st) then trade_totals st
           else dict_set String.eqb t (Num.Int 0) (trade_totals st))
          = map (fun k => (k, total_of k l)) (add_trade (trade_order l) t)) as ->.
  { rewrite Htts, dict_mem_keys.
    destruct (existsb (fun s => String.eqb s t) (trade_order l)) eqn:Ein;
      [unfold add_trade; rewrite Ein; reflexivity|].
    apply dict_set_keys; [exact Hnd | | reflexivity].
    unfold total_of, trade_sum. rewrite (counts_of_absent _ _ Ein). reflexivity. }
  rewrite (dict_get_keys _ _ _ (add_trade_has _ _)). cbn [of_option bind].
  assert (trade_sum t (l ++ [JDict pd]) = Num.add (total_of t l) c) as Ht.
  { unfold trade_sum. rewrite counts_of_snoc, Hof, String.eqb_refl, Hc, sum_counts_snoc.
    fold (trade_sum t l). rewrite Hsum. reflexivity. }
  assert (forall k, k <> t -> trade_sum k (l ++ [JDict pd]) = trade_sum k l) as Hk.
  { intros k Hne. unfold trade_sum.
    rewrite counts_of_snoc, Hof, (string_eqb_false t k), app_nil_r by congruence.
    reflexivity. }
  rewrite trade_order_snoc, Hof.
  destruct (Num.add (total_of t l) c) as [total|e] eqn:Eadd; cbn [bind].
  - cbn [trade_totals trade_column_mapping]. split; [|split; [|reflexivity]].
    + rewrite <- (add_trade_idem (trade_order l) t) at 2.
      apply dict_set_keys; [apply add_trade_NoDup, Hnd | | ].
      * apply total_of_sum. exact Ht.
      * intros k Hne. unfold total_of. rewrite (Hk k Hne). reflexivity.
    + intros k Hin. destruct (String.eqb_spec k t) as [->|Hne].
      * rewrite Ht. apply returns_Ok.
      * rewrite (Hk k Hne). apply Hret.
        destruct (add_trade_in _ _ _ Hin) as [->|H]; [contradiction | exact H].
  - exists t. split; [apply add_trade_has|]. rewrite Ht. apply not_returns_Raise.
Qed.

(** The loop returns exactly when the counts of every trade add up, and
    then its totals are the sums. *)
Lemma personnel_loop_sums l :
  forallb contracted_ok l = true ->
  match personnel_loop no_totals l with
  | Ok st =>
      trade_totals st = map (fun t => (t, total_of t l)) (trade_order l)
      /\ (forall t, existsb (fun s => String.eqb s t) (trade_order l) = true ->
                    returns (trade_sum t l))
      /\ trade_column_mapping st = final_columns l
  | Raise _ =>
      exists t,
        existsb (fun s => String.eqb s t) (trade_order l) = true
        /\ ~ returns (trade_sum t l)
  end.
Proof.
  induction l as [|person l IH] using rev_ind; intros Hok.
  - cbn [personnel_loop]. split; [reflexivity|]. split; [discriminate | reflexivity].
  - rewrite forallb_app in Hok. apply andb_prop in Hok. destruct Hok as [Hl Hp].
    cbn [forallb] in Hp. rewrite andb_true_r in Hp. specialize (IH Hl).
    rewrite personnel_loop_snoc.
    destruct (personnel_loop no_totals l) as [st|e]; cbn [bind].
    + destruct IH as (Htts & Hret & Hcols).
      pose proof (personnel_step_sums l st person Hp Htts Hret) as Hs.
      destruct (personnel_step st person) as [st'|e]; [|exact Hs].
      destruct Hs as (Htts' & Hret' & Hcols'). split; [exact Htts'|]. split; [exact Hret'|].
      rewrite Hcols'. unfold final_columns. rewrite omap_app. cbn [omap list_omap].
      destruct (trade_of person) as [t|]; cbn [app].
      * rewrite last_snoc. reflexivity.
      * rewrite app_nil_r. exact Hcols.
    + destruct IH as (t & Hin & Hno). exists t. split.
      * rewrite trade_order_snoc. destruct (trade_of person); [|exact Hin].
        apply add_trade_keeps, Hin.
      * intros Hr. apply Hno. unfold trade_sum in *. rewrite counts_of_snoc in Hr.
        destruct Hr as [x Hx]. unfold sum_counts in Hx. rewrite fold_left_app in Hx.
        fold (sum_counts (counts_of t l)) in Hx.
        destruct (sum_counts (counts_of t l)) as [y|e']; [apply returns_Ok|].
        exfalso. revert Hx. clear.
        generalize (match trade_of person with
                    | Some t' =>
                        if String.eqb t' t then
                          match number_of person with
                          | Some c => [c]
                          | None => []
                          end
                        else []
                    | None => []
                    end).
        intros cs. induction cs as [|c cs IHc]; cbn [fold_left bind]; [discriminate|].
        exact IHc.
Qed.

Lemma forallb_over_map {A B : Type} (g : A -> B) (P : B -> bool) (Q : A -> bool) l :
  (forall x, In x l -> P (g x) = Q x) -> forallb P (map g l) = forallb Q l.
Proof.
  induction l as [|x l IH]; intros H; [reflexivity|]. cbn [map forallb].
  rewrite (H x (or_introl eq_refl)), IH; [reflexivity|].
  intros y Hy. apply H. right. exact Hy.
Qed.

(** The loop over the totals returns exactly when every total can be
    printed. *)
Lemma trade_columns_shape cols tts m :
  (forall t, column_in cols t <= 10) ->
  returns (fold_left (trade_column_step (Some cols)) tts (Ok m))
  <-> forallb (fun kv => printable (of_number (snd kv))) tts = true.
Proof.
  intros Hb. revert m. induction tts as [|[t n] tts IH]; intros m; cbn [fold_left forallb].
  - split; eauto using returns_Ok.
  - unfold trade_column_step at 2. cbn [bind of_option fst snd].
    fold (column_in cols t).
    destruct (Z.leb_spec (column_in cols t) 10) as [_|Hgt]; [|specialize (Hb t); lia].
    unfold printable. destruct (py_format (of_number n)) as [total|e]; cbn [bind andb].
    + apply IH.
    + rewrite trade_columns_Raise.
      split; [intros H; destruct (not_returns_Raise _ H) | discriminate].
Qed.

Lemma map_personnel_shape d m :
  returns (map_personnel (JDict d) m)
  <-> match lookup_key "Personnel" d with
      | Some (JList l) => crew_ok l = true
      | _ => True
      end.
Proof.
  unfold map_personnel. rewrite py_in_dict.
  destruct (lookup_key "Personnel" d) as [personnel|] eqn:E; cbn [bind];
    [|split; [exact (fun _ => I) | intros _; apply returns_Ok]].
  rewrite (py_getitem_dict _ _ _ E). cbn [bind].
  destruct personnel as [ | | | | |l| ];
    try (split; [exact (fun _ => I) | intros _; apply returns_Ok]).
  fold no_totals. unfold crew_ok.
  destruct (forallb contracted_ok l) eqn:Hc.
  2:{ split; [|discriminate]. intros H. apply returns_bind in H.
      destruct H as (st & Hst & _). apply personnel_loop_contracted in Hst. congruence. }
  cbn [andb]. pose proof (personnel_loop_sums l Hc) as Hs.
  destruct (personnel_loop no_totals l) as [st|e]; cbn [bind].
  - destruct Hs as (Htts & Hret & Hcols).
    destruct (fold_left contractor_row_step _ _) as [m1 n].
    assert (forallb (fun t => total_ok (trade_sum t l)) (trade_order l)
            = forallb (fun kv => printable (of_number (snd kv))) (trade_totals st)) as ->.
    { rewrite Htts. symmetry. apply forallb_over_map. intros t Ht. cbn [snd].
      rewrite (returns_total t l); [reflexivity|]. apply Hret.
      apply existsb_exists. exists t. split; [exact Ht | apply String.eqb_refl]. }
    rewrite Hcols. unfold final_columns.
    destruct (last (omap trade_of l)) as [t0|] eqn:El; cbn [fmap option_fmap option_map].
    + apply trade_columns_shape. intros t. pose proof (column_in_bound t0 t). lia.
    + assert (trade_totals st = []) as ->.
      { rewrite Htts. rewrite trade_order_nil; [reflexivity|].
        destruct (omap trade_of l) as [|x xs] using rev_ind; [reflexivity|].
        rewrite last_snoc in El. discriminate. }
      split; eauto using returns_Ok.
  - split; [intros H; destruct (not_returns_Raise _ H)|].
    intros Hall. destruct Hs as (t & Hin & Hno). exfalso. apply Hno.
    apply existsb_exists in Hin. destruct Hin as (t' & Hin & Heq).
    apply String.eqb_eq in Heq. subst t'.
    rewrite forallb_forall in Hall. specialize (Hall t Hin).
    unfold total_ok in Hall. destruct (trade_sum t l); [apply returns_Ok | discriminate].
Qed.

(** ** The whole mapping *)

Lemma personnel_shape d :
  (match lookup_key "Personnel" d with
   | Some (JList l) => crew_ok l = true
   | _ => True
   end
   /\ match lookup_key "Personnel" d with
      | Some (JList l) => scan_ok l = true
      | _ => True
      end)
  <-> entry_ok personnel_ok (lookup_key "Personnel" d) = true.
Proof.
  destruct (lookup_key "Personnel" d) as [personnel|]; cbn [entry_ok]; [|tauto].
  destruct personnel; cbn [personnel_ok]; try tauto.
  rewrite andb_true_iff. tauto.
Qed.

Lemma daily_report_shape d :
  entry_ok (report_entry_ok "Narrative" narrative_ok) (lookup_key "DailyReport" d)
  && entry_ok (report_entry_ok "Equipment" equipment_ok) (lookup_key "DailyReport" d)
  = entry_ok daily_report_ok (lookup_key "DailyReport" d).
Proof. destruct (lookup_key "DailyReport" d); reflexivity. Qed.

(** [create_field_mapping] returns exactly on the reports whose entries
    have the shapes of [well_shaped]. *)
Lemma create_field_mapping_shape d :
  returns (create_field_mapping (JDict d)) <-> well_shaped d = true.
Proof.
  unfold well_shaped. split.
  - intros [m H]. apply create_field_mapping_trace in H.
    destruct H as (work_date & timezone & day & formatted_date & w & m1 & m2 & m3 & m4 & m5
                   & m6 & m7 & cls & m9 & m10 & Hwd & Htz & Hday & Hdate & Hw & H1 & H2 & H3
                   & H4 & H5 & H6 & H7 & Hcls & H9 & H10 & Hm).
    pose proof (weather_steps_shape d w _ _ _ _ _ _ Hw H1 H2 H4) as Hweather.
    assert (entry_ok personnel_ok (lookup_key "Personnel" d) = true) as Hpersonnel.
    { apply personnel_shape. split.
      - apply (map_personnel_shape d m4). rewrite H5. apply returns_Ok.
      - apply (map_superintendent_returns d m6). rewrite H7. apply returns_Ok. }
    assert (entry_ok work_items_ok (lookup_key "WorkItems" d) = true) as Hitems.
    { apply (map_work_items_returns d m5). rewrite H6. apply returns_Ok. }
    assert (entry_ok inspector_ok (lookup_key "Inspector" d) = true) as Hinspector.
    { apply extract_classification_shape. rewrite Hcls. apply returns_Ok. }
    assert (returns (map_remarks (JDict d) (map_classification cls m7))) as Hr
      by (rewrite H9; apply returns_Ok).
    apply map_remarks_shape, extract_remarks_data_shape, andb_prop in Hr.
    destruct Hr as [Hnarrative Hrn].
    assert (returns (map_equipment (JDict d) m9)) as He by (rewrite H10; apply returns_Ok).
    apply map_equipment_shape, extract_equipment_data_shape, andb_prop in He.
    destruct He as [Hequipment Hre].
    rewrite Hweather, Hpersonnel, Hitems, Hinspector, Hnarrative, Hequipment.
    rewrite <- daily_report_shape, Hrn, Hre. reflexivity.
  - intros H.
    apply andb_prop in H. destruct H as [H Hreport].
    apply andb_prop in H. destruct H as [H Hequipment].
    apply andb_prop in H. destruct H as [H Hnarrative].
    apply andb_prop in H. destruct H as [H Hinspector].
    apply andb_prop in H. destruct H as [H Hitems].
    apply andb_prop in H. destruct H as [Hweather Hpersonnel].
    rewrite <- daily_report_shape in Hreport. apply andb_prop in Hreport.
    destruct Hreport as [Hrn Hre].
    apply personnel_shape in Hpersonnel. destruct Hpersonnel as [Hcrew Hscan].
    unfold create_field_mapping. cbn [py_get bind].
    destruct (get_day_of_week_returns
                (default (JStr "") (lookup_key "DocumentDate" d))
                (default (JStr "America/Los_Angeles") (lookup_key "Timezone" d)))
      as [day ->].
    cbn [bind].
    destruct (format_date_returns
                (default (JStr "") (lookup_key "DocumentDate" d))
                (default (JStr "America/Los_Angeles") (lookup_key "Timezone" d)))
      as [formatted_date ->].
    cbn [bind].
    destruct (extract_weather_data_shape d Hweather) as (w & -> & Ht & Hw & Hh & Hc).
    cbn [bind].
    destruct (map_temperature_returns w [] Ht) as [m1 ->]. cbn [bind].
    destruct (map_wind_returns w m1 Hw) as [m2 ->]. cbn [bind].
    destruct (map_humidity_returns w m2 Hh) as [m3 ->]. cbn [bind].
    destruct (map_conditions_returns w m3 Hc) as [m4 ->]. cbn [bind].
    destruct (proj2 (map_personnel_shape d m4) Hcrew) as [m5 ->]. cbn [bind].
    destruct (proj2 (map_work_items_returns d m5) Hitems) as [m6 ->]. cbn [bind].
    destruct (proj2 (map_superintendent_returns d m6) Hscan) as [m7 ->]. cbn [bind].
    destruct (extract_classification_returns d Hinspector) as [cls ->]. cbn [bind].
    destruct (proj2 (map_remarks_shape d (map_classification cls m7))) as [m9 ->].
    { apply extract_remarks_data_shape. rewrite Hnarrative, Hrn. reflexivity. }
    cbn [bind].
    destruct (proj2 (map_equipment_shape d m9)) as [m10 ->].
    { apply extract_equipment_data_shape. rewrite Hequipment, Hre. reflexivity. }
    cbn [bind]. apply returns_Ok.
Qed.

(** C3, as the code has it. [create_field_mapping] returns a mapping from
    field names to values, without raising, on the input dictionaries whose
    entries have the shapes of [well_shaped], and it raises on every other:
    a ['Weather'] that is not a dictionary, or one with a temperature that
    is a number or a text [float] reads, a wind and conditions that are
    texts, and a humidity that is a text or a number in the range of
    [float] (each may also be missing or count as false); a ['Personnel']
    that is not a list, or a list in which every entry with a contractor
    has a hashable contractor, a text trade and a numeric count, the counts
    of each trade add up to a total that [str] prints, and the trades up
    to the first named superintendent can be searched; a ['WorkItems']
    whose first 20 dictionaries have a text description (or a list or
    dictionary without [':']) and a quantity and units that can be printed;
    an ['Inspector'] list that is empty or starts with a dictionary;
    ['Narrative'] items whose text is a text, or can be printed with its
    timestamp; an ['Equipment'] that can be iterated, with text names; a
    ['DailyReport'] that is a dictionary with such a narrative and
    equipment, or a text or list that holds neither word. *)
Theorem create_field_mapping_returns (d : list (string * json)) :
  returns (create_field_mapping (JDict d)) <-> well_shaped d = true.
Proof. apply create_field_mapping_shape. Qed.

End ReturningReports.

(** * The conversion *)

Section ConversionReturns.
Context {lib : PyLib} {pdflib : PdfLib}.

(** The form filler returns on a well-formed template. *)
Lemma fill_pdf_form_total self field_mapping uploaded_photos doc :
  pdf_open (odot_template_path self) = Some doc ->
  template_ok doc = true ->
  day_is_text field_mapping = true ->
  uploaded_photos = None \/ uploaded_photos = Some []
  \/ (4 <= length (pdf_pages doc))%nat ->
  exists bytes, snd (fill_pdf_form self field_mapping uploaded_photos) = Ok bytes.
Proof.
  intros Hopen Hok Hday Hphotos. unfold template_ok in Hok. apply andb_prop in Hok.
  destruct Hok as [Hres Htext].
  change (pages_resolve (length (pdf_objects doc)) (pdf_pages doc) = true) in Hres.
  unfold fill_pdf_form. rewrite Hopen.
  destruct (fill_fields_total field_mapping (pdf_pages doc) (pdf_objects doc) Hres)
    as (objects1 & H1 & Hf1).
  rewrite H1.
  assert (exists day, default (JStr "Monday") (fm_get "day_of_week" field_mapping)
                      = JStr day) as [day ->].
  { unfold day_is_text in Hday.
    destruct (fm_get "day_of_week" field_mapping) as [[]|]; try discriminate; simpl; eauto. }
  cbn [target_appearance_of].
  destruct (day_pages_total day (default "/1" (dict_get String.eqb day appearance_map))
              (pdf_pages doc) objects1 ∅) as (counters & objects2 & H2).
  { rewrite (map_fields_length _ _ Hf1). exact Hres. }
  { rewrite (fields_forallb _ (pdf_objects doc)); auto. apply button_title_fields. }
  rewrite H2. cbn [snd bind].
  destruct Hphotos as [-> | [-> | Hlen]]; try (eexists; reflexivity).
  destruct uploaded_photos as [[|p rest]|]; try (eexists; reflexivity).
  destruct (embed_images_returns
              {| pdf_objects := objects2; pdf_pages := pdf_pages doc |} (p :: rest) Hlen)
    as [doc' Hdoc'].
  rewrite Hdoc'. eexists; reflexivity.
Qed.

(** The day of a mapping [create_field_mapping] returns is a text. *)
Lemma create_field_mapping_day data m :
  create_field_mapping data = Ok m -> day_is_text m = true.
Proof.
  intros H. apply create_field_mapping_trace in H.
  destruct H as (work_date & timezone & day & formatted_date & w & m1 & m2 & m3 & m4 & m5
                 & m6 & m7 & cls & m9 & m10 & _ & _ & _ & _ & _ & _ & _ & _ & _ & _ & _ & _
                 & _ & _ & _ & ->).
  unfold day_is_text. rewrite fm_get_set_eq. reflexivity.
Qed.

(** X28. The whole conversion returns. For a report whose entries are
    well shaped, a mapping whose values [str] prints, and a template that
    is well formed (the annotation arrays refer to annotation dictionaries,
    the buttons have text titles), the two calls of the web page return the
    bytes of a PDF, without raising: without photographs on any such
    template, with photographs when the template has a fourth page. *)
Theorem convert_returns (self : converter) (d : list (string * json))
    (uploaded_photos : option (list photo)) (doc : pdf) :
  pdf_open (odot_template_path self) = Some doc ->
  template_ok doc = true ->
  well_shaped d = true ->
  (forall m, create_field_mapping (JDict d) = Ok m -> values_printable m = true) ->
  uploaded_photos = None \/ uploaded_photos = Some []
  \/ (4 <= length (pdf_pages doc))%nat ->
  exists bytes, snd (convert self (JDict d) uploaded_photos) = Ok bytes.
Proof.
  intros Hopen Hok Hd _ Hphotos. unfold convert.
  destruct (proj2 (create_field_mapping_shape d) Hd) as [m Hm]. rewrite Hm.
  apply (fill_pdf_form_total self m uploaded_photos doc Hopen Hok
           (create_field_mapping_day _ _ Hm) Hphotos).
Qed.

End ConversionReturns.

(** * The properties on the sample report and template *)

Section Instances.
Import Sample.

Lemma temperature_cell_witness :
  create_field_mapping (JDict report_entries) = Ok report_mapping
  /\ exists w t i,
      extract_weather_data (JDict report_entries) = Ok w
      /\ as_number (temperature w) = Some t
      /\ (1 <= i <= 5)%nat
      /\ (forall j, (1 <= j <= 5)%nat ->
          fm_get (temperature_cell j) report_mapping
          = if (j =? i)%nat then Some (JStr "/Yes") else None)
      /\ (Num.ge_Z t 83 = true -> i = 1%nat)
      /\ (Num.ge_Z t 70 = true -> Num.lt_Z t 83 = true -> i = 2%nat)
      /\ (Num.ge_Z t 50 = true -> Num.lt_Z t 70 = true -> i = 3%nat)
      /\ (Num.ge_Z t 32 = true -> Num.lt_Z t 50 = true -> i = 4%nat)
      /\ (Num.lt_Z t 32 = true -> i = 5%nat).
Proof.
  split; [vm_compute; reflexivity|].
  apply (create_field_mapping_temperature_cell report_entries report_mapping).
  vm_compute; reflexivity.
Defined.

(** [json.loads] reads [NaN]: every comparison with it is false, and the
    temperature goes to the last cell. *)
Example temperature_nan :
  exists m,
    create_field_mapping (JDict [("Weather", JDict [("Temperature", JFloat S754_nan)])])
    = Ok m
    /\ fm_get (temperature_cell 5) m = Some (JStr "/Yes").
Proof. eexists. split; vm_compute; reflexivity. Qed.

(** A temperature given as a text is read by [float]. *)
Example temperature_text :
  exists m,
    create_field_mapping (JDict [("Weather", JDict [("Temperature", JStr "85")])]) = Ok m
    /\ fm_get (temperature_cell 1) m = Some (JStr "/Yes").
Proof. eexists. split; vm_compute; reflexivity. Qed.

Lemma frame_witness :
  (@None (list photo) = None \/ @None (list photo) = Some [])
  /\ snd (fill_pdf_form converter0 small_mapping None) = Ok small_bytes
  /\ exists doc objects',
      pdf_open (odot_template_path converter0) = Some doc
      /\ small_bytes = pdf_save {| pdf_objects := objects'; pdf_pages := pdf_pages doc |}
      /\ length objects' = length (pdf_objects doc)
      /\ forall i a, pdf_objects doc !! i = Some a ->
           names_field small_mapping a = false ->
           is_day_button a = false ->
           objects' !! i = Some a.
Proof.
  split; [left; reflexivity|].
  split; [vm_compute; reflexivity|].
  apply (fill_pdf_form_frame converter0 small_mapping None small_bytes).
  - left; reflexivity.
  - vm_compute; reflexivity.
Defined.

(** C3 does not hold as it is written: on a report whose wind is a
    number, [create_field_mapping] raises [AttributeError] (the number has
    no [lower] method). *)
Lemma numeric_wind_raises :
  create_field_mapping (JDict numeric_wind) = Raise AttributeError.
Proof. vm_compute. reflexivity. Qed.

Lemma returns_witness :
  well_shaped Cases.loose_report = true
  /\ returns (create_field_mapping (JDict Cases.loose_report)).
Proof.
  split; [vm_compute; reflexivity|].
  apply (proj2 (create_field_mapping_returns Cases.loose_report)).
  vm_compute; reflexivity.
Defined.

(** Counts that are read from JSON and whose total [str] does not
    print. *)
Example long_total_raises :
  well_shaped Cases.long_counts = false
  /\ create_field_mapping (JDict Cases.long_counts) = Raise ValueError.
Proof. split; vm_compute; reflexivity. Qed.

(** C5 does not hold as it is written: two conversions of one report on
    one converter object, saved at two moments, return different bytes. *)
Lemma two_moments_differ :
  exists bytes1 bytes2,
    snd (@convert pylib (with_save (Cases.save_at "09:00")) converter0 report None)
    = Ok bytes1
    /\ snd (@convert pylib (with_save (Cases.save_at "09:01"))
              (fst (@convert pylib (with_save (Cases.save_at "09:00")) converter0 report
                      None))
              report None)
       = Ok bytes2
    /\ bytes1 <> bytes2.
Proof.
  eexists. eexists. split; [vm_compute; reflexivity|]. split; [vm_compute; reflexivity|].
  apply String.eqb_neq. vm_compute. reflexivity.
Qed.

Lemma weather_defaults_witness :
  exists r, extract_weather_data (JDict humid) = Ok r
    /\ temperature r = JInt 0 /\ wind r = JStr "Calm"
    /\ humidity r = JInt 35 /\ conditions r = JStr "Clear".
Proof.
  destruct (extract_weather_data_defaults humid) as [_ H].
  destruct (H [("Humidity", JStr "Medium-Low")] eq_refl) as (_ & Hkeys & Htext).
  destruct (Htext "Medium-Low" eq_refl) as [Hret Hh].
  destruct Hret as [r Hr]; [intros t Ht; vm_compute in Ht; discriminate|].
  exists r. split; [exact Hr|].
  destruct (Hkeys r Hr) as (Ht & Hw & _ & Hc).
  destruct (Hh r Hr) as (h & Hrh & _ & Hlow & _).
  rewrite Hrh, (Hlow eq_refl eq_refl).
  repeat split; [apply Ht | apply Hw | apply Hc]; reflexivity.
Defined.

Lemma weekday_witness :
  parse_date (JStr "2024-13-45") = Raise ValueError
  /\ get_day_of_week (JStr "2024-13-45") (JStr "UTC") = Ok "Monday".
Proof.
  split; [vm_compute; reflexivity|].
  destruct (get_day_of_week_weekday_name "2024-13-45" "UTC") as (day & Hday & _ & Hfall).
  rewrite Hday. f_equal. apply (Hfall ValueError). vm_compute; reflexivity.
Defined.

Example weekday_of_a_date :
  get_day_of_week (JStr "2024-01-17") (JStr "UTC") = Ok "Wednesday"
  /\ get_day_of_week (JStr "2024-01-17T23:30:00Z") (JStr "America/Los_Angeles")
     = Ok "Wednesday".
Proof. split; vm_compute; reflexivity. Qed.


Lemma contractor_hours_witness :
  create_field_mapping (JDict report_entries) = Ok report_mapping
  /\ fm_get (contractor_cell 0 "1") report_mapping = Some (JStr "Acme")
  /\ fm_get (contractor_cell 0 "2") report_mapping = Some (JStr "8")
  /\ fm_get (contractor_cell 1 "1") report_mapping = Some (JStr "Birch")
  /\ fm_get (contractor_cell 1 "2") report_mapping = Some (JStr "8")
  /\ (forall k, String.prefix contractor_prefix k = true ->
      is_Some (fm_get k report_mapping) ->
      exists r, (r < 10)%nat /\ (r < 2)%nat
        /\ (k = contractor_cell r "1" \/ k = contractor_cell r "2")).
Proof.
  split; [vm_compute; reflexivity|].
  destruct (create_field_mapping_contractor_hours report_entries report_mapping)
    as (Hrows & Honly & _); [vm_compute; reflexivity|].
  destruct (Hrows 0%nat (JStr "Acme")) as [H01 H02]; [reflexivity | lia |].
  destruct (Hrows 1%nat (JStr "Birch")) as [H11 H12]; [reflexivity | lia |].
  repeat split; auto.
Defined.

Lemma supervisor_present_witness :
  create_field_mapping (JDict report_entries) = Ok report_mapping
  /\ fm_get "form1[0].Page1[0].TableSub1[0].Table1[0].PersGroup[0].PhotoYes[0]"
       report_mapping = Some (JBool true)
  /\ fm_get "form1[0].Page1[0].TableSub1[0].Table1[0].PersGroup[0].PhotoNo[0]"
       report_mapping = Some (JBool false).
Proof.
  split; [vm_compute; reflexivity|].
  apply (create_field_mapping_supervisor_present report_entries report_mapping).
  vm_compute; reflexivity.
Defined.

Lemma first_six_witness :
  fill_pdf_form converter0 small_mapping (Some seven_photos)
  = fill_pdf_form converter0 small_mapping (Some (take 6 seven_photos))
  /\ embed_loop 1 (None :: drop 2 seven_photos) (blank_page None)
     = embed_loop 2 (drop 2 seven_photos) (blank_page None)
  /\ returns (snd (fill_pdf_form converter0 small_mapping (Some seven_photos))).
Proof.
  destruct (embed_images_first_six converter0 small_mapping seven_photos)
    as (Hsix & _ & Hskip & _ & Hret).
  split; [exact Hsix|]. split.
  - apply (Hskip 1%nat None (drop 2 seven_photos) (blank_page None) OSError);
      [lia | vm_compute; reflexivity].
  - apply (Hret template); [reflexivity | vm_compute; lia |].
    exists small_bytes. vm_compute; reflexivity.
Defined.

End Instances.

(** The failure of C3 does not depend on the library: whatever [float],
    [datetime] and [pytz] do, a numeric wind raises. *)
Lemma wind_number_raises_in_every_library (lib : PyLib) :
  create_field_mapping (JDict Sample.numeric_wind) = Raise AttributeError.
Proof.
  unfold create_field_mapping. cbn [py_get bind].
  match goal with
  | |- bind (get_day_of_week ?a ?b) _ = _ =>
      destruct (get_day_of_week_returns a b) as [day ->]
  end.
  cbn [bind].
  match goal with
  | |- bind (format_date ?a ?b) _ = _ =>
      destruct (format_date_returns a b) as [formatted_date ->]
  end.
  reflexivity.
Qed.

(** * The further properties on the sample reports and templates *)

Section MoreInstances.
Import Sample Cases.

Lemma wind_cell_witness :
  create_field_mapping (JDict report_entries) = Ok report_mapping
  /\ exists w s,
      extract_weather_data (JDict report_entries) = Ok w /\ wind w = JStr s
      /\ forall j, fm_get (wind_cell j) report_mapping
                   = if (j =? wind_band (Str.lower s))%nat then Some (JStr "/Yes") else None.
Proof.
  split; [vm_compute; reflexivity|].
  apply (create_field_mapping_wind_cell (JDict report_entries) report_mapping).
  vm_compute; reflexivity.
Defined.

Lemma humidity_cell_witness :
  create_field_mapping (JDict report_entries) = Ok report_mapping
  /\ exists w h,
      extract_weather_data (JDict report_entries) = Ok w
      /\ as_number (humidity w) = Some h
      /\ forall j, fm_get (humidity_cell j) report_mapping
                   = if (j =? humidity_band h)%nat then Some (JStr "/Yes") else None.
Proof.
  split; [vm_compute; reflexivity|].
  apply (create_field_mapping_humidity_cell (JDict report_entries) report_mapping).
  vm_compute; reflexivity.
Defined.

Lemma conditions_cell_witness :
  create_field_mapping (JDict report_entries) = Ok report_mapping
  /\ exists w s,
      extract_weather_data (JDict report_entries) = Ok w /\ conditions w = JStr s
      /\ forall j, fm_get (conditions_cell j) report_mapping
                   = if (j =? conditions_band (Str.lower s))%nat
                     then Some (JStr "/Yes") else None.
Proof.
  split; [vm_compute; reflexivity|].
  apply (create_field_mapping_conditions_cell (JDict report_entries) report_mapping).
  vm_compute; reflexivity.
Defined.

Lemma without_weather_witness :
  no_weather bare_report = true
  /\ create_field_mapping (JDict bare_report) = Ok (mapping_of bare_report)
  /\ forall j,
      fm_get (temperature_cell j) (mapping_of bare_report)
      = (if (j =? 5)%nat then Some (JStr "/Yes") else None)
      /\ fm_get (wind_cell j) (mapping_of bare_report)
         = (if (j =? 1)%nat then Some (JStr "/Yes") else None)
      /\ fm_get (humidity_cell j) (mapping_of bare_report)
         = (if (j =? 3)%nat then Some (JStr "/Yes") else None)
      /\ fm_get (conditions_cell j) (mapping_of bare_report)
         = (if (j =? 1)%nat then Some (JStr "/Yes") else None).
Proof.
  split; [reflexivity|]. split; [vm_compute; reflexivity|].
  apply (create_field_mapping_without_weather bare_report (mapping_of bare_report)).
  - reflexivity.
  - vm_compute; reflexivity.
Defined.

Lemma humidity_text_witness :
  lookup_key "Weather" report_entries = Some (JDict report_weather)
  /\ lookup_key "Humidity" report_weather = Some (JStr "Medium")
  /\ create_field_mapping (JDict report_entries) = Ok report_mapping
  /\ fm_get (humidity_cell 3) report_mapping = Some (JStr "/Yes")
  /\ fm_get (humidity_cell 1) report_mapping = None.
Proof.
  split; [reflexivity|]. split; [reflexivity|]. split; [vm_compute; reflexivity|].
  destruct (create_field_mapping_humidity_text report_entries report_weather "Medium"
              report_mapping) as [Hcell Hnone];
    [reflexivity | reflexivity | vm_compute; reflexivity |].
  split; [apply (Hcell 3%nat) | exact Hnone].
Defined.

Lemma keys_witness :
  create_field_mapping (JDict report_entries) = Ok report_mapping
  /\ is_Some (fm_get remarks_field report_mapping)
  /\ (remarks_field = "day_of_week" \/ touches form_names remarks_field = true).
Proof.
  split; [vm_compute; reflexivity|].
  assert (is_Some (fm_get remarks_field report_mapping)) as Hk
    by (exists (JStr "Paving"); vm_compute; reflexivity).
  split; [exact Hk|].
  apply (create_field_mapping_keys (JDict report_entries) report_mapping remarks_field);
    [vm_compute; reflexivity | exact Hk].
Defined.

Lemma footer_witness :
  create_field_mapping (JDict report_entries) = Ok report_mapping
  /\ forall p, (p < 3)%nat ->
       fm_get (footer_cell p "WorkDate") report_mapping = Some (JStr "01/17/24")
       /\ fm_get (footer_cell p "Shift") report_mapping = Some (JStr "Day")
       /\ fm_get (footer_cell p "PreparedBy") report_mapping = Some (JStr "Admin HHPR")
       /\ fm_get (footer_cell p "CertNo") report_mapping = Some (JStr "QCT 123")
       /\ fm_get (footer_cell p "Signature") report_mapping = Some (JStr "").
Proof.
  split; [vm_compute; reflexivity|].
  destruct (create_field_mapping_footer report_entries report_mapping)
    as (formatted_date & classification & Hdate & Hcls & Hcells);
    [vm_compute; reflexivity|].
  vm_compute in Hdate. injection Hdate as <-.
  vm_compute in Hcls. injection Hcls as <-.
  exact Hcells.
Defined.

Lemma day_of_week_witness :
  create_field_mapping (JDict report_entries) = Ok report_mapping
  /\ fm_get "day_of_week" report_mapping = Some (JStr "Wednesday").
Proof.
  split; [vm_compute; reflexivity|].
  destruct (create_field_mapping_day_of_week report_entries report_mapping)
    as (day & Hget & _ & Hday); [vm_compute; reflexivity|].
  vm_compute in Hday. injection Hday as <-. exact Hget.
Defined.

Lemma unparsed_date_witness :
  parse_date (document_date undated_report) = Raise ValueError
  /\ create_field_mapping (JDict undated_report) = Ok (mapping_of undated_report)
  /\ fm_get "day_of_week" (mapping_of undated_report) = Some (JStr "Monday")
  /\ forall p, (p < 3)%nat ->
       fm_get (footer_cell p "WorkDate") (mapping_of undated_report)
       = Some (JStr "yesterday").
Proof.
  split; [vm_compute; reflexivity|]. split; [vm_compute; reflexivity|].
  apply (create_field_mapping_unparsed_date undated_report (mapping_of undated_report)
           ValueError); vm_compute; reflexivity.
Defined.

Lemma one_moment_witness :
  parse_date (JStr "2024-01-17T23:30:00Z")
  = Ok {| year := 2024; month := 1; day := 17; aware := false |}
  /\ get_day_of_week (JStr "2024-01-17T23:30:00Z") (JStr "UTC") = Ok "Wednesday"
  /\ format_date (JStr "2024-01-17T23:30:00Z") (JStr "UTC") = Ok (JStr "01/17/24").
Proof.
  split; [vm_compute; reflexivity|].
  destruct (@date_fields_of_one_moment pylib (JStr "2024-01-17T23:30:00Z") (JStr "UTC")
              {| year := 2024; month := 1; day := 17; aware := false |})
    as (s & Hs & Hday & Hdate); [vm_compute; reflexivity|].
  injection Hs as <-. rewrite Hday, Hdate. split; vm_compute; reflexivity.
Defined.

Lemma unknown_timezone_witness :
  pytz_timezone (JStr "Mars/Olympus") = None
  /\ get_day_of_week (JStr "2024-01-17T23:30:00Z") (JStr "Mars/Olympus")
     = get_day_of_week (JStr "2024-01-17T23:30:00Z") (JStr "")
  /\ format_date (JStr "2024-01-17T23:30:00Z") (JStr "Mars/Olympus")
     = format_date (JStr "2024-01-17T23:30:00Z") (JStr "").
Proof.
  split; [reflexivity|].
  apply (unknown_timezone_ignored (JStr "2024-01-17T23:30:00Z") (JStr "Mars/Olympus")).
  reflexivity.
Defined.

Lemma date_only_witness :
  same_but "Timezone" report_entries report_in_utc
  /\ has_time (document_date report_entries) = false
  /\ create_field_mapping (JDict report_entries) = create_field_mapping (JDict report_in_utc).
Proof.
  assert (same_but "Timezone" report_entries report_in_utc) as Hs.
  { intros k Hk. unfold report_in_utc, lookup_key. cbn [List.find fst].
    rewrite (string_eqb_false "Timezone" k) by congruence. reflexivity. }
  split; [exact Hs|]. split; [vm_compute; reflexivity|].
  apply (create_field_mapping_date_only report_entries report_in_utc Hs).
  vm_compute; reflexivity.
Defined.

Lemma work_item_row_witness :
  create_field_mapping (JDict report_entries) = Ok report_mapping
  /\ work_items_of report_entries !! 0%nat = Some (JDict mobilization)
  /\ fm_get (location_cell 0 "1") report_mapping = Some (JStr "Sta 1")
  /\ fm_get (location_cell 0 "2") report_mapping = Some (JStr "0010")
  /\ fm_get (location_cell 0 "3") report_mapping = Some (JStr "1 LS")
  /\ fm_get (location_cell 0 "4") report_mapping = Some (JStr "MOBILIZATION").
Proof.
  split; [vm_compute; reflexivity|]. split; [reflexivity|].
  destruct (create_field_mapping_work_item_row report_entries mobilization report_mapping 0)
    as (H1 & H3 & Hsplit & _); [vm_compute; reflexivity | reflexivity | lia |].
  destruct (Hsplit "0010" " MOBILIZATION" eq_refl eq_refl) as [H2 H4].
  split; [exact H1|]. split; [exact H2|]. split; [exact H3 | exact H4].
Defined.

Lemma work_item_bounds_witness :
  create_field_mapping (JDict report_entries) = Ok report_mapping
  /\ is_Some (fm_get (location_cell 0 "1") report_mapping)
  /\ (0 < 20)%nat
  /\ exists item, work_items_of report_entries !! 0%nat = Some (JDict item).
Proof.
  split; [vm_compute; reflexivity|].
  assert (is_Some (fm_get (location_cell 0 "1") report_mapping)) as Hk
    by (exists (JStr "Sta 1"); vm_compute; reflexivity).
  split; [exact Hk|].
  apply (create_field_mapping_work_item_bounds report_entries report_mapping 0 "1");
    [vm_compute; reflexivity | exact Hk].
Defined.

Lemma trade_totals_witness :
  forallb person_ok crew = true
  /\ exists st,
      personnel_loop no_totals crew = Ok st
      /\ trade_totals st
         = map (fun t => (t, Num.Int (trade_total t crew))) (trade_order crew)
      /\ trade_column_mapping st = final_columns crew.
Proof.
  split; [vm_compute; reflexivity|].
  apply (personnel_loop_trade_totals crew). vm_compute; reflexivity.
Defined.

(** The carpenters share column 4 with the laborers, and come after them:
    the cell holds the two carpenters, not the four laborers. *)
Lemma trade_cells_witness :
  create_field_mapping (JDict crew_report) = Ok (mapping_of crew_report)
  /\ forallb person_ok (personnel_of (JDict crew_report)) = true
  /\ trade_total "Laborer" crew = 4
  /\ fm_get (trade_cell 4) (mapping_of crew_report) = Some (JStr "2")
  /\ fm_get (trade_cell 5) (mapping_of crew_report) = Some (JStr "1")
  /\ fm_get (trade_cell 2) (mapping_of crew_report) = None.
Proof.
  assert (create_field_mapping (JDict crew_report) = Ok (mapping_of crew_report)) as Hm
    by (vm_compute; reflexivity).
  assert (forallb person_ok (personnel_of (JDict crew_report)) = true) as Hok
    by (vm_compute; reflexivity).
  split; [exact Hm|]. split; [exact Hok|]. split; [vm_compute; reflexivity|].
  pose proof (fun col =>
                create_field_mapping_trade_cells crew_report (mapping_of crew_report) col
                  Hm Hok) as H.
  cbv zeta in H.
  split; [|split]; rewrite H; vm_compute; reflexivity.
Defined.

Lemma trade_column_witness :
  forallb person_ok crew = true
  /\ personnel_loop no_totals crew = Ok crew_totals
  /\ trade_column_mapping crew_totals = Some (columns_after "Welder")
  /\ column_in (columns_after "Welder") "Carpenter" = 4
  /\ column_in (columns_after "Welder") "Welder" = 5.
Proof.
  split; [vm_compute; reflexivity|]. split; [vm_compute; reflexivity|].
  split; [vm_compute; reflexivity|].
  split;
    rewrite (personnel_loop_trade_column crew crew_totals (columns_after "Welder"))
      by (vm_compute; reflexivity);
    vm_compute; reflexivity.
Defined.

Lemma supervisor_name_witness :
  create_field_mapping (JDict report_entries) = Ok report_mapping
  /\ fm_get supervisor_field report_mapping = Some (JStr "Pat").
Proof.
  split; [vm_compute; reflexivity|].
  rewrite (create_field_mapping_supervisor_name report_entries report_mapping)
    by (vm_compute; reflexivity).
  vm_compute; reflexivity.
Defined.

Lemma equipment_witness :
  create_field_mapping (JDict report_entries) = Ok report_mapping
  /\ fm_get equipment_field report_mapping = Some (JStr "Roller").
Proof.
  split; [vm_compute; reflexivity|].
  rewrite (create_field_mapping_equipment report_entries report_mapping)
    by (vm_compute; reflexivity).
  vm_compute; reflexivity.
Defined.

Lemma remarks_witness :
  create_field_mapping (JDict report_entries) = Ok report_mapping
  /\ fm_get remarks_field report_mapping = Some (JStr "Paving").
Proof.
  split; [vm_compute; reflexivity|].
  rewrite (create_field_mapping_remarks report_entries report_mapping)
    by (vm_compute; reflexivity).
  vm_compute; reflexivity.
Defined.

Lemma text_field_witness :
  snd (fill_pdf_form converter0 small_mapping None) = Ok small_bytes
  /\ distinct_keys small_mapping = true
  /\ exists doc',
      small_bytes = pdf_save doc'
      /\ pdf_objects doc' !! 0%nat
         = Some (ad_set "/V" (PdfString "01/17/24")
                   (text_field
                      "form1[0].#pageSet[0].Master1[0].SignSub[0].#area[0].WorkDate[0]")).
Proof.
  split; [vm_compute; reflexivity|]. split; [vm_compute; reflexivity|].
  destruct (fill_pdf_form_text_field converter0 small_mapping None small_bytes
              "form1[0].#pageSet[0].Master1[0].SignSub[0].#area[0].WorkDate[0]"
              (JStr "01/17/24"))
    as (doc & doc' & Hopen & Hbytes & Hfield);
    [vm_compute; reflexivity | vm_compute; reflexivity | reflexivity | discriminate |].
  injection Hopen as <-.
  exists doc'. split; [exact Hbytes|].
  apply (Hfield 0%nat); [reflexivity | reflexivity | reflexivity | left; reflexivity].
Defined.

Lemma check_box_witness :
  (exists bytes, snd (fill_pdf_form converter0 report_mapping None) = Ok bytes)
  /\ distinct_keys report_mapping = true
  /\ exists doc',
      snd (fill_pdf_form converter0 report_mapping None) = Ok (pdf_save doc')
      /\ pdf_objects doc' !! 1%nat
         = Some (ad_set "/AS" (PdfString "/Yes")
                   (ad_set "/V" (PdfString "/Yes")
                      (button "form1[0].Page1[0].WeatherSub[0].Weather[0].Row2[0].Cell2[0]"))).
Proof.
  assert (snd (fill_pdf_form converter0 report_mapping None)
          = Ok (bytes_of report_mapping None)) as Hret by (vm_compute; reflexivity).
  split; [eexists; exact Hret|]. split; [vm_compute; reflexivity|].
  destruct (fill_pdf_form_check_box converter0 report_mapping None
              (bytes_of report_mapping None)
              "form1[0].Page1[0].WeatherSub[0].Weather[0].Row2[0].Cell2[0]" (JStr "/Yes"))
    as (doc & doc' & Hopen & Hbytes & Hbox);
    [exact Hret | vm_compute; reflexivity | vm_compute; reflexivity | discriminate |].
  injection Hopen as <-.
  exists doc'. split; [rewrite Hret, Hbytes; reflexivity|].
  apply (Hbox 1%nat); reflexivity.
Defined.

Lemma day_button_witness :
  snd (fill_pdf_form converter0 small_mapping None) = Ok small_bytes
  /\ day_of small_mapping = JStr "Tuesday"
  /\ exists doc' monday tuesday,
      small_bytes = pdf_save doc'
      /\ pdf_objects doc' !! 2%nat = Some monday
      /\ ad_get "/V" monday = Some (PdfString "/Off")
      /\ ad_get "/AS" monday = Some (PdfString "/Off")
      /\ pdf_objects doc' !! 3%nat = Some tuesday
      /\ ad_get "/V" tuesday = Some (PdfString "/Tuesday")
      /\ ad_get "/AS" tuesday = Some (PdfString "/2").
Proof.
  split; [vm_compute; reflexivity|]. split; [reflexivity|].
  destruct (fill_pdf_form_day_button converter0 small_mapping None small_bytes "Tuesday")
    as (doc & doc' & Hopen & Hbytes & Hday); [vm_compute; reflexivity | reflexivity |].
  injection Hopen as <-.
  destruct (Hday 2%nat (button "DayMonday")) as (monday & Hm & HmV & HmAS);
    [reflexivity | reflexivity | reflexivity |].
  destruct (Hday 3%nat (button "DayTuesday")) as (tuesday & Ht & HtV & HtAS);
    [reflexivity | reflexivity | reflexivity |].
  exists doc', monday, tuesday.
  split; [exact Hbytes|]. split; [exact Hm|]. split; [exact HmV|]. split; [exact HmAS|].
  split; [exact Ht|]. split; [exact HtV | exact HtAS].
Defined.

Lemma keeps_entries_witness :
  snd (fill_pdf_form converter0 small_mapping None) = Ok small_bytes
  /\ exists doc',
      small_bytes = pdf_save doc'
      /\ (forall i, is_Some (pdf_objects doc' !! i) <-> is_Some (pdf_objects template !! i))
      /\ forall i a a' key,
           pdf_objects template !! i = Some a ->
           pdf_objects doc' !! i = Some a' ->
           key <> "/V" -> key <> "/AS" ->
           ad_get key a' = ad_get key a.
Proof.
  split; [vm_compute; reflexivity|].
  destruct (fill_pdf_form_keeps_entries converter0 small_mapping None small_bytes)
    as (doc & doc' & Hopen & Hbytes & Hsome & Hkeep); [vm_compute; reflexivity|].
  injection Hopen as <-.
  exists doc'. split; [exact Hbytes|]. split; [exact Hsome | exact Hkeep].
Defined.

Lemma photos_frame_witness :
  snd (fill_pdf_form converter0 small_mapping (Some seven_photos))
  = Ok (bytes_of small_mapping (Some seven_photos))
  /\ exists doc0 doc',
      snd (fill_pdf_form converter0 small_mapping None) = Ok (pdf_save doc0)
      /\ bytes_of small_mapping (Some seven_photos) = pdf_save doc'
      /\ pdf_objects doc' = pdf_objects doc0
      /\ length (pdf_pages doc') = length (pdf_pages doc0)
      /\ forall j, pg_annots <$> pdf_pages doc' !! j = pg_annots <$> pdf_pages doc0 !! j.
Proof.
  split; [vm_compute; reflexivity|].
  apply (fill_pdf_form_photos_frame converter0 small_mapping seven_photos).
  vm_compute; reflexivity.
Defined.

Lemma keeps_content_witness :
  exists doc' pg',
    _embed_images_in_pdf template seven_photos = Ok doc'
    /\ pdf_pages template !! 3%nat = Some (blank_page None)
    /\ pdf_pages doc' !! 3%nat = Some pg'
    /\ content_text pg' = content_text (blank_page None) ++ photo_draws seven_photos
    /\ (forall i p c img,
          seven_photos !! i = Some p ->
          image_coords !! i = Some c ->
          render_photo p (cwidth c) (cheight c) = Some img ->
          page_xobject (photo_name i) pg' = Some (image_xobject img))
    /\ forall name, String.prefix "Photo" name = false ->
         page_xobject name pg' = page_xobject name (blank_page None).
Proof.
  destruct (embed_images_returns template seven_photos) as [doc' Hdoc'];
    [vm_compute; lia|].
  destruct (embed_images_keeps_content template doc' seven_photos (blank_page None))
    as (pg' & Hpg' & Hcontent & Himages & Hx); [exact Hdoc' | reflexivity |].
  exists doc', pg'.
  split; [exact Hdoc'|]. split; [reflexivity|]. split; [exact Hpg'|].
  split; [exact Hcontent|]. split; [exact Himages | exact Hx].
Defined.


Lemma convert_returns_witness :
  pdf_open (odot_template_path converter0) = Some template
  /\ template_ok template = true
  /\ well_shaped report_entries = true
  /\ create_field_mapping (JDict report_entries) = Ok report_mapping
  /\ values_printable report_mapping = true
  /\ exists bytes, snd (convert converter0 (JDict report_entries) (Some seven_photos))
                   = Ok bytes.
Proof.
  split; [reflexivity|]. split; [vm_compute; reflexivity|].
  split; [vm_compute; reflexivity|]. split; [vm_compute; reflexivity|].
  split; [vm_compute; reflexivity|].
  apply (convert_returns converter0 report_entries (Some seven_photos) template);
    [reflexivity | vm_compute; reflexivity | vm_compute; reflexivity | |].
  - intros m Hm.
    assert (create_field_mapping (JDict report_entries) = Ok report_mapping) as Hr
      by (vm_compute; reflexivity).
    rewrite Hr in Hm. injection Hm as <-. vm_compute; reflexivity.
  - right. right. vm_compute; lia.
Defined.

End MoreInstances.
